(** * TradingAgents-CN data service: a shallow embedding and its properties

    The development follows the layering of [data_service]:

    - [Md5]          the digest used by [_make_key] (hashlib.md5, RFC 1321);
    - [Py]           the Python effects the layers rely on: a world that is
                     threaded through every call, exceptions, [try]/[except];
    - [Cache]        layers/cache.py        (Redis, MongoDB, file tiers);
    - [Acquisition]  layers/acquisition.py  (provider fail-over);
    - [Num]          the float values held in a DataFrame;
    - [Frame]        the part of pandas the layers use;
    - [Processing]   layers/processing.py   (OHLCV normalisation);
    - [Analysis]     layers/analysis.py     (technical indicators);
    - [StockService] services/stock_service.py;
    - [CacheRouter]  routers/cache.py       (the clearing request).

    The first part of the file holds the definitions, the second part the
    lemmas and theorems about them. *)

From Stdlib Require Import ZArith QArith Qround Qabs String Ascii List Lia Lqa Bool.
From Stdlib Require Import OrderedTypeEx.
From stdpp Require Import base gmap strings list sorting pretty.

Local Open Scope string_scope.
Local Open Scope Z_scope.
Local Open Scope list_scope.

(* ===================================================================== *)
(** * Part I: the embedding                                               *)
(* ===================================================================== *)

(** ** Strings

    A Python [str] is modelled by a Rocq [string], a sequence of 8-bit
    characters: for the ASCII text the service builds its keys from, [len]
    counts the same units that [str.encode()] hands to the digest. *)

Module Str.

(** [sep.join(parts)] *)
Fixpoint join (sep : string) (parts : list string) : string :=
  match parts with
  | [] => ""
  | [p] => p
  | p :: rest => p +:+ sep +:+ join sep rest
  end.

(** [s.replace(a, b)] for one-character [a] and [b]. *)
Fixpoint replace_char (a b : ascii) (s : string) : string :=
  match s with
  | EmptyString => EmptyString
  | String c rest =>
      String (if Ascii.eqb c a then b else c) (replace_char a b rest)
  end.

(** [s.startswith(c)] and [s.endswith(c)] for a character. *)
Definition starts_with_char (c : ascii) (s : string) : bool :=
  match s with
  | String c' _ => Ascii.eqb c c'
  | EmptyString => false
  end.

Fixpoint ends_with_char (c : ascii) (s : string) : bool :=
  match s with
  | EmptyString => false
  | String c' EmptyString => Ascii.eqb c c'
  | String _ rest => ends_with_char c rest
  end.

(** The bytes of [s.encode()]. *)
Fixpoint encode (s : string) : list Z :=
  match s with
  | EmptyString => []
  | String c rest => Z.of_nat (nat_of_ascii c) :: encode rest
  end.

(** [len(s)] as a Python int. *)
Definition len (s : string) : Z := Z.of_nat (String.length s).

(** [c * n], a string of [n] copies of a character. *)
Fixpoint repeat_char (c : ascii) (n : nat) : string :=
  match n with
  | O => EmptyString
  | S n' => String c (repeat_char c n')
  end.

End Str.

(** ** MD5 (hashlib.md5(...).hexdigest())

    32-bit words are integers in [0, 2^32) with the wrap-around written
    out. *)

Module Md5.

Definition two32 : Z := 4294967296.

Definition add32 (x y : Z) : Z := (x + y) mod two32.

Definition not32 (x : Z) : Z := Z.lxor x (two32 - 1).

Definition rotl32 (x n : Z) : Z :=
  Z.lor (Z.shiftl x n mod two32) (Z.shiftr x (32 - n)).

(** The sine table K and the per-round shift amounts. *)
Definition K : list Z :=
  [ 3614090360; 3905402710; 606105819; 3250441966;
    4118548399; 1200080426; 2821735955; 4249261313;
    1770035416; 2336552879; 4294925233; 2304563134;
    1804603682; 4254626195; 2792965006; 1236535329;
    4129170786; 3225465664; 643717713; 3921069994;
    3593408605; 38016083; 3634488961; 3889429448;
    568446438; 3275163606; 4107603335; 1163531501;
    2850285829; 4243563512; 1735328473; 2368359562;
    4294588738; 2272392833; 1839030562; 4259657740;
    2763975236; 1272893353; 4139469664; 3200236656;
    681279174; 3936430074; 3572445317; 76029189;
    3654602809; 3873151461; 530742520; 3299628645;
    4096336452; 1126891415; 2878612391; 4237533241;
    1700485571; 2399980690; 4293915773; 2240044497;
    1873313359; 4264355552; 2734768916; 1309151649;
    4149444226; 3174756917; 718787259; 3951481745 ].

Definition S : list Z :=
  [ 7; 12; 17; 22; 7; 12; 17; 22; 7; 12; 17; 22; 7; 12; 17; 22;
    5; 9; 14; 20; 5; 9; 14; 20; 5; 9; 14; 20; 5; 9; 14; 20;
    4; 11; 16; 23; 4; 11; 16; 23; 4; 11; 16; 23; 4; 11; 16; 23;
    6; 10; 15; 21; 6; 10; 15; 21; 6; 10; 15; 21; 6; 10; 15; 21 ].

Record state := State { sa : Z; sb : Z; sc : Z; sd : Z }.

Definition init : state :=
  State 1732584193 4023233417 2562383102 271733878.

(** One of the 64 steps on a block of sixteen words [m]. *)
Definition step (m : list Z) (st : state) (i : nat) : state :=
  let '(State a b c d) := st in
  let zi := Z.of_nat i in
  let '(f, g) :=
    if zi <? 16 then (Z.lor (Z.land b c) (Z.land (not32 b) d), zi)
    else if zi <? 32 then
      (Z.lor (Z.land d b) (Z.land (not32 d) c), (5 * zi + 1) mod 16)
    else if zi <? 48 then (Z.lxor b (Z.lxor c d), (3 * zi + 5) mod 16)
    else (Z.lxor c (Z.lor b (not32 d)), (7 * zi) mod 16) in
  let f' := add32 (add32 (add32 f a) (nth i K 0)) (nth (Z.to_nat g) m 0) in
  State d (add32 b (rotl32 f' (nth i S 0))) b c.

Definition compress (st : state) (m : list Z) : state :=
  let st' := fold_left (step m) (seq 0 64) st in
  State (add32 (sa st) (sa st')) (add32 (sb st) (sb st'))
        (add32 (sc st) (sc st')) (add32 (sd st) (sd st')).

(** Little-endian packing of bytes into words and back. *)
Fixpoint words_of_bytes (fuel : nat) (bs : list Z) : list Z :=
  match fuel with
  | O => []
  | Datatypes.S fuel' =>
      match bs with
      | b0 :: b1 :: b2 :: b3 :: rest =>
          (b0 + 256 * b1 + 65536 * b2 + 16777216 * b3)
            :: words_of_bytes fuel' rest
      | _ => []
      end
  end.

Definition bytes_of_word (n : nat) (w : Z) : list Z :=
  map (fun k => Z.shiftr w (8 * Z.of_nat k) mod 256) (seq 0 n).

Fixpoint blocks (fuel : nat) (ws : list Z) : list (list Z) :=
  match fuel with
  | O => []
  | Datatypes.S fuel' =>
      match ws with
      | [] => []
      | _ => firstn 16 ws :: blocks fuel' (skipn 16 ws)
      end
  end.

(** Padding: a 1 bit, zeros up to 56 modulo 64 bytes, the bit length on
    eight bytes. *)
Definition pad (msg : list Z) : list Z :=
  let n := Z.of_nat (List.length msg) in
  let zeros := Z.to_nat ((55 - n) mod 64) in
  msg ++ [128] ++ repeat 0 zeros ++ bytes_of_word 8 ((8 * n) mod 2 ^ 64).

Definition digest (msg : list Z) : state :=
  let bs := pad msg in
  let ws := words_of_bytes (List.length bs) bs in
  fold_left compress (blocks (List.length ws) ws) init.

Definition hex_digit (n : Z) : ascii :=
  ascii_of_nat (Z.to_nat (if n <? 10 then 48 + n else 87 + n)).

Fixpoint hex_of_bytes (bs : list Z) : string :=
  match bs with
  | [] => EmptyString
  | b :: rest =>
      String (hex_digit (b / 16)) (String (hex_digit (b mod 16))
        (hex_of_bytes rest))
  end.

Definition digest_bytes (st : state) : list Z :=
  bytes_of_word 4 (sa st) ++ bytes_of_word 4 (sb st)
    ++ bytes_of_word 4 (sc st) ++ bytes_of_word 4 (sd st).

(** [hashlib.md5(s.encode()).hexdigest()] *)
Definition hexdigest (s : string) : string :=
  hex_of_bytes (digest_bytes (digest (Str.encode s))).

End Md5.

(** ** Floats

    A pandas cell of dtype float64 is modelled by an exact rational extended
    with the two infinities and not-a-number; the arithmetic follows IEEE 754
    on the special values (one zero only, no rounding error), and finite
    results are kept in lowest terms. *)

Module Num.

Inductive fl := Fin (q : Q) | PInf | NInf | NaN.

Definition fin (q : Q) : fl := Fin (Qred q).

Definition zero : fl := Fin 0.
Definition of_Z (z : Z) : fl := Fin (inject_Z z).

Definition is_nan (x : fl) : bool :=
  match x with NaN => true | _ => false end.

Definition is_inf (x : fl) : bool :=
  match x with PInf | NInf => true | _ => false end.

Definition Qltb (a b : Q) : bool :=
  match Qcompare a b with Lt => true | _ => false end.

Definition neg (x : fl) : fl :=
  match x with
  | Fin q => fin (- q)
  | PInf => NInf
  | NInf => PInf
  | NaN => NaN
  end.

Definition add (x y : fl) : fl :=
  match x, y with
  | NaN, _ | _, NaN => NaN
  | Fin a, Fin b => fin (a + b)
  | PInf, NInf | NInf, PInf => NaN
  | PInf, _ | _, PInf => PInf
  | NInf, _ | _, NInf => NInf
  end.

Definition sub (x y : fl) : fl := add x (neg y).

(** The sign of a non-NaN value: -1, 0 or 1. *)
Definition sign (x : fl) : Z :=
  match x with
  | Fin q => match Qcompare q 0 with Lt => -1 | Eq => 0 | Gt => 1 end
  | PInf => 1
  | NInf => -1
  | NaN => 0
  end.

Definition inf_of_sign (s : Z) : fl :=
  if s <? 0 then NInf else if 0 <? s then PInf else NaN.

Definition mul (x y : fl) : fl :=
  match x, y with
  | NaN, _ | _, NaN => NaN
  | Fin a, Fin b => fin (a * b)
  | _, _ => inf_of_sign (sign x * sign y)
  end.

Definition div (x y : fl) : fl :=
  match x, y with
  | NaN, _ | _, NaN => NaN
  | Fin a, Fin b =>
      if Qeq_bool b 0 then inf_of_sign (sign x) else fin (a / b)
  | Fin _, _ => zero
  | _, Fin b => inf_of_sign (sign x * (if Qltb b 0 then -1 else 1))
  | _, _ => NaN
  end.

Definition abs (x : fl) : fl :=
  match x with
  | Fin q => fin (Qabs q)
  | PInf | NInf => PInf
  | NaN => NaN
  end.

(** Comparisons: every comparison with NaN is false. *)
Definition ltb (x y : fl) : bool :=
  match x, y with
  | NaN, _ | _, NaN => false
  | Fin a, Fin b => Qltb a b
  | NInf, NInf | PInf, _ => false
  | NInf, _ | _, PInf => true
  | _, NInf => false
  end.

Definition eqb (x y : fl) : bool :=
  match x, y with
  | Fin a, Fin b => Qeq_bool a b
  | PInf, PInf | NInf, NInf => true
  | _, _ => false
  end.

Definition leb (x y : fl) : bool := ltb x y || eqb x y.

(** [numpy.rint]: round to the nearest integer, ties to even. *)
Definition rint (q : Q) : Z :=
  let f := Qfloor q in
  match Qcompare (q - inject_Z f) (1 # 2) with
  | Lt => f
  | Gt => f + 1
  | Eq => if Z.even f then f else f + 1
  end.

(** [Series.round(n)] on one cell: scale, [rint], scale back. *)
Definition round (n : nat) (x : fl) : fl :=
  match x with
  | Fin q =>
      let scale := inject_Z (10 ^ Z.of_nat n) in
      fin (inject_Z (rint (q * scale)) / scale)
  | _ => x
  end.

End Num.

(** ** Python values

    The values that travel through the layers: cells of a DataFrame, the
    fields of a provider record, the JSON payload of a cache entry. *)

#[local] Set Warnings "-register-all".
Inductive pyval :=
  | VNone
  | VBool (b : bool)
  | VNum (x : Num.fl)
  | VStr (s : string)
  | VList (items : list pyval)
  | VDict (fields : list (string * pyval)).

(** A provider record, a Python [dict] with its insertion order. *)
Abbreviation record := (list (string * pyval)).

Definition records_value (rs : list record) : pyval :=
  VList (map VDict rs).

(** [settings], the configuration snapshot of data_service/config.py (the
    fields the layers read). *)
Record Settings := {
  DEFAULT_CHINA_DATA_SOURCE : string;
  TUSHARE_TOKEN : string;
  CACHE_TTL : Z;
  STOCK_DATA_CACHE_TTL : Z;
  CACHE_DIR : string;
}.

Definition default_settings : Settings := {|
  DEFAULT_CHINA_DATA_SOURCE := "akshare";
  TUSHARE_TOKEN := "";
  CACHE_TTL := 3600;
  STOCK_DATA_CACHE_TTL := 7200;
  CACHE_DIR := "./cache";
|}.

(** ** The world and the effects of a call *)

Module Py.

(** Exceptions: every exception modelled derives from [Exception], which is
    what the layers' [except Exception] clauses catch. *)
Inductive exn := Exception (name : string).

Inductive result (A : Type) :=
  | Ret (a : A)
  | Raise (e : exn).
Arguments Ret {A} a.
Arguments Raise {A} e.

(** *** Tier 1: the Redis connection

    A stored string is kept by what [json.loads] makes of it.  Redis expires
    keys by itself: an entry carries the time at which it disappears.  The
    three flags say whether a command raises (a lost connection, a timeout). *)
Inductive redis_entry :=
  | RJson (v : pyval)   (* a non-empty string that parses to [v] *)
  | REmpty              (* the empty string *)
  | RGarbage.           (* a non-empty string that json.loads rejects *)

Record Redis := {
  r_data : gmap string (redis_entry * Z);
  r_get_fails : bool;
  r_setex_fails : bool;
  r_delete_fails : bool;
}.

(** *** Tier 2: the MongoDB collection [data_cache] *)
Record mongo_doc := {
  doc_value : pyval;              (* doc.get("value") *)
  doc_expires_at : option Z;      (* doc.get("expires_at") *)
}.

Record Mongo := {
  m_data : gmap string mongo_doc;
  m_find_fails : bool;
  m_update_fails : bool;
  m_delete_fails : bool;
}.

(** *** Tier 3: the files under the cache directory

    A file is kept by what [json.load] makes of it. *)
Inductive file_content :=
  | FDoc (value : pyval) (expires_at : option Z)
  | FGarbage.

Record FileSystem := {
  f_files : gmap string file_content;
  f_dirs : gset string;
  f_makedirs_fails : bool;
  f_read_fails : bool;
  f_write_fails : bool;
  f_remove_fails : bool;
}.

(** *** The data providers, seen as oracles for one request *)
Record Providers := {
  akshare_history : string -> string -> string -> result (list record);
  tushare_history : string -> string -> string -> result (list record);
  baostock_history : string -> string -> string -> result (list record);
  akshare_list : result (list record);
  tushare_list : result (list record);
  baostock_list : result (list record);
  akshare_hk_history : string -> string -> string -> result (list record);
  yfinance_history : string -> string -> string -> result (list record);
}.

(** *** What a call does, in order *)
Inductive event :=
  | EvRedisGet (key : string)
  | EvRedisSetex (key : string)
  | EvRedisDelete (key : string)
  | EvMongoFind (key : string)
  | EvMongoUpdate (key : string)
  | EvMongoDelete (key : string)
  | EvFileExists (path : string)
  | EvFileRead (path : string)
  | EvFileWrite (path : string)
  | EvFileRemove (path : string)
  | EvMakedirs (path : string)
  | EvProvider (name : string)
  | EvCall (func : string).

(** The process and what it talks to.  [clock] is what [datetime.now()]
    answers; a call does not advance it, so a theorem about a read that
    follows a write is about a read made at once, before a positive time to
    live has run out. *)
Record World := {
  redis : option Redis;          (* db.get_redis() *)
  mongo : option Mongo;          (* db.get_mongo_db() *)
  fs : FileSystem;
  clock : Z;                     (* datetime.now(), seconds since the epoch *)
  providers : Providers;
  trace : list event;
}.

(** *** The monad: state and exceptions *)
Definition M (A : Type) : Type := World -> result A * World.

Definition ret {A} (a : A) : M A := fun w => (Ret a, w).

Definition bind {A B} (m : M A) (k : A -> M B) : M B :=
  fun w =>
    match m w with
    | (Ret a, w') => k a w'
    | (Raise e, w') => (Raise e, w')
    end.

Definition raise {A} (e : exn) : M A := fun w => (Raise e, w).

(** [try: m  except Exception as exc: h exc] *)
Definition try_except {A} (m : M A) (h : exn -> M A) : M A :=
  fun w =>
    match m w with
    | (Ret a, w') => (Ret a, w')
    | (Raise e, w') => h e w'
    end.

Definition gets {A} (f : World -> A) : M A := fun w => (Ret (f w), w).

Definition modify (f : World -> World) : M unit := fun w => (Ret tt, f w).

Definition log (e : event) : M unit :=
  modify (fun w => {| redis := redis w; mongo := mongo w; fs := fs w;
                      clock := clock w; providers := providers w;
                      trace := trace w ++ [e] |}).

Definition set_redis (r : Redis) (w : World) : World :=
  {| redis := Some r; mongo := mongo w; fs := fs w; clock := clock w;
     providers := providers w; trace := trace w |}.

Definition set_mongo (m : Mongo) (w : World) : World :=
  {| redis := redis w; mongo := Some m; fs := fs w; clock := clock w;
     providers := providers w; trace := trace w |}.

Definition set_fs (f : FileSystem) (w : World) : World :=
  {| redis := redis w; mongo := mongo w; fs := f; clock := clock w;
     providers := providers w; trace := trace w |}.

(** Lifting an oracle's answer. *)
Definition of_result {A} (r : result A) : M A := fun w => (r, w).

End Py.

Declare Scope py_scope.
Delimit Scope py_scope with py.
Notation "x <- m ;; k" := (Py.bind m (fun x => k))
  (at level 100, m at next level, right associativity) : py_scope.
Notation "m ;;; k" := (Py.bind m (fun _ => k))
  (at level 100, right associativity) : py_scope.

(** ** The storage handles (db/__init__.py and the os module)

    The commands the cache layer sends to its three tiers.  Each command is
    logged; a command that fails raises and leaves its tier as it was. *)

Module Store.
Import Py.
Local Open Scope py_scope.

(** [redis.get(key)]: the stored string, or None once Redis has expired it. *)
Definition redis_get (key : string) : M (option redis_entry) :=
  log (EvRedisGet key) ;;;
  fun w =>
    match redis w with
    | None => (Raise (Exception "AttributeError"), w)
    | Some r =>
        if r_get_fails r then (Raise (Exception "ConnectionError"), w)
        else
          match r_data r !! key with
          | Some (e, expiry) =>
              (Ret (if expiry <=? clock w then None else Some e), w)
          | None => (Ret None, w)
          end
    end.

(** [redis.setex(key, ttl, serialized)]; Redis rejects a time to live that is
    not positive. *)
Definition redis_setex (key : string) (ttl : Z) (e : redis_entry) : M unit :=
  log (EvRedisSetex key) ;;;
  fun w =>
    match redis w with
    | None => (Raise (Exception "AttributeError"), w)
    | Some r =>
        if r_setex_fails r then (Raise (Exception "ConnectionError"), w)
        else if ttl <=? 0 then (Raise (Exception "ResponseError"), w)
        else
          (Ret tt,
           set_redis {| r_data := <[key := (e, clock w + ttl)]> (r_data r);
                        r_get_fails := r_get_fails r;
                        r_setex_fails := r_setex_fails r;
                        r_delete_fails := r_delete_fails r |} w)
    end.

(** [redis.delete(key)] *)
Definition redis_delete (key : string) : M unit :=
  log (EvRedisDelete key) ;;;
  fun w =>
    match redis w with
    | None => (Raise (Exception "AttributeError"), w)
    | Some r =>
        if r_delete_fails r then (Raise (Exception "ConnectionError"), w)
        else
          (Ret tt,
           set_redis {| r_data := delete key (r_data r);
                        r_get_fails := r_get_fails r;
                        r_setex_fails := r_setex_fails r;
                        r_delete_fails := r_delete_fails r |} w)
    end.

(** [db["data_cache"].find_one({"key": key})] *)
Definition mongo_find_one (key : string) : M (option mongo_doc) :=
  log (EvMongoFind key) ;;;
  fun w =>
    match mongo w with
    | None => (Raise (Exception "TypeError"), w)
    | Some m =>
        if m_find_fails m then (Raise (Exception "PyMongoError"), w)
        else (Ret (m_data m !! key), w)
    end.

(** [db["data_cache"].update_one({"key": key}, {"$set": doc}, upsert=True)] *)
Definition mongo_update_one (key : string) (d : mongo_doc) : M unit :=
  log (EvMongoUpdate key) ;;;
  fun w =>
    match mongo w with
    | None => (Raise (Exception "TypeError"), w)
    | Some m =>
        if m_update_fails m then (Raise (Exception "PyMongoError"), w)
        else
          (Ret tt,
           set_mongo {| m_data := <[key := d]> (m_data m);
                        m_find_fails := m_find_fails m;
                        m_update_fails := m_update_fails m;
                        m_delete_fails := m_delete_fails m |} w)
    end.

(** [db["data_cache"].delete_one({"key": key})] *)
Definition mongo_delete_one (key : string) : M unit :=
  log (EvMongoDelete key) ;;;
  fun w =>
    match mongo w with
    | None => (Raise (Exception "TypeError"), w)
    | Some m =>
        if m_delete_fails m then (Raise (Exception "PyMongoError"), w)
        else
          (Ret tt,
           set_mongo {| m_data := delete key (m_data m);
                        m_find_fails := m_find_fails m;
                        m_update_fails := m_update_fails m;
                        m_delete_fails := m_delete_fails m |} w)
    end.

Definition with_files (f : FileSystem) (files : gmap string file_content)
  : FileSystem :=
  {| f_files := files; f_dirs := f_dirs f;
     f_makedirs_fails := f_makedirs_fails f; f_read_fails := f_read_fails f;
     f_write_fails := f_write_fails f; f_remove_fails := f_remove_fails f |}.

Definition with_dirs (f : FileSystem) (dirs : gset string) : FileSystem :=
  {| f_files := f_files f; f_dirs := dirs;
     f_makedirs_fails := f_makedirs_fails f; f_read_fails := f_read_fails f;
     f_write_fails := f_write_fails f; f_remove_fails := f_remove_fails f |}.

(** [os.path.exists(path)]: never raises. *)
Definition path_exists (path : string) : M bool :=
  log (EvFileExists path) ;;;
  gets (fun w =>
          bool_decide (is_Some (f_files (fs w) !! path))
          || bool_decide (path ∈ f_dirs (fs w))).

(** [with open(path, "r") as fh: json.load(fh)] *)
Definition file_read_json (path : string) : M (pyval * option Z) :=
  log (EvFileRead path) ;;;
  fun w =>
    if f_read_fails (fs w) then (Raise (Exception "OSError"), w)
    else
      match f_files (fs w) !! path with
      | None => (Raise (Exception "FileNotFoundError"), w)
      | Some FGarbage => (Raise (Exception "JSONDecodeError"), w)
      | Some (FDoc v e) => (Ret (v, e), w)
      end.

(** [with open(path, "w") as fh: json.dump(doc, fh)] *)
Definition file_write_json (path : string) (v : pyval) (e : Z) : M unit :=
  log (EvFileWrite path) ;;;
  fun w =>
    if f_write_fails (fs w) then (Raise (Exception "OSError"), w)
    else if bool_decide (path ∈ f_dirs (fs w)) then
      (Raise (Exception "IsADirectoryError"), w)
    else
      (Ret tt,
       set_fs (with_files (fs w) (<[path := FDoc v (Some e)]> (f_files (fs w)))) w).

(** [os.remove(path)] *)
Definition file_remove (path : string) : M unit :=
  log (EvFileRemove path) ;;;
  fun w =>
    if f_remove_fails (fs w) then (Raise (Exception "OSError"), w)
    else
      match f_files (fs w) !! path with
      | None => (Raise (Exception "FileNotFoundError"), w)
      | Some _ =>
          (Ret tt, set_fs (with_files (fs w) (delete path (f_files (fs w)))) w)
      end.

(** [os.makedirs(path, exist_ok=True)] *)
Definition makedirs (path : string) : M unit :=
  log (EvMakedirs path) ;;;
  fun w =>
    if f_makedirs_fails (fs w) then (Raise (Exception "OSError"), w)
    else if bool_decide (is_Some (f_files (fs w) !! path)) then
      (Raise (Exception "FileExistsError"), w)
    else (Ret tt, set_fs (with_dirs (fs w) ({[path]} ∪ f_dirs (fs w))) w).

(** [os.path.join(a, b)] on a POSIX system. *)
Definition path_join (a b : string) : string :=
  if Str.starts_with_char "/" b then b
  else if String.eqb a "" || Str.ends_with_char "/" a then a +:+ b
  else a +:+ "/" +:+ b.

End Store.

(** ** layers/cache.py *)

Module Cache.
Import Py Store.
Local Open Scope py_scope.

(** [_make_key(namespace, *parts)] *)
Definition _make_key (namespace : string) (parts : list string) : string :=
  let raw := Str.join ":" (namespace :: parts) in
  if 200 <? Str.len raw
  then namespace +:+ ":" +:+ Md5.hexdigest raw
  else raw.

Section WithSettings.
Variable cfg : Settings.

Definition _CACHE_DIR : string := CACHE_DIR cfg.

(** [_file_path(key)] *)
Definition _file_path (key : string) : string :=
  let safe := Str.replace_char "/" "_" (Str.replace_char ":" "_" key) in
  path_join _CACHE_DIR (safe +:+ ".json").

(** *** CacheLayer.get

    Each tier is a block of the method: [Some v] stands for the block's
    [return v], [None] for falling out of the block to the next one. *)

(** L1: Redis.  The body of the [try] block, then the block. *)
Definition get_l1_body (key : string) : M (option pyval) :=
  raw <- redis_get key ;;
  match raw with
  | Some (RJson v) => ret (Some v)               (* return json.loads(raw) *)
  | Some RGarbage => raise (Exception "JSONDecodeError")
  | Some REmpty | None => ret None               (* raw is falsy *)
  end.

Definition get_l1 (key : string) : M (option pyval) :=
  r <- gets redis ;;
  match r with
  | Some _ => try_except (get_l1_body key) (fun _ => ret None)
  | None => ret None
  end.

(** [if db:] on what [get_mongo_db()] returns.  None is falsy.  A Motor
    database does not implement truth-value testing: [bool(db)] raises
    NotImplementedError, and the test stands outside the [try]. *)
Definition db_truth (db : option Mongo) : M bool :=
  match db with
  | Some _ => raise (Exception "NotImplementedError")
  | None => ret false
  end.

(** [expires_at < datetime.now(tz=timezone.utc)] on a document read back:
    the client is made without [tz_aware], so the stored time comes back
    naive, and Python refuses to compare it with an aware one. *)
Definition naive_before_aware (expires_at now : Z) : M bool :=
  raise (Exception "TypeError").

(** L2: MongoDB *)
Definition get_l2_body (key : string) : M (option pyval) :=
  doc <- mongo_find_one key ;;
  match doc with
  | Some d =>
      match doc_expires_at d with
      | Some e =>
          now <- gets clock ;;
          expired <- naive_before_aware e now ;;
          if expired
          then (mongo_delete_one key ;;; ret None)
          else ret (Some (doc_value d))
      | None => ret (Some (doc_value d))
      end
  | None => ret None
  end.

Definition get_l2 (key : string) : M (option pyval) :=
  db <- gets mongo ;;
  connected <- db_truth db ;;
  if connected then try_except (get_l2_body key) (fun _ => ret None)
  else ret None.

(** L3: the file; an [expires_at] of 0 is falsy and never expires. *)
Definition get_l3_body (path : string) : M (option pyval) :=
  doc <- file_read_json path ;;
  now <- gets clock ;;
  match snd doc with
  | Some e =>
      if negb (e =? 0) && (e <? now)
      then (file_remove path ;;; ret None)
      else ret (Some (fst doc))
  | None => ret (Some (fst doc))
  end.

Definition get_l3 (key : string) : M (option pyval) :=
  let path := _file_path key in
  present <- path_exists path ;;
  if present then try_except (get_l3_body path) (fun _ => ret None)
  else ret None.

Definition get (namespace : string) (parts : list string) : M pyval :=
  let key := _make_key namespace parts in
  r1 <- get_l1 key ;;
  match r1 with
  | Some v => ret v
  | None =>
      r2 <- get_l2 key ;;
      match r2 with
      | Some v => ret v
      | None =>
          r3 <- get_l3 key ;;
          match r3 with
          | Some v => ret v
          | None => ret VNone
          end
      end
  end.

(** *** CacheLayer.set

    Each tier is a block again: [true] stands for the block's [return],
    [false] for falling out of it.  [json.dumps] is total on [pyval]. *)

(** L1: Redis *)
Definition set_l1_body (key : string) (ttl : Z) (value : pyval) : M bool :=
  redis_setex key ttl (RJson value) ;;; ret true.

Definition set_l1 (key : string) (ttl : Z) (value : pyval) : M bool :=
  r <- gets redis ;;
  match r with
  | Some _ => try_except (set_l1_body key ttl value) (fun _ => ret false)
  | None => ret false
  end.

(** L2: MongoDB *)
Definition set_l2_body (key : string) (ttl : Z) (value : pyval) : M bool :=
  now <- gets clock ;;
  mongo_update_one key
    {| doc_value := value; doc_expires_at := Some (now + ttl) |} ;;;
  ret true.

Definition set_l2 (key : string) (ttl : Z) (value : pyval) : M bool :=
  db <- gets mongo ;;
  connected <- db_truth db ;;
  if connected then try_except (set_l2_body key ttl value) (fun _ => ret false)
  else ret false.

(** L3: the file *)
Definition set_l3_body (key : string) (ttl : Z) (value : pyval) : M unit :=
  makedirs _CACHE_DIR ;;;
  now <- gets clock ;;
  file_write_json (_file_path key) value (now + ttl).

Definition set_l3 (key : string) (ttl : Z) (value : pyval) : M unit :=
  try_except (set_l3_body key ttl value) (fun _ => ret tt).

Definition set (value : pyval) (namespace : string) (parts : list string)
    (ttl : option Z) : M unit :=
  let ttl := match ttl with Some t => t | None => CACHE_TTL cfg end in
  let key := _make_key namespace parts in
  done1 <- set_l1 key ttl value ;;
  if done1 then ret tt
  else
    done2 <- set_l2 key ttl value ;;
    if done2 then ret tt
    else set_l3 key ttl value.

(** *** CacheLayer.delete *)
Definition delete (namespace : string) (parts : list string) : M unit :=
  let key := _make_key namespace parts in
  r <- gets redis ;;
  match r with
  | Some _ => try_except (redis_delete key) (fun _ => ret tt)
  | None => ret tt
  end ;;;
  db <- gets mongo ;;
  connected <- db_truth db ;;
  (if connected then try_except (mongo_delete_one key) (fun _ => ret tt)
   else ret tt) ;;;
  let path := _file_path key in
  present <- path_exists path ;;
  if present then try_except (file_remove path) (fun _ => ret tt)
  else ret tt.

End WithSettings.

End Cache.

(** ** layers/acquisition.py *)

Module Acquisition.
Import Py.
Local Open Scope py_scope.

(** A Python list is truthy when it is not empty. *)
Definition truthy {A} (l : list A) : bool :=
  match l with [] => false | _ => true end.

Definition _CHINA_PROVIDER_ORDER : list string :=
  ["akshare"; "tushare"; "baostock"].

Section WithSettings.
Variable cfg : Settings.

(** [self._china_source], read from the settings by [__init__]. *)
Definition _china_source : string := DEFAULT_CHINA_DATA_SOURCE cfg.

Definition _akshare_stock_history (symbol start_date end_date : string)
  : M (list record) :=
  p <- gets providers ;; of_result (akshare_history p symbol start_date end_date).

Definition _tushare_stock_history (symbol start_date end_date : string)
  : M (list record) :=
  if String.eqb (TUSHARE_TOKEN cfg) ""
  then raise (Exception "RuntimeError")
  else p <- gets providers ;;
       of_result (tushare_history p symbol start_date end_date).

Definition _baostock_stock_history (symbol start_date end_date : string)
  : M (list record) :=
  p <- gets providers ;; of_result (baostock_history p symbol start_date end_date).

Definition _akshare_stock_list : M (list record) :=
  p <- gets providers ;; of_result (akshare_list p).

Definition _tushare_stock_list : M (list record) :=
  if String.eqb (TUSHARE_TOKEN cfg) ""
  then raise (Exception "RuntimeError")
  else p <- gets providers ;; of_result (tushare_list p).

Definition _baostock_stock_list : M (list record) :=
  p <- gets providers ;; of_result (baostock_list p).

(** The dispatch on the provider's name; the call is logged. *)
Definition _fetch_china_list (provider : string) : M (list record) :=
  log (EvProvider provider) ;;;
  if String.eqb provider "akshare" then _akshare_stock_list
  else if String.eqb provider "tushare" then _tushare_stock_list
  else if String.eqb provider "baostock" then _baostock_stock_list
  else ret [].

Definition _fetch_china_history
    (provider symbol start_date end_date : string) : M (list record) :=
  log (EvProvider provider) ;;;
  if String.eqb provider "akshare"
  then _akshare_stock_history symbol start_date end_date
  else if String.eqb provider "tushare"
  then _tushare_stock_history symbol start_date end_date
  else if String.eqb provider "baostock"
  then _baostock_stock_history symbol start_date end_date
  else ret [].

(** [[self._china_source] + [p for p in _CHINA_PROVIDER_ORDER
                              if p != self._china_source]] *)
Definition provider_candidates : list string :=
  _china_source
    :: List.filter (fun p => negb (String.eqb p _china_source))
         _CHINA_PROVIDER_ORDER.

(** The [for provider in providers] loop: the body returns on a truthy
    result, and logs and goes on when the call raises. *)
Fixpoint first_result (fetch : string -> M (list record))
    (candidates : list string) : M (list record) :=
  match candidates with
  | [] => ret []
  | provider :: rest =>
      r <- try_except
             (result <- fetch provider ;;
              ret (if truthy result then Some result else None))
             (fun _ => ret None) ;;
      match r with
      | Some result => ret result
      | None => first_result fetch rest
      end
  end.

Definition get_china_stock_list : M (list record) :=
  first_result _fetch_china_list provider_candidates.

Definition get_china_stock_history (symbol start_date end_date : string)
  : M (list record) :=
  first_result
    (fun provider => _fetch_china_history provider symbol start_date end_date)
    provider_candidates.

End WithSettings.

(** Hong Kong through AKShare, the United States through yfinance: one
    provider each, any error gives the empty list. *)
Definition get_hk_stock_history (symbol start_date end_date : string)
  : M (list record) :=
  try_except
    (log (EvProvider "akshare_hk") ;;;
     p <- gets providers ;;
     of_result (akshare_hk_history p symbol start_date end_date))
    (fun _ => ret []).

Definition get_us_stock_history (symbol start_date end_date : string)
  : M (list record) :=
  try_except
    (log (EvProvider "yfinance") ;;;
     p <- gets providers ;;
     of_result (yfinance_history p symbol start_date end_date))
    (fun _ => ret []).

End Acquisition.

(** ** Pure code that may raise

    The processing and analysis layers touch no store: their functions are
    modelled as functions into [result]. *)

Module Res.
Import Py.

Definition bind {A B} (r : result A) (k : A -> result B) : result B :=
  match r with
  | Ret a => k a
  | Raise e => Raise e
  end.

Definition KeyError {A} : result A := Raise (Exception "KeyError").
Definition TypeError {A} : result A := Raise (Exception "TypeError").
Definition ValueError {A} : result A := Raise (Exception "ValueError").

(** [[f(x) for x in l]] where [f] may raise. *)
Fixpoint traverse {A B} (f : A -> result B) (l : list A) : result (list B) :=
  match l with
  | [] => Ret []
  | x :: rest =>
      bind (f x) (fun y => bind (traverse f rest) (fun ys => Ret (y :: ys)))
  end.

End Res.

Declare Scope res_scope.
Delimit Scope res_scope with res.
Notation "x <- m ;; k" := (Res.bind m (fun x => k))
  (at level 100, m at next level, right associativity) : res_scope.

(** ** pandas: a float Series *)

Module Series.
Import Num.
Local Open Scope Q_scope.

Definition Qsum (l : list Q) : Q := fold_right Qplus 0 l.

Definition Qlen (l : list Q) : Q := inject_Z (Z.of_nat (List.length l)).

(** *** Rolling windows ([Series.rolling(window=p, min_periods=1)])

    The window of row [i] holds the rows [i-p+1 .. i] that exist.  A rolling
    aggregate sees the finite cells only: pandas turns the infinities into
    NaN before it aggregates, and skips NaN. *)
Definition window_at (p : nat) (xs : list fl) (i : nat) : list fl :=
  skipn (S i - p) (firstn (S i) xs).

Definition observed (x : fl) : option Q :=
  match x with Fin q => Some q | _ => None end.

Definition observations (w : list fl) : list Q := omap observed w.

Definition rolling (agg : list Q -> fl) (p : nat) (xs : list fl) : list fl :=
  map (fun i => agg (observations (window_at p xs i))) (seq 0 (List.length xs)).

(** [.mean()]: NaN without an observation. *)
Definition mean_of (obs : list Q) : fl :=
  match obs with
  | [] => NaN
  | _ => fin (Qsum obs / Qlen obs)
  end.

(** [.std()], with pandas' default of one delta degree of freedom: NaN with
    fewer than two observations, else the square root of
    sum((x - mean)^2) / (n - 1).  The square root of a float is a parameter. *)
Definition var_of (obs : list Q) : option Q :=
  match obs with
  | [] | [_] => None
  | _ =>
      let m := Qsum obs / Qlen obs in
      Some (Qsum (map (fun x => (x - m) * (x - m)) obs) / (Qlen obs - 1))
  end.

Definition std_of (fsqrt : Q -> Q) (obs : list Q) : fl :=
  match var_of obs with
  | Some v => fin (fsqrt v)
  | None => NaN
  end.

Definition Qmin (a b : Q) : Q := if Qltb b a then b else a.
Definition Qmax (a b : Q) : Q := if Qltb a b then b else a.

Definition min_of (obs : list Q) : fl :=
  match obs with
  | [] => NaN
  | x :: rest => fin (fold_left Qmin rest x)
  end.

Definition max_of (obs : list Q) : fl :=
  match obs with
  | [] => NaN
  | x :: rest => fin (fold_left Qmax rest x)
  end.

Definition rolling_mean := rolling mean_of.
Definition rolling_std (fsqrt : Q -> Q) := rolling (std_of fsqrt).
Definition rolling_min := rolling min_of.
Definition rolling_max := rolling max_of.

(** The checks [rolling(window=p, min_periods=1)] makes on its window. *)
Definition check_window (p : Z) : Py.result nat :=
  if (p <? 0)%Z then Res.ValueError      (* window must be 0 or greater *)
  else if (p <? 1)%Z then Res.ValueError (* min_periods 1 must be <= window *)
  else Py.Ret (Z.to_nat p).

(** *** Exponentially weighted mean ([Series.ewm(..., adjust=False).mean()])

    pandas' recursion, with [ignore_na=False] and a minimum of one
    observation: the state is the weighted mean so far and the weight of the
    past; a NaN cell repeats the mean and ages the past. *)
Definition ewm_step (alpha : Q) (st : fl * Q) (cur : fl) : fl * Q :=
  let '(weighted, old_wt) := st in
  if is_nan weighted then
    (if is_nan cur then weighted else cur, old_wt)
  else
    let old_wt := old_wt * (1 - alpha) in
    if is_nan cur then (weighted, old_wt)
    else
      (if eqb weighted cur then weighted
       else div (add (mul (Fin old_wt) weighted) (mul (Fin alpha) cur))
                (Fin (old_wt + alpha)),
       1).

Fixpoint ewm_scan (alpha : Q) (st : fl * Q) (xs : list fl) : list fl :=
  match xs with
  | [] => []
  | cur :: rest =>
      let st' := ewm_step alpha st cur in
      fst st' :: ewm_scan alpha st' rest
  end.

Definition ewm_mean (alpha : Q) (xs : list fl) : list fl :=
  match xs with
  | [] => []
  | x0 :: rest => x0 :: ewm_scan alpha (x0, 1) rest
  end.

(** [ewm(span=s)] needs s >= 1 and has alpha = 2 / (s + 1);
    [ewm(com=c)] needs c >= 0 and has alpha = 1 / (1 + c). *)
Definition alpha_of_span (s : Z) : Py.result Q :=
  if (s <? 1)%Z then Res.ValueError
  else Py.Ret (2 / (inject_Z s + 1)).

Definition alpha_of_com (c : Z) : Py.result Q :=
  if (c <? 0)%Z then Res.ValueError
  else Py.Ret (1 / (1 + inject_Z c)).

(** *** Element-wise operations *)

Definition map2 (f : fl -> fl -> fl) (xs ys : list fl) : list fl :=
  zip_with f xs ys.

(** [s.shift(1)] *)
Definition shift (xs : list fl) : list fl :=
  match xs with
  | [] => []
  | _ => NaN :: removelast xs
  end.

(** [s.diff()] *)
Definition diff (xs : list fl) : list fl := map2 sub xs (shift xs).

(** [s.pct_change()], as pandas 3 computes it: [s / s.shift(1) - 1], with
    no padding of the missing cells. *)
Definition pct_change (xs : list fl) : list fl :=
  map (fun r => sub r (Fin 1)) (map2 div xs (shift xs)).

(** [s.clip(lower=0)] and [s.clip(upper=0)] *)
Definition clip_lower (bound : fl) (xs : list fl) : list fl :=
  map (fun x => if ltb x bound then bound else x) xs.

Definition clip_upper (bound : fl) (xs : list fl) : list fl :=
  map (fun x => if ltb bound x then bound else x) xs.

(** [s.replace(a, b)] *)
Definition replace (a b : fl) (xs : list fl) : list fl :=
  map (fun x => if eqb x a then b else x) xs.

(** [s.where(cond, other)] with the condition [s != 0]. *)
Definition where_nonzero (xs other : list fl) : list fl :=
  map2 (fun x o => if eqb x zero then o else x) xs other.

(** [s.round(n)] *)
Definition round (n : nat) (xs : list fl) : list fl := map (Num.round n) xs.

(** [pd.concat([a, b, c], axis=1).max(axis=1)]: the row maximum, NaN
    skipped. *)
Definition fmax (x y : fl) : fl :=
  if is_nan x then y else if is_nan y then x else if ltb x y then y else x.

Definition row_max3 (a b c : list fl) : list fl :=
  map2 fmax (map2 fmax a b) c.

End Series.

(** ** pandas: a DataFrame

    A frame is its column names and its rows, each row holding one cell per
    column in the order of the names. *)

Module Frame.
Import Py.
Local Open Scope res_scope.

Record DataFrame := {
  columns : list string;
  rows : list (list pyval);
}.

Definition nan : pyval := VNum Num.NaN.

(** [pd.DataFrame()] *)
Definition empty_frame : DataFrame := {| columns := []; rows := [] |}.

(** [df.empty]: no row or no column. *)
Definition empty (df : DataFrame) : bool :=
  match rows df, columns df with
  | [], _ | _, [] => true
  | _, _ => false
  end.

Fixpoint index_of (c : string) (cols : list string) : option nat :=
  match cols with
  | [] => None
  | c' :: rest =>
      if String.eqb c c' then Some O
      else match index_of c rest with
           | Some i => Some (S i)
           | None => None
           end
  end.

(** [c in df.columns] *)
Definition has_column (c : string) (df : DataFrame) : bool :=
  match index_of c (columns df) with Some _ => true | None => false end.

Definition cell (row : list pyval) (i : nat) : pyval := nth i row nan.

(** [df[c]]: KeyError for an unknown column. *)
Definition column (c : string) (df : DataFrame) : result (list pyval) :=
  match index_of c (columns df) with
  | Some i => Ret (map (fun row => cell row i) (rows df))
  | None => Res.KeyError
  end.

(** [df[c] = vals], a Series of the frame's length: the column is replaced
    where it stands, or added as the last one. *)
Definition set_column (c : string) (vals : list pyval) (df : DataFrame)
  : DataFrame :=
  match index_of c (columns df) with
  | Some i =>
      {| columns := columns df;
         rows := zip_with (fun row v => <[i := v]> row) (rows df) vals |}
  | None =>
      {| columns := columns df ++ [c];
         rows := zip_with (fun row v => row ++ [v]) (rows df) vals |}
  end.

(** [df[c] = v] for a scalar. *)
Definition set_column_scalar (c : string) (v : pyval) (df : DataFrame)
  : DataFrame :=
  set_column c (map (fun _ => v) (rows df)) df.

(** [df[mask]]: the rows a predicate keeps. *)
Definition filter_rows (keep : list pyval -> bool) (df : DataFrame)
  : DataFrame :=
  {| columns := columns df; rows := List.filter keep (rows df) |}.

(** [record.get(k)] and [pd.DataFrame(records)]: the columns are the keys in
    the order they first appear, a missing field is NaN. *)
Fixpoint field (k : string) (r : record) : option pyval :=
  match r with
  | [] => None
  | (k', v) :: rest => if String.eqb k k' then Some v else field k rest
  end.

Definition add_keys (cols : list string) (r : record) : list string :=
  fold_left
    (fun cols kv =>
       match index_of (fst kv) cols with
       | Some _ => cols
       | None => cols ++ [fst kv]
       end)
    r cols.

Definition of_records (records : list record) : DataFrame :=
  let cols := fold_left add_keys records [] in
  {| columns := cols;
     rows := map (fun r =>
                    map (fun k => match field k r with
                                  | Some v => v
                                  | None => nan
                                  end) cols)
               records |}.

(** [df.to_dict(orient="records")] *)
Definition to_dict_records (df : DataFrame) : list record :=
  map (fun row => zip (columns df) row) (rows df).

(** A cell of a float column.  A column that holds None, a string or a
    container is an object column, and one that holds bools is a bool or an
    object column: the arithmetic of the callers raises on them (None minus
    a float, the difference of two bool columns) or is not that of floats,
    so reading such a cell raises. *)
Definition to_float (v : pyval) : result Num.fl :=
  match v with
  | VNum x => Ret x
  | _ => Res.TypeError
  end.

(** [df[c]] as a float Series. *)
Definition numeric (c : string) (df : DataFrame) : result (list Num.fl) :=
  cells <- column c df ;; Res.traverse to_float cells.

Definition of_floats (xs : list Num.fl) : list pyval := map VNum xs.

(** [df[c] = s] for a float Series. *)
Definition set_numeric (c : string) (xs : list Num.fl) (df : DataFrame)
  : DataFrame :=
  set_column c (of_floats xs) df.

(** *** Dates *)

(** A [pd.Timestamp], by the fields [strftime("%Y-%m-%d")] prints. *)
Record Timestamp := { ts_year : Z; ts_month : Z; ts_day : Z }.

Definition digit (n : Z) : ascii := ascii_of_nat (Z.to_nat (48 + n mod 10)).

Definition pad2 (n : Z) : string :=
  String (digit (n / 10)) (String (digit n) EmptyString).

Definition pad4 (n : Z) : string :=
  String (digit (n / 1000)) (String (digit (n / 100)) (pad2 n)).

(** [ts.strftime("%Y-%m-%d")] *)
Definition strftime_ymd (ts : Timestamp) : string :=
  pad4 (ts_year ts) +:+ "-" +:+ pad2 (ts_month ts) +:+ "-" +:+ pad2 (ts_day ts).

End Frame.

(** ** layers/processing.py *)

Module Processing.
Import Py Frame.
Local Open Scope res_scope.

Section WithPandas.

(** pandas' parsers, as parameters: [pd.to_datetime(v, errors="coerce")] on
    one cell, [None] standing for NaT, and what [pd.to_numeric] reads in a
    string. *)
Variable to_datetime : pyval -> option Timestamp.
Variable parse_float : string -> option Num.fl.

(** [pd.to_numeric(v, errors="coerce")] on one cell, then [.fillna(0.0)]. *)
Definition to_numeric (v : pyval) : Num.fl :=
  match v with
  | VNum x => x
  | VBool b => Num.of_Z (if b then 1 else 0)
  | VStr s => match parse_float s with Some x => x | None => Num.NaN end
  | _ => Num.NaN
  end.

Definition fillna (fill x : Num.fl) : Num.fl :=
  if Num.is_nan x then fill else x.

(** [df[c] = f(df[c])] for a cell-wise [f]; the caller has checked that the
    column is there. *)
Definition map_column (c : string) (f : pyval -> pyval) (df : DataFrame)
  : DataFrame :=
  match index_of c (columns df) with
  | Some i =>
      {| columns := columns df;
         rows := map (fun row => <[i := f (cell row i)]> row) (rows df) |}
  | None => df
  end.

Definition required : list string :=
  ["date"; "open"; "high"; "low"; "close"; "volume"].

Definition numeric_cols : list string :=
  ["open"; "high"; "low"; "close"; "volume"; "amount"; "pct_chg"].

(** [if col not in df.columns: df[col] = 0.0] *)
Definition ensure_column (df : DataFrame) (col : string) : DataFrame :=
  if has_column col df then df
  else set_column_scalar col (VNum Num.zero) df.

(** [if col in df.columns:
       df[col] = pd.to_numeric(df[col], errors="coerce").fillna(0.0)] *)
Definition coerce_column (df : DataFrame) (col : string) : DataFrame :=
  if has_column col df
  then map_column col (fun v => VNum (fillna Num.zero (to_numeric v))) df
  else df.

(** The date of a row once it is a string. *)
Definition date_key (i : nat) (row : list pyval) : string :=
  match cell row i with
  | VStr s => s
  | _ => ""
  end.

(** The three statements on the date column, row by row:
    [df["date"] = pd.to_datetime(df["date"], errors="coerce")],
    [df = df.dropna(subset=["date"])] and
    [df["date"] = df["date"].dt.strftime("%Y-%m-%d")]:
    a row whose date is NaT goes, the others get their date printed. *)
Definition stamp_row (i : nat) (row : list pyval) : option (list pyval) :=
  match to_datetime (cell row i) with
  | Some ts => Some (<[i := VStr (strftime_ymd ts)]> row)
  | None => None
  end.

Definition parse_dates (i : nat) (rows : list (list pyval))
  : list (list pyval) :=
  omap (stamp_row i) rows.

(** [df.drop_duplicates(subset=["date"], keep="last")]: a row stays when no
    later row has its date. *)
Fixpoint drop_duplicates_last (i : nat) (rows : list (list pyval))
  : list (list pyval) :=
  match rows with
  | [] => []
  | row :: rest =>
      if existsb (fun later => String.eqb (date_key i later) (date_key i row))
           rest
      then drop_duplicates_last i rest
      else row :: drop_duplicates_last i rest
  end.

(** [df.sort_values("date")]: the dates are strings and compare as strings.
    The dates are distinct by then, so every sorting algorithm gives the same
    rows: merge sort stands for pandas' default. *)
Definition date_le (i : nat) (r1 r2 : list pyval) : Prop :=
  String.leb (date_key i r1) (date_key i r2) = true.

#[local] Instance date_le_dec (i : nat) (r1 r2 : list pyval) :
  Decision (date_le i r1 r2) :=
  decide (String.leb (date_key i r1) (date_key i r2) = true).

Definition sort_by_date (i : nat) (rows : list (list pyval))
  : list (list pyval) :=
  merge_sort (date_le i) rows.

(** The statements of [normalize_ohlcv] before the dates are touched: the
    frame of the records, with the required columns added and the numeric
    columns converted. *)
Definition prepare (records : list record) : DataFrame :=
  let df := of_records records in
  let df := fold_left ensure_column required df in
  fold_left coerce_column numeric_cols df.

(** [ProcessingLayer.normalize_ohlcv] *)
Definition normalize_ohlcv (records : list record) : DataFrame :=
  match records with
  | [] => empty_frame
  | _ =>
      let df := prepare records in
      match index_of "date" (columns df) with
      | Some i =>
          {| columns := columns df;
             rows := sort_by_date i
                       (drop_duplicates_last i (parse_dates i (rows df))) |}
      | None => df
      end
  end.

(** [ProcessingLayer.to_records] *)
Definition to_records (df : DataFrame) : list record :=
  if empty df then [] else to_dict_records df.

(** [df[df["date"] >= start_date]] and its mirror: KeyError without a date
    column, TypeError when a date is not a string. *)
Definition filter_dates (test : string -> bool) (df : DataFrame)
  : result DataFrame :=
  match index_of "date" (columns df) with
  | None => Res.KeyError
  | Some i =>
      mask <- Res.traverse
                (fun row => match cell row i with
                            | VStr s => Ret (test s)
                            | _ => Res.TypeError
                            end)
                (rows df) ;;
      Ret {| columns := columns df;
             rows := map fst (List.filter snd (zip (rows df) mask)) |}
  end.

(** A bound that is None or empty is falsy. *)
Definition bound_given (b : option string) : option string :=
  match b with
  | Some "" | None => None
  | Some s => Some s
  end.

(** [ProcessingLayer.filter_date_range] *)
Definition filter_date_range (df : DataFrame)
    (start_date end_date : option string) : result DataFrame :=
  if empty df then Ret df
  else
    df <- match bound_given start_date with
          | Some s => filter_dates (fun d => String.leb s d) df
          | None => Ret df
          end ;;
    match bound_given end_date with
    | Some e => filter_dates (fun d => String.leb d e) df
    | None => Ret df
    end.

(** [.replace(0, None)] and [.ffill()] on the cells of a column, as
    pandas 3 computes them. *)
Definition zero_to_none (v : pyval) : pyval :=
  match v with
  | VNum x => if Num.eqb x Num.zero then VNone else v
  | VBool false => VNone
  | _ => v
  end.

Definition is_null (v : pyval) : bool :=
  match v with
  | VNone => true
  | VNum x => Num.is_nan x
  | _ => false
  end.

(** The padding loop: a null cell takes the last cell seen, which at the
    start is the first cell of the column, null or not; so the null cells
    at the top all become the first cell. *)
Fixpoint ffill_cells (last : pyval) (cells : list pyval) : list pyval :=
  match cells with
  | [] => []
  | v :: rest =>
      let v' := if is_null v then last else v in
      v' :: ffill_cells v' rest
  end.

Definition fill_column (df : DataFrame) (c : string) : result DataFrame :=
  cells <- column c df ;;
  let replaced := map zero_to_none cells in
  Ret (set_column c (ffill_cells (hd VNone replaced) replaced) df).

Fixpoint fold_result {A B} (f : A -> B -> result A) (l : list B) (a : A)
  : result A :=
  match l with
  | [] => Ret a
  | b :: rest => a' <- f a b ;; fold_result f rest a'
  end.

(** [ProcessingLayer.fill_missing]:
    [df[price_cols] = df[price_cols].replace(0, None).ffill()] *)
Definition fill_missing (df : DataFrame) : result DataFrame :=
  if empty df then Ret df
  else fold_result fill_column ["open"; "high"; "low"; "close"] df.

(** [(df["pct_chg"] == 0).all()] *)
Definition all_zero (cells : list pyval) : bool :=
  forallb (fun v => match v with
                    | VNum x => Num.eqb x Num.zero
                    | VBool b => negb b
                    | _ => false
                    end) cells.

Definition hundred : Num.fl := Num.of_Z 100.

(** [ProcessingLayer.add_basic_metrics] *)
Definition add_basic_metrics (df : DataFrame) : result DataFrame :=
  if empty df || negb (has_column "close" df) then Ret df
  else
    close <- numeric "close" df ;;
    let df := set_numeric "change" (Series.round 4 (Series.diff close)) df in
    df <- (if negb (has_column "pct_chg" df)
              || match column "pct_chg" df with
                 | Ret cells => all_zero cells
                 | Raise _ => false
                 end
           then Ret (set_numeric "pct_chg"
                       (Series.round 4
                          (map (fun x => Num.mul x hundred)
                               (Series.pct_change close))) df)
           else Ret df) ;;
    if has_column "high" df && has_column "low" df then
      high <- numeric "high" df ;;
      low <- numeric "low" df ;;
      close <- numeric "close" df ;;
      let prev_close := Series.shift close in
      let denominator := Series.where_nonzero prev_close close in
      Ret (set_numeric "amplitude"
             (Series.round 4
                (map (fun x => Num.mul x hundred)
                     (Series.map2 Num.div (Series.map2 Num.sub high low)
                        denominator))) df)
    else Ret df.

End WithPandas.

End Processing.

(** ** layers/analysis.py *)

Module Analysis.
Import Py Frame.
Local Open Scope res_scope.

Section WithSqrt.

(** The square root of a float64, as a parameter. *)
Variable fsqrt : Q -> Q.

(** [periods or default]: None and the empty list are falsy. *)
Definition periods_or (periods : option (list Z)) (default : list Z) : list Z :=
  match periods with
  | Some (p :: ps) => p :: ps
  | _ => default
  end.

(** [f"{prefix}{p}"] *)
Definition named (prefix : string) (p : Z) : string := prefix +:+ pretty p.

Definition fold_result := @Processing.fold_result.

Definition scale (k : Z) (xs : list Num.fl) : list Num.fl :=
  map (Num.mul (Num.of_Z k)) xs.

(** [s.ewm(span=p, adjust=False).mean()] and [s.ewm(com=c, ...).mean()] *)
Definition ewm_span (p : Z) (xs : list Num.fl) : result (list Num.fl) :=
  alpha <- Series.alpha_of_span p ;; Ret (Series.ewm_mean alpha xs).

Definition ewm_com (c : Z) (xs : list Num.fl) : result (list Num.fl) :=
  alpha <- Series.alpha_of_com c ;; Ret (Series.ewm_mean alpha xs).

(** [AnalysisLayer.add_ma] *)
Definition add_ma (df : DataFrame) (periods : option (list Z))
  : result DataFrame :=
  if empty df then Ret df
  else
    fold_result _ _
      (fun df p =>
         close <- numeric "close" df ;;
         w <- Series.check_window p ;;
         Ret (set_numeric (named "MA" p)
                (Series.round 4 (Series.rolling_mean w close)) df))
      (periods_or periods [5; 10; 20; 60]) df.

(** [AnalysisLayer.add_ema] *)
Definition add_ema (df : DataFrame) (periods : option (list Z))
  : result DataFrame :=
  if empty df then Ret df
  else
    fold_result _ _
      (fun df p =>
         close <- numeric "close" df ;;
         ema <- ewm_span p close ;;
         Ret (set_numeric (named "EMA" p) (Series.round 4 ema) df))
      (periods_or periods [12; 26]) df.

(** [AnalysisLayer.add_macd] *)
Definition add_macd (df : DataFrame) (fast slow signal : Z)
  : result DataFrame :=
  if empty df then Ret df
  else
    close <- numeric "close" df ;;
    ema_fast <- ewm_span fast close ;;
    close <- numeric "close" df ;;
    ema_slow <- ewm_span slow close ;;
    let dif := Series.round 4 (Series.map2 Num.sub ema_fast ema_slow) in
    let df := set_numeric "MACD_DIF" dif df in
    dif <- numeric "MACD_DIF" df ;;
    dea <- ewm_span signal dif ;;
    let df := set_numeric "MACD_DEA" (Series.round 4 dea) df in
    dif <- numeric "MACD_DIF" df ;;
    dea <- numeric "MACD_DEA" df ;;
    Ret (set_numeric "MACD_HIST"
           (Series.round 4 (scale 2 (Series.map2 Num.sub dif dea))) df).

(** The RSI of one period, from the close-to-close differences:
    [gain / loss.replace(0, inf)], then [100 - 100 / (1 + rs)]. *)
Definition rsi_values (w : nat) (delta : list Num.fl) : list Num.fl :=
  let gain := Series.rolling_mean w (Series.clip_lower Num.zero delta) in
  let loss :=
    Series.rolling_mean w (map Num.neg (Series.clip_upper Num.zero delta)) in
  let rs := Series.map2 Num.div gain (Series.replace Num.zero Num.PInf loss) in
  map (fun r =>
         Num.sub (Num.of_Z 100)
           (Num.div (Num.of_Z 100) (Num.add (Num.of_Z 1) r)))
      rs.

(** [AnalysisLayer.add_rsi] *)
Definition add_rsi (df : DataFrame) (periods : option (list Z))
  : result DataFrame :=
  if empty df then Ret df
  else
    close <- numeric "close" df ;;
    let delta := Series.diff close in
    fold_result _ _
      (fun df p =>
         w <- Series.check_window p ;;
         Ret (set_numeric (named "RSI" p)
                (Series.round 4 (rsi_values w delta)) df))
      (periods_or periods [6; 14]) df.

(** [AnalysisLayer.add_bollinger] *)
Definition add_bollinger (df : DataFrame) (period : Z) (std_dev : Num.fl)
  : result DataFrame :=
  if empty df then Ret df
  else
    close <- numeric "close" df ;;
    w <- Series.check_window period ;;
    let mid := Series.rolling_mean w close in
    close <- numeric "close" df ;;
    w <- Series.check_window period ;;
    let std := Series.rolling_std fsqrt w close in
    let df := set_numeric "BOLL_MID" (Series.round 4 mid) df in
    let df :=
      set_numeric "BOLL_UPPER"
        (Series.round 4 (Series.map2 Num.add mid (map (Num.mul std_dev) std)))
        df in
    Ret (set_numeric "BOLL_LOWER"
           (Series.round 4 (Series.map2 Num.sub mid (map (Num.mul std_dev) std)))
           df).

(** [all(c in df.columns for c in ["high", "low", "close"])] *)
Definition has_hlc (df : DataFrame) : bool :=
  forallb (fun c => has_column c df) ["high"; "low"; "close"].

(** [AnalysisLayer.add_kdj] *)
Definition add_kdj (df : DataFrame) (period signal : Z) : result DataFrame :=
  if empty df || negb (has_hlc df) then Ret df
  else
    low <- numeric "low" df ;;
    w <- Series.check_window period ;;
    let low_min := Series.rolling_min w low in
    high <- numeric "high" df ;;
    w <- Series.check_window period ;;
    let high_max := Series.rolling_max w high in
    let denom :=
      Series.replace Num.zero (Num.of_Z 1) (Series.map2 Num.sub high_max low_min) in
    close <- numeric "close" df ;;
    let rsv :=
      map (fun x => Num.mul x (Num.of_Z 100))
          (Series.map2 Num.div (Series.map2 Num.sub close low_min) denom) in
    k <- ewm_com (signal - 1) rsv ;;
    let df := set_numeric "KDJ_K" (Series.round 4 k) df in
    k <- numeric "KDJ_K" df ;;
    d <- ewm_com (signal - 1) k ;;
    let df := set_numeric "KDJ_D" (Series.round 4 d) df in
    k <- numeric "KDJ_K" df ;;
    d <- numeric "KDJ_D" df ;;
    Ret (set_numeric "KDJ_J"
           (Series.round 4 (Series.map2 Num.sub (scale 3 k) (scale 2 d))) df).

(** [AnalysisLayer.add_atr] *)
Definition add_atr (df : DataFrame) (period : Z) : result DataFrame :=
  if empty df || negb (has_hlc df) then Ret df
  else
    close <- numeric "close" df ;;
    let prev_close := Series.shift close in
    high <- numeric "high" df ;;
    low <- numeric "low" df ;;
    let tr :=
      Series.row_max3
        (Series.map2 Num.sub high low)
        (map Num.abs (Series.map2 Num.sub high prev_close))
        (map Num.abs (Series.map2 Num.sub low prev_close)) in
    w <- Series.check_window period ;;
    Ret (set_numeric (named "ATR" period)
           (Series.round 4 (Series.rolling_mean w tr)) df).

(** [AnalysisLayer.compute_all], every transform with its defaults. *)
Definition compute_all (df : DataFrame) : result DataFrame :=
  df <- add_ma df None ;;
  df <- add_ema df None ;;
  df <- add_macd df 12 26 9 ;;
  df <- add_rsi df None ;;
  df <- add_bollinger df 20 (Num.of_Z 2) ;;
  df <- add_kdj df 9 3 ;;
  add_atr df 14.

(** [AnalysisLayer.to_indicator_summary]: the last row, NaN as None. *)
Definition to_indicator_summary (df : DataFrame) : record :=
  if empty df then []
  else
    match last (rows df) with
    | Some row =>
        zip (columns df)
            (map (fun v => if Processing.is_null v then VNone else v) row)
    | None => []
    end.

End WithSqrt.

End Analysis.

(** ** services/stock_service.py *)

Module StockService.
Import Py.
Local Open Scope py_scope.

Definition _HISTORY_CACHE_NS : string := "history".
Definition _LIST_CACHE_NS : string := "stock_list".

Section WithSettings.
Variable cfg : Settings.
Variable to_datetime : pyval -> option Frame.Timestamp.
Variable parse_float : string -> option Num.fl.

(** A call into the processing layer: it is logged, and what it raises is
    raised here. *)
Definition processing {A} (func : string) (r : result A) : M A :=
  log (EvCall func) ;;; of_result r.

(** The first statements of both methods:
    [if not force_refresh: cached = await self._cache.get(...)]; the answer
    is [Some cached] when the method returns it. *)
Definition cached_unless_forced (force_refresh : bool) (namespace : string)
    (parts : list string) : M (option pyval) :=
  if force_refresh then ret None
  else
    cached <- Cache.get cfg namespace parts ;;
    ret (match cached with
         | VNone => None
         | v => Some v
         end).

(** [StockService.get_stock_list] *)
Definition get_stock_list (market : string) (force_refresh : bool) : M pyval :=
  hit <- cached_unless_forced force_refresh _LIST_CACHE_NS [market] ;;
  match hit with
  | Some cached => ret cached
  | None =>
      records <- (if String.eqb market "CN"
                  then Acquisition.get_china_stock_list cfg
                  else ret []) ;;
      (if Acquisition.truthy records
       then Cache.set cfg (records_value records) _LIST_CACHE_NS [market]
              (Some (CACHE_TTL cfg))
       else ret tt) ;;;
      ret (records_value records)
  end.

(** The provider call of [get_stock_history], by market. *)
Definition fetch_raw (symbol start_date end_date market : string)
  : M (list record) :=
  if String.eqb market "CN"
  then Acquisition.get_china_stock_history cfg symbol start_date end_date
  else if String.eqb market "HK"
  then Acquisition.get_hk_stock_history symbol start_date end_date
  else if String.eqb market "US"
  then Acquisition.get_us_stock_history symbol start_date end_date
  else ret [].

(** [StockService.get_stock_history] *)
Definition get_stock_history (symbol start_date end_date market : string)
    (force_refresh : bool) : M pyval :=
  let parts := [market; symbol; start_date; end_date] in
  hit <- cached_unless_forced force_refresh _HISTORY_CACHE_NS parts ;;
  match hit with
  | Some cached => ret cached
  | None =>
      raw <- fetch_raw symbol start_date end_date market ;;
      if negb (Acquisition.truthy raw) then ret (VList [])
      else
        df <- processing "normalize_ohlcv"
                (Ret (Processing.normalize_ohlcv to_datetime parse_float raw)) ;;
        df <- processing "filter_date_range"
                (Processing.filter_date_range df (Some start_date)
                   (Some end_date)) ;;
        df <- processing "fill_missing" (Processing.fill_missing df) ;;
        df <- processing "add_basic_metrics"
                (Processing.add_basic_metrics df) ;;
        records <- processing "to_records" (Ret (Processing.to_records df)) ;;
        Cache.set cfg (records_value records) _HISTORY_CACHE_NS parts
          (Some (STOCK_DATA_CACHE_TTL cfg)) ;;;
        ret (records_value records)
  end.

End WithSettings.

End StockService.

(** ** models/response.py and routers/cache.py *)

Module CacheRouter.
Import Py.
Local Open Scope py_scope.

(** [ApiResponse], the envelope of every answer. *)
Record ApiResponse := {
  success : bool;
  data : pyval;
  message : string;
  error : option string;
}.

(** [ApiResponse.ok(data=None, message="success")] *)
Definition ok (data : pyval) (message : string) : ApiResponse :=
  {| success := true; data := data; message := message; error := None |}.

(** [clear_cache(body)], called for an authenticated user with a body whose
    [key_parts], when given, is a list of strings:
    [parts = body.key_parts or []], then the deletion and the answer. *)
Definition clear_cache (cfg : Settings) (namespace : string)
    (key_parts : option (list string)) : M ApiResponse :=
  let parts := match key_parts with
               | Some (p :: ps) => p :: ps
               | _ => []
               end in
  Cache.delete cfg namespace parts ;;;
  ret (ok VNone ("缓存已清理: " +:+ namespace +:+ ":" +:+ Str.join ":" parts)).

End CacheRouter.

(* ===================================================================== *)
(** * Part II: properties                                                 *)
(* ===================================================================== *)

(** ** The digest agrees with the reference vectors of RFC 1321 *)

Example md5_empty : Md5.hexdigest "" = "d41d8cd98f00b204e9800998ecf8427e".
Proof. vm_compute. reflexivity. Qed.

Example md5_abc : Md5.hexdigest "abc" = "900150983cd24fb0d6963f7d28e17f72".
Proof. vm_compute. reflexivity. Qed.

Example md5_long :
  Md5.hexdigest (Str.repeat_char "a" 300) = "4e5475d125a33c6190718e75adc1b704".
Proof. vm_compute. reflexivity. Qed.

(** ** Cache keys and file paths *)

Module CacheKeyFacts.
Import Cache.

Lemma string_length_append (s t : string) :
  String.length (s +:+ t) = (String.length s + String.length t)%nat.
Proof. induction s as [|c s IH]; simpl; [reflexivity | now rewrite IH]. Qed.

Lemma len_append (s t : string) : Str.len (s +:+ t) = Str.len s + Str.len t.
Proof. unfold Str.len. rewrite string_length_append. lia. Qed.

Lemma len_nonneg (s : string) : 0 <= Str.len s.
Proof. unfold Str.len. lia. Qed.

Lemma len_repeat_char (c : ascii) (n : nat) :
  Str.len (Str.repeat_char c n) = Z.of_nat n.
Proof.
  unfold Str.len. f_equal.
  induction n as [|n IH]; simpl; [reflexivity | now rewrite IH].
Qed.

Lemma hex_of_bytes_length (bs : list Z) :
  String.length (Md5.hex_of_bytes bs) = (2 * List.length bs)%nat.
Proof. induction bs as [|b bs IH]; simpl; [reflexivity | rewrite IH; lia]. Qed.

(** An MD5 digest is sixteen bytes, thirty-two hexadecimal digits. *)
Lemma hexdigest_len (s : string) : Str.len (Md5.hexdigest s) = 32.
Proof.
  unfold Str.len, Md5.hexdigest. rewrite hex_of_bytes_length.
  unfold Md5.digest_bytes, Md5.bytes_of_word.
  rewrite !length_app, !length_map, !length_seq. reflexivity.
Qed.

Lemma join_single (sep s : string) : Str.join sep [s] = s.
Proof. reflexivity. Qed.

(** The two branches of [_make_key]. *)
Lemma make_key_short (ns : string) (parts : list string) :
  Str.len (Str.join ":" (ns :: parts)) <= 200 ->
  _make_key ns parts = Str.join ":" (ns :: parts).
Proof.
  intros H. unfold _make_key.
  destruct (Z.ltb_spec 200 (Str.len (Str.join ":" (ns :: parts)))); [lia | reflexivity].
Qed.

Lemma make_key_long (ns : string) (parts : list string) :
  200 < Str.len (Str.join ":" (ns :: parts)) ->
  _make_key ns parts = ns +:+ ":" +:+ Md5.hexdigest (Str.join ":" (ns :: parts)).
Proof.
  intros H. unfold _make_key.
  destruct (Z.ltb_spec 200 (Str.len (Str.join ":" (ns :: parts)))); [reflexivity | lia].
Qed.

Lemma make_key_long_len (ns : string) (parts : list string) :
  200 < Str.len (Str.join ":" (ns :: parts)) ->
  Str.len (_make_key ns parts) = Str.len ns + 33.
Proof.
  intros H. rewrite make_key_long by assumption.
  rewrite !len_append, hexdigest_len. change (Str.len ":") with 1. lia.
Qed.

(** A key never is shorter than its namespace. *)
Lemma make_key_no_parts_len (ns : string) :
  Str.len ns <= Str.len (_make_key ns []).
Proof.
  destruct (Z.le_gt_cases (Str.len (Str.join ":" [ns])) 200) as [H|H].
  - rewrite make_key_short by assumption. simpl. lia.
  - rewrite make_key_long_len by lia. lia.
Qed.

(** C3, as the code has it: key generation is a function of (namespace,
    parts); a joined string of more than 200 characters is replaced by
    namespace + ":" + md5(joined), a shorter one is the key itself; and the
    key has at most max(200, len(namespace) + 1 + 32) characters, so at most
    200 + 32 whenever the namespace has at most 199. *)
Theorem make_key_deterministic_hashed_bounded
    (ns ns' : string) (parts parts' : list string) :
  (ns = ns' -> parts = parts' -> _make_key ns parts = _make_key ns' parts')
  /\ (200 < Str.len (Str.join ":" (ns :: parts)) ->
      _make_key ns parts
      = ns +:+ ":" +:+ Md5.hexdigest (Str.join ":" (ns :: parts)))
  /\ (Str.len (Str.join ":" (ns :: parts)) <= 200 ->
      _make_key ns parts = Str.join ":" (ns :: parts))
  /\ Str.len (_make_key ns parts) <= Z.max 200 (Str.len ns + 1 + 32)
  /\ (Str.len ns <= 199 -> Str.len (_make_key ns parts) <= 200 + 32).
Proof.
  assert (Hbound : Str.len (_make_key ns parts) <= Z.max 200 (Str.len ns + 1 + 32)).
  { destruct (Z.le_gt_cases (Str.len (Str.join ":" (ns :: parts))) 200) as [H|H].
    - rewrite make_key_short by assumption. lia.
    - rewrite make_key_long_len by lia. lia. }
  repeat split.
  - intros -> ->. reflexivity.
  - apply make_key_long.
  - apply make_key_short.
  - exact Hbound.
  - intros Hns. lia.
Qed.

(** C3, the claim as stated fails: a namespace of 300 characters gives a key
    of 333 characters, more than 200 plus the 32 of the digest, and no
    constant bounds the length of every key. *)
Lemma make_key_length_unbounded :
  Str.len (_make_key (Str.repeat_char "a" 300) []) = 333
  /\ ~ (exists bound : Z,
          forall (ns : string) (parts : list string),
            Str.len (_make_key ns parts) <= bound).
Proof.
  split.
  - vm_compute. reflexivity.
  - intros [bound Hb].
    pose proof (Hb (Str.repeat_char "a" (Z.to_nat (Z.max 0 bound + 1))) []) as H.
    pose proof (make_key_no_parts_len
                  (Str.repeat_char "a" (Z.to_nat (Z.max 0 bound + 1)))) as H'.
    rewrite len_repeat_char in H'. lia.
Qed.

End CacheKeyFacts.

(** ** The cache layer: what a read and a write do to the three tiers *)

Module CacheFacts.
Import Py Store Cache.

(** What one tier answers to a lookup, in the words of the specification: a
    hit with its value, an entry found expired, or a miss (the tier is not
    connected, its command raises, it holds nothing usable under the key). *)
Inductive lookup := Hit (v : pyval) | Expired | Miss.

Definition returned (l : lookup) : option pyval :=
  match l with Hit v => Some v | _ => None end.

Definition tier1_lookup (w : World) (key : string) : lookup :=
  match redis w with
  | None => Miss
  | Some r =>
      if r_get_fails r then Miss
      else match r_data r !! key with
           | Some (RJson v, expiry) => if expiry <=? clock w then Miss else Hit v
           | _ => Miss
           end
  end.

Definition tier2_lookup (w : World) (key : string) : lookup :=
  match mongo w with
  | None => Miss
  | Some m =>
      if m_find_fails m then Miss
      else match m_data m !! key with
           | Some d =>
               match doc_expires_at d with
               | Some e => if e <? clock w then Expired else Hit (doc_value d)
               | None => Hit (doc_value d)
               end
           | None => Miss
           end
  end.

Definition tier3_lookup (w : World) (path : string) : lookup :=
  match f_files (fs w) !! path with
  | Some (FDoc v e) =>
      if f_read_fails (fs w) then Miss
      else match e with
           | Some e => if negb (e =? 0) && (e <? clock w) then Expired else Hit v
           | None => Hit v
           end
  | _ => Miss
  end.

(** The tiers after the lazy eviction of an expired entry; a delete that
    raises leaves the entry where it is. *)
Definition mongo_evicted (w : World) (key : string) : option Mongo :=
  match mongo w with
  | Some m =>
      if m_delete_fails m then Some m
      else Some {| m_data := base.delete key (m_data m);
                   m_find_fails := m_find_fails m;
                   m_update_fails := m_update_fails m;
                   m_delete_fails := m_delete_fails m |}
  | None => None
  end.

Definition fs_evicted (w : World) (path : string) : FileSystem :=
  if f_remove_fails (fs w) then fs w
  else with_files (fs w) (base.delete path (f_files (fs w))).

(** [w'] is [w] with tiers 2 and 3 replaced and some events appended. *)
Definition evolves (w w' : World) (m : option Mongo) (f : FileSystem) : Prop :=
  redis w' = redis w /\ mongo w' = m /\ fs w' = f /\ clock w' = clock w
  /\ providers w' = providers w /\ exists evs : list event, trace w' = (trace w ++ evs)%list.

Ltac py_unfold :=
  unfold get_l1, get_l1_body, get_l2, get_l2_body, get_l3, get_l3_body,
    set_l1, set_l1_body, set_l2, set_l2_body, set_l3, set_l3_body,
    db_truth, naive_before_aware, redis_get, redis_setex, redis_delete, mongo_find_one, mongo_update_one,
    mongo_delete_one, path_exists, file_read_json, file_write_json,
    file_remove, makedirs, bind, try_except, gets, log, modify, ret, raise,
    set_redis, set_mongo, set_fs in *.

Ltac solve_trace :=
  first [ exists []; rewrite app_nil_r; reflexivity
        | eexists [_]; reflexivity
        | eexists [_; _]; rewrite <- !app_assoc; reflexivity
        | eexists [_; _; _]; rewrite <- !app_assoc; reflexivity
        | eexists [_; _; _; _]; rewrite <- !app_assoc; reflexivity ].

Ltac tier_done :=
  eexists; (split; [reflexivity|]); simpl; repeat split; auto; solve_trace.

Lemma get_l1_spec (key : string) (w : World) :
  exists w', get_l1 key w = (Ret (returned (tier1_lookup w key)), w')
             /\ evolves w w' (mongo w) (fs w).
Proof.
  unfold tier1_lookup, evolves. py_unfold. destruct w as [rd mg f ck pv tr]; simpl.
  destruct rd as [[rdata gf sf df]|]; simpl; [|tier_done].
  destruct gf; simpl; [tier_done|].
  destruct (rdata !! key) as [[[v| |] ex]|]; simpl;
    try destruct (ex <=? ck); simpl; tier_done.
Qed.

(** The commands tier 1 is sent by a read. *)
Definition tier1_read (w : World) (key : string) : list event :=
  match redis w with
  | Some _ => [EvRedisGet key]
  | None => []
  end.

Lemma get_l1_trace (key : string) (w : World) :
  trace (snd (get_l1 key w)) = (trace w ++ tier1_read w key)%list.
Proof.
  unfold tier1_read. py_unfold. destruct w as [rd mg f ck pv tr]; simpl.
  destruct rd as [[rdata gf sf df]|]; simpl; [|now rewrite app_nil_r].
  destruct gf; simpl; [reflexivity|].
  destruct (rdata !! key) as [[[v| |] ex]|]; simpl;
    try destruct (ex <=? ck); reflexivity.
Qed.

(** The second block stops at its test: with a database connected the test
    raises, with none the block is skipped. *)
Lemma get_l2_spec (key : string) (w : World) :
  get_l2 key w
  = (match mongo w with
     | Some _ => Raise (Exception "NotImplementedError")
     | None => Ret None
     end, w).
Proof. py_unfold. destruct (mongo w); reflexivity. Qed.

Lemma get_l3_spec (cfg : Settings) (key : string) (w : World) :
  let path := _file_path cfg key in
  exists w', get_l3 cfg key w = (Ret (returned (tier3_lookup w path)), w')
             /\ evolves w w' (mongo w)
                  (match tier3_lookup w path with
                   | Expired => fs_evicted w path
                   | _ => fs w
                   end).
Proof.
  intros path. unfold tier3_lookup, fs_evicted, evolves. py_unfold.
  fold path. generalize path as p. clear path. intros p.
  destruct w as [rd mg [files dirs mkf rf wf rmf] ck pv tr]; simpl.
  destruct (files !! p) as [c|] eqn:Hp; simpl.
  - rewrite ?bool_decide_eq_true_2 by eauto. simpl.
    destruct rf; simpl; [destruct c as [v [e|]|]; tier_done|].
    rewrite ?Hp. destruct c as [v [e|]|]; simpl; try tier_done.
    destruct (negb (e =? 0) && (e <? ck)); simpl; try tier_done.
    destruct rmf; simpl; rewrite ?Hp; tier_done.
  - rewrite ?bool_decide_eq_false_2 by (intros [? ?]; discriminate). simpl.
    destruct (bool_decide (p ∈ dirs)); simpl; try tier_done.
    destruct rf; simpl; rewrite ?Hp; tier_done.
Qed.

(** The lookups read a tier and the clock, nothing else. *)
Lemma tier2_lookup_ext (w w1 : World) (key : string) :
  mongo w1 = mongo w -> clock w1 = clock w ->
  tier2_lookup w1 key = tier2_lookup w key.
Proof. unfold tier2_lookup. intros -> ->. reflexivity. Qed.

Lemma tier3_lookup_ext (w w1 : World) (path : string) :
  fs w1 = fs w -> clock w1 = clock w ->
  tier3_lookup w1 path = tier3_lookup w path.
Proof. unfold tier3_lookup. intros -> ->. reflexivity. Qed.

Lemma mongo_evicted_ext (w w1 : World) (key : string) :
  mongo w1 = mongo w -> mongo_evicted w1 key = mongo_evicted w key.
Proof. unfold mongo_evicted. intros ->. reflexivity. Qed.

Lemma fs_evicted_ext (w w1 : World) (path : string) :
  fs w1 = fs w -> fs_evicted w1 path = fs_evicted w path.
Proof. unfold fs_evicted. intros ->. reflexivity. Qed.

Lemma evolves_trans (w w1 w2 : World) m1 f1 m2 f2 :
  evolves w w1 m1 f1 -> evolves w1 w2 m2 f2 -> evolves w w2 m2 f2.
Proof.
  intros (Hr & _ & _ & Hc & Hp & evs & Ht) (Hr' & Hm' & Hf' & Hc' & Hp' & evs' & Ht').
  repeat split; try congruence.
  exists (evs ++ evs')%list. rewrite Ht', Ht, app_assoc. reflexivity.
Qed.

(** The value [get] returns: the first tier that hits, else absent. *)
Definition first_hit (l1 l2 l3 : lookup) : pyval :=
  match l1, l2, l3 with
  | Hit v, _, _ => v
  | _, Hit v, _ => v
  | _, _, Hit v => v
  | _, _, _ => VNone
  end.

(** The tiers [get] leaves behind: tier 2 is touched only when tier 1 did
    not hit, tier 3 only when neither tier 1 nor tier 2 did, and then only
    to evict an entry found expired. *)
Definition mongo_after_get (w : World) (key : string) (l1 l2 : lookup)
  : option Mongo :=
  match l1, l2 with
  | Hit _, _ => mongo w
  | _, Expired => mongo_evicted w key
  | _, _ => mongo w
  end.

Definition fs_after_get (w : World) (path : string) (l1 l2 l3 : lookup)
  : FileSystem :=
  match l1, l2, l3 with
  | Hit _, _, _ | _, Hit _, _ => fs w
  | _, _, Expired => fs_evicted w path
  | _, _, _ => fs w
  end.

Lemma bind_ret_eq {A B} (m : M A) (k : A -> M B) (w w1 : World) (a : A) :
  m w = (Ret a, w1) -> bind m k w = k a w1.
Proof. intros H. unfold bind. rewrite H. reflexivity. Qed.

Lemma bind_raise_eq {A B} (m : M A) (k : A -> M B) (w w1 : World) (e : exn) :
  m w = (Raise e, w1) -> bind m k w = (Raise e, w1).
Proof. intros H. unfold bind. rewrite H. reflexivity. Qed.

(** What [get] answers: the value of tier 1 when tier 1 hits; else, with
    a database connected, the exception of the test [if db:]; else what
    tier 3 holds. *)
Definition get_outcome (w : World) (key path : string) : result pyval :=
  match tier1_lookup w key with
  | Hit v => Ret v
  | _ =>
      match mongo w with
      | Some _ => Raise (Exception "NotImplementedError")
      | None => Ret (first_hit Miss Miss (tier3_lookup w path))
      end
  end.

(** The files [get] leaves: tier 3 is reached only when tier 1 did not hit
    and no database is connected, and changed only to evict an entry found
    expired. *)
Definition fs_after (w : World) (key path : string) : FileSystem :=
  match tier1_lookup w key, mongo w, tier3_lookup w path with
  | Hit _, _, _ | _, Some _, _ => fs w
  | _, None, Expired => fs_evicted w path
  | _, None, _ => fs w
  end.

Lemma get_spec (cfg : Settings) (ns : string) (parts : list string) (w : World) :
  let key := _make_key ns parts in
  let path := _file_path cfg key in
  exists w', get cfg ns parts w = (get_outcome w key path, w')
             /\ evolves w w' (mongo w) (fs_after w key path).
Proof.
  intros key path. unfold get, get_outcome, fs_after. fold key.
  destruct (get_l1_spec key w) as (w1 & E1 & Hev1).
  rewrite (bind_ret_eq _ _ _ _ _ E1).
  pose proof Hev1 as (Hr1 & Hm1 & Hf1 & Hc1 & Hp1 & evs1 & Ht1).
  assert (Hmiss : returned (tier1_lookup w key) = None ->
            exists w',
              (r2 <- get_l2 key ;;
               match r2 with
               | Some v => ret v
               | None =>
                   r3 <- get_l3 cfg key ;;
                   match r3 with
                   | Some v => ret v
                   | None => ret VNone
                   end
               end)%py w1
              = (match mongo w with
                 | Some _ => Raise (Exception "NotImplementedError")
                 | None => Ret (first_hit Miss Miss (tier3_lookup w path))
                 end, w')
              /\ evolves w w' (mongo w)
                   match mongo w with
                   | Some _ => fs w
                   | None => match tier3_lookup w path with
                             | Expired => fs_evicted w path
                             | _ => fs w
                             end
                   end).
  { intros _. pose proof (get_l2_spec key w1) as E2. rewrite Hm1 in E2.
    destruct (mongo w) as [m|] eqn:Hmw.
    - exists w1. rewrite (bind_raise_eq _ _ _ _ _ E2).
      split; [reflexivity|]. unfold evolves. split_and!; eauto.
    - rewrite (bind_ret_eq _ _ _ _ _ E2).
      destruct (get_l3_spec cfg key w1) as (w3 & E3 & Hev3).
      fold path in E3, Hev3.
      rewrite (tier3_lookup_ext w w1) in E3, Hev3 by assumption.
      rewrite (fs_evicted_ext w w1) in Hev3 by assumption.
      rewrite Hm1, Hf1 in Hev3.
      assert (Hev1' : evolves w w1 None (fs w))
        by (unfold evolves; split_and!; eauto).
      pose proof (evolves_trans _ _ _ _ _ _ _ Hev1' Hev3) as Hev13.
      exists w3. rewrite (bind_ret_eq _ _ _ _ _ E3).
      destruct (tier3_lookup w path) as [v3| |]; cbn [returned first_hit];
        (split; [reflexivity | exact Hev13]). }
  destruct (tier1_lookup w key) as [v1| |]; cbn [returned] in *.
  - exists w1. split; [reflexivity | exact Hev1].
  - destruct (Hmiss eq_refl) as (w' & E & Hev). exists w'.
    split; [exact E|]. destruct (mongo w); exact Hev.
  - destruct (Hmiss eq_refl) as (w' & E & Hev). exists w'.
    split; [exact E|]. destruct (mongo w); exact Hev.
Qed.

(** A [get] that has returned, in the words of the three lookups: with a
    database connected it can only have returned the hit of tier 1. *)
Lemma get_returned (cfg : Settings) (ns : string) (parts : list string)
    (w w' : World) (v : pyval) :
  get cfg ns parts w = (Ret v, w') ->
  let key := _make_key ns parts in
  let path := _file_path cfg key in
  let l1 := tier1_lookup w key in
  let l2 := tier2_lookup w key in
  let l3 := tier3_lookup w path in
  v = first_hit l1 l2 l3
  /\ evolves w w' (mongo_after_get w key l1 l2) (fs_after_get w path l1 l2 l3)
  /\ mongo w' = mongo w
  /\ (returned l1 = None -> mongo w = None).
Proof.
  intros G key path l1 l2 l3.
  destruct (get_spec cfg ns parts w) as (w2 & G' & Hev).
  fold key path in G', Hev. rewrite G in G'. injection G' as Hv <-.
  unfold get_outcome in Hv. unfold fs_after in Hev. fold l1 l3 in Hv, Hev.
  assert (Hm : mongo w' = mongo w) by apply Hev.
  assert (Hnone : mongo w = None -> l2 = Miss).
  { intros H. unfold l2, tier2_lookup. now rewrite H. }
  destruct l1 as [v1| |]; cbn [returned].
  - injection Hv as ->. split_and!; auto. discriminate.
  - destruct (mongo w) as [m|] eqn:Hmw; [discriminate|]. injection Hv as ->.
    rewrite (Hnone eq_refl). unfold mongo_after_get, fs_after_get.
    rewrite Hmw. split_and!; auto; destruct l3; exact Hev.
  - destruct (mongo w) as [m|] eqn:Hmw; [discriminate|]. injection Hv as ->.
    rewrite (Hnone eq_refl). unfold mongo_after_get, fs_after_get.
    rewrite Hmw. split_and!; auto; destruct l3; exact Hev.
Qed.

Lemma fs_evicted_absent (w : World) (path : string) :
  f_remove_fails (fs w) = false -> f_files (fs_evicted w path) !! path = None.
Proof.
  intros Hr. unfold fs_evicted. rewrite Hr. simpl. apply lookup_delete_eq.
Qed.

(** A [try] body that raises belongs to a tier that does not hit. *)
Lemma get_l1_body_raises (key : string) (w w1 : World) (e : exn) :
  get_l1_body key w = (Raise e, w1) -> tier1_lookup w key = Miss.
Proof.
  unfold tier1_lookup. py_unfold. destruct w as [rd mg f ck pv tr]; simpl.
  destruct rd as [[rdata gf sf df]|]; simpl; [|reflexivity].
  destruct gf; simpl; [reflexivity|].
  destruct (rdata !! key) as [[[v| |] ex]|]; simpl; try reflexivity;
    destruct (ex <=? ck); simpl; try reflexivity; discriminate.
Qed.

Lemma get_l3_body_raises (path : string) (w w1 : World) (e : exn) :
  get_l3_body path w = (Raise e, w1) -> returned (tier3_lookup w path) = None.
Proof.
  unfold tier3_lookup. py_unfold.
  destruct w as [rd mg [files dirs mkf rf wf rmf] ck pv tr]; simpl.
  destruct rf; simpl; [destruct (files !! path) as [[]|]; reflexivity|].
  destruct (files !! path) as [[v [x|]|]|]; simpl; try reflexivity;
    try destruct (negb (x =? 0) && (x <? ck)); simpl; try reflexivity;
    discriminate.
Qed.

(** The body of the second block, were it reached: a document that carries
    an expiry time makes the comparison raise, after the one read. *)
Lemma get_l2_body_expiry (key : string) (w : World) (m : Mongo) (d : mongo_doc)
    (e : Z) :
  mongo w = Some m -> m_find_fails m = false ->
  m_data m !! key = Some d -> doc_expires_at d = Some e ->
  exists w1,
    get_l2_body key w = (Raise (Exception "TypeError"), w1)
    /\ mongo w1 = mongo w /\ trace w1 = (trace w ++ [EvMongoFind key])%list.
Proof.
  intros Hm Hf Hd He. py_unfold. destruct w as [rd mg f ck pv tr]; simpl in *.
  subst mg. rewrite Hf, Hd, He. simpl. eexists. split_and!; reflexivity.
Qed.

(** A process with neither Redis nor MongoDB, an empty disk and providers
    that answer nothing. *)
Definition silent_providers : Providers := {|
  akshare_history := fun _ _ _ => Ret [];
  tushare_history := fun _ _ _ => Ret [];
  baostock_history := fun _ _ _ => Ret [];
  akshare_list := Ret [];
  tushare_list := Ret [];
  baostock_list := Ret [];
  akshare_hk_history := fun _ _ _ => Ret [];
  yfinance_history := fun _ _ _ => Ret [];
|}.

Definition healthy_disk (files : gmap string file_content) : FileSystem := {|
  f_files := files; f_dirs := ∅;
  f_makedirs_fails := false; f_read_fails := false;
  f_write_fails := false; f_remove_fails := false;
|}.

Definition offline_world : World := {|
  redis := None; mongo := None; fs := healthy_disk ∅;
  clock := 1700000000; providers := silent_providers; trace := [];
|}.

(** The same process with a MongoDB database connected, healthy and
    empty. *)
Definition mongo_only_world : World := {|
  redis := None;
  mongo := Some {| m_data := ∅; m_find_fails := false;
                   m_update_fails := false; m_delete_fails := false |};
  fs := healthy_disk ∅;
  clock := 1700000000; providers := silent_providers; trace := [];
|}.

(** C6: [get] does raise to its caller.  When tier 1 hits, its value is
    returned and nothing else is touched.  When tier 1 does not hit and a
    MongoDB database is connected, the truth test [if db:] raises
    NotImplementedError outside every [try]: the call raises, having sent
    no command but the read of tier 1, and tier 3 is never looked at.  Only
    with no database does the lookup fall through to tier 3, where an
    expired entry is deleted and the answer is the value found or None.
    The errors of tier 1 and tier 3 commands are caught and count as
    misses.  Tier 2 is never read and never changed; and its block, were it
    reached, would raise on the expiry test of any document that carries
    an expiry time, so that no expired document would be deleted.  The last
    conjunct is the failing read: nothing cached, MongoDB connected. *)
Theorem get_raises_when_mongo_connected
    (cfg : Settings) (ns : string) (parts : list string) (w : World) :
  let key := _make_key ns parts in
  let path := _file_path cfg key in
  let l1 := tier1_lookup w key in
  let l3 := tier3_lookup w path in
  (forall v, l1 = Hit v ->
     exists w', get cfg ns parts w = (Ret v, w')
                /\ redis w' = redis w /\ mongo w' = mongo w /\ fs w' = fs w)
  /\ (returned l1 = None -> forall m, mongo w = Some m ->
      exists w',
        get cfg ns parts w = (Raise (Exception "NotImplementedError"), w')
        /\ redis w' = redis w /\ mongo w' = mongo w /\ fs w' = fs w
        /\ trace w' = (trace w ++ tier1_read w key)%list)
  /\ (returned l1 = None -> mongo w = None ->
      exists w',
        get cfg ns parts w = (Ret (first_hit Miss Miss l3), w')
        /\ redis w' = redis w /\ mongo w' = None
        /\ fs w' = match l3 with Expired => fs_evicted w path | _ => fs w end
        /\ (l3 = Expired -> f_remove_fails (fs w) = false ->
            f_files (fs w') !! path = None))
  /\ (forall e w1, get_l1_body key w = (Raise e, w1) -> returned l1 = None)
  /\ (forall e w1, get_l3_body path w = (Raise e, w1) -> returned l3 = None)
  /\ (forall m d e,
        mongo w = Some m -> m_find_fails m = false ->
        m_data m !! key = Some d -> doc_expires_at d = Some e ->
        exists w1, get_l2_body key w = (Raise (Exception "TypeError"), w1)
                   /\ mongo w1 = mongo w)
  /\ fst (get cfg "history" ["CN"; "600000"] mongo_only_world)
     = Raise (Exception "NotImplementedError").
Proof.
  intros key path l1 l3.
  destruct (get_spec cfg ns parts w) as (w' & E & Hr & Hm & Hf & _ & _ & _).
  fold key path in E, Hf. unfold get_outcome in E. unfold fs_after in Hf.
  fold l1 l3 in E, Hf.
  split_and!.
  - intros v Hv. rewrite Hv in E, Hf. exists w'. auto.
  - intros H1 m Hmw. exists w'. rewrite Hmw in E, Hf.
    assert (Ht : trace w' = (trace w ++ tier1_read w key)%list).
    { pose proof (get_l1_trace key w) as T.
      destruct (get_l1_spec key w) as (w1 & E1 & _ & Hm1 & _).
      rewrite E1 in T. cbn [snd] in T. rewrite <- T.
      assert (G : get cfg ns parts w
                  = (Raise (Exception "NotImplementedError"), w1)).
      { unfold get. fold key. rewrite (bind_ret_eq _ _ _ _ _ E1).
        fold l1. destruct (returned l1); [discriminate|].
        apply bind_raise_eq. rewrite get_l2_spec, Hm1, Hmw. reflexivity. }
      destruct l1; try discriminate; rewrite E in G; now injection G as ->. }
    destruct l1; try discriminate; auto.
  - intros H1 Hmw. exists w'. rewrite Hmw in E, Hf.
    assert (Hfs : fs w' = match l3 with
                          | Expired => fs_evicted w path
                          | _ => fs w
                          end).
    { destruct l1; try discriminate; destruct l3; exact Hf. }
    split_and!; try congruence.
    + destruct l1; try discriminate; exact E.
    + intros H3 Hrm. rewrite Hfs, H3. now apply fs_evicted_absent.
  - intros e w1 H. unfold l1. now rewrite (get_l1_body_raises _ _ _ _ H).
  - intros e w1 H. exact (get_l3_body_raises _ _ _ _ H).
  - intros m d e Hmw Hff Hd He.
    destruct (get_l2_body_expiry key w m d e Hmw Hff Hd He) as (w1 & E1 & Hm1 & _).
    eauto.
  - reflexivity.
Qed.

(** *** Writes *)

(** A tier's write succeeds when the tier is connected and its command
    returns normally. *)
Definition tier1_write_succeeds (w : World) (key : string) (ttl : Z)
    (value : pyval) : Prop :=
  is_Some (redis w)
  /\ exists w1, redis_setex key ttl (RJson value) w = (Ret tt, w1).

Definition tier2_write_succeeds (w : World) (key : string) (ttl : Z)
    (value : pyval) : Prop :=
  is_Some (mongo w)
  /\ exists w1,
       mongo_update_one key
         {| doc_value := value; doc_expires_at := Some (clock w + ttl) |} w
       = (Ret tt, w1).

(** The tiers once written. *)
Definition redis_written (w : World) (key : string) (ttl : Z) (value : pyval)
  : option Redis :=
  match redis w with
  | Some r =>
      Some {| r_data := <[key := (RJson value, clock w + ttl)]> (r_data r);
              r_get_fails := r_get_fails r;
              r_setex_fails := r_setex_fails r;
              r_delete_fails := r_delete_fails r |}
  | None => None
  end.

Definition mongo_written (w : World) (key : string) (ttl : Z) (value : pyval)
  : option Mongo :=
  match mongo w with
  | Some m =>
      Some {| m_data :=
                <[key := {| doc_value := value;
                            doc_expires_at := Some (clock w + ttl) |}]>
                  (m_data m);
              m_find_fails := m_find_fails m;
              m_update_fails := m_update_fails m;
              m_delete_fails := m_delete_fails m |}
  | None => None
  end.

(** The events of a tier-3 write. *)
Definition file_event (ev : event) : Prop :=
  match ev with
  | EvMakedirs _ | EvFileWrite _ => True
  | _ => False
  end.

Definition tier1_ok (w : World) (ttl : Z) : bool :=
  match redis w with
  | Some r => negb (r_setex_fails r) && (0 <? ttl)
  | None => false
  end.

Definition tier2_ok (w : World) : bool :=
  match mongo w with
  | Some m => negb (m_update_fails m)
  | None => false
  end.

Lemma tier1_ok_iff (w : World) (key : string) (ttl : Z) (value : pyval) :
  tier1_ok w ttl = true <-> tier1_write_succeeds w key ttl value.
Proof.
  unfold tier1_ok, tier1_write_succeeds. py_unfold.
  destruct w as [rd mg f ck pv tr]; simpl.
  destruct rd as [[rdata gf sf df]|]; simpl.
  - destruct sf; simpl.
    + split; [discriminate | intros (_ & w1 & Hx); discriminate].
    + destruct (Z.leb_spec ttl 0); destruct (Z.ltb_spec 0 ttl); try lia; simpl.
      * split; [discriminate | intros (_ & w1 & Hx); discriminate].
      * split; [intros _; split; eauto | reflexivity].
  - split; [discriminate | intros ([? Hx] & _); discriminate].
Qed.

Lemma tier2_ok_iff (w : World) (key : string) (ttl : Z) (value : pyval) :
  tier2_ok w = true <-> tier2_write_succeeds w key ttl value.
Proof.
  unfold tier2_ok, tier2_write_succeeds. py_unfold.
  destruct w as [rd mg f ck pv tr]; simpl.
  destruct mg as [[mdata ff uf df]|]; simpl.
  - destruct uf; simpl.
    + split; [discriminate | intros (_ & w1 & Hx); discriminate].
    + split; [intros _; split; eauto | reflexivity].
  - split; [discriminate | intros ([? Hx] & _); discriminate].
Qed.

(** The commands tier 1 is sent by a write. *)
Definition tier1_write (w : World) (key : string) : list event :=
  match redis w with
  | Some _ => [EvRedisSetex key]
  | None => []
  end.

(** The three blocks of [set]. *)
Lemma set_l1_spec (key : string) (ttl : Z) (value : pyval) (w : World) :
  exists w',
    set_l1 key ttl value w = (Ret (tier1_ok w ttl), w')
    /\ trace w' = (trace w ++ tier1_write w key)%list
    /\ redis w' = (if tier1_ok w ttl then redis_written w key ttl value
                   else redis w)
    /\ mongo w' = mongo w /\ fs w' = fs w /\ clock w' = clock w.
Proof.
  unfold tier1_ok, redis_written, tier1_write. py_unfold.
  destruct w as [rd mg f ck pv tr]; simpl.
  destruct rd as [[rdata gf sf df]|]; simpl.
  - destruct sf; simpl; [eexists; split_and!; reflexivity|].
    destruct (Z.leb_spec ttl 0); destruct (Z.ltb_spec 0 ttl); try lia; simpl;
      eexists; split_and!; reflexivity.
  - eexists. rewrite app_nil_r. split_and!; reflexivity.
Qed.

Lemma tier1_write_events (w : World) (key : string) (ev : event) :
  In ev (tier1_write w key) -> ev = EvRedisSetex key.
Proof.
  unfold tier1_write. destruct (redis w); [intros [<-|[]]; reflexivity | intros []].
Qed.

(** The second block of [set] stops at its test, as that of [get]. *)
Lemma set_l2_spec (key : string) (ttl : Z) (value : pyval) (w : World) :
  set_l2 key ttl value w
  = (match mongo w with
     | Some _ => Raise (Exception "NotImplementedError")
     | None => Ret false
     end, w).
Proof. py_unfold. destruct (mongo w); reflexivity. Qed.

(** The body of the second block, were it reached, is the update. *)
Lemma set_l2_body_spec (key : string) (ttl : Z) (value : pyval) (w : World) :
  tier2_ok w = true ->
  exists w1, set_l2_body key ttl value w = (Ret true, w1)
             /\ mongo w1 = mongo_written w key ttl value.
Proof.
  unfold tier2_ok, mongo_written. py_unfold.
  destruct w as [rd mg f ck pv tr]; simpl.
  destruct mg as [[mdata ff uf df]|]; simpl; [|discriminate].
  destruct uf; simpl; [discriminate|]. intros _.
  eexists. split; reflexivity.
Qed.

(** *** Tier-3 paths *)

Lemma replace_char_idem (a b : ascii) (s : string) :
  a <> b ->
  Str.replace_char a b (Str.replace_char a b s) = Str.replace_char a b s.
Proof.
  intros Hab. induction s as [|c s IH]; simpl; [reflexivity|].
  rewrite IH. f_equal.
  destruct (Ascii.eqb c a) eqn:Hc; [|now rewrite Hc].
  destruct (Ascii.eqb b a) eqn:Hb; [|reflexivity].
  apply Ascii.eqb_eq in Hb. congruence.
Qed.

Lemma replace_char_comm (a b c : ascii) (s : string) :
  c <> a -> c <> b ->
  Str.replace_char a c (Str.replace_char b c s)
  = Str.replace_char b c (Str.replace_char a c s).
Proof.
  intros Ha Hb. induction s as [|x s IH]; simpl; [reflexivity|].
  rewrite IH. f_equal.
  destruct (Ascii.eqb x b) eqn:Hxb, (Ascii.eqb x a) eqn:Hxa;
    rewrite ?Hxb, ?Hxa; try reflexivity.
  - destruct (Ascii.eqb c a) eqn:E1; [apply Ascii.eqb_eq in E1; congruence|].
    destruct (Ascii.eqb c b) eqn:E2; [apply Ascii.eqb_eq in E2; congruence|].
    reflexivity.
  - destruct (Ascii.eqb c a) eqn:E1; [apply Ascii.eqb_eq in E1; congruence|].
    reflexivity.
  - destruct (Ascii.eqb c b) eqn:E2; [apply Ascii.eqb_eq in E2; congruence|].
    reflexivity.
Qed.

(** A key and the key with its colons (or slashes) turned into underscores
    share one file. *)
Lemma file_path_colon (cfg : Settings) (key : string) :
  _file_path cfg (Str.replace_char ":" "_" key) = _file_path cfg key.
Proof.
  unfold _file_path. rewrite replace_char_idem by discriminate. reflexivity.
Qed.

Lemma file_path_slash (cfg : Settings) (key : string) :
  _file_path cfg (Str.replace_char "/" "_" key) = _file_path cfg key.
Proof.
  unfold _file_path.
  rewrite (replace_char_comm "/" ":" "_") by discriminate.
  rewrite replace_char_idem by discriminate.
  rewrite (replace_char_comm ":" "/" "_") by discriminate. reflexivity.
Qed.

Lemma path_join_length (a b : string) :
  Str.starts_with_char "/" b = false ->
  (String.length a + String.length b <= String.length (path_join a b))%nat.
Proof.
  intros Hb. unfold path_join. rewrite Hb.
  destruct (String.eqb a "" || Str.ends_with_char "/" a);
    rewrite ?CacheKeyFacts.string_length_append; simpl; lia.
Qed.

Lemma file_path_not_cache_dir (cfg : Settings) (key : string) :
  _file_path cfg key <> _CACHE_DIR cfg.
Proof.
  unfold _file_path. intros H.
  set (safe := Str.replace_char "/" "_" (Str.replace_char ":" "_" key)) in *.
  assert (Hs : Str.starts_with_char "/" (safe +:+ ".json") = false).
  { assert (forall s, Str.starts_with_char "/" (Str.replace_char "/" "_" s +:+ ".json") = false)
      as Hgen.
    { intros [|c s]; [reflexivity|].
      cbn [Str.replace_char].
      destruct (Ascii.eqb c "/") eqn:Hc;
        unfold String.append, Str.starts_with_char; [reflexivity|].
      rewrite Ascii.eqb_sym. exact Hc. }
    apply Hgen. }
  pose proof (path_join_length (_CACHE_DIR cfg) (safe +:+ ".json") Hs) as Hl.
  rewrite H, CacheKeyFacts.string_length_append in Hl. simpl in Hl. lia.
Qed.

(** The third block writes the file when the cache directory can be made
    and the file written: no command fails, no file stands where the
    directory goes and no directory where the file goes. *)
Definition tier3_ok (cfg : Settings) (w : World) (key : string) : bool :=
  negb (f_makedirs_fails (fs w))
  && negb (bool_decide (is_Some (f_files (fs w) !! _CACHE_DIR cfg)))
  && negb (f_write_fails (fs w))
  && negb (bool_decide (_file_path cfg key ∈ f_dirs (fs w))).

Lemma set_l3_spec (cfg : Settings) (key : string) (ttl : Z) (value : pyval)
    (w : World) :
  exists w' evs,
    set_l3 cfg key ttl value w = (Ret tt, w')
    /\ trace w' = (trace w ++ evs)%list
    /\ (forall ev, In ev evs ->
          ev = EvMakedirs (_CACHE_DIR cfg)
          \/ ev = EvFileWrite (_file_path cfg key))
    /\ redis w' = redis w /\ mongo w' = mongo w
    /\ f_files (fs w')
       = (if tier3_ok cfg w key
          then <[_file_path cfg key := FDoc value (Some (clock w + ttl))]>
                 (f_files (fs w))
          else f_files (fs w)).
Proof.
  pose proof (file_path_not_cache_dir cfg key) as Hne.
  unfold tier3_ok. py_unfold.
  generalize dependent (_file_path cfg key). intros p Hne.
  destruct w as [rd mg [files dirs mkf rf wf rmf] ck pv tr]; simpl.
  destruct mkf; simpl;
    [eexists; eexists [_]; split_and!; try reflexivity;
     intros ev [<-|[]]; auto|].
  destruct (bool_decide (is_Some (files !! _CACHE_DIR cfg))); simpl;
    [eexists; eexists [_]; split_and!; try reflexivity;
     intros ev [<-|[]]; auto|].
  destruct wf; simpl;
    [eexists; eexists [_; _]; split_and!; simpl;
     rewrite <- ?app_assoc; try reflexivity;
     intros ev [<-|[<-|[]]]; auto|].
  assert (Hdir : bool_decide (p ∈ {[_CACHE_DIR cfg]} ∪ dirs)
                 = bool_decide (p ∈ dirs)).
  { apply bool_decide_ext. rewrite elem_of_union, elem_of_singleton. tauto. }
  rewrite Hdir. destruct (bool_decide (p ∈ dirs)); simpl;
    eexists; eexists [_; _]; split_and!; simpl;
    rewrite <- ?app_assoc; try reflexivity;
    intros ev [<-|[<-|[]]]; auto.
Qed.

(** The world in which [set] raises: nothing cached, Redis not connected,
    MongoDB connected. *)
Definition unwritten : World := mongo_only_world.

(** C1: [set] does not always write the highest available tier.  A
    successful tier-1 write ends the call with tiers 2 and 3 untouched.
    When tier 1 is not connected or its write raised and a MongoDB database
    is connected, the truth test [if db:] raises NotImplementedError
    outside every [try]: the call raises and no tier is written, neither
    tier 2, which is available, nor tier 3.  Only with no database does the
    call reach tier 3: it returns normally, sends no update to tier 2, and
    the key's file holds the value and its expiry time exactly when the
    directory and the file can be written; otherwise the files are as they
    were.  The body of the tier-2 block, were it reached, is the update.
    The last conjunct is the failing write. *)
Theorem set_raises_when_mongo_is_next
    (cfg : Settings) (value : pyval) (ns : string) (parts : list string)
    (ttl : option Z) (w : World) :
  let key := _make_key ns parts in
  let path := _file_path cfg key in
  let t := match ttl with Some t => t | None => CACHE_TTL cfg end in
  (tier1_write_succeeds w key t value ->
   exists w',
     set cfg value ns parts ttl w = (Ret tt, w')
     /\ trace w' = (trace w ++ [EvRedisSetex key])%list
     /\ redis w' = redis_written w key t value
     /\ mongo w' = mongo w /\ fs w' = fs w)
  /\ (~ tier1_write_succeeds w key t value ->
      forall m, mongo w = Some m ->
      exists w' evs,
        set cfg value ns parts ttl w
        = (Raise (Exception "NotImplementedError"), w')
        /\ trace w' = (trace w ++ evs)%list
        /\ (forall ev, In ev evs -> ev = EvRedisSetex key)
        /\ redis w' = redis w /\ mongo w' = mongo w /\ fs w' = fs w)
  /\ (~ tier1_write_succeeds w key t value -> mongo w = None ->
      exists w' evs,
        set cfg value ns parts ttl w = (Ret tt, w')
        /\ trace w' = (trace w ++ evs)%list
        /\ ~ In (EvMongoUpdate key) evs
        /\ redis w' = redis w /\ mongo w' = mongo w
        /\ f_files (fs w')
           = (if tier3_ok cfg w key
              then <[path := FDoc value (Some (clock w + t))]> (f_files (fs w))
              else f_files (fs w)))
  /\ (tier2_write_succeeds w key t value ->
      exists w1, set_l2_body key t value w = (Ret true, w1)
                 /\ mongo w1 = mongo_written w key t value)
  /\ (exists w',
        set cfg value "history" ["CN"; "600000"] (Some 60) unwritten
        = (Raise (Exception "NotImplementedError"), w')
        /\ mongo w' = mongo unwritten /\ fs w' = fs unwritten).
Proof.
  intros key path t. unfold set. fold key. fold t.
  destruct (set_l1_spec key t value w)
    as (w1 & E1 & Ht1 & Hr1 & Hm1 & Hf1 & Hc1).
  rewrite (bind_ret_eq _ _ _ _ _ E1).
  pose proof (tier1_ok_iff w key t value) as I1.
  pose proof (set_l2_spec key t value w1) as E2. rewrite Hm1 in E2.
  split_and!.
  - intros Y1. pose proof Y1 as ([r Hrw] & _). apply I1 in Y1.
    rewrite Y1 in *. exists w1. unfold tier1_write in Ht1.
    rewrite Hrw in Ht1. split_and!; auto.
  - intros N1 m Hmw.
    assert (Hok : tier1_ok w t = false).
    { destruct (tier1_ok w t); [exfalso; apply N1, I1; reflexivity|reflexivity]. }
    rewrite Hok in *. rewrite Hmw in E2. exists w1, (tier1_write w key).
    rewrite (bind_raise_eq _ _ _ _ _ E2). split_and!; auto; try congruence.
    intros ev. apply tier1_write_events.
  - intros N1 Hmw.
    assert (Hok : tier1_ok w t = false).
    { destruct (tier1_ok w t); [exfalso; apply N1, I1; reflexivity|reflexivity]. }
    rewrite Hok in *. rewrite Hmw in E2.
    rewrite (bind_ret_eq _ _ _ _ _ E2).
    destruct (set_l3_spec cfg key t value w1)
      as (w3 & evs3 & E3 & Ht3 & Hev3 & Hr3 & Hm3 & Hfiles).
    exists w3, (tier1_write w key ++ evs3)%list. split_and!.
    + exact E3.
    + rewrite Ht3, Ht1, app_assoc. reflexivity.
    + intros Hin. apply in_app_or in Hin as [Hin|Hin].
      * apply tier1_write_events in Hin. discriminate.
      * destruct (Hev3 _ Hin); discriminate.
    + congruence.
    + congruence.
    + fold path in Hfiles. rewrite Hfiles. unfold tier3_ok.
      rewrite Hf1, Hc1. reflexivity.
  - intros Y2. apply set_l2_body_spec.
    now apply (tier2_ok_iff w key t value).
  - eexists. split; [reflexivity|]. split; reflexivity.
Qed.

(** With tiers 1 and 2 not connected and a working file system, [set]
    lands in the key's file. *)
Lemma set_lands_in_file
    (cfg : Settings) (value : pyval) (ns : string) (parts : list string)
    (ttl : Z) (w : World) :
  redis w = None -> mongo w = None ->
  f_makedirs_fails (fs w) = false -> f_write_fails (fs w) = false ->
  f_files (fs w) !! _CACHE_DIR cfg = None ->
  _file_path cfg (_make_key ns parts) ∉ f_dirs (fs w) ->
  exists w1,
    set cfg value ns parts (Some ttl) w = (Ret tt, w1)
    /\ redis w1 = None /\ mongo w1 = None /\ clock w1 = clock w
    /\ f_read_fails (fs w1) = f_read_fails (fs w)
    /\ f_files (fs w1) !! _file_path cfg (_make_key ns parts)
       = Some (FDoc value (Some (clock w + ttl))).
Proof.
  intros Hr Hm Hmk Hwf Hdir Hnd. unfold set.
  pose proof (file_path_not_cache_dir cfg (_make_key ns parts)) as Hne.
  generalize dependent (_make_key ns parts). intros k Hnd Hne.
  py_unfold.
  generalize dependent (_file_path cfg k). intros p Hnd Hne.
  destruct w as [rd mg [files dirs mkf rf wf rmf] ck pv tr]; simpl in *.
  subst. simpl.
  rewrite (bool_decide_eq_false_2 (is_Some (files !! _CACHE_DIR cfg)))
    by (rewrite Hdir; intros [? ?]; discriminate).
  simpl.
  rewrite (bool_decide_eq_false_2 (p ∈ {[_CACHE_DIR cfg]} ∪ dirs))
    by (rewrite elem_of_union, elem_of_singleton; intros [?|?];
        [congruence | contradiction]).
  simpl. eexists. split; [reflexivity|]. simpl.
  split_and!; try reflexivity. apply lookup_insert_eq.
Qed.

(** A value written to tier 3 under one key is what a read under any key
    with the same file returns. *)
Lemma set_then_get_same_file
    (cfg : Settings) (value : pyval) (ns ns' : string)
    (parts parts' : list string) (ttl : Z) (w : World) :
  redis w = None -> mongo w = None ->
  f_makedirs_fails (fs w) = false -> f_write_fails (fs w) = false ->
  f_read_fails (fs w) = false ->
  f_files (fs w) !! _CACHE_DIR cfg = None ->
  _file_path cfg (_make_key ns parts) ∉ f_dirs (fs w) ->
  0 <= ttl ->
  _file_path cfg (_make_key ns' parts') = _file_path cfg (_make_key ns parts) ->
  exists w1 w2,
    set cfg value ns parts (Some ttl) w = (Ret tt, w1)
    /\ get cfg ns' parts' w1 = (Ret value, w2).
Proof.
  intros Hr Hm Hmk Hwf Hrf Hdir Hnd Httl Hsame.
  destruct (set_lands_in_file cfg value ns parts ttl w)
    as (w1 & E & Hr1 & Hm1 & Hc1 & Hrf1 & Hfile); try assumption.
  destruct (get_spec cfg ns' parts' w1) as (w2 & G & _).
  exists w1, w2. split; [exact E|]. rewrite G. f_equal.
  unfold get_outcome, tier1_lookup, tier3_lookup.
  rewrite Hr1, Hm1, Hsame, Hfile, Hrf1, Hrf, Hc1. simpl. f_equal.
  destruct (Z.eqb_spec (clock w + ttl) 0); simpl; [reflexivity|].
  destruct (Z.ltb_spec (clock w + ttl) (clock w)); [lia | reflexivity].
Qed.

(** C10: the map from a logical key to its tier-3 file is not injective.
    The keys "a:b" (namespace "a", part "b"), "a/b" and "a_b" are distinct
    and share one file, as do a key and the key with its colons replaced by
    underscores; so with only tier 3 in use a value written under
    ("a", "b") with a positive time to live is what a read under ("a_b")
    returns before that time has passed. *)
Theorem file_path_not_injective (cfg : Settings) :
  _make_key "a" ["b"] = "a:b" /\ _make_key "a_b" [] = "a_b"
  /\ _make_key "a/b" [] = "a/b"
  /\ "a:b" <> "a_b" /\ "a/b" <> "a_b"
  /\ _file_path cfg "a:b" = _file_path cfg "a_b"
  /\ _file_path cfg "a/b" = _file_path cfg "a_b"
  /\ (forall key : string,
        _file_path cfg (Str.replace_char ":" "_" key) = _file_path cfg key)
  /\ (forall (value : pyval) (ttl : Z),
        0 < ttl ->
        exists w1 w2,
          set cfg value "a" ["b"] (Some ttl) offline_world = (Ret tt, w1)
          /\ get cfg "a_b" [] w1 = (Ret value, w2)).
Proof.
  split_and!; try reflexivity; try discriminate.
  - apply file_path_colon.
  - intros value ttl Httl.
    apply set_then_get_same_file; try reflexivity; try lia.
    simpl. apply not_elem_of_empty.
Qed.

End CacheFacts.

(** ** The acquisition layer: provider fail-over *)

Module AcquisitionFacts.
Import Py Acquisition.
Local Open Scope list_scope.

(** [w] with some more events in its trace. *)
Definition logged (w : World) (evs : list event) : World :=
  {| redis := redis w; mongo := mongo w; fs := fs w; clock := clock w;
     providers := providers w; trace := trace w ++ evs |}.

Lemma logged_nil (w : World) : logged w [] = w.
Proof. destruct w. unfold logged. simpl. now rewrite app_nil_r. Qed.

Lemma logged_logged (w : World) (a b : list event) :
  logged (logged w a) b = logged w (a ++ b).
Proof. unfold logged. simpl. now rewrite app_assoc. Qed.

(** What the provider called [name] answers to one history request: its
    records, or the exception it raises.  A name outside the three known
    providers answers the empty list; Tushare refuses to work without a
    token. *)
Definition history_answer (cfg : Settings) (pv : Providers)
    (symbol start_date end_date name : string) : result (list record) :=
  if String.eqb name "akshare"
  then akshare_history pv symbol start_date end_date
  else if String.eqb name "tushare"
  then if String.eqb (TUSHARE_TOKEN cfg) ""
       then Raise (Exception "RuntimeError")
       else tushare_history pv symbol start_date end_date
  else if String.eqb name "baostock"
  then baostock_history pv symbol start_date end_date
  else Ret [].

(** A candidate is skipped when its call raises or returns no record. *)
Definition skipped (answer : result (list record)) : Prop :=
  match answer with
  | Ret rs => rs = []
  | Raise _ => True
  end.

Lemma fetch_china_history_spec (cfg : Settings)
    (name symbol start_date end_date : string) (w : World) :
  _fetch_china_history cfg name symbol start_date end_date w
  = (history_answer cfg (providers w) symbol start_date end_date name,
     logged w [EvProvider name]).
Proof.
  unfold _fetch_china_history, history_answer, _akshare_stock_history,
    _tushare_stock_history, _baostock_stock_history, logged.
  unfold bind, log, modify, gets, of_result, ret, raise. simpl.
  destruct (String.eqb name "akshare").
  { destruct (akshare_history _ _ _ _); reflexivity. }
  destruct (String.eqb name "tushare").
  { destruct (String.eqb (TUSHARE_TOKEN cfg) ""); [reflexivity|].
    destruct (tushare_history _ _ _ _); reflexivity. }
  destruct (String.eqb name "baostock"); [|reflexivity].
  destruct (baostock_history _ _ _ _); reflexivity.
Qed.

(** The loop, for any fetch function that logs its call and answers from
    the providers alone. *)
Lemma first_result_spec
    (fetch : string -> M (list record))
    (answer : Providers -> string -> result (list record))
    (Hfetch : forall name w,
        fetch name w = (answer (providers w) name, logged w [EvProvider name]))
    (candidates : list string) (w : World) :
  exists (res : list record) (called rest : list string),
    first_result fetch candidates w
    = (Ret res, logged w (map EvProvider called))
    /\ candidates = called ++ rest
    /\ ((res <> []
         /\ exists before winner,
             called = before ++ [winner]
             /\ answer (providers w) winner = Ret res
             /\ Forall (fun name => skipped (answer (providers w) name)) before)
        \/ (res = [] /\ rest = []
            /\ Forall (fun name => skipped (answer (providers w) name)) called)).
Proof.
  revert w. induction candidates as [|name cands IH]; intros w.
  - exists [], [], []. simpl. rewrite logged_nil.
    split; [reflexivity|]. split; [reflexivity|]. right. auto.
  - simpl. unfold bind at 1. unfold try_except, bind at 1. rewrite Hfetch.
    destruct (answer (providers w) name) as [rs|e] eqn:Hans.
    + destruct rs as [|r rs]; simpl.
      * destruct (IH (logged w [EvProvider name]))
          as (res & called & rest & E & Hc & Hcases).
        exists res, (name :: called), rest. rewrite E, logged_logged.
        split; [reflexivity|]. split; [simpl; congruence|].
        simpl providers in Hcases.
        destruct Hcases as [(Hne & before & winner & -> & Hw & Hb)
                           |(-> & -> & Hb)].
        -- left. split; [assumption|].
           exists (name :: before), winner. split; [reflexivity|].
           split; [assumption|]. constructor; [rewrite Hans; reflexivity|assumption].
        -- right. split; [reflexivity|]. split; [reflexivity|].
           constructor; [rewrite Hans; reflexivity|assumption].
      * exists (r :: rs), [name], cands.
        split; [reflexivity|]. split; [reflexivity|]. left.
        split; [discriminate|]. exists [], name. auto.
    + simpl.
      destruct (IH (logged w [EvProvider name]))
        as (res & called & rest & E & Hc & Hcases).
      exists res, (name :: called), rest. rewrite E, logged_logged.
      split; [reflexivity|]. split; [simpl; congruence|].
      simpl providers in Hcases.
      destruct Hcases as [(Hne & before & winner & -> & Hw & Hb)
                         |(-> & -> & Hb)].
      * left. split; [assumption|].
        exists (name :: before), winner. split; [reflexivity|].
        split; [assumption|]. constructor; [rewrite Hans; exact I|assumption].
      * right. split; [reflexivity|]. split; [reflexivity|].
        constructor; [rewrite Hans; exact I|assumption].
Qed.

(** The candidates: the default source, then the known providers that are
    not the default, in their fixed order, each name once. *)
Lemma provider_candidates_shape (cfg : Settings) :
  hd_error (provider_candidates cfg) = Some (DEFAULT_CHINA_DATA_SOURCE cfg)
  /\ tl (provider_candidates cfg)
     = List.filter
         (fun p => negb (String.eqb p (DEFAULT_CHINA_DATA_SOURCE cfg)))
         ["akshare"; "tushare"; "baostock"]
  /\ List.NoDup (provider_candidates cfg)
  /\ (forall p, List.In p (provider_candidates cfg) <->
                p = DEFAULT_CHINA_DATA_SOURCE cfg
                \/ List.In p ["akshare"; "tushare"; "baostock"]).
Proof.
  unfold provider_candidates, _china_source, _CHINA_PROVIDER_ORDER.
  set (d := DEFAULT_CHINA_DATA_SOURCE cfg).
  split; [reflexivity|]. split; [reflexivity|]. split.
  - constructor.
    + rewrite filter_In. intros [_ H]. rewrite String.eqb_refl in H. discriminate.
    + apply List.NoDup_filter.
      repeat constructor; simpl; intuition discriminate.
  - intros p. split.
    + intros [<-|H]; [auto|]. apply filter_In in H as [H _]. auto.
    + intros [->|H]; [left; reflexivity|].
      destruct (String.eqb_spec p d) as [->|Hne]; [left; reflexivity|].
      right. apply filter_In. split; [assumption|].
      destruct (String.eqb_spec p d); [contradiction | reflexivity].
Qed.

(** C4: the history fetch for the Chinese market.  The candidates are the
    configured default first, then the other known providers in the fixed
    order, no name twice.  They are called in that order, each at most once;
    the first answer that is neither an exception nor empty is returned at
    once; a candidate that raises or answers nothing is skipped; when every
    candidate is skipped the result is the empty list.  The call always
    returns normally. *)
Theorem china_history_failover
    (cfg : Settings) (symbol start_date end_date : string) (w : World) :
  let candidates := provider_candidates cfg in
  let answer := history_answer cfg (providers w) symbol start_date end_date in
  hd_error candidates = Some (DEFAULT_CHINA_DATA_SOURCE cfg)
  /\ tl candidates
     = List.filter
         (fun p => negb (String.eqb p (DEFAULT_CHINA_DATA_SOURCE cfg)))
         ["akshare"; "tushare"; "baostock"]
  /\ List.NoDup candidates
  /\ exists (res : list record) (called rest : list string),
       get_china_stock_history cfg symbol start_date end_date w
       = (Ret res, logged w (map EvProvider called))
       /\ candidates = called ++ rest
       /\ List.NoDup called
       /\ ((res <> []
            /\ exists before winner,
                called = before ++ [winner]
                /\ answer winner = Ret res
                /\ Forall (fun name => skipped (answer name)) before)
           \/ (res = [] /\ called = candidates
               /\ Forall (fun name => skipped (answer name)) candidates)).
Proof.
  intros candidates answer.
  destruct (provider_candidates_shape cfg) as (Hhd & Htl & Hnd & _).
  split; [exact Hhd|]. split; [exact Htl|]. split; [exact Hnd|].
  destruct (first_result_spec
              (fun name => _fetch_china_history cfg name symbol start_date end_date)
              (fun pv name => history_answer cfg pv symbol start_date end_date name)
              (fun name w => fetch_china_history_spec cfg name symbol start_date end_date w)
              candidates w)
    as (res & called & rest & E & Hc & Hcases).
  exists res, called, rest.
  split; [exact E|]. split; [exact Hc|]. split.
  - fold candidates in Hnd. rewrite Hc in Hnd.
    exact (NoDup_app_remove_r _ _ Hnd).
  - destruct Hcases as [Hwin|(Hres & Hrest & Hall)]; [left; exact Hwin|].
    right. subst rest. rewrite app_nil_r in Hc. subst called.
    split; [exact Hres|]. split; [reflexivity | exact Hall].
Qed.

End AcquisitionFacts.

(** ** Floats: order and rounding *)

Module NumFacts.
Import Num.
Local Open Scope Q_scope.

Lemma Qltb_lt (a b : Q) : Qltb a b = true <-> a < b.
Proof.
  unfold Qltb. rewrite Qlt_alt. destruct (a ?= b); split; congruence.
Qed.

Lemma leb_Fin (a b : Q) : leb (Fin a) (Fin b) = true <-> a <= b.
Proof.
  unfold leb, ltb, eqb. rewrite orb_true_iff, Qltb_lt, Qeq_bool_iff.
  symmetry. apply Qle_lteq.
Qed.

Lemma leb_fin (a b : Q) : leb (fin a) (fin b) = true <-> a <= b.
Proof. unfold fin. rewrite leb_Fin, !Qred_correct. reflexivity. Qed.

(** [rint] stays within one of its argument's floor and is monotone. *)
Lemma rint_cases (q : Q) :
  (rint q = Qfloor q /\ q - inject_Z (Qfloor q) <= 1 # 2)
  \/ (rint q = (Qfloor q + 1)%Z /\ 1 # 2 <= q - inject_Z (Qfloor q)).
Proof.
  unfold rint.
  destruct (Qcompare_spec (q - inject_Z (Qfloor q)) (1 # 2)) as [H|H|H].
  - destruct (Z.even (Qfloor q)); [left | right]; split; auto; lra.
  - left. split; auto. lra.
  - right. split; auto. lra.
Qed.

Lemma rint_mono (x y : Q) : x <= y -> (rint x <= rint y)%Z.
Proof.
  intros Hxy.
  pose proof (Qfloor_resp_le x y Hxy) as Hf.
  destruct (Z.eq_dec (Qfloor x) (Qfloor y)) as [He|Hne].
  - unfold rint. rewrite <- He.
    destruct (Qcompare_spec (x - inject_Z (Qfloor x)) (1 # 2)) as [Hx|Hx|Hx];
      destruct (Qcompare_spec (y - inject_Z (Qfloor x)) (1 # 2)) as [Hy|Hy|Hy];
      try lra; destruct (Z.even (Qfloor x)); lia.
  - assert (Hlt : (Qfloor x + 1 <= Qfloor y)%Z) by lia.
    destruct (rint_cases x) as [[-> _]|[-> _]];
      destruct (rint_cases y) as [[-> _]|[-> _]]; lia.
Qed.

(** Rounding to [n] decimals is monotone on finite values. *)
Lemma round_mono (n : nat) (a b : Q) :
  a <= b -> leb (round n (Fin a)) (round n (Fin b)) = true.
Proof.
  intros Hab. unfold round. apply leb_fin.
  set (s := inject_Z (10 ^ Z.of_nat n)).
  assert (Hs : 0 < s).
  { unfold s. change 0 with (inject_Z 0). rewrite <- Zlt_Qlt.
    apply Z.pow_pos_nonneg; lia. }
  assert (Hm : (rint (a * s) <= rint (b * s))%Z).
  { apply rint_mono. apply Qmult_le_compat_r; lra. }
  rewrite Zle_Qle in Hm.
  apply Qmult_le_r with (z := s); [assumption|].
  field_simplify; [lra | lra | lra].
Qed.

Lemma round_fin_mono (n : nat) (a b : Q) :
  a <= b -> leb (round n (fin a)) (round n (fin b)) = true.
Proof.
  intros Hab. unfold fin. apply round_mono. rewrite !Qred_correct. exact Hab.
Qed.

(** Sums of squares. *)
Lemma square_nonneg (t : Q) : 0 <= t * t.
Proof.
  destruct (Qlt_le_dec t 0) as [H|H].
  - assert (E : t * t == (- t) * (- t)) by ring.
    rewrite E. apply Qmult_le_0_compat; lra.
  - apply Qmult_le_0_compat; assumption.
Qed.

Lemma sum_squares_nonneg (m : Q) (l : list Q) :
  0 <= Series.Qsum (map (fun x => (x - m) * (x - m)) l).
Proof.
  induction l as [|x l IH].
  - apply Qle_refl.
  - change (0 <= (x - m) * (x - m)
                 + Series.Qsum (map (fun x => (x - m) * (x - m)) l)).
    pose proof (square_nonneg (x - m)) as Hsq.
    set (sq := (x - m) * (x - m)) in *.
    set (rest := Series.Qsum _) in *. lra.
Qed.

Lemma var_of_nonneg (obs : list Q) (v : Q) :
  Series.var_of obs = Some v -> 0 <= v.
Proof.
  unfold Series.var_of.
  destruct obs as [|x [|y rest]]; try discriminate.
  set (obs := x :: y :: rest).
  intros [= <-].
  assert (Hden : 0 < Series.Qlen obs - 1).
  { unfold Series.Qlen, obs. simpl List.length.
    assert (1 < inject_Z (Z.of_nat (S (S (List.length rest))))).
    { change 1 with (inject_Z 1). rewrite <- Zlt_Qlt. lia. }
    lra. }
  apply Qle_shift_div_l; [assumption|].
  apply Qle_trans with 0; [lra|].
  exact (sum_squares_nonneg _ obs).
Qed.

(** The three Bollinger cells of one row, from the observations of its
    window: the rounded mean, and the rounded mean plus and minus [k] standard
    deviations.  With [k] not negative and both outer cells defined, they are
    in order. *)
Lemma band_cells_ordered (fsqrt : Q -> Q) (k : fl) (obs : list Q) :
  (forall q, 0 <= q -> 0 <= fsqrt q) ->
  leb zero k = true ->
  let mid := Series.mean_of obs in
  let std := Series.std_of fsqrt obs in
  let upper := round 4 (add mid (mul k std)) in
  let lower := round 4 (sub mid (mul k std)) in
  is_nan upper = false -> is_nan lower = false ->
  leb lower (round 4 mid) = true /\ leb (round 4 mid) upper = true.
Proof.
  intros Hsqrt Hk mid std upper lower Hup Hlo.
  subst upper lower. unfold mid, std, Series.mean_of, Series.std_of in *.
  destruct obs as [|x obs']; [discriminate|].
  set (obs := x :: obs') in *.
  destruct (Series.var_of obs) as [v|] eqn:Hv.
  2:{ destruct k; discriminate. }
  assert (Hs : 0 <= Qred (fsqrt v)).
  { rewrite Qred_correct. apply Hsqrt. exact (var_of_nonneg _ _ Hv). }
  set (m := Qred (Series.Qsum obs / Series.Qlen obs)) in *.
  set (s := Qred (fsqrt v)) in *.
  unfold fin in *. fold m in Hup, Hlo |- *. fold s in Hup, Hlo |- *.
  destruct k as [kq| | |]; try discriminate.
  - (* a finite multiplier *)
    apply leb_Fin in Hk.
    assert (Hks : 0 <= kq * s) by (apply Qmult_le_0_compat; assumption).
    unfold sub, neg, mul, add, fin.
    split; apply round_mono; rewrite !Qred_correct; lra.
  - (* an infinite multiplier *)
    unfold mul, sign in *.
    destruct (Qcompare_spec s 0) as [H0|H0|H0]; try discriminate; [lra|].
    split; reflexivity.
Qed.

End NumFacts.

(** ** Frames: reading back what was written *)

Module FrameFacts.
Import Py Frame.

(** A frame is rectangular: every row has one cell per column. *)
Definition well_formed (df : DataFrame) : Prop :=
  Forall (fun row => List.length row = List.length (columns df)) (rows df).

Lemma index_of_lt (c : string) (cols : list string) (i : nat) :
  index_of c cols = Some i -> (i < List.length cols)%nat.
Proof.
  revert i. induction cols as [|c' cols IH]; intros i; simpl; [discriminate|].
  destruct (String.eqb c c'); [intros [= <-]; lia|].
  destruct (index_of c cols) as [j|]; [|discriminate].
  intros [= <-]. specialize (IH j eq_refl). lia.
Qed.

Lemma index_of_app_new (c : string) (cols : list string) :
  index_of c cols = None -> index_of c (cols ++ [c]) = Some (List.length cols).
Proof.
  induction cols as [|c' cols IH]; simpl.
  - now rewrite String.eqb_refl.
  - destruct (String.eqb c c'); [discriminate|].
    destruct (index_of c cols); [discriminate|].
    intros _. now rewrite IH.
Qed.

Lemma index_of_app_other (c c' : string) (cols : list string) :
  c <> c' -> index_of c' (cols ++ [c]) = index_of c' cols.
Proof.
  intros Hne. induction cols as [|x cols IH]; simpl.
  - destruct (String.eqb_spec c' c); [congruence | reflexivity].
  - destruct (String.eqb c' x); [reflexivity|]. now rewrite IH.
Qed.

Lemma index_of_inj (c c' : string) (cols : list string) (i : nat) :
  index_of c cols = Some i -> index_of c' cols = Some i -> c = c'.
Proof.
  revert i. induction cols as [|x cols IH]; intros i; simpl; [discriminate|].
  destruct (String.eqb_spec c x) as [->|Hc], (String.eqb_spec c' x) as [->|Hc'].
  - reflexivity.
  - intros [= <-]. destruct (index_of c' cols); discriminate.
  - destruct (index_of c cols); [|discriminate]. intros [= <-]. discriminate.
  - destruct (index_of c cols) as [j|]; [|discriminate].
    destruct (index_of c' cols) as [j'|]; [|discriminate].
    intros [= <-] [= ->]. eauto.
Qed.

Lemma cell_insert_same (row : list pyval) (i : nat) (v : pyval) :
  (i < List.length row)%nat -> cell (<[i := v]> row) i = v.
Proof.
  intros Hi. unfold cell. apply nth_lookup_Some with (d := nan).
  now apply list_lookup_insert_eq.
Qed.

Lemma cell_insert_other (row : list pyval) (i j : nat) (v : pyval) :
  i <> j -> cell (<[i := v]> row) j = cell row j.
Proof.
  intros Hij. unfold cell. rewrite !nth_lookup.
  now rewrite list_lookup_insert_ne.
Qed.

Lemma cell_app_new (row : list pyval) (v : pyval) :
  cell (row ++ [v]) (List.length row) = v.
Proof. unfold cell. rewrite app_nth2 by lia. now rewrite Nat.sub_diag. Qed.

Lemma cell_app_old (row : list pyval) (v : pyval) (j : nat) :
  (j < List.length row)%nat -> cell (row ++ [v]) j = cell row j.
Proof. intros Hj. unfold cell. now rewrite app_nth1. Qed.

(** Writing a column of the right length keeps the frame rectangular and
    its number of rows. *)
Lemma set_column_rows_length (c : string) (vals : list pyval) (df : DataFrame) :
  List.length vals = List.length (rows df) ->
  List.length (rows (set_column c vals df)) = List.length (rows df).
Proof.
  intros Hl. unfold set_column.
  destruct (index_of c (columns df)); simpl; rewrite length_zip_with; lia.
Qed.

Lemma set_column_well_formed (c : string) (vals : list pyval) (df : DataFrame) :
  well_formed df -> well_formed (set_column c vals df).
Proof.
  unfold well_formed, set_column. intros Hwf.
  destruct (index_of c (columns df)) as [i|]; simpl.
  - revert vals. induction Hwf as [|row rs Hrow _ IH]; intros [|v vals];
      simpl; constructor; auto. now rewrite length_insert.
  - revert vals. induction Hwf as [|row rs Hrow _ IH]; intros [|v vals];
      simpl; constructor; auto. rewrite !length_app, Hrow. reflexivity.
Qed.

(** A column just written reads back; the other columns are as before. *)
Lemma column_set_column (c : string) (vals : list pyval) (df : DataFrame) :
  well_formed df -> List.length vals = List.length (rows df) ->
  column c (set_column c vals df) = Ret vals.
Proof.
  unfold well_formed, column, set_column. intros Hwf Hl.
  destruct (index_of c (columns df)) as [i|] eqn:Hi; simpl.
  - rewrite Hi. f_equal. apply index_of_lt in Hi.
    revert vals Hl. induction Hwf as [|row rs Hrow _ IH]; intros [|v vals] Hl;
      simpl in *; try discriminate; [reflexivity|].
    f_equal; [apply cell_insert_same; lia | apply IH; lia].
  - rewrite (index_of_app_new _ _ Hi). f_equal.
    revert vals Hl. induction Hwf as [|row rs Hrow _ IH]; intros [|v vals] Hl;
      simpl in *; try discriminate; [reflexivity|].
    f_equal; [rewrite <- Hrow; apply cell_app_new | apply IH; lia].
Qed.

Lemma column_set_column_other (c c' : string) (vals : list pyval)
    (df : DataFrame) :
  c <> c' -> well_formed df -> List.length vals = List.length (rows df) ->
  column c' (set_column c vals df) = column c' df.
Proof.
  unfold well_formed, column, set_column. intros Hne Hwf Hl.
  destruct (index_of c (columns df)) as [i|] eqn:Hi; simpl.
  - destruct (index_of c' (columns df)) as [j|] eqn:Hj; [|reflexivity].
    assert (Hij : i <> j).
    { intros ->. apply Hne. eapply index_of_inj; eassumption. }
    f_equal.
    revert vals Hl. induction Hwf as [|row rs Hrow _ IH]; intros [|v vals] Hl;
      simpl in *; try discriminate; [reflexivity|].
    f_equal; [now apply cell_insert_other | apply IH; lia].
  - rewrite (index_of_app_other _ _ _ Hne).
    destruct (index_of c' (columns df)) as [j|] eqn:Hj; [|reflexivity].
    apply index_of_lt in Hj. f_equal.
    revert vals Hl. induction Hwf as [|row rs Hrow _ IH]; intros [|v vals] Hl;
      simpl in *; try discriminate; [reflexivity|].
    f_equal; [apply cell_app_old; lia | apply IH; lia].
Qed.

(** The same for float columns. *)
Lemma traverse_to_float_of_floats (xs : list Num.fl) :
  Res.traverse to_float (of_floats xs) = Ret xs.
Proof.
  induction xs as [|x xs IH]; simpl; [reflexivity|]. now rewrite IH.
Qed.

Lemma traverse_length {A B} (f : A -> result B) (l : list A) (l' : list B) :
  Res.traverse f l = Ret l' -> List.length l' = List.length l.
Proof.
  revert l'. induction l as [|x l IH]; intros l'; simpl.
  - intros [= <-]. reflexivity.
  - destruct (f x); simpl; [|discriminate].
    destruct (Res.traverse f l); simpl; [|discriminate].
    intros [= <-]. simpl. now rewrite (IH _ eq_refl).
Qed.

Lemma numeric_length (c : string) (df : DataFrame) (xs : list Num.fl) :
  numeric c df = Ret xs -> List.length xs = List.length (rows df).
Proof.
  unfold numeric, column.
  destruct (index_of c (columns df)); simpl; [|discriminate].
  intros H. apply traverse_length in H. now rewrite length_map in H.
Qed.

Lemma numeric_set_numeric (c : string) (xs : list Num.fl) (df : DataFrame) :
  well_formed df -> List.length xs = List.length (rows df) ->
  numeric c (set_numeric c xs df) = Ret xs.
Proof.
  intros Hwf Hl. unfold numeric, set_numeric.
  rewrite column_set_column by (unfold of_floats; rewrite ?length_map; auto).
  simpl. apply traverse_to_float_of_floats.
Qed.

Lemma numeric_set_numeric_other (c c' : string) (xs : list Num.fl)
    (df : DataFrame) :
  c <> c' -> well_formed df -> List.length xs = List.length (rows df) ->
  numeric c' (set_numeric c xs df) = numeric c' df.
Proof.
  intros Hne Hwf Hl. unfold numeric, set_numeric.
  rewrite column_set_column_other
    by (unfold of_floats; rewrite ?length_map; auto).
  reflexivity.
Qed.

Lemma set_numeric_well_formed (c : string) (xs : list Num.fl) (df : DataFrame) :
  well_formed df -> well_formed (set_numeric c xs df).
Proof. apply set_column_well_formed. Qed.

Lemma set_numeric_rows_length (c : string) (xs : list Num.fl) (df : DataFrame) :
  List.length xs = List.length (rows df) ->
  List.length (rows (set_numeric c xs df)) = List.length (rows df).
Proof.
  intros Hl. apply set_column_rows_length. unfold of_floats.
  now rewrite length_map.
Qed.

(** Lengths of the Series operations. *)
Lemma rolling_length (agg : list Q -> Num.fl) (p : nat) (xs : list Num.fl) :
  List.length (Series.rolling agg p xs) = List.length xs.
Proof. unfold Series.rolling. now rewrite length_map, length_seq. Qed.

Lemma round_length (n : nat) (xs : list Num.fl) :
  List.length (Series.round n xs) = List.length xs.
Proof. unfold Series.round. apply length_map. Qed.

Lemma rolling_lookup (agg : list Q -> Num.fl) (p : nat) (xs : list Num.fl)
    (i : nat) (y : Num.fl) :
  Series.rolling agg p xs !! i = Some y ->
  y = agg (Series.observations (Series.window_at p xs i)).
Proof.
  unfold Series.rolling. rewrite list_lookup_fmap.
  destruct (seq 0 (List.length xs) !! i) as [j|] eqn:Hj; [|discriminate].
  apply lookup_seq in Hj as [-> _]. simpl. now intros [= <-].
Qed.

End FrameFacts.

(** ** The indicator engine *)

Module AnalysisFacts.
Import Py Frame Analysis.

(** *** Empty frames *)

(** C9: every indicator transform, whatever its parameters, returns an empty
    frame (no row, or no column) as it is: same columns, same rows, no
    exception. *)
Theorem transforms_identity_on_empty
    (fsqrt : Q -> Q) (df : DataFrame) (periods : option (list Z))
    (fast slow signal period : Z) (std_dev : Num.fl) :
  empty df = true ->
  add_ma df periods = Ret df
  /\ add_ema df periods = Ret df
  /\ add_macd df fast slow signal = Ret df
  /\ add_rsi df periods = Ret df
  /\ add_bollinger fsqrt df period std_dev = Ret df
  /\ add_kdj df period signal = Ret df
  /\ add_atr df period = Ret df
  /\ compute_all fsqrt df = Ret df.
Proof.
  intros Hempty.
  assert (Hma : forall ps, add_ma df ps = Ret df)
    by (intros ps; unfold add_ma; now rewrite Hempty).
  assert (Hema : forall ps, add_ema df ps = Ret df)
    by (intros ps; unfold add_ema; now rewrite Hempty).
  assert (Hmacd : forall a b c, add_macd df a b c = Ret df)
    by (intros a b c; unfold add_macd; now rewrite Hempty).
  assert (Hrsi : forall ps, add_rsi df ps = Ret df)
    by (intros ps; unfold add_rsi; now rewrite Hempty).
  assert (Hboll : forall p k, add_bollinger fsqrt df p k = Ret df)
    by (intros p k; unfold add_bollinger; now rewrite Hempty).
  assert (Hkdj : forall p s, add_kdj df p s = Ret df)
    by (intros p s; unfold add_kdj; now rewrite Hempty).
  assert (Hatr : forall p, add_atr df p = Ret df)
    by (intros p; unfold add_atr; now rewrite Hempty).
  split_and!; auto.
  unfold compute_all.
  rewrite Hma; cbn [Res.bind]. rewrite Hema; cbn [Res.bind].
  rewrite Hmacd; cbn [Res.bind]. rewrite Hrsi; cbn [Res.bind].
  rewrite Hboll; cbn [Res.bind]. rewrite Hkdj; cbn [Res.bind]. apply Hatr.
Qed.

(** A frame with the OHLCV columns and no row. *)
Definition no_rows : DataFrame :=
  {| columns := ["date"; "open"; "high"; "low"; "close"; "volume"];
     rows := [] |}.

(** C9 on a frame with the six OHLCV columns and no row. *)
Lemma transforms_identity_on_empty_witness :
  empty no_rows = true
  /\ add_ma no_rows (Some [5]) = Ret no_rows
  /\ add_rsi no_rows None = Ret no_rows
  /\ add_kdj no_rows 9 3 = Ret no_rows
  /\ compute_all (fun q => q) no_rows = Ret no_rows.
Proof.
  split; [reflexivity|].
  pose proof (transforms_identity_on_empty (fun q => q) no_rows (Some [5])
                12 26 3 9 (Num.of_Z 2) eq_refl) as H.
  pose proof (transforms_identity_on_empty (fun q => q) no_rows None
                12 26 3 9 (Num.of_Z 2) eq_refl) as H'.
  split; [apply H|]. split; [apply H'|]. split; [apply H | apply H].
Defined.

(** *** RSI *)

(** A frame of closing prices. *)
Definition closes (prices : list Z) : DataFrame :=
  {| columns := ["close"];
     rows := map (fun p => [VNum (Num.of_Z p)]) prices |}.

(** The average of the losses over the window, as [add_rsi] computes it. *)
Definition loss_average (w : nat) (delta : list Num.fl) : list Num.fl :=
  Series.rolling_mean w (map Num.neg (Series.clip_upper Num.zero delta)).

Definition gain_average (w : nat) (delta : list Num.fl) : list Num.fl :=
  Series.rolling_mean w (Series.clip_lower Num.zero delta).

(** One RSI cell from the two averages of its row. *)
Definition rsi_cell (gain loss : Num.fl) : Num.fl :=
  Num.sub (Num.of_Z 100)
    (Num.div (Num.of_Z 100)
       (Num.add (Num.of_Z 1)
          (Num.div gain (if Num.eqb loss Num.zero then Num.PInf else loss)))).

Lemma rsi_values_cells (w : nat) (delta : list Num.fl) :
  rsi_values w delta
  = zip_with rsi_cell (gain_average w delta) (loss_average w delta).
Proof.
  unfold rsi_values, gain_average, loss_average, Series.map2, Series.replace.
  generalize (Series.rolling_mean w (Series.clip_lower Num.zero delta)) as g.
  generalize (Series.rolling_mean w
                (map Num.neg (Series.clip_upper Num.zero delta))) as l.
  intros l g. revert l. induction g as [|x g IH]; intros [|y l]; simpl; auto.
  f_equal. apply IH.
Qed.

(** Where the loss average is zero the cell is 0, or NaN when the gain
    average is undefined: never 100. *)
Lemma rsi_cell_zero_loss (gain loss : Num.fl) :
  Num.eqb loss Num.zero = true ->
  rsi_cell gain loss = Num.Fin 0 \/ rsi_cell gain loss = Num.NaN.
Proof.
  intros H. unfold rsi_cell. rewrite H.
  destruct gain; [left | right | right | right]; reflexivity.
Qed.

(** C2, at a failing input: on the closes 1, 2, 3 the loss average of rows 1
    and 2 is zero and the code gives RSI 0 there, not 100; and on every
    input, a row whose loss average is zero gets 0 or NaN. *)
Theorem rsi_zero_loss_gives_zero :
  loss_average 6 (Series.diff [Num.of_Z 1; Num.of_Z 2; Num.of_Z 3])
  = [Num.NaN; Num.Fin 0; Num.Fin 0]
  /\ add_rsi (closes [1; 2; 3]) (Some [6])
     = Ret {| columns := ["close"; "RSI6"];
              rows := [[VNum (Num.Fin 1); VNum Num.NaN];
                       [VNum (Num.Fin 2); VNum (Num.Fin 0)];
                       [VNum (Num.Fin 3); VNum (Num.Fin 0)]] |}
  /\ (forall (w : nat) (delta : list Num.fl) (i : nat) (loss rsi : Num.fl),
        loss_average w delta !! i = Some loss ->
        Num.eqb loss Num.zero = true ->
        Series.round 4 (rsi_values w delta) !! i = Some rsi ->
        rsi = Num.Fin 0 \/ rsi = Num.NaN).
Proof.
  split; [vm_compute; reflexivity|]. split; [vm_compute; reflexivity|].
  intros w delta i loss rsi Hloss Hzero Hrsi.
  unfold Series.round in Hrsi. rewrite rsi_values_cells in Hrsi.
  rewrite list_lookup_fmap in Hrsi.
  destruct (zip_with rsi_cell (gain_average w delta) (loss_average w delta) !! i)
    as [c|] eqn:Hc; [|discriminate].
  simpl in Hrsi. injection Hrsi as <-.
  apply lookup_zip_with_Some in Hc as (g & l & -> & Hg & Hl).
  rewrite Hloss in Hl. injection Hl as <-.
  destruct (rsi_cell_zero_loss g loss Hzero) as [-> | ->];
    [left | right]; reflexivity.
Qed.

(** *** Bollinger bands *)

Import FrameFacts.

(** The three columns [add_bollinger] writes, read back. *)
Lemma add_bollinger_columns
    (fsqrt : Q -> Q) (df df' : DataFrame) (period : Z) (std_dev : Num.fl) :
  well_formed df -> empty df = false ->
  add_bollinger fsqrt df period std_dev = Ret df' ->
  exists (w : nat) (close : list Num.fl),
    let mid := Series.rolling_mean w close in
    let std := Series.rolling_std fsqrt w close in
    numeric "BOLL_MID" df' = Ret (Series.round 4 mid)
    /\ numeric "BOLL_UPPER" df'
       = Ret (Series.round 4
                (Series.map2 Num.add mid (map (Num.mul std_dev) std)))
    /\ numeric "BOLL_LOWER" df'
       = Ret (Series.round 4
                (Series.map2 Num.sub mid (map (Num.mul std_dev) std))).
Proof.
  intros Hwf Hne H. unfold add_bollinger in H. rewrite Hne in H.
  destruct (numeric "close" df) as [close|] eqn:Hclose; [|discriminate].
  cbn [Res.bind] in H.
  destruct (Series.check_window period) as [w|] eqn:Hw; [|discriminate].
  cbn [Res.bind] in H. injection H as <-.
  exists w, close. intros mid std.
  pose proof (numeric_length _ _ _ Hclose) as Hlen.
  assert (Hmid : List.length (Series.round 4 mid) = List.length (rows df))
    by (unfold mid, Series.rolling_mean;
        now rewrite round_length, rolling_length).
  assert (Hstd : List.length std = List.length (rows df))
    by (unfold std, Series.rolling_std; now rewrite rolling_length).
  assert (Hband : forall f,
             List.length
               (Series.round 4 (Series.map2 f mid (map (Num.mul std_dev) std)))
             = List.length (rows df)).
  { intros f. rewrite round_length. unfold Series.map2.
    rewrite length_zip_with, length_map, Hstd.
    unfold mid, Series.rolling_mean. rewrite rolling_length. lia. }
  set (df1 := set_numeric "BOLL_MID" (Series.round 4 mid) df).
  set (df2 := set_numeric "BOLL_UPPER"
                (Series.round 4
                   (Series.map2 Num.add mid (map (Num.mul std_dev) std))) df1).
  assert (Hwf1 : well_formed df1) by now apply set_numeric_well_formed.
  assert (Hwf2 : well_formed df2) by now apply set_numeric_well_formed.
  assert (Hl1 : List.length (rows df1) = List.length (rows df))
    by now apply set_numeric_rows_length.
  assert (Hl2 : List.length (rows df2) = List.length (rows df))
    by (unfold df2; rewrite set_numeric_rows_length; rewrite ?Hl1; auto).
  assert (Hb1 : forall f,
             List.length
               (Series.round 4 (Series.map2 f mid (map (Num.mul std_dev) std)))
             = List.length (rows df1)) by (intros f; rewrite Hl1; apply Hband).
  assert (Hb2 : forall f,
             List.length
               (Series.round 4 (Series.map2 f mid (map (Num.mul std_dev) std)))
             = List.length (rows df2)) by (intros f; rewrite Hl2; apply Hband).
  split_and!.
  - rewrite (numeric_set_numeric_other "BOLL_LOWER" "BOLL_MID" _ df2)
      by (discriminate || assumption || apply Hb2).
    unfold df2.
    rewrite (numeric_set_numeric_other "BOLL_UPPER" "BOLL_MID" _ df1)
      by (discriminate || assumption || apply Hb1).
    now apply numeric_set_numeric.
  - rewrite (numeric_set_numeric_other "BOLL_LOWER" "BOLL_UPPER" _ df2)
      by (discriminate || assumption || apply Hb2).
    apply numeric_set_numeric; [assumption | apply Hb1].
  - apply numeric_set_numeric; [assumption | apply Hb2].
Qed.

(** C8: on every rectangular frame and every row of the Bollinger output
    where the three bands are defined (not NaN), lower <= mid <= upper,
    the multiplier being non-negative and the square root of a float never
    negative. *)
Theorem bollinger_bands_ordered
    (fsqrt : Q -> Q) (df df' : DataFrame) (period : Z) (std_dev : Num.fl)
    (mids uppers lowers : list Num.fl) (i : nat) (mid upper lower : Num.fl) :
  (forall q : Q, (0 <= q)%Q -> (0 <= fsqrt q)%Q) ->
  well_formed df ->
  Num.leb Num.zero std_dev = true ->
  add_bollinger fsqrt df period std_dev = Ret df' ->
  numeric "BOLL_MID" df' = Ret mids ->
  numeric "BOLL_UPPER" df' = Ret uppers ->
  numeric "BOLL_LOWER" df' = Ret lowers ->
  mids !! i = Some mid -> uppers !! i = Some upper ->
  lowers !! i = Some lower ->
  Num.is_nan mid = false -> Num.is_nan upper = false ->
  Num.is_nan lower = false ->
  Num.leb lower mid = true /\ Num.leb mid upper = true.
Proof.
  intros Hsqrt Hwf Hk Hrun Hmids Hups Hlos Hm Hu Hl Dm Du Dl.
  destruct (empty df) eqn:Hempty.
  { (* an empty frame comes back as it is, and has no row to look at *)
    unfold add_bollinger in Hrun. rewrite Hempty in Hrun.
    injection Hrun as <-.
    apply numeric_length in Hmids. apply lookup_lt_Some in Hm.
    unfold empty in Hempty.
    destruct (rows df) as [|r rs] eqn:Hrows; [simpl in Hmids; lia|].
    destruct (columns df) eqn:Hcols; [|discriminate].
    apply numeric_length in Hups. unfold numeric, column in Hlos.
    rewrite Hcols in Hlos. discriminate. }
  destruct (add_bollinger_columns fsqrt df df' period std_dev Hwf Hempty Hrun)
    as (w & close & Emid & Eup & Elo).
  rewrite Emid in Hmids. rewrite Eup in Hups. rewrite Elo in Hlos.
  injection Hmids as <-. injection Hups as <-. injection Hlos as <-.
  unfold Series.round, Series.map2 in Hm, Hu, Hl.
  rewrite list_lookup_fmap in Hm, Hu, Hl.
  destruct (Series.rolling_mean w close !! i) as [m|] eqn:Hmi; [|discriminate].
  injection Hm as <-.
  destruct (zip_with Num.add _ _ !! i) as [u|] eqn:Hui; [|discriminate].
  injection Hu as <-.
  destruct (zip_with Num.sub _ _ !! i) as [l|] eqn:Hli; [|discriminate].
  injection Hl as <-.
  apply lookup_zip_with_Some in Hui as (m1 & ks1 & -> & Hm1 & Hks1).
  apply lookup_zip_with_Some in Hli as (m2 & ks2 & -> & Hm2 & Hks2).
  rewrite Hmi in Hm1, Hm2. injection Hm1 as <-. injection Hm2 as <-.
  rewrite Hks1 in Hks2. injection Hks2 as <-.
  rewrite list_lookup_fmap in Hks1.
  destruct (Series.rolling_std fsqrt w close !! i) as [sd|] eqn:Hsd;
    [|discriminate].
  injection Hks1 as <-.
  apply rolling_lookup in Hmi. apply rolling_lookup in Hsd. subst m sd.
  exact (NumFacts.band_cells_ordered fsqrt std_dev _ Hsqrt Hk Du Dl).
Qed.

(** A square root good to four decimals, to run the bands on numbers. *)
Definition approx_sqrt (q : Q) : Q :=
  (inject_Z (Z.sqrt (Qfloor (q * inject_Z (10 ^ 8)))) / inject_Z (10 ^ 4))%Q.

Lemma approx_sqrt_nonneg (q : Q) : (0 <= q)%Q -> (0 <= approx_sqrt q)%Q.
Proof.
  intros _. unfold approx_sqrt.
  apply Qle_shift_div_l; [reflexivity|].
  rewrite Qmult_0_l. change 0%Q with (inject_Z 0). rewrite <- Zle_Qle.
  apply Z.sqrt_nonneg.
Qed.

Definition bands_of_10_12_11 : DataFrame :=
  {| columns := ["close"; "BOLL_MID"; "BOLL_UPPER"; "BOLL_LOWER"];
     rows :=
       [ [VNum (Num.Fin 10); VNum (Num.Fin 10); VNum Num.NaN; VNum Num.NaN];
         [VNum (Num.Fin 12); VNum (Num.Fin 11);
          VNum (Num.Fin (34571 # 2500)); VNum (Num.Fin (20429 # 2500))];
         [VNum (Num.Fin 11); VNum (Num.Fin (23 # 2));
          VNum (Num.Fin (64571 # 5000)); VNum (Num.Fin (50429 # 5000))] ] |}.

(** C8 on the closes 10, 12, 11 with a window of 2 and the default
    multiplier, at row 1. *)
Lemma bollinger_bands_ordered_witness :
  add_bollinger approx_sqrt (closes [10; 12; 11]) 2 (Num.of_Z 2)
  = Ret bands_of_10_12_11
  /\ Num.leb (Num.Fin (20429 # 2500)) (Num.Fin 11) = true
  /\ Num.leb (Num.Fin 11) (Num.Fin (34571 # 2500)) = true.
Proof.
  split; [vm_compute; reflexivity|].
  apply (bollinger_bands_ordered approx_sqrt (closes [10; 12; 11])
           bands_of_10_12_11 2 (Num.of_Z 2)
           [Num.Fin 10; Num.Fin 11; Num.Fin (23 # 2)]
           [Num.NaN; Num.Fin (34571 # 2500); Num.Fin (64571 # 5000)]
           [Num.NaN; Num.Fin (20429 # 2500); Num.Fin (50429 # 5000)]
           1%nat).
  - exact approx_sqrt_nonneg.
  - repeat constructor.
  - reflexivity.
  - vm_compute; reflexivity.
  - reflexivity.
  - reflexivity.
  - reflexivity.
  - reflexivity.
  - reflexivity.
  - reflexivity.
  - reflexivity.
  - reflexivity.
  - reflexivity.
Defined.

End AnalysisFacts.

(** ** The normaliser *)

Module ProcessingFacts.
Import Py Frame Processing FrameFacts.
#[local] Existing Instance date_le_dec.

(** *** The order of date strings *)

Definition str_lt (a b : string) : Prop := String.ltb a b = true.
Definition str_le (a b : string) : Prop := String.leb a b = true.

Lemma str_lt_iff (a b : string) : str_lt a b <-> String_as_OT.lt a b.
Proof.
  unfold str_lt, String.ltb. rewrite <- String_as_OT.cmp_lt.
  unfold String_as_OT.cmp. destruct (String.compare a b); split; congruence.
Qed.

Lemma str_le_iff (a b : string) : str_le a b <-> str_lt a b \/ a = b.
Proof.
  unfold str_le, str_lt, String.leb, String.ltb.
  destruct (String.compare a b) eqn:Hc.
  - apply String.compare_eq_iff in Hc. subst. tauto.
  - tauto.
  - split; [discriminate|]. intros [H| ->]; [discriminate|].
    assert (String.compare b b = Eq) by (apply String_as_OT.cmp_eq; reflexivity).
    congruence.
Qed.

Lemma str_lt_trans (a b c : string) : str_lt a b -> str_lt b c -> str_lt a c.
Proof. rewrite !str_lt_iff. apply String_as_OT.lt_trans. Qed.

Lemma str_lt_irrefl (a : string) : ~ str_lt a a.
Proof.
  rewrite str_lt_iff. intros H. exact (String_as_OT.lt_not_eq _ _ H eq_refl).
Qed.

Lemma str_le_trans (a b c : string) : str_le a b -> str_le b c -> str_le a c.
Proof.
  rewrite !str_le_iff. intros [Hab| ->] [Hbc| ->]; auto.
  left. eapply str_lt_trans; eassumption.
Qed.

#[local] Instance date_le_total (i : nat) : Total (date_le i).
Proof. intros r1 r2. unfold date_le. apply String.leb_total. Qed.

#[local] Instance date_le_trans (i : nat) : Transitive (date_le i).
Proof. intros r1 r2 r3. unfold date_le. apply str_le_trans. Qed.

(** *** Sorting and de-duplication, on the dates alone *)

Definition dates (i : nat) (rows : list (list pyval)) : list string :=
  map (date_key i) rows.

Lemma drop_duplicates_last_subset (i : nat) (rows : list (list pyval)) row :
  In row (drop_duplicates_last i rows) -> In row rows.
Proof.
  induction rows as [|r rest IH]; simpl; [tauto|].
  destruct (existsb _ rest); simpl; intuition.
Qed.

Lemma existsb_date (i : nat) (row : list pyval) (rest : list (list pyval)) :
  existsb (fun later => String.eqb (date_key i later) (date_key i row)) rest
  = true
  <-> In (date_key i row) (dates i rest).
Proof.
  unfold dates. rewrite existsb_exists, in_map_iff.
  split.
  - intros (r & H1 & H2). exists r. apply String.eqb_eq in H2. auto.
  - intros (r & H1 & H2). exists r. split; [assumption|]. now apply String.eqb_eq.
Qed.

Lemma drop_duplicates_last_NoDup (i : nat) (rows : list (list pyval)) :
  List.NoDup (dates i (drop_duplicates_last i rows)).
Proof.
  induction rows as [|r rest IH]; simpl; [constructor|].
  destruct (existsb _ rest) eqn:He; [assumption|].
  simpl. constructor; [|assumption].
  intros Hin. unfold dates in Hin. apply in_map_iff in Hin as (r' & Hk & Hr').
  apply drop_duplicates_last_subset in Hr'.
  assert (In (date_key i r) (dates i rest))
    by (unfold dates; apply in_map_iff; eauto).
  apply existsb_date in H. congruence.
Qed.

(** A row survives exactly when it is the last row of its date. *)
Lemma drop_duplicates_last_spec (i : nat) (rows : list (list pyval)) row :
  In row (drop_duplicates_last i rows)
  <-> exists before after,
        rows = before ++ row :: after
        /\ ~ In (date_key i row) (dates i after).
Proof.
  induction rows as [|r rest IH]; simpl.
  - split; [tauto|]. intros (b & a & H & _). destruct b; discriminate.
  - destruct (existsb _ rest) eqn:He.
    + rewrite IH. split.
      * intros (b & a & -> & Hn). exists (r :: b), a. auto.
      * intros (b & a & H & Hn). destruct b as [|r' b]; simpl in H.
        -- injection H as -> ->. apply existsb_date in He. contradiction.
        -- injection H as -> ->. eauto.
    + simpl. rewrite IH. split.
      * intros [->|(b & a & -> & Hn)].
        -- exists [], rest. split; [reflexivity|].
           intros H. apply existsb_date in H. congruence.
        -- exists (r :: b), a. auto.
      * intros (b & a & H & Hn). destruct b as [|r' b]; simpl in H.
        -- injection H as -> ->. left. reflexivity.
        -- injection H as -> ->. right. eauto.
Qed.

Lemma sort_by_date_In (i : nat) (rows : list (list pyval)) row :
  In row (sort_by_date i rows) <-> In row rows.
Proof.
  unfold sort_by_date. rewrite <- !list_elem_of_In.
  now rewrite (merge_sort_Permutation (date_le i) rows).
Qed.

Lemma sort_by_date_NoDup (i : nat) (rows : list (list pyval)) :
  List.NoDup (dates i rows) -> List.NoDup (dates i (sort_by_date i rows)).
Proof.
  unfold dates, sort_by_date. rewrite <- !NoDup_ListNoDup. intros H.
  now rewrite (merge_sort_Permutation (date_le i) rows).
Qed.

(** Sorted without a repeated date is strictly ascending. *)
Lemma sorted_NoDup_strict (l : list string) :
  StronglySorted str_le l -> List.NoDup l -> StronglySorted str_lt l.
Proof.
  induction 1 as [|x l Hs IH Hall]; intros Hnd; [constructor|].
  inversion Hnd as [|? ? Hx Hnd']; subst.
  constructor; [auto|].
  apply Forall_forall. intros y Hy. rewrite Forall_forall in Hall.
  destruct (proj1 (str_le_iff x y) (Hall y Hy)) as [H| ->]; [assumption|].
  rewrite list_elem_of_In in Hy. contradiction.
Qed.

Lemma sort_by_date_sorted (i : nat) (rows : list (list pyval)) :
  StronglySorted str_le (dates i (sort_by_date i rows)).
Proof.
  unfold sort_by_date, dates.
  pose proof (StronglySorted_merge_sort (date_le i) rows) as H.
  induction H as [|r l Hs IH Hall]; simpl; constructor; [assumption|].
  apply Forall_forall. intros d Hd.
  rewrite list_elem_of_In in Hd. apply in_map_iff in Hd as (r' & <- & Hr').
  rewrite Forall_forall in Hall. apply Hall. now apply list_elem_of_In.
Qed.

(** *** The frame before the dates are parsed *)

Lemma of_records_well_formed (records : list record) :
  well_formed (of_records records).
Proof.
  unfold well_formed, of_records. simpl. apply Forall_forall. intros row Hrow.
  rewrite list_elem_of_In in Hrow. apply in_map_iff in Hrow as (r & <- & _).
  apply length_map.
Qed.

Lemma of_records_rows_length (records : list record) :
  List.length (rows (of_records records)) = List.length records.
Proof. unfold of_records. simpl. apply length_map. Qed.

Lemma ensure_column_well_formed (df : DataFrame) (c : string) :
  well_formed df -> well_formed (ensure_column df c).
Proof.
  intros Hwf. unfold ensure_column. destruct (has_column c df); [assumption|].
  now apply set_column_well_formed.
Qed.

Lemma ensure_column_rows_length (df : DataFrame) (c : string) :
  List.length (rows (ensure_column df c)) = List.length (rows df).
Proof.
  unfold ensure_column. destruct (has_column c df); [reflexivity|].
  unfold set_column_scalar. apply set_column_rows_length. apply length_map.
Qed.

Lemma index_of_app_keep (c c' : string) (cols : list string) (i : nat) :
  index_of c cols = Some i -> index_of c (cols ++ [c']) = Some i.
Proof.
  revert i. induction cols as [|x cols IH]; intros i; simpl; [discriminate|].
  destruct (String.eqb c x); [auto|].
  destruct (index_of c cols) as [j|]; [|discriminate].
  intros [= <-]. now rewrite (IH j eq_refl).
Qed.

Lemma ensure_column_keeps (df : DataFrame) (c c' : string) (i : nat) :
  index_of c (columns df) = Some i ->
  index_of c (columns (ensure_column df c')) = Some i.
Proof.
  intros Hi. unfold ensure_column, has_column, set_column_scalar, set_column.
  destruct (index_of c' (columns df)) eqn:Hc'; [assumption|]. simpl.
  now apply index_of_app_keep.
Qed.

Lemma ensure_column_has (df : DataFrame) (c : string) :
  exists i, index_of c (columns (ensure_column df c)) = Some i.
Proof.
  unfold ensure_column, has_column, set_column_scalar, set_column.
  destruct (index_of c (columns df)) as [i|] eqn:Hc; [eauto|]. simpl.
  rewrite (index_of_app_new _ _ Hc). eauto.
Qed.

Lemma coerce_column_columns parse_float (df : DataFrame) (c : string) :
  columns (coerce_column parse_float df c) = columns df.
Proof.
  unfold coerce_column, map_column.
  destruct (has_column c df); [|reflexivity].
  destruct (index_of c (columns df)); reflexivity.
Qed.

Lemma coerce_column_well_formed parse_float (df : DataFrame) (c : string) :
  well_formed df -> well_formed (coerce_column parse_float df c).
Proof.
  unfold well_formed. intros Hwf. rewrite coerce_column_columns.
  unfold coerce_column, map_column.
  destruct (has_column c df); [|assumption].
  destruct (index_of c (columns df)); [|assumption]. simpl.
  apply Forall_map. eapply Forall_impl; [exact Hwf|].
  intros row Hrow. simpl. now rewrite length_insert.
Qed.

Lemma coerce_column_rows_length parse_float (df : DataFrame) (c : string) :
  List.length (rows (coerce_column parse_float df c)) = List.length (rows df).
Proof.
  unfold coerce_column, map_column.
  destruct (has_column c df); [|reflexivity].
  destruct (index_of c (columns df)); [|reflexivity]. simpl. apply length_map.
Qed.

Lemma prepare_well_formed parse_float (records : list record) :
  well_formed (prepare parse_float records).
Proof.
  unfold prepare, numeric_cols, required. cbn [fold_left].
  do 7 apply coerce_column_well_formed.
  do 6 apply ensure_column_well_formed.
  apply of_records_well_formed.
Qed.

Lemma prepare_rows_length parse_float (records : list record) :
  List.length (rows (prepare parse_float records)) = List.length records.
Proof.
  unfold prepare, numeric_cols, required. cbn [fold_left].
  rewrite !coerce_column_rows_length, !ensure_column_rows_length.
  apply of_records_rows_length.
Qed.

Lemma prepare_has_date parse_float (records : list record) :
  exists i, index_of "date" (columns (prepare parse_float records)) = Some i.
Proof.
  unfold prepare, numeric_cols, required. cbn [fold_left].
  rewrite !coerce_column_columns.
  destruct (ensure_column_has (of_records records) "date") as [i Hi].
  exists i. do 5 apply ensure_column_keeps. exact Hi.
Qed.

(** A stamped row carries its printed date. *)
Lemma stamp_row_date to_datetime (i : nat) (row out : list pyval) :
  (i < List.length row)%nat ->
  stamp_row to_datetime i row = Some out ->
  exists ts, to_datetime (cell row i) = Some ts
             /\ out = <[i := VStr (strftime_ymd ts)]> row
             /\ date_key i out = strftime_ymd ts.
Proof.
  intros Hi. unfold stamp_row.
  destruct (to_datetime (cell row i)) as [ts|]; [|discriminate].
  intros [= <-]. exists ts. split_and!; try reflexivity.
  unfold date_key. now rewrite cell_insert_same.
Qed.

(** [omap] by positions: the kept elements with what is kept after them. *)
Lemma omap_split {A B} (f : A -> option B) (l : list A) (before after : list B)
    (y : B) :
  omap f l = before ++ y :: after ->
  exists l1 x l2,
    l = l1 ++ x :: l2 /\ f x = Some y
    /\ omap f l1 = before /\ omap f l2 = after.
Proof.
  revert before. induction l as [|a l IH]; intros before; simpl.
  - destruct before; discriminate.
  - destruct (f a) as [b|] eqn:Hfa.
    + destruct before as [|b' before]; simpl.
      * intros [= -> <-]. exists [], a, l. auto.
      * intros [= -> H]. destruct (IH _ H) as (l1 & x & l2 & -> & Hx & <- & <-).
        exists (a :: l1), x, l2. simpl. rewrite Hfa. auto.
    + intros H. destruct (IH _ H) as (l1 & x & l2 & -> & Hx & <- & <-).
      exists (a :: l1), x, l2. simpl. rewrite Hfa. auto.
Qed.

(** The rows that survive parsing and de-duplication, by their position
    in the input: row [k] is kept, with its date printed, exactly when its
    date parses and no later row parses to the same day. *)
Definition last_of_its_date (to_datetime : pyval -> option Timestamp)
    (i : nat) (input : list (list pyval)) (k : nat) (ts : Timestamp) : Prop :=
  forall k' row' ts',
    (k < k')%nat -> input !! k' = Some row' ->
    to_datetime (cell row' i) = Some ts' ->
    strftime_ymd ts' <> strftime_ymd ts.

Lemma kept_rows_spec to_datetime (i : nat) (input : list (list pyval))
    (out : list pyval) :
  Forall (fun row => (i < List.length row)%nat) input ->
  In out (drop_duplicates_last i (parse_dates to_datetime i input))
  <-> exists k row ts,
        input !! k = Some row
        /\ to_datetime (cell row i) = Some ts
        /\ out = <[i := VStr (strftime_ymd ts)]> row
        /\ last_of_its_date to_datetime i input k ts.
Proof.
  intros Hwide. rewrite drop_duplicates_last_spec. unfold parse_dates. split.
  - intros (before & after & Hsplit & Hlast).
    apply omap_split in Hsplit as (l1 & x & l2 & -> & Hx & <- & <-).
    apply Forall_app in Hwide as [_ Hwide].
    apply Forall_cons in Hwide as [Hx_wide Hwide].
    destruct (stamp_row_date _ _ _ _ Hx_wide Hx) as (ts & Hts & -> & Hkey).
    exists (List.length l1), x, ts. split_and!; auto.
    + rewrite lookup_app_r by lia. now rewrite Nat.sub_diag.
    + intros k' row' ts' Hk Hrow' Hts' Heq. apply Hlast.
      rewrite lookup_app_r in Hrow' by lia.
      destruct (k' - List.length l1)%nat as [|j] eqn:Hj; [lia|].
      simpl in Hrow'.
      assert (Hin : row' ∈ l2) by (eapply list_elem_of_lookup_2; eauto).
      rewrite Forall_forall in Hwide. specialize (Hwide _ Hin).
      unfold dates. apply in_map_iff.
      exists (<[i := VStr (strftime_ymd ts')]> row'). split.
      * unfold date_key. rewrite !cell_insert_same by assumption. auto.
      * apply list_elem_of_In. apply list_elem_of_omap. exists row'.
        split; [assumption|]. unfold stamp_row. now rewrite Hts'.
  - intros (k & row & ts & Hk & Hts & -> & Hlast).
    pose proof (take_drop_middle _ _ _ Hk) as Hsplit.
    exists (omap (stamp_row to_datetime i) (take k input)),
           (omap (stamp_row to_datetime i) (drop (S k) input)).
    assert (Hrow_wide : (i < List.length row)%nat).
    { rewrite Forall_forall in Hwide. apply Hwide.
      eapply list_elem_of_lookup_2; eauto. }
    split.
    + rewrite <- Hsplit at 1. rewrite omap_app. simpl.
      unfold stamp_row at 2. now rewrite Hts.
    + unfold dates. intros Hin. apply in_map_iff in Hin as (out' & Hkey & Hin).
      apply list_elem_of_In, list_elem_of_omap in Hin as (row' & Hrow' & Hst).
      apply list_elem_of_lookup_1 in Hrow' as [j Hj].
      rewrite lookup_drop in Hj.
      assert (Hrow'_wide : (i < List.length row')%nat).
      { rewrite Forall_forall in Hwide. apply Hwide.
        eapply list_elem_of_lookup_2; eauto. }
      destruct (stamp_row_date _ _ _ _ Hrow'_wide Hst) as (ts' & Hts' & -> & Hk').
      apply (Hlast (S k + j)%nat row' ts'); [lia|assumption|assumption|].
      rewrite <- Hk', Hkey. unfold date_key.
      now rewrite cell_insert_same by assumption.
Qed.

Lemma kept_rows_date to_datetime (i : nat) (input : list (list pyval))
    (out : list pyval) :
  Forall (fun row => (i < List.length row)%nat) input ->
  In out (drop_duplicates_last i (parse_dates to_datetime i input)) ->
  cell out i = VStr (date_key i out).
Proof.
  intros Hwide Hin. apply kept_rows_spec in Hin; [|assumption].
  destruct Hin as (k & row & ts & Hk & _ & -> & _).
  assert ((i < List.length row)%nat).
  { rewrite Forall_forall in Hwide. apply Hwide.
    eapply list_elem_of_lookup_2; eauto. }
  unfold date_key. now rewrite !cell_insert_same by assumption.
Qed.

(** [normalize_ohlcv] in one equation. *)
Lemma normalize_ohlcv_rows to_datetime parse_float (records : list record)
    (i : nat) :
  records <> [] ->
  index_of "date" (columns (prepare parse_float records)) = Some i ->
  normalize_ohlcv to_datetime parse_float records
  = {| columns := columns (prepare parse_float records);
       rows := sort_by_date i
                 (drop_duplicates_last i
                    (parse_dates to_datetime i
                       (rows (prepare parse_float records)))) |}.
Proof.
  intros Hne Hi. unfold normalize_ohlcv.
  destruct records as [|r rs]; [contradiction|].
  cbv zeta. now rewrite Hi.
Qed.

(** *** The date cell pandas sees for a raw record *)

Definition has_field (k : string) (r : record) : bool :=
  match field k r with Some _ => true | None => false end.

(** The record's own "date"; NaN when the record has none but another
    record has one; 0.0 when no record has a date at all. *)
Definition raw_date (records : list record) (r : record) : pyval :=
  match field "date" r with
  | Some v => v
  | None => if existsb (has_field "date") records then nan else VNum Num.zero
  end.

Lemma index_of_nth (c : string) (cols : list string) (i : nat) :
  index_of c cols = Some i -> nth i cols "" = c.
Proof.
  revert i. induction cols as [|x cols IH]; intros i; simpl; [discriminate|].
  destruct (String.eqb_spec c x) as [->|Hne]; [now intros [= <-]|].
  destruct (index_of c cols) as [j|]; [|discriminate].
  intros [= <-]. now apply IH.
Qed.

Lemma index_of_app_some (c : string) (cols more : list string) (i : nat) :
  index_of c cols = Some i -> index_of c (cols ++ more) = Some i.
Proof.
  revert i. induction cols as [|x cols IH]; intros i; simpl; [discriminate|].
  destruct (String.eqb c x); [auto|].
  destruct (index_of c cols) as [j|]; [|discriminate].
  intros [= <-]. now rewrite (IH j eq_refl).
Qed.

Definition known (c : string) (cols : list string) : bool :=
  match index_of c cols with Some _ => true | None => false end.

Lemma known_app_one (c k : string) (cols : list string) :
  known c (cols ++ [k]) = known c cols || String.eqb c k.
Proof.
  unfold known. induction cols as [|x cols IH]; simpl.
  - destruct (String.eqb c k); reflexivity.
  - destruct (String.eqb c x); [reflexivity|].
    destruct (index_of c (cols ++ [k])), (index_of c cols); simpl in *;
      auto; try discriminate.
Qed.

Lemma known_add_keys (c : string) (r : record) (cols : list string) :
  known c (add_keys cols r) = known c cols || has_field c r.
Proof.
  unfold add_keys, has_field. revert cols.
  induction r as [|[k v] r IH]; intros cols; simpl.
  - now rewrite orb_false_r.
  - rewrite IH. destruct (index_of k cols) eqn:Hk.
    + destruct (String.eqb_spec c k) as [->|Hne]; [|reflexivity].
      unfold known. rewrite Hk. reflexivity.
    + rewrite known_app_one.
      destruct (String.eqb c k); [now rewrite !orb_true_r|].
      now rewrite orb_false_r.
Qed.

Lemma known_of_records (c : string) (records : list record) :
  known c (columns (of_records records)) = existsb (has_field c) records.
Proof.
  unfold of_records. simpl.
  assert (H : forall cols,
             known c (fold_left add_keys records cols)
             = known c cols || existsb (has_field c) records).
  { induction records as [|r rs IH]; intros cols; simpl.
    - now rewrite orb_false_r.
    - rewrite IH, known_add_keys. now rewrite orb_assoc. }
  rewrite H. reflexivity.
Qed.

Lemma column_of_records (c : string) (records : list record) :
  known c (columns (of_records records)) = true ->
  column c (of_records records)
  = Ret (map (fun r => match field c r with Some v => v | None => nan end)
           records).
Proof.
  unfold known, column.
  destruct (index_of c (columns (of_records records))) as [i|] eqn:Hi;
    [|discriminate].
  intros _. f_equal. unfold of_records in *. simpl in *.
  rewrite map_map. apply map_ext. intros r. unfold cell.
  pose proof (index_of_lt _ _ _ Hi) as Hlt.
  rewrite (nth_indep _ nan
             (match field "" r with Some v => v | None => nan end))
    by (now rewrite length_map).
  rewrite (map_nth (fun k => match field k r with Some v => v | None => nan end)).
  now rewrite (index_of_nth _ _ _ Hi).
Qed.

Lemma column_ensure_other (df : DataFrame) (c c' : string) :
  c' <> c -> well_formed df ->
  column c (ensure_column df c') = column c df.
Proof.
  intros Hne Hwf. unfold ensure_column.
  destruct (has_column c' df); [reflexivity|].
  unfold set_column_scalar. apply column_set_column_other; auto.
  apply length_map.
Qed.

Lemma column_map_column_other (df : DataFrame) (c c' : string)
    (f : pyval -> pyval) :
  c' <> c -> column c (map_column c' f df) = column c df.
Proof.
  intros Hne. unfold map_column, column.
  destruct (index_of c' (columns df)) as [j|] eqn:Hj; [|reflexivity]. simpl.
  destruct (index_of c (columns df)) as [i|] eqn:Hi; [|reflexivity].
  f_equal. rewrite map_map. apply map_ext. intros row.
  apply cell_insert_other. intros ->. apply Hne.
  eapply index_of_inj; eassumption.
Qed.

Lemma column_coerce_other parse_float (df : DataFrame) (c c' : string) :
  c' <> c -> column c (coerce_column parse_float df c') = column c df.
Proof.
  intros Hne. unfold coerce_column.
  destruct (has_column c' df); [|reflexivity].
  now apply column_map_column_other.
Qed.

(** The date column of the prepared frame, record by record. *)
Lemma prepare_date_column parse_float (records : list record) :
  column "date" (prepare parse_float records)
  = Ret (map (raw_date records) records).
Proof.
  unfold prepare, numeric_cols, required. cbv zeta. cbn [fold_left].
  rewrite !column_coerce_other by discriminate.
  rewrite !column_ensure_other
    by (try discriminate;
        repeat apply ensure_column_well_formed;
        apply of_records_well_formed).
  pose proof (known_of_records "date" records) as Hknown.
  unfold ensure_column, has_column. unfold known in Hknown.
  destruct (index_of "date" (columns (of_records records))) as [i|] eqn:Hi.
  - rewrite column_of_records by (unfold known; now rewrite Hi).
    f_equal. apply map_ext_in. intros r Hr. unfold raw_date.
    destruct (field "date" r); [reflexivity|]. now rewrite <- Hknown.
  - unfold set_column_scalar.
    rewrite column_set_column
      by (try apply of_records_well_formed; apply length_map).
    f_equal. unfold of_records at 1. cbn [rows]. rewrite map_map.
    apply map_ext_in. intros r Hr. unfold raw_date.
    destruct (field "date" r) as [v|] eqn:Hf; [|now rewrite <- Hknown].
    exfalso.
    assert (Hex : existsb (has_field "date") records = true).
    { apply existsb_exists. exists r. split; [assumption|].
      unfold has_field. now rewrite Hf. }
    congruence.
Qed.

Lemma drop_duplicates_last_dates (i : nat) (rows : list (list pyval))
    (d : string) :
  In d (dates i (drop_duplicates_last i rows)) <-> In d (dates i rows).
Proof.
  induction rows as [|r rest IH]; simpl; [tauto|].
  destruct (existsb _ rest) eqn:He; simpl; rewrite IH; [|tauto].
  apply existsb_date in He. split; [tauto|]. intros [<-|H]; auto.
Qed.

Lemma sort_by_date_dates (i : nat) (rows : list (list pyval)) (d : string) :
  In d (dates i (sort_by_date i rows)) <-> In d (dates i rows).
Proof.
  unfold dates. rewrite !in_map_iff.
  split; intros (r & Hr & Hin); exists r; (split; [assumption|]);
    apply sort_by_date_In in Hin || apply sort_by_date_In; assumption.
Qed.

Lemma Ret_inj {A} (a b : A) : Ret a = Ret b -> a = b.
Proof. now intros [= ->]. Qed.

Lemma column_by_index (c : string) (df : DataFrame) (i : nat) :
  index_of c (columns df) = Some i ->
  column c df = Ret (map (fun row => cell row i) (rows df)).
Proof. unfold column. now intros ->. Qed.

(** Row [k] of the prepared frame comes from record [k], and its date cell
    is the record's raw date. *)
Lemma prepared_rows_records parse_float (records : list record) (i k : nat) :
  index_of "date" (columns (prepare parse_float records)) = Some i ->
  (forall row, rows (prepare parse_float records) !! k = Some row ->
     exists r, records !! k = Some r /\ cell row i = raw_date records r)
  /\ (forall r, records !! k = Some r ->
        exists row, rows (prepare parse_float records) !! k = Some row
                    /\ cell row i = raw_date records r).
Proof.
  intros Hi. pose proof (prepare_date_column parse_float records) as Hcol.
  rewrite (column_by_index _ _ _ Hi) in Hcol. apply Ret_inj in Hcol.
  revert Hcol. generalize (rows (prepare parse_float records)) as rws.
  generalize (raw_date records) as date_of. intros date_of rws Hcol.
  apply (f_equal (fun l => l !! k)) in Hcol. rewrite !list_lookup_fmap in Hcol.
  split.
  - intros row Hrow. rewrite Hrow in Hcol.
    destruct (records !! k) as [r|]; [|discriminate].
    injection Hcol as Hcol. eauto.
  - intros r Hr. rewrite Hr in Hcol.
    destruct (rws !! k) as [row|]; [|discriminate].
    injection Hcol as Hcol. eauto.
Qed.

Lemma prepared_rows_wide parse_float (records : list record) (i : nat) :
  index_of "date" (columns (prepare parse_float records)) = Some i ->
  Forall (fun row => (i < List.length row)%nat)
    (rows (prepare parse_float records)).
Proof.
  intros Hi. apply index_of_lt in Hi.
  eapply Forall_impl; [apply prepare_well_formed|].
  intros row Hrow. cbv beta in Hrow. lia.
Qed.

(** The specification of the rows kept from an input whose row [k] is
    record [k] with date cell [date_of r]. *)
Lemma kept_rows_by_record to_datetime (i : nat) (records : list record)
    (date_of : record -> pyval) (input : list (list pyval)) :
  Forall (fun row => (i < List.length row)%nat) input ->
  (forall k,
     (forall row, input !! k = Some row ->
        exists r, records !! k = Some r /\ cell row i = date_of r)
     /\ (forall r, records !! k = Some r ->
           exists row, input !! k = Some row /\ cell row i = date_of r)) ->
  forall kept,
    kept = sort_by_date i (drop_duplicates_last i (parse_dates to_datetime i input)) ->
    StronglySorted str_lt (dates i kept)
    /\ List.NoDup (dates i kept)
    /\ (forall out, In out kept -> cell out i = VStr (date_key i out))
    /\ (forall d,
          In d (dates i kept)
          <-> exists r ts,
                In r records /\ to_datetime (date_of r) = Some ts
                /\ d = strftime_ymd ts)
    /\ (forall out,
          In out kept
          <-> exists k r row ts,
                records !! k = Some r /\ input !! k = Some row
                /\ to_datetime (date_of r) = Some ts
                /\ out = <[i := VStr (strftime_ymd ts)]> row
                /\ forall k' r' ts',
                     (k < k')%nat -> records !! k' = Some r' ->
                     to_datetime (date_of r') = Some ts' ->
                     strftime_ymd ts' <> strftime_ymd ts).
Proof.
  intros Hwide Hrec kept ->.
  assert (Hlen : forall k row, input !! k = Some row -> (i < List.length row)%nat).
  { intros k row Hk. rewrite Forall_forall in Hwide. apply Hwide.
    eapply list_elem_of_lookup_2; eauto. }
  split_and!.
  - apply sorted_NoDup_strict.
    + apply sort_by_date_sorted.
    + apply sort_by_date_NoDup, drop_duplicates_last_NoDup.
  - apply sort_by_date_NoDup, drop_duplicates_last_NoDup.
  - intros out Hout. rewrite sort_by_date_In in Hout.
    exact (kept_rows_date to_datetime i input out Hwide Hout).
  - intros d. rewrite sort_by_date_dates, drop_duplicates_last_dates.
    unfold dates, parse_dates. rewrite in_map_iff. split.
    + intros (out & <- & Hout).
      apply list_elem_of_In, list_elem_of_omap in Hout as (row & Hrow & Hst).
      apply list_elem_of_lookup_1 in Hrow as [k Hk].
      destruct (stamp_row_date _ _ _ _ (Hlen _ _ Hk) Hst)
        as (ts & Hts & -> & Hkey).
      destruct (proj1 (Hrec k) row Hk) as (r & Hr & Hcell).
      exists r, ts. split_and!.
      * apply list_elem_of_In. eapply list_elem_of_lookup_2; eauto.
      * now rewrite <- Hcell.
      * exact Hkey.
    + intros (r & ts & Hr & Hts & ->).
      apply list_elem_of_In, list_elem_of_lookup_1 in Hr as [k Hk].
      destruct (proj2 (Hrec k) r Hk) as (row & Hrow & Hcell).
      exists (<[i := VStr (strftime_ymd ts)]> row). split.
      * unfold date_key. rewrite cell_insert_same by (eapply Hlen; eauto).
        reflexivity.
      * apply list_elem_of_In, list_elem_of_omap. exists row. split.
        -- eapply list_elem_of_lookup_2; eauto.
        -- unfold stamp_row. rewrite Hcell, Hts. reflexivity.
  - intros out. rewrite sort_by_date_In.
    rewrite (kept_rows_spec to_datetime i input out Hwide). split.
    + intros (k & row & ts & Hk & Hts & -> & Hlast).
      destruct (proj1 (Hrec k) row Hk) as (r & Hr & Hcell).
      exists k, r, row, ts. split_and!; auto.
      * now rewrite <- Hcell.
      * intros k' r' ts' Hlt Hr' Hts'.
        destruct (proj2 (Hrec k') r' Hr') as (row' & Hrow' & Hcell').
        apply (Hlast k' row' ts'); auto. now rewrite Hcell'.
    + intros (k & r & row & ts & Hr & Hk & Hts & -> & Hlast).
      destruct (proj1 (Hrec k) row Hk) as (r1 & Hr1 & Hcell).
      rewrite Hr in Hr1. injection Hr1 as <-.
      exists k, row, ts. split_and!; auto.
      * now rewrite Hcell.
      * intros k' row' ts' Hlt Hrow' Hts'.
        destruct (proj1 (Hrec k') row' Hrow') as (r' & Hr' & Hcell').
        apply (Hlast k' r' ts'); auto. now rewrite <- Hcell'.
Qed.

(** C5: the normalised series.  With [i] the date column: the dates are
    strictly ascending, hence unique; every date is a string; the dates are
    the printed dates of the records whose date parses; and the rows are
    exactly, for each such date, the last record of that date in input
    order, a record whose date does not parse giving no row. *)
Theorem normalize_dates_ascending_last_wins
    (to_datetime : pyval -> option Timestamp)
    (parse_float : string -> option Num.fl) (records : list record) :
  let df := normalize_ohlcv to_datetime parse_float records in
  let prepared := prepare parse_float records in
  let parsed := fun r : record => to_datetime (raw_date records r) in
  exists i : nat,
    index_of "date" (columns prepared) = Some i
    /\ (records <> [] -> columns df = columns prepared)
    /\ StronglySorted str_lt (dates i (rows df))
    /\ List.NoDup (dates i (rows df))
    /\ (forall out, In out (rows df) -> cell out i = VStr (date_key i out))
    /\ (forall d,
          In d (dates i (rows df))
          <-> exists r ts,
                In r records /\ parsed r = Some ts /\ d = strftime_ymd ts)
    /\ (forall out,
          In out (rows df)
          <-> exists k r row ts,
                records !! k = Some r /\ rows prepared !! k = Some row
                /\ parsed r = Some ts
                /\ out = <[i := VStr (strftime_ymd ts)]> row
                /\ forall k' r' ts',
                     (k < k')%nat -> records !! k' = Some r' ->
                     parsed r' = Some ts' ->
                     strftime_ymd ts' <> strftime_ymd ts).
Proof.
  cbv zeta.
  destruct (prepare_has_date parse_float records) as [i Hi].
  exists i. split; [exact Hi|].
  assert (Hcase : records = [] \/ records <> [])
    by (destruct records; [left; reflexivity | right; discriminate]).
  destruct Hcase as [Hnil|Hne].
  { (* no record: the empty frame *)
    subst records. clear Hi.
    unfold normalize_ohlcv, empty_frame. cbn [rows columns dates map].
    split_and!; try (intros; contradiction).
    - constructor.
    - constructor.
    - intros d. split; [intros []|]. intros (r & ts & [] & _).
    - intros out. split; [intros []|].
      intros (k & r & row & ts & Hk & _). destruct k; discriminate. }
  pose proof (prepared_rows_wide parse_float records i Hi) as Hwide.
  pose proof (fun k => prepared_rows_records parse_float records i k Hi)
    as Hrec.
  rewrite (normalize_ohlcv_rows to_datetime parse_float records i Hne Hi).
  clear Hi Hne. revert Hwide Hrec.
  generalize (raw_date records) as date_of.
  generalize (prepare parse_float records) as prepared.
  intros prepared date_of Hwide Hrec. cbn [rows columns].
  split; [reflexivity|].
  exact (kept_rows_by_record to_datetime i records date_of (rows prepared)
           Hwide Hrec _ eq_refl).
Qed.

(** The normaliser on the records of four days' quotes, one date given
    twice and one that does not parse, with a parser for ISO dates. *)
Definition digit_value (c : ascii) : option Z :=
  let n := Z.of_nat (nat_of_ascii c) in
  if (48 <=? n) && (n <=? 57) then Some (n - 48) else None.

Fixpoint number (acc : Z) (s : string) : option Z :=
  match s with
  | EmptyString => Some acc
  | String c rest =>
      match digit_value c with
      | Some d => number (10 * acc + d) rest
      | None => None
      end
  end.

Definition iso_date (v : pyval) : option Timestamp :=
  match v with
  | VStr s =>
      if (String.length s =? 10)%nat
         && String.eqb (String.substring 4 1 s) "-"
         && String.eqb (String.substring 7 1 s) "-"
      then
        match number 0 (String.substring 0 4 s),
              number 0 (String.substring 5 2 s),
              number 0 (String.substring 8 2 s) with
        | Some y, Some m, Some d =>
            Some {| ts_year := y; ts_month := m; ts_day := d |}
        | _, _, _ => None
        end
      else None
  | _ => None
  end.

Definition quote (date : string) (close : Z) : record :=
  [("date", VStr date); ("close", VNum (Num.of_Z close))].

Example normalize_four_quotes :
  normalize_ohlcv iso_date (fun _ => None)
    [quote "2024-01-03" 12; quote "2024-01-01" 9; quote "n/a" 5;
     quote "2024-01-03" 11]
  = {| columns := ["date"; "close"; "open"; "high"; "low"; "volume"];
       rows := [ [VStr "2024-01-01"; VNum (Num.Fin 9); VNum Num.zero;
                  VNum Num.zero; VNum Num.zero; VNum Num.zero];
                 [VStr "2024-01-03"; VNum (Num.Fin 11); VNum Num.zero;
                  VNum Num.zero; VNum Num.zero; VNum Num.zero] ] |}.
Proof. vm_compute. reflexivity. Qed.

End ProcessingFacts.

(** ** The stock service: the history request when acquisition gives nothing *)

Module StockServiceFacts.
Import Py Store Cache Acquisition StockService CacheFacts AcquisitionFacts.
Local Open Scope list_scope.

(** The commands that write a cache entry, and the calls into the
    processing layer. *)
Definition cache_write (ev : event) : bool :=
  match ev with
  | EvRedisSetex _ | EvMongoUpdate _ | EvFileWrite _ | EvMakedirs _ => true
  | _ => false
  end.

Definition processing_call (ev : event) : bool :=
  match ev with
  | EvCall _ => true
  | _ => false
  end.

(** Events among which there is neither of them. *)
Definition quiet (evs : list event) : bool :=
  forallb (fun ev => negb (cache_write ev) && negb (processing_call ev)) evs.

Lemma quiet_app (a b : list event) :
  quiet a = true -> quiet b = true -> quiet (a ++ b) = true.
Proof. unfold quiet. rewrite forallb_app. intros -> ->. reflexivity. Qed.

Lemma quiet_providers (names : list string) :
  quiet (map EvProvider names) = true.
Proof. induction names as [|n names IH]; [reflexivity | exact IH]. Qed.

(** A computation that logs quiet events only, whether it returns or
    raises. *)
Definition quietly {A} (m : M A) : Prop :=
  forall w, exists (r : result A) (w' : World) (evs : list event),
    m w = (r, w') /\ trace w' = trace w ++ evs /\ quiet evs = true.

Lemma quietly_ret {A} (a : A) : quietly (ret a).
Proof.
  intros w. exists (Ret a), w, []. rewrite app_nil_r.
  split_and!; reflexivity.
Qed.

Lemma quietly_bind {A B} (m : M A) (k : A -> M B) :
  quietly m -> (forall a, quietly (k a)) -> quietly (bind m k).
Proof.
  intros Hm Hk w. destruct (Hm w) as ([a|e] & w1 & evs1 & E1 & T1 & Q1).
  - destruct (Hk a w1) as (b & w2 & evs2 & E2 & T2 & Q2).
    exists b, w2, (evs1 ++ evs2). rewrite (bind_ret_eq _ _ _ _ _ E1).
    split_and!; [exact E2 | | now apply quiet_app].
    rewrite T2, T1, app_assoc. reflexivity.
  - exists (Raise e), w1, evs1. rewrite (bind_raise_eq _ _ _ _ _ E1). auto.
Qed.

Ltac quiet_done :=
  do 3 eexists; (split; [reflexivity|]); simpl;
  (split; [first [ reflexivity
                 | rewrite <- !app_assoc; reflexivity
                 | symmetry; apply app_nil_r ]
          | reflexivity ]).

Lemma get_l1_quietly (key : string) : quietly (get_l1 key).
Proof.
  intros w. py_unfold. destruct w as [rd mg f ck pv tr]; simpl.
  destruct rd as [[rdata gf sf df]|]; simpl; [|quiet_done].
  destruct gf; simpl; [quiet_done|].
  destruct (rdata !! key) as [[[v| |] ex]|]; simpl;
    try destruct (ex <=? ck); simpl; quiet_done.
Qed.

Lemma get_l2_quietly (key : string) : quietly (get_l2 key).
Proof.
  intros w. rewrite get_l2_spec. do 3 eexists. split; [reflexivity|].
  split; [symmetry; apply app_nil_r | reflexivity].
Qed.

Lemma get_l3_quietly (cfg : Settings) (key : string) : quietly (get_l3 cfg key).
Proof.
  intros w. py_unfold. generalize (_file_path cfg key) as p. intros p.
  destruct w as [rd mg [files dirs mkf rf wf rmf] ck pv tr]; simpl.
  destruct (bool_decide (is_Some (files !! p)) || bool_decide (p ∈ dirs));
    simpl; [|quiet_done].
  destruct rf; simpl; [quiet_done|].
  destruct (files !! p) as [[v [e|]|]|] eqn:Hp; simpl; try quiet_done.
  destruct (negb (e =? 0) && (e <? ck)); simpl; try quiet_done.
  destruct rmf; simpl; rewrite ?Hp; quiet_done.
Qed.

(** A cache read sends no write command. *)
Lemma get_quietly (cfg : Settings) (ns : string) (parts : list string) :
  quietly (get cfg ns parts).
Proof.
  unfold get. apply quietly_bind; [apply get_l1_quietly|].
  intros [v|]; [apply quietly_ret|].
  apply quietly_bind; [apply get_l2_quietly|].
  intros [v|]; [apply quietly_ret|].
  apply quietly_bind; [apply get_l3_quietly|].
  intros [v|]; apply quietly_ret.
Qed.

(** The provider call of the history request returns normally and only
    logs the providers it called. *)
Lemma fetch_raw_spec (cfg : Settings) (symbol start_date end_date market : string)
    (w : World) :
  exists (res : list record) (names : list string),
    fetch_raw cfg symbol start_date end_date market w
    = (Ret res, logged w (map EvProvider names)).
Proof.
  unfold fetch_raw.
  destruct (String.eqb market "CN").
  { destruct (first_result_spec
                (fun name => _fetch_china_history cfg name symbol start_date end_date)
                (fun pv name => history_answer cfg pv symbol start_date end_date name)
                (fun name w => fetch_china_history_spec cfg name symbol start_date end_date w)
                (provider_candidates cfg) w)
      as (res & called & rest & E & _).
    exists res, called. exact E. }
  destruct (String.eqb market "HK").
  { unfold get_hk_stock_history, try_except, bind, log, modify, gets, of_result,
      ret, logged. simpl.
    destruct (akshare_hk_history _ _ _ _) as [rs|e].
    - exists rs, ["akshare_hk"]. reflexivity.
    - exists [], ["akshare_hk"]. reflexivity. }
  destruct (String.eqb market "US").
  { unfold get_us_stock_history, try_except, bind, log, modify, gets, of_result,
      ret, logged. simpl.
    destruct (yfinance_history _ _ _ _) as [rs|e].
    - exists rs, ["yfinance"]. reflexivity.
    - exists [], ["yfinance"]. reflexivity. }
  exists [], []. simpl. rewrite logged_nil. reflexivity.
Qed.

(** The cache lookup of a request: what it leaves of the tiers. *)
Lemma cached_unless_forced_spec (cfg : Settings) (force_refresh : bool)
    (ns : string) (parts : list string) (w w1 : World) (hit : option pyval) :
  cached_unless_forced cfg force_refresh ns parts w = (Ret hit, w1) ->
  let key := _make_key ns parts in
  let path := _file_path cfg key in
  let l1 := tier1_lookup w key in
  let l2 := tier2_lookup w key in
  let l3 := tier3_lookup w path in
  redis w1 = redis w
  /\ (force_refresh = true -> w1 = w)
  /\ (force_refresh = false ->
      mongo w1 = mongo_after_get w key l1 l2
      /\ fs w1 = fs_after_get w path l1 l2 l3)
  /\ exists evs, trace w1 = trace w ++ evs /\ quiet evs = true.
Proof.
  intros H key path l1 l2 l3. unfold cached_unless_forced in H.
  destruct force_refresh.
  - unfold ret in H. injection H as _ <-.
    split_and!; try reflexivity; try discriminate.
    exists []. now rewrite app_nil_r.
  - destruct (get_quietly cfg ns parts w) as (r & w' & evs & E & Ht & Hq).
    destruct r as [v|e]; [|rewrite (bind_raise_eq _ _ _ _ _ E) in H;
                            discriminate].
    rewrite (bind_ret_eq _ _ _ _ _ E) in H. unfold ret in H.
    injection H as _ <-.
    destruct (get_returned cfg ns parts w w' v E)
      as (_ & (Hr & Hm & Hf & _) & _).
    split_and!; try assumption; try discriminate.
    + intros _. split; assumption.
    + exists evs. split; assumption.
Qed.

(** C7, as the code has it: a history request whose cache lookup gives
    nothing and whose provider call returns no record returns the empty
    list at once.
    No function of the processing layer is called and no cache write is
    sent; the tiers are what the lookup left, that is, unchanged but for an
    expired entry of tier 2 or tier 3 under the key, which the lookup has
    deleted.  With [force_refresh], or with no expired entry under the key,
    the cache is what it was before the call. *)
Theorem empty_acquisition_short_circuits
    (cfg : Settings) (to_datetime : pyval -> option Frame.Timestamp)
    (parse_float : string -> option Num.fl)
    (symbol start_date end_date market : string) (force_refresh : bool)
    (w w1 w2 : World) :
  let parts := [market; symbol; start_date; end_date] in
  let key := _make_key _HISTORY_CACHE_NS parts in
  let path := _file_path cfg key in
  let l1 := tier1_lookup w key in
  let l2 := tier2_lookup w key in
  let l3 := tier3_lookup w path in
  cached_unless_forced cfg force_refresh _HISTORY_CACHE_NS parts w
  = (Ret None, w1) ->
  fetch_raw cfg symbol start_date end_date market w1 = (Ret [], w2) ->
  get_stock_history cfg to_datetime parse_float symbol start_date end_date
    market force_refresh w = (Ret (VList []), w2)
  /\ (exists evs, trace w2 = trace w ++ evs /\ quiet evs = true)
  /\ redis w2 = redis w /\ mongo w2 = mongo w1 /\ fs w2 = fs w1
  /\ (force_refresh = false ->
      mongo w2 = mongo_after_get w key l1 l2
      /\ fs w2 = fs_after_get w path l1 l2 l3)
  /\ (force_refresh = true \/ (l2 <> Expired /\ l3 <> Expired) ->
      mongo w2 = mongo w /\ fs w2 = fs w).
Proof.
  intros parts key path l1 l2 l3 Hhit Hraw.
  destruct (cached_unless_forced_spec cfg force_refresh _HISTORY_CACHE_NS parts
              w w1 None Hhit) as (Hr1 & Hforce & Hlookup & evs1 & Ht1 & Hq1).
  fold key path l1 l2 l3 in Hlookup.
  destruct (fetch_raw_spec cfg symbol start_date end_date market w1)
    as (res & names & E).
  rewrite E in Hraw. injection Hraw as -> <-.
  cbn [logged redis mongo fs trace].
  split_and!.
  - unfold get_stock_history. fold parts.
    rewrite (bind_ret_eq _ _ _ _ _ Hhit).
    rewrite (bind_ret_eq _ _ _ _ _ E). reflexivity.
  - exists (evs1 ++ map EvProvider names). rewrite Ht1, app_assoc.
    split; [reflexivity|]. apply quiet_app; [exact Hq1 | apply quiet_providers].
  - exact Hr1.
  - reflexivity.
  - reflexivity.
  - exact Hlookup.
  - intros [Hf|[H2 H3]].
    + rewrite (Hforce Hf). split; reflexivity.
    + destruct force_refresh; [rewrite (Hforce eq_refl); split; reflexivity|].
      destruct (Hlookup eq_refl) as [Hm Hfs]. rewrite Hm, Hfs.
      unfold mongo_after_get, fs_after_get.
      destruct l1, l2, l3; try contradiction; split; reflexivity.
Qed.

(** A request at a process with no cache entry and providers that answer
    nothing. *)
Definition quiet_request : M pyval :=
  get_stock_history default_settings (fun _ => None) (fun _ => None)
    "600000" "2024-01-01" "2024-01-31" "CN" false.

Definition after_lookup : World :=
  snd (cached_unless_forced default_settings false _HISTORY_CACHE_NS
         ["CN"; "600000"; "2024-01-01"; "2024-01-31"] offline_world).

Definition after_fetch : World :=
  snd (fetch_raw default_settings "600000" "2024-01-01" "2024-01-31" "CN"
         after_lookup).

(** C7 at that request: nothing is cached, every provider answers the
    empty list, and the disk is left as it was. *)
Lemma empty_acquisition_short_circuits_witness :
  cached_unless_forced default_settings false _HISTORY_CACHE_NS
    ["CN"; "600000"; "2024-01-01"; "2024-01-31"] offline_world
  = (Ret None, after_lookup)
  /\ fetch_raw default_settings "600000" "2024-01-01" "2024-01-31" "CN"
       after_lookup = (Ret [], after_fetch)
  /\ quiet_request offline_world = (Ret (VList []), after_fetch)
  /\ fs after_fetch = fs offline_world.
Proof.
  assert (H1 : cached_unless_forced default_settings false _HISTORY_CACHE_NS
                 ["CN"; "600000"; "2024-01-01"; "2024-01-31"] offline_world
               = (Ret None, after_lookup)) by (vm_compute; reflexivity).
  assert (H2 : fetch_raw default_settings "600000" "2024-01-01" "2024-01-31"
                 "CN" after_lookup = (Ret [], after_fetch))
    by (vm_compute; reflexivity).
  split; [exact H1|]. split; [exact H2|].
  pose proof (empty_acquisition_short_circuits default_settings
                (fun _ => None) (fun _ => None)
                "600000" "2024-01-01" "2024-01-31" "CN" false
                offline_world after_lookup after_fetch H1 H2)
    as (Hrun & _ & _ & _ & _ & _ & Hsame).
  split; [exact Hrun|].
  apply Hsame. right. split; vm_compute; discriminate.
Defined.

(** The same request when tier 3 holds an entry of the key that expired
    long ago. *)
Definition stale_path : string :=
  _file_path default_settings
    (_make_key _HISTORY_CACHE_NS ["CN"; "600000"; "2024-01-01"; "2024-01-31"]).

Definition stale_entry : file_content :=
  FDoc (VList [VDict [("date", VStr "2024-01-02"); ("close", VNum (Num.of_Z 10))]])
       (Some 1600000000).

Definition stale_world : World := {|
  redis := None; mongo := None;
  fs := healthy_disk {[ stale_path := stale_entry ]};
  clock := 1700000000; providers := silent_providers; trace := [];
|}.

(** C7, the claim as stated fails: the providers answer nothing and the
    request returns the empty list, yet the cache is not what it was: the
    lookup has removed the expired file. *)
Lemma empty_acquisition_evicts_stale_entry :
  fst (fetch_raw default_settings "600000" "2024-01-01" "2024-01-31" "CN"
         stale_world) = Ret []
  /\ fst (quiet_request stale_world) = Ret (VList [])
  /\ f_files (fs stale_world) !! stale_path = Some stale_entry
  /\ f_files (fs (snd (quiet_request stale_world))) !! stale_path = None
  /\ trace (snd (quiet_request stale_world))
     = [EvFileExists stale_path; EvFileRead stale_path; EvFileRemove stale_path;
        EvProvider "akshare"; EvProvider "tushare"; EvProvider "baostock"].
Proof. split_and!; vm_compute; reflexivity. Qed.

End StockServiceFacts.

(** ** The cache layer: round trips, deletion and the shape of the keys *)

Module CacheMore.
Import Py Store Cache CacheFacts.

(** A world none of whose storage commands fails. *)
Definition healthy (w : World) : bool :=
  match redis w with
  | Some r => negb (r_get_fails r || r_setex_fails r || r_delete_fails r)
  | None => true
  end
  && match mongo w with
     | Some m => negb (m_find_fails m || m_update_fails m || m_delete_fails m)
     | None => true
     end
  && negb (f_makedirs_fails (fs w) || f_read_fails (fs w)
           || f_write_fails (fs w) || f_remove_fails (fs w)).

(** The cache directory can be made and the key's file written: no file
    stands where the directory goes, no directory where the file goes. *)
Definition disk_ready (cfg : Settings) (w : World) (key : string) : bool :=
  bool_decide (f_files (fs w) !! _CACHE_DIR cfg = None)
  && bool_decide (_file_path cfg key ∉ f_dirs (fs w)).

Lemma healthy_redis (w : World) (r : Redis) :
  healthy w = true -> redis w = Some r ->
  r_get_fails r = false /\ r_setex_fails r = false /\ r_delete_fails r = false.
Proof.
  unfold healthy. intros H Hr. rewrite Hr in H.
  apply andb_true_iff in H as [H _]. apply andb_true_iff in H as [H _].
  destruct r as [d [] [] []]; simpl in *; try discriminate; auto.
Qed.

Lemma healthy_mongo (w : World) (m : Mongo) :
  healthy w = true -> mongo w = Some m ->
  m_find_fails m = false /\ m_update_fails m = false /\ m_delete_fails m = false.
Proof.
  unfold healthy. intros H Hm. rewrite Hm in H.
  apply andb_true_iff in H as [H _]. apply andb_true_iff in H as [_ H].
  destruct m as [d [] [] []]; simpl in *; try discriminate; auto.
Qed.

Lemma healthy_fs (w : World) :
  healthy w = true ->
  f_makedirs_fails (fs w) = false /\ f_read_fails (fs w) = false
  /\ f_write_fails (fs w) = false /\ f_remove_fails (fs w) = false.
Proof.
  unfold healthy. intros H.
  apply andb_true_iff in H as [_ H].
  destruct (fs w) as [fl ds [] [] [] []]; simpl in *; try discriminate; auto.
Qed.

(** With Redis connected and healthy, [set] lands in tier 1 and the value
    is readable at once. *)
Lemma set_then_get_redis (cfg : Settings) (value : pyval) (ns : string)
    (parts : list string) (ttl : Z) (w : World) (r : Redis) :
  healthy w = true -> 0 < ttl -> redis w = Some r ->
  exists w1 w2,
    set cfg value ns parts (Some ttl) w = (Ret tt, w1)
    /\ get cfg ns parts w1 = (Ret value, w2).
Proof.
  intros Hh Httl Hr. set (key := _make_key ns parts).
  destruct (healthy_redis w r Hh Hr) as (Hgf & Hsf & _).
  destruct (set_l1_spec key ttl value w) as (w1 & E1 & _ & Hr1 & _ & _ & Hc1).
  assert (Hok : tier1_ok w ttl = true).
  { unfold tier1_ok. rewrite Hr, Hsf. simpl. now apply Z.ltb_lt. }
  rewrite Hok in E1, Hr1.
  destruct (get_spec cfg ns parts w1) as (w2 & G & _).
  exists w1, w2. split.
  - unfold set. fold key. rewrite (bind_ret_eq _ _ _ _ _ E1). reflexivity.
  - rewrite G. f_equal. fold key. unfold get_outcome, tier1_lookup.
    rewrite Hr1. unfold redis_written. rewrite Hr.
    cbn [r_get_fails r_data]. rewrite Hgf, lookup_insert_eq, Hc1.
    destruct (Z.leb_spec (clock w + ttl) (clock w)); [lia | reflexivity].
Qed.

(** Without Redis and with a database connected, [set] raises. *)
Lemma set_raises_without_redis (cfg : Settings) (value : pyval) (ns : string)
    (parts : list string) (ttl : option Z) (w : World) (m : Mongo) :
  redis w = None -> mongo w = Some m ->
  set cfg value ns parts ttl w = (Raise (Exception "NotImplementedError"), w).
Proof.
  intros Hr Hm. unfold set, set_l1. py_unfold. rewrite Hr, Hm. reflexivity.
Qed.

(** What [set] leaves in a healthy world where the write can land: the
    value, readable at once. *)
Lemma set_then_get (cfg : Settings) (value : pyval) (ns : string)
    (parts : list string) (ttl : Z) (w : World) :
  healthy w = true -> 0 < ttl ->
  (redis w = None ->
   mongo w = None /\ disk_ready cfg w (_make_key ns parts) = true) ->
  exists w1 w2,
    set cfg value ns parts (Some ttl) w = (Ret tt, w1)
    /\ get cfg ns parts w1 = (Ret value, w2).
Proof.
  intros Hh Httl Hdisk.
  destruct (redis w) as [r|] eqn:Hr;
    [now apply (set_then_get_redis cfg value ns parts ttl w r)|].
  destruct (Hdisk eq_refl) as [Hm Hready].
  destruct (healthy_fs w Hh) as (Hmk & Hrf & Hwf & _).
  unfold disk_ready in Hready.
  apply andb_true_iff in Hready as [Hd1 Hd2].
  apply bool_decide_eq_true in Hd1. apply bool_decide_eq_true in Hd2.
  apply (set_then_get_same_file cfg value ns ns parts parts ttl w);
    auto; lia.
Qed.

(** A [set] that has returned in a healthy world has left the value
    readable. *)
Lemma set_returned_then_get (cfg : Settings) (value : pyval) (ns : string)
    (parts : list string) (ttl : Z) (w w1 : World) :
  healthy w = true -> 0 < ttl ->
  (redis w = None -> mongo w = None ->
   disk_ready cfg w (_make_key ns parts) = true) ->
  set cfg value ns parts (Some ttl) w = (Ret tt, w1) ->
  exists w2, get cfg ns parts w1 = (Ret value, w2).
Proof.
  intros Hh Httl Hdisk Hset.
  destruct (set_then_get cfg value ns parts ttl w Hh Httl)
    as (w1' & w2 & E & G).
  - intros Hr. destruct (mongo w) as [m|] eqn:Hm; [|auto].
    rewrite (set_raises_without_redis cfg value ns parts (Some ttl) w m Hr Hm)
      in Hset. discriminate.
  - rewrite Hset in E. injection E as <-. eauto.
Qed.

(** X1: a value set with a positive time to live is what a read of the
    same key returns at once, in a world where no storage command fails and
    the write can land: Redis is connected, or neither Redis nor MongoDB is
    and the cache directory and the key's file can be written. *)
Theorem set_get_roundtrip (cfg : Settings) (value : pyval) (ns : string)
    (parts : list string) (ttl : Z) (w : World) :
  healthy w = true -> 0 < ttl ->
  (redis w = None ->
   mongo w = None /\ disk_ready cfg w (_make_key ns parts) = true) ->
  exists w1 w2,
    set cfg value ns parts (Some ttl) w = (Ret tt, w1)
    /\ get cfg ns parts w1 = (Ret value, w2).
Proof.
  intros Hh Httl Hland.
  destruct (set_then_get cfg value ns parts ttl w Hh Httl Hland)
    as (w1 & w2 & E & G).
  exists w1, w2. split; assumption.
Qed.

(** A process with a healthy Redis and a healthy MongoDB, both empty. *)
Definition empty_redis : Redis := {|
  r_data := ∅; r_get_fails := false; r_setex_fails := false;
  r_delete_fails := false;
|}.

Definition empty_mongo : Mongo := {|
  m_data := ∅; m_find_fails := false; m_update_fails := false;
  m_delete_fails := false;
|}.

Definition online_world : World := {|
  redis := Some empty_redis; mongo := Some empty_mongo; fs := healthy_disk ∅;
  clock := 1700000000; providers := silent_providers; trace := [];
|}.

(** X1 with Redis connected, and with no store but the disk. *)
Lemma set_get_roundtrip_witness :
  (exists w1 w2,
     set default_settings (VStr "v") "history" ["CN"; "600000"] (Some 60)
       online_world = (Ret tt, w1)
     /\ get default_settings "history" ["CN"; "600000"] w1 = (Ret (VStr "v"), w2))
  /\ (exists w1 w2,
        set default_settings (VStr "v") "history" ["CN"; "600000"] (Some 60)
          offline_world = (Ret tt, w1)
        /\ get default_settings "history" ["CN"; "600000"] w1
           = (Ret (VStr "v"), w2)).
Proof.
  split.
  - apply (set_get_roundtrip default_settings (VStr "v") "history"
             ["CN"; "600000"] 60 online_world);
      [reflexivity | lia | discriminate].
  - apply (set_get_roundtrip default_settings (VStr "v") "history"
             ["CN"; "600000"] 60 offline_world);
      [reflexivity | lia | intros _; split; vm_compute; reflexivity].
Defined.

(** X2: what [get] returns, other than None, is the value of an entry some
    tier holds under the key and that has not expired. *)
Theorem get_returns_unexpired_entry (cfg : Settings) (ns : string)
    (parts : list string) (w w' : World) (v : pyval) :
  get cfg ns parts w = (Ret v, w') -> v <> VNone ->
  let key := _make_key ns parts in
  (exists r expiry,
     redis w = Some r /\ r_data r !! key = Some (RJson v, expiry)
     /\ clock w < expiry)
  \/ (exists m d,
        mongo w = Some m /\ m_data m !! key = Some d /\ doc_value d = v
        /\ forall e, doc_expires_at d = Some e -> clock w <= e)
  \/ (exists e,
        f_files (fs w) !! _file_path cfg key = Some (FDoc v e)
        /\ forall x, e = Some x -> x = 0 \/ clock w <= x).
Proof.
  intros G Hv key.
  destruct (get_returned cfg ns parts w w' v G) as (Hval & _).
  fold key in Hval.
  assert (Hhit : tier1_lookup w key = Hit v
                 \/ tier2_lookup w key = Hit v
                 \/ tier3_lookup w (_file_path cfg key) = Hit v).
  { destruct (tier1_lookup w key) as [v1| |], (tier2_lookup w key) as [v2| |],
      (tier3_lookup w (_file_path cfg key)) as [v3| |];
      cbn [first_hit] in Hval; subst; auto; contradiction. }
  destruct Hhit as [H|[H|H]].
  - left. unfold tier1_lookup in H.
    destruct (redis w) as [r|]; [|discriminate].
    destruct (r_get_fails r); [discriminate|].
    destruct (r_data r !! key) as [[[x| |] ex]|] eqn:Hk; try discriminate.
    destruct (Z.leb_spec ex (clock w)); [discriminate|].
    injection H as ->. exists r, ex. auto.
  - right. left. unfold tier2_lookup in H.
    destruct (mongo w) as [m|]; [|discriminate].
    destruct (m_find_fails m); [discriminate|].
    destruct (m_data m !! key) as [d|] eqn:Hk; [|discriminate].
    exists m, d. destruct (doc_expires_at d) as [e|].
    + destruct (Z.ltb_spec e (clock w)); [discriminate|].
      injection H as ->. split_and!; auto. intros e' [= <-]. assumption.
    + injection H as ->. split_and!; auto. discriminate.
  - right. right. unfold tier3_lookup in H.
    destruct (f_files (fs w) !! _file_path cfg key) as [[x e|]|];
      try discriminate.
    destruct (f_read_fails (fs w)); [discriminate|].
    exists e. destruct e as [e|].
    + destruct (e =? 0) eqn:He0; simpl in H.
      * apply Z.eqb_eq in He0. injection H as ->.
        split; [reflexivity|]. intros x' [= <-]. auto.
      * destruct (Z.ltb_spec e (clock w)); [discriminate|].
        injection H as ->. split; [reflexivity|]. intros x' [= <-]. auto.
    + injection H as ->. split; [reflexivity | discriminate].
Qed.

Definition cached_quotes : World := {|
  redis := Some {| r_data := {[ "history:CN:600000" := (RJson (VStr "v"), 1700000060) ]};
                   r_get_fails := false; r_setex_fails := false;
                   r_delete_fails := false |};
  mongo := None; fs := healthy_disk ∅;
  clock := 1700000000; providers := silent_providers; trace := [];
|}.

(** X2 on an entry of Redis with a minute to live. *)
Lemma get_returns_unexpired_entry_witness :
  exists r expiry,
    redis cached_quotes = Some r
    /\ r_data r !! "history:CN:600000" = Some (RJson (VStr "v"), expiry)
    /\ clock cached_quotes < expiry.
Proof.
  assert (G : get default_settings "history" ["CN"; "600000"] cached_quotes
              = (Ret (VStr "v"),
                 snd (get default_settings "history" ["CN"; "600000"]
                        cached_quotes))) by (vm_compute; reflexivity).
  assert (N : VStr "v" <> VNone) by discriminate.
  destruct (get_returns_unexpired_entry default_settings "history"
              ["CN"; "600000"] cached_quotes _ (VStr "v") G N)
    as [H|[(m & d & Hm & _)|(e & He & _)]].
  - exact H.
  - discriminate.
  - vm_compute in He. discriminate.
Defined.

(** *** Deletion *)

Definition redis_deleted (w : World) (key : string) : option Redis :=
  match redis w with
  | Some r =>
      if r_delete_fails r then Some r
      else Some {| r_data := base.delete key (r_data r);
                   r_get_fails := r_get_fails r;
                   r_setex_fails := r_setex_fails r;
                   r_delete_fails := r_delete_fails r |}
  | None => None
  end.

Lemma delete_spec (cfg : Settings) (ns : string) (parts : list string)
    (w : World) :
  let key := _make_key ns parts in
  let path := _file_path cfg key in
  exists w',
    Cache.delete cfg ns parts w
    = (match mongo w with
       | Some _ => Raise (Exception "NotImplementedError")
       | None => Ret tt
       end, w')
    /\ clock w' = clock w
    /\ redis w' = redis_deleted w key
    /\ mongo w' = mongo w
    /\ fs w' = match mongo w, f_files (fs w) !! path with
               | None, Some _ => fs_evicted w path
               | _, _ => fs w
               end.
Proof.
  intros key path. unfold Cache.delete. fold key. fold path.
  generalize key as k, path as p. intros k p.
  unfold redis_deleted, fs_evicted. py_unfold.
  destruct w as [rd mg [files dirs mkf rf wf rmf] ck pv tr]; simpl.
  destruct rd as [[rdata gf sf df]|]; simpl; [destruct df; simpl|];
    (destruct mg as [m|]; simpl;
     [eexists; split_and!; reflexivity|]);
    (destruct (files !! p) as [c|] eqn:Hp; simpl;
     [ rewrite ?bool_decide_eq_true_2 by eauto; simpl;
       destruct rmf; simpl; rewrite ?Hp;
       eexists; split_and!; reflexivity
     | rewrite ?bool_decide_eq_false_2 by (intros [? ?]; discriminate); simpl;
       destruct (bool_decide (p ∈ dirs)); simpl;
       [ destruct rmf; simpl; rewrite ?Hp | ];
       eexists; split_and!; reflexivity ]).
Qed.

Lemma get_value (cfg : Settings) (ns : string) (parts : list string)
    (w : World) :
  fst (get cfg ns parts w)
  = get_outcome w (_make_key ns parts) (_file_path cfg (_make_key ns parts)).
Proof. destruct (get_spec cfg ns parts w) as (w' & G & _). now rewrite G. Qed.

(** A deletion, whether it returns or raises, leaves the reads of a key
    with another name and another file as they were. *)
Lemma delete_other_key (cfg : Settings) (ns : string) (parts : list string)
    (ns' : string) (parts' : list string) (w w' : World) (r : result unit) :
  Cache.delete cfg ns parts w = (r, w') ->
  _make_key ns' parts' <> _make_key ns parts ->
  _file_path cfg (_make_key ns' parts') <> _file_path cfg (_make_key ns parts) ->
  fst (get cfg ns' parts' w') = fst (get cfg ns' parts' w).
Proof.
  intros E Hk Hp.
  destruct (delete_spec cfg ns parts w) as (w2 & E2 & Hc & Hr & Hm & Hf).
  rewrite E in E2. injection E2 as _ <-.
  set (key := _make_key ns parts) in *.
  rewrite !get_value. unfold get_outcome.
  set (k := _make_key ns' parts') in *.
  assert (H1 : tier1_lookup w' k = tier1_lookup w k).
  { unfold tier1_lookup. rewrite Hr, Hc. unfold redis_deleted.
    destruct (redis w) as [rd|]; [|reflexivity].
    destruct (r_delete_fails rd); [reflexivity|].
    cbn [r_get_fails r_data]. rewrite lookup_delete_ne by congruence.
    reflexivity. }
  assert (H3 : tier3_lookup w' (_file_path cfg k)
               = tier3_lookup w (_file_path cfg k)).
  { unfold tier3_lookup. rewrite Hf, Hc.
    destruct (mongo w); [reflexivity|].
    destruct (f_files (fs w) !! _file_path cfg key); [|reflexivity].
    unfold fs_evicted. destruct (f_remove_fails (fs w)); [reflexivity|].
    cbn [with_files f_files f_read_fails].
    rewrite lookup_delete_ne by congruence. reflexivity. }
  rewrite H1, H3, Hm. reflexivity.
Qed.

(** X3: [delete] clears the key only when no MongoDB database is
    connected.  With none it returns normally, and when no storage command
    fails a read of the key returns None afterwards.  With a database
    connected the truth test [if db:] raises NotImplementedError after the
    command to Redis: the call raises, tier 2 keeps its entry and the file
    of tier 3 is never looked at.  In both cases a key with another name
    and another file reads as before. *)
Theorem delete_clears_unless_mongo_connected (cfg : Settings) (ns : string)
    (parts : list string) (w : World) :
  let key := _make_key ns parts in
  (mongo w = None ->
   exists w',
     Cache.delete cfg ns parts w = (Ret tt, w')
     /\ (healthy w = true -> fst (get cfg ns parts w') = Ret VNone))
  /\ (forall m, mongo w = Some m ->
      exists w',
        Cache.delete cfg ns parts w
        = (Raise (Exception "NotImplementedError"), w')
        /\ redis w' = redis_deleted w key
        /\ mongo w' = mongo w /\ fs w' = fs w)
  /\ (forall r w' ns' parts',
        Cache.delete cfg ns parts w = (r, w') ->
        _make_key ns' parts' <> key ->
        _file_path cfg (_make_key ns' parts') <> _file_path cfg key ->
        fst (get cfg ns' parts' w') = fst (get cfg ns' parts' w)).
Proof.
  intros key.
  destruct (delete_spec cfg ns parts w) as (w' & E & Hc & Hr & Hm & Hf).
  fold key in Hr, Hf.
  split_and!.
  - intros Hmw. rewrite Hmw in E, Hf. exists w'. split; [exact E|].
    intros Hh. rewrite get_value. fold key. unfold get_outcome.
    assert (H1 : tier1_lookup w' key = Miss).
    { unfold tier1_lookup. rewrite Hr. unfold redis_deleted.
      destruct (redis w) as [r|] eqn:Hrw; [|reflexivity].
      destruct (healthy_redis w r Hh Hrw) as (Hg & _ & Hd).
      rewrite Hd. cbn [r_get_fails r_data]. rewrite Hg, lookup_delete_eq.
      reflexivity. }
    assert (H3 : tier3_lookup w' (_file_path cfg key) = Miss).
    { unfold tier3_lookup. rewrite Hf.
      destruct (healthy_fs w Hh) as (_ & _ & _ & Hrm).
      destruct (f_files (fs w) !! _file_path cfg key) eqn:Hp.
      - unfold fs_evicted. rewrite Hrm. cbn [with_files f_files].
        rewrite lookup_delete_eq. reflexivity.
      - rewrite Hp. reflexivity. }
    rewrite H1, H3, Hm, Hmw. reflexivity.
  - intros m Hmw. rewrite Hmw in E, Hf. exists w'. auto.
  - intros r w2 ns' parts' E' Hk Hp.
    exact (delete_other_key cfg ns parts ns' parts' w w2 r E' Hk Hp).
Qed.

(** *** Keys *)

Fixpoint has_char (c : ascii) (s : string) : bool :=
  match s with
  | EmptyString => false
  | String c' rest => Ascii.eqb c' c || has_char c rest
  end.

Definition colon_free (l : list string) : Prop :=
  Forall (fun s => has_char ":" s = false) l.

Lemma has_char_app (c : ascii) (s t : string) :
  has_char c (s +:+ t) = has_char c s || has_char c t.
Proof.
  induction s as [|a s IH]; [reflexivity|].
  change (String a s +:+ t) with (String a (s +:+ t)).
  cbn [has_char]. rewrite IH. now rewrite orb_assoc.
Qed.

Lemma app_colon_inj (p p' a b : string) :
  has_char ":" p = false -> has_char ":" p' = false ->
  p +:+ String ":" a = p' +:+ String ":" b -> p = p' /\ a = b.
Proof.
  revert p'. induction p as [|c p IH]; intros [|c' p'] Hp Hp' E.
  - injection E as <-. auto.
  - change (String c' p' +:+ String ":" b)
      with (String c' (p' +:+ String ":" b)) in E.
    change ("" +:+ String ":" a) with (String ":" a) in E.
    injection E as <- _. cbn [has_char] in Hp'. rewrite Ascii.eqb_refl in Hp'.
    discriminate.
  - change (String c p +:+ String ":" a)
      with (String c (p +:+ String ":" a)) in E.
    change ("" +:+ String ":" b) with (String ":" b) in E.
    injection E as -> _. cbn [has_char] in Hp. rewrite Ascii.eqb_refl in Hp.
    discriminate.
  - change (String c p +:+ String ":" a)
      with (String c (p +:+ String ":" a)) in E.
    change (String c' p' +:+ String ":" b)
      with (String c' (p' +:+ String ":" b)) in E.
    injection E as <- E. cbn [has_char] in Hp, Hp'.
    apply orb_false_iff in Hp as [_ Hp]. apply orb_false_iff in Hp' as [_ Hp'].
    destruct (IH p' Hp Hp' E) as [<- <-]. auto.
Qed.

Lemma append_assoc (s t u : string) : (s +:+ t) +:+ u = s +:+ (t +:+ u).
Proof.
  induction s as [|c s IH]; [reflexivity|].
  change ((String c s +:+ t) +:+ u) with (String c ((s +:+ t) +:+ u)).
  now rewrite IH.
Qed.

Lemma join_cons2 (p q : string) (rest : list string) :
  Str.join ":" (p :: q :: rest) = p +:+ String ":" (Str.join ":" (q :: rest)).
Proof. reflexivity. Qed.

(** Joining with colons loses nothing when no part holds a colon. *)
Lemma join_colon_inj (l l' : list string) :
  l <> [] -> l' <> [] -> colon_free l -> colon_free l' ->
  Str.join ":" l = Str.join ":" l' -> l = l'.
Proof.
  revert l'. induction l as [|p l IH]; intros l' Hl Hl' Hc Hc' E;
    [contradiction|].
  destruct l' as [|p' l']; [contradiction|].
  apply Forall_cons in Hc as [Hp Hc]. apply Forall_cons in Hc' as [Hp' Hc'].
  destruct l as [|q l], l' as [|q' l'].
  - simpl in E. now subst.
  - rewrite join_cons2 in E. simpl in E. subst p.
    rewrite has_char_app in Hp. cbn [has_char] in Hp.
    rewrite Ascii.eqb_refl, orb_true_r in Hp. discriminate.
  - rewrite join_cons2 in E. simpl in E. subst p'.
    rewrite has_char_app in Hp'. cbn [has_char] in Hp'.
    rewrite Ascii.eqb_refl, orb_true_r in Hp'. discriminate.
  - rewrite !join_cons2 in E.
    destruct (app_colon_inj _ _ _ _ Hp Hp' E) as [<- E'].
    f_equal. apply IH; auto; discriminate.
Qed.

(** X4: two requests whose namespace and parts hold no colon and whose
    joined key has at most 200 characters share a key only when they are the
    same request. *)
Theorem make_key_injective_without_colons
    (ns ns' : string) (parts parts' : list string) :
  colon_free (ns :: parts) -> colon_free (ns' :: parts') ->
  Str.len (Str.join ":" (ns :: parts)) <= 200 ->
  Str.len (Str.join ":" (ns' :: parts')) <= 200 ->
  _make_key ns parts = _make_key ns' parts' ->
  ns = ns' /\ parts = parts'.
Proof.
  intros Hc Hc' Hl Hl' E.
  rewrite !CacheKeyFacts.make_key_short in E by assumption.
  apply join_colon_inj in E; try assumption; try discriminate.
  injection E as <- <-. auto.
Qed.

(** X4 on the key of a history request. *)
Lemma make_key_injective_without_colons_witness :
  "history" = "history"
  /\ ["CN"; "600000"; "2024-01-01"; "2024-01-31"]
     = ["CN"; "600000"; "2024-01-01"; "2024-01-31"].
Proof.
  apply (make_key_injective_without_colons "history" "history"
           ["CN"; "600000"; "2024-01-01"; "2024-01-31"]
           ["CN"; "600000"; "2024-01-01"; "2024-01-31"]).
  - repeat constructor.
  - repeat constructor.
  - vm_compute. discriminate.
  - vm_compute. discriminate.
  - reflexivity.
Defined.

(** X5: a colon inside a part is not told from the separator: the parts
    [p; q] and the one part [p:q] have the same key, hashed or not. *)
Theorem make_key_colon_collision (ns p q : string) (rest : list string) :
  _make_key ns (p :: q :: rest) = _make_key ns ((p +:+ ":" +:+ q) :: rest)
  /\ p :: q :: rest <> (p +:+ ":" +:+ q) :: rest.
Proof.
  assert (Hraw : Str.join ":" (ns :: p :: q :: rest)
                 = Str.join ":" (ns :: (p +:+ ":" +:+ q) :: rest)).
  { rewrite (join_cons2 ns p), (join_cons2 ns (p +:+ ":" +:+ q)).
    f_equal. f_equal. destruct rest as [|r rest]; [reflexivity|].
    rewrite (join_cons2 p q), (join_cons2 q r), (join_cons2 (p +:+ ":" +:+ q) r).
    rewrite append_assoc. reflexivity. }
  split.
  - unfold _make_key. rewrite Hraw. reflexivity.
  - intros E. apply (f_equal (@List.length string)) in E. simpl in E. lia.
Qed.

End CacheMore.

(** ** The acquisition layer: the stock list, and Tushare without a token *)

Module AcquisitionMore.
Import Py Acquisition AcquisitionFacts.
Local Open Scope list_scope.

(** What the provider called [name] answers to a request for the list. *)
Definition list_answer (cfg : Settings) (pv : Providers) (name : string)
  : result (list record) :=
  if String.eqb name "akshare" then akshare_list pv
  else if String.eqb name "tushare"
  then if String.eqb (TUSHARE_TOKEN cfg) ""
       then Raise (Exception "RuntimeError")
       else tushare_list pv
  else if String.eqb name "baostock" then baostock_list pv
  else Ret [].

Lemma fetch_china_list_spec (cfg : Settings) (name : string) (w : World) :
  _fetch_china_list cfg name w
  = (list_answer cfg (providers w) name, logged w [EvProvider name]).
Proof.
  unfold _fetch_china_list, list_answer, _akshare_stock_list,
    _tushare_stock_list, _baostock_stock_list, logged.
  unfold bind, log, modify, gets, of_result, ret, raise. simpl.
  destruct (String.eqb name "akshare").
  { destruct (akshare_list _); reflexivity. }
  destruct (String.eqb name "tushare").
  { destruct (String.eqb (TUSHARE_TOKEN cfg) ""); [reflexivity|].
    destruct (tushare_list _); reflexivity. }
  destruct (String.eqb name "baostock"); [|reflexivity].
  destruct (baostock_list _); reflexivity.
Qed.

(** X6: the stock list of the Chinese market fails over like the history:
    the candidates, default first, are called in order, each at most once;
    the first list that is neither an exception nor empty is returned; when
    every candidate raises or answers nothing the result is the empty list;
    the call never raises. *)
Theorem china_list_failover (cfg : Settings) (w : World) :
  let candidates := provider_candidates cfg in
  let answer := list_answer cfg (providers w) in
  exists (res : list record) (called rest : list string),
    get_china_stock_list cfg w = (Ret res, logged w (map EvProvider called))
    /\ candidates = called ++ rest
    /\ List.NoDup called
    /\ ((res <> []
         /\ exists before winner,
             called = before ++ [winner]
             /\ answer winner = Ret res
             /\ Forall (fun name => skipped (answer name)) before)
        \/ (res = [] /\ called = candidates
            /\ Forall (fun name => skipped (answer name)) candidates)).
Proof.
  intros candidates answer.
  destruct (provider_candidates_shape cfg) as (_ & _ & Hnd & _).
  destruct (first_result_spec (_fetch_china_list cfg)
              (fun pv name => list_answer cfg pv name)
              (fun name w => fetch_china_list_spec cfg name w)
              candidates w)
    as (res & called & rest & E & Hc & Hcases).
  exists res, called, rest.
  split; [exact E|]. split; [exact Hc|]. split.
  - fold candidates in Hnd. rewrite Hc in Hnd.
    exact (NoDup_app_remove_r _ _ Hnd).
  - destruct Hcases as [Hwin|(Hres & Hrest & Hall)]; [left; exact Hwin|].
    right. subst rest. rewrite app_nil_r in Hc. subst called.
    split; [exact Hres|]. split; [reflexivity | exact Hall].
Qed.

(** X7: without a Tushare token no answer of Tushare is ever used: the
    history returned is empty, or it is what AKShare or BaoStock answered. *)
Theorem history_without_tushare_token
    (cfg : Settings) (symbol start_date end_date : string) (w w' : World)
    (res : list record) :
  TUSHARE_TOKEN cfg = "" ->
  get_china_stock_history cfg symbol start_date end_date w = (Ret res, w') ->
  res = []
  \/ akshare_history (providers w) symbol start_date end_date = Ret res
  \/ baostock_history (providers w) symbol start_date end_date = Ret res.
Proof.
  intros Htok Hrun.
  destruct (first_result_spec
              (fun name => _fetch_china_history cfg name symbol start_date end_date)
              (fun pv name => history_answer cfg pv symbol start_date end_date name)
              (fun name w => fetch_china_history_spec cfg name symbol start_date end_date w)
              (provider_candidates cfg) w)
    as (res' & called & rest & E & _ & Hcases).
  unfold get_china_stock_history in Hrun. rewrite E in Hrun.
  injection Hrun as <- _.
  destruct Hcases as [(Hne & before & winner & _ & Hw & _)|(-> & _)];
    [|left; reflexivity].
  right. unfold history_answer in Hw. rewrite Htok in Hw.
  destruct (String.eqb winner "akshare"); [left; exact Hw|].
  destruct (String.eqb winner "tushare"); [discriminate|].
  destruct (String.eqb winner "baostock"); [right; exact Hw|].
  injection Hw as <-. contradiction.
Qed.

(** Providers of which only Tushare has records. *)
Definition tushare_only : Providers := {|
  akshare_history := fun _ _ _ => Raise (Exception "ConnectionError");
  tushare_history := fun _ _ _ => Ret [[("date", VStr "2024-01-02")]];
  baostock_history := fun _ _ _ => Ret [];
  akshare_list := Ret [];
  tushare_list := Ret [[("symbol", VStr "600000.SH")]];
  baostock_list := Ret [];
  akshare_hk_history := fun _ _ _ => Ret [];
  yfinance_history := fun _ _ _ => Ret [];
|}.

Definition tushare_world : World := {|
  redis := None; mongo := None; fs := CacheFacts.healthy_disk ∅;
  clock := 1700000000; providers := tushare_only; trace := [];
|}.

(** X7 where Tushare alone has the records: nothing is returned. *)
Lemma history_without_tushare_token_witness :
  fst (get_china_stock_history default_settings "600000" "2024-01-01"
         "2024-01-31" tushare_world) = Ret []
  /\ ([] = ([] : list record)
      \/ akshare_history tushare_only "600000" "2024-01-01" "2024-01-31"
         = Ret []
      \/ baostock_history tushare_only "600000" "2024-01-01" "2024-01-31"
         = Ret []).
Proof.
  split; [vm_compute; reflexivity|].
  apply (history_without_tushare_token default_settings "600000" "2024-01-01"
           "2024-01-31" tushare_world
           (snd (get_china_stock_history default_settings "600000"
                   "2024-01-01" "2024-01-31" tushare_world)) []).
  - reflexivity.
  - vm_compute. reflexivity.
Defined.

End AcquisitionMore.

(** ** The processing layer: the shape of a normalised frame, the date
       filter, the price fill *)

Module ProcessingMore.
Import Py Frame Processing FrameFacts ProcessingFacts.
#[local] Existing Instance date_le_dec.

(** *** The columns of the prepared frame *)

Lemma fold_ensure_keeps (cs : list string) (df : DataFrame) (c : string)
    (i : nat) :
  index_of c (columns df) = Some i ->
  index_of c (columns (fold_left ensure_column cs df)) = Some i.
Proof.
  revert df. induction cs as [|c' cs IH]; intros df Hi; [exact Hi|].
  simpl. apply IH. now apply ensure_column_keeps.
Qed.

Lemma fold_ensure_has (cs : list string) (df : DataFrame) (c : string) :
  In c cs ->
  exists i, index_of c (columns (fold_left ensure_column cs df)) = Some i.
Proof.
  revert df. induction cs as [|c' cs IH]; intros df; [intros []|].
  intros [->|Hin]; simpl.
  - destruct (ensure_column_has df c) as [i Hi]. exists i.
    now apply fold_ensure_keeps.
  - now apply IH.
Qed.

Lemma fold_coerce_columns parse_float (cs : list string) (df : DataFrame) :
  columns (fold_left (coerce_column parse_float) cs df) = columns df.
Proof.
  revert df. induction cs as [|c cs IH]; intros df; [reflexivity|].
  simpl. now rewrite IH, coerce_column_columns.
Qed.

Lemma prepare_has_required parse_float (records : list record) (c : string) :
  In c required -> has_column c (prepare parse_float records) = true.
Proof.
  intros Hc. unfold has_column, prepare. cbv zeta.
  rewrite fold_coerce_columns.
  destruct (fold_ensure_has required (of_records records) c Hc) as [i ->].
  reflexivity.
Qed.

(** *** Numeric columns *)

(** The cells of column [j] are floats, none of them NaN. *)
Definition numeric_at (j : nat) (rws : list (list pyval)) : Prop :=
  Forall (fun row => exists x, cell row j = VNum x /\ Num.is_nan x = false) rws.

Lemma fillna_not_nan (x : Num.fl) : Num.is_nan (fillna Num.zero x) = false.
Proof. unfold fillna. destruct x; reflexivity. Qed.

Lemma coerce_column_numeric parse_float (df : DataFrame) (c : string)
    (j : nat) :
  well_formed df -> index_of c (columns df) = Some j ->
  numeric_at j (rows (coerce_column parse_float df c)).
Proof.
  intros Hwf Hj. unfold coerce_column, has_column, map_column. rewrite Hj.
  cbn [rows]. unfold numeric_at. apply Forall_map.
  eapply Forall_impl; [exact Hwf|]. intros row Hrow. cbv beta in Hrow.
  apply index_of_lt in Hj.
  rewrite cell_insert_same by lia. eexists. split; [reflexivity|].
  apply fillna_not_nan.
Qed.

Lemma coerce_column_keeps_numeric parse_float (df : DataFrame) (c : string)
    (j : nat) :
  numeric_at j (rows df) ->
  numeric_at j (rows (coerce_column parse_float df c)).
Proof.
  intros Hn. unfold coerce_column, has_column, map_column.
  destruct (index_of c (columns df)) as [i|]; [|exact Hn].
  cbn [rows]. unfold numeric_at in *. apply Forall_map.
  eapply Forall_impl; [exact Hn|]. intros row (x & Hx & Hnan). cbv beta.
  destruct (Nat.eq_dec i j) as [->|Hij].
  - destruct (Nat.lt_ge_cases j (List.length row)) as [Hlt|Hge].
    + rewrite cell_insert_same by assumption. eexists.
      split; [reflexivity | apply fillna_not_nan].
    + rewrite list_insert_ge by lia. eauto.
  - rewrite cell_insert_other by assumption. eauto.
Qed.

Lemma fold_coerce_keeps_numeric parse_float (cs : list string)
    (df : DataFrame) (j : nat) :
  numeric_at j (rows df) ->
  numeric_at j (rows (fold_left (coerce_column parse_float) cs df)).
Proof.
  revert df. induction cs as [|c cs IH]; intros df Hn; [exact Hn|].
  simpl. apply IH. now apply coerce_column_keeps_numeric.
Qed.

Lemma fold_coerce_well_formed parse_float (cs : list string) (df : DataFrame) :
  well_formed df -> well_formed (fold_left (coerce_column parse_float) cs df).
Proof.
  revert df. induction cs as [|c cs IH]; intros df Hwf; [exact Hwf|].
  simpl. apply IH. now apply coerce_column_well_formed.
Qed.

Lemma fold_coerce_numeric parse_float (cs : list string) (df : DataFrame)
    (c : string) (j : nat) :
  well_formed df -> In c cs -> index_of c (columns df) = Some j ->
  numeric_at j (rows (fold_left (coerce_column parse_float) cs df)).
Proof.
  revert df. induction cs as [|c' cs IH]; intros df Hwf; [intros []|].
  intros [->|Hin] Hj; simpl.
  - apply fold_coerce_keeps_numeric. now apply coerce_column_numeric.
  - apply IH; auto.
    + now apply coerce_column_well_formed.
    + now rewrite coerce_column_columns.
Qed.

Lemma fold_ensure_well_formed (cs : list string) (df : DataFrame) :
  well_formed df -> well_formed (fold_left ensure_column cs df).
Proof.
  revert df. induction cs as [|c cs IH]; intros df Hwf; [exact Hwf|].
  simpl. apply IH. now apply ensure_column_well_formed.
Qed.

Lemma prepare_numeric parse_float (records : list record) (c : string)
    (j : nat) :
  In c numeric_cols ->
  index_of c (columns (prepare parse_float records)) = Some j ->
  numeric_at j (rows (prepare parse_float records)).
Proof.
  intros Hc. unfold prepare. cbv zeta. rewrite fold_coerce_columns.
  intros Hj. apply (fold_coerce_numeric parse_float numeric_cols _ c j); auto.
  apply fold_ensure_well_formed, of_records_well_formed.
Qed.

(** *** The rows of the normalised frame *)

Lemma drop_duplicates_last_length (i : nat) (rws : list (list pyval)) :
  (List.length (drop_duplicates_last i rws) <= List.length rws)%nat.
Proof.
  induction rws as [|r rest IH]; simpl; [lia|].
  destruct (existsb _ rest); simpl; lia.
Qed.

Lemma parse_dates_length to_datetime (i : nat) (rws : list (list pyval)) :
  (List.length (parse_dates to_datetime i rws) <= List.length rws)%nat.
Proof.
  unfold parse_dates. induction rws as [|r rest IH]; [simpl; lia|].
  change (omap (stamp_row to_datetime i) (r :: rest))
    with (match stamp_row to_datetime i r with
          | Some y => y :: omap (stamp_row to_datetime i) rest
          | None => omap (stamp_row to_datetime i) rest
          end).
  destruct (stamp_row to_datetime i r); simpl; lia.
Qed.

Lemma sort_by_date_length (i : nat) (rws : list (list pyval)) :
  List.length (sort_by_date i rws) = List.length rws.
Proof.
  unfold sort_by_date. apply Permutation_length.
  apply (merge_sort_Permutation (date_le i) rws).
Qed.

(** Every row kept is a row of the input with its date printed. *)
Lemma kept_row_origin to_datetime (i : nat) (input : list (list pyval))
    (out : list pyval) :
  In out (sort_by_date i
            (drop_duplicates_last i (parse_dates to_datetime i input))) ->
  exists row ts,
    In row input /\ to_datetime (cell row i) = Some ts
    /\ out = <[i := VStr (strftime_ymd ts)]> row.
Proof.
  rewrite sort_by_date_In. intros H. apply drop_duplicates_last_subset in H.
  unfold parse_dates in H.
  apply list_elem_of_In, list_elem_of_omap in H as (row & Hrow & Hst).
  unfold stamp_row in Hst.
  destruct (to_datetime (cell row i)) as [ts|] eqn:Hts; [|discriminate].
  injection Hst as <-. exists row, ts. split_and!; auto.
  now apply list_elem_of_In.
Qed.

Lemma numeric_col_not_date (c : string) : In c numeric_cols -> c <> "date".
Proof. intros H ->. simpl in H. intuition discriminate. Qed.

(** The frame the steps after [prepare] leave, for any prepared frame. *)
Lemma normalized_shape to_datetime (prepared : DataFrame) (i : nat) :
  well_formed prepared ->
  index_of "date" (columns prepared) = Some i ->
  let df := {| columns := columns prepared;
               rows := sort_by_date i
                         (drop_duplicates_last i
                            (parse_dates to_datetime i (rows prepared))) |} in
  well_formed df
  /\ (List.length (rows df) <= List.length (rows prepared))%nat
  /\ forall c j,
       c <> "date" -> index_of c (columns prepared) = Some j ->
       numeric_at j (rows prepared) -> numeric_at j (rows df).
Proof.
  intros Hwf Hi df. unfold well_formed in *. subst df. cbn [rows columns].
  split_and!.
  - apply Forall_forall. intros out Hout.
    apply list_elem_of_In, kept_row_origin in Hout
      as (row & ts & Hrow & _ & ->).
    rewrite length_insert. rewrite Forall_forall in Hwf. apply Hwf.
    now apply list_elem_of_In.
  - rewrite sort_by_date_length.
    etransitivity; [apply drop_duplicates_last_length|].
    apply parse_dates_length.
  - intros c j Hc Hj Hn. unfold numeric_at in *. apply Forall_forall.
    intros out Hout.
    apply list_elem_of_In, kept_row_origin in Hout
      as (row & ts & Hrow & _ & ->).
    rewrite cell_insert_other.
    + rewrite Forall_forall in Hn. apply Hn. now apply list_elem_of_In.
    + intros ->. apply Hc. symmetry. eapply index_of_inj; eassumption.
Qed.

(** X8: the frame [normalize_ohlcv] makes of at least one record is
    rectangular, has the six required columns, has at most one row per
    record, and holds in each of its numeric columns floats only, none of
    them NaN. *)
Theorem normalize_frame_shape
    (to_datetime : pyval -> option Timestamp)
    (parse_float : string -> option Num.fl) (records : list record) :
  records <> [] ->
  let df := normalize_ohlcv to_datetime parse_float records in
  well_formed df
  /\ Forall (fun c => has_column c df = true) required
  /\ (List.length (rows df) <= List.length records)%nat
  /\ forall (c : string) (j : nat) (row : list pyval),
       In c numeric_cols -> index_of c (columns df) = Some j ->
       In row (rows df) ->
       exists x, cell row j = VNum x /\ Num.is_nan x = false.
Proof.
  intros Hne. cbv zeta.
  destruct (prepare_has_date parse_float records) as [i Hi].
  rewrite (normalize_ohlcv_rows to_datetime parse_float records i Hne Hi).
  pose proof (prepare_well_formed parse_float records) as Hwf.
  pose proof (prepare_rows_length parse_float records) as Hlen.
  pose proof (fun c => prepare_has_required parse_float records c) as Hreq.
  pose proof (fun c j => prepare_numeric parse_float records c j) as Hnum.
  revert Hi Hwf Hlen Hreq Hnum.
  generalize (prepare parse_float records) as prepared.
  intros prepared Hi Hwf Hlen Hreq Hnum.
  destruct (normalized_shape to_datetime prepared i Hwf Hi)
    as (Hwf' & Hlen' & Hnum').
  split_and!.
  - exact Hwf'.
  - apply Forall_forall. intros c Hc. apply list_elem_of_In in Hc.
    exact (Hreq c Hc).
  - cbn [rows] in *. lia.
  - cbn [columns rows] in *. intros c j row Hc Hj Hrow.
    specialize (Hnum' c j (numeric_col_not_date c Hc) Hj (Hnum c j Hc Hj)).
    unfold numeric_at in Hnum'. rewrite Forall_forall in Hnum'.
    apply Hnum'. now apply list_elem_of_In.
Qed.

Definition four_quotes : list record :=
  [quote "2024-01-03" 12; quote "2024-01-01" 9; quote "n/a" 5;
   quote "2024-01-03" 11].

(** X8 on four quotes, two of them of one day and one without a date. *)
Lemma normalize_frame_shape_witness :
  well_formed (normalize_ohlcv iso_date (fun _ => None) four_quotes)
  /\ (List.length (rows (normalize_ohlcv iso_date (fun _ => None) four_quotes))
      <= 4)%nat.
Proof.
  destruct (normalize_frame_shape iso_date (fun _ => None) four_quotes)
    as (H1 & _ & H3 & _); [discriminate|].
  split; [exact H1 | exact H3].
Defined.

(** *** The date filter *)

(** The cells of column [i] are strings. *)
Definition dated (i : nat) (rws : list (list pyval)) : Prop :=
  Forall (fun row => cell row i = VStr (date_key i row)) rws.

Lemma filter_dates_spec (test : string -> bool) (df : DataFrame) (i : nat) :
  index_of "date" (columns df) = Some i -> dated i (rows df) ->
  filter_dates test df
  = Ret {| columns := columns df;
           rows := List.filter (fun row => test (date_key i row)) (rows df) |}.
Proof.
  intros Hi Hd. unfold filter_dates. rewrite Hi.
  assert (Hmask : Res.traverse
                    (fun row => match cell row i with
                                | VStr s => Ret (test s)
                                | _ => Res.TypeError
                                end) (rows df)
                  = Ret (map (fun row => test (date_key i row)) (rows df))).
  { induction Hd as [|row rws Hrow _ IH]; [reflexivity|].
    cbn [Res.traverse map]. rewrite Hrow, IH. reflexivity. }
  rewrite Hmask. cbn [Res.bind]. f_equal. f_equal.
  generalize (rows df) as rws. intros rws.
  induction rws as [|row rws IH]; [reflexivity|].
  cbn [map zip zip_with List.filter snd fst].
  destruct (test (date_key i row)); cbn [map fst]; now rewrite IH.
Qed.

(** A date is within the bounds that are given; a bound that is None or
    empty does not bind. *)
Definition in_range (start_date end_date : option string) (d : string)
  : bool :=
  match bound_given start_date with
  | Some s => String.leb s d
  | None => true
  end
  && match bound_given end_date with
     | Some e => String.leb d e
     | None => true
     end.

Lemma filter_filter {A} (f g : A -> bool) (l : list A) :
  List.filter g (List.filter f l) = List.filter (fun x => f x && g x) l.
Proof.
  induction l as [|x l IH]; [reflexivity|]. simpl.
  destruct (f x); simpl; [destruct (g x)|]; now rewrite IH.
Qed.

Lemma filter_true {A} (l : list A) : List.filter (fun _ => true) l = l.
Proof. induction l as [|x l IH]; [reflexivity|]. simpl. now rewrite IH. Qed.

Lemma dated_filter (i : nat) (f : list pyval -> bool) (rws : list (list pyval)) :
  dated i rws -> dated i (List.filter f rws).
Proof.
  unfold dated. intros H. induction H as [|row rws Hrow _ IH]; simpl;
    [constructor|]. destruct (f row); [constructor|]; auto.
Qed.

(** The filter on a frame whose dates are strings. *)
Lemma filter_date_range_spec (df : DataFrame) (start_date end_date : option string)
    (i : nat) :
  index_of "date" (columns df) = Some i -> dated i (rows df) ->
  filter_date_range df start_date end_date
  = Ret {| columns := columns df;
           rows := List.filter
                     (fun row => in_range start_date end_date (date_key i row))
                     (rows df) |}.
Proof.
  intros Hi Hd. unfold filter_date_range, in_range.
  destruct (empty df) eqn:He.
  { unfold empty in He. destruct df as [cols [|r rws]]; simpl in *.
    - reflexivity.
    - destruct cols; [discriminate Hi | discriminate He]. }
  destruct (bound_given start_date) as [s|], (bound_given end_date) as [e|].
  - rewrite (filter_dates_spec _ df i Hi Hd). cbn [Res.bind].
    rewrite (filter_dates_spec _ _ i); cbn [columns rows];
      [|exact Hi|now apply dated_filter].
    now rewrite filter_filter.
  - rewrite (filter_dates_spec _ df i Hi Hd). cbn [Res.bind].
    f_equal. f_equal. apply filter_ext. intros row. now rewrite andb_true_r.
  - cbn [Res.bind]. rewrite (filter_dates_spec _ df i Hi Hd). reflexivity.
  - cbn [Res.bind]. rewrite filter_true. now destruct df.
Qed.

Lemma StronglySorted_filter {A} (R : A -> A -> Prop) (f : A -> bool)
    (l : list A) :
  StronglySorted R l -> StronglySorted R (List.filter f l).
Proof.
  induction 1 as [|x l Hs IH Hall]; simpl; [constructor|].
  destruct (f x); [|exact IH]. constructor; [exact IH|].
  apply Forall_forall. intros y Hy. rewrite Forall_forall in Hall.
  apply Hall. apply list_elem_of_In. apply list_elem_of_In in Hy.
  apply filter_In in Hy. tauto.
Qed.

Lemma dates_filter (i : nat) (test : string -> bool) (rws : list (list pyval)) :
  dates i (List.filter (fun row => test (date_key i row)) rws)
  = List.filter test (dates i rws).
Proof.
  unfold dates. induction rws as [|row rws IH]; [reflexivity|]. simpl.
  destruct (test (date_key i row)); simpl; now rewrite IH.
Qed.

(** X9: on the frame [normalize_ohlcv] returns, [filter_date_range] never
    raises; it keeps the columns and exactly the rows whose date lies within
    the bounds given, in their order, so that the dates stay strictly
    ascending. *)
Theorem filter_after_normalize
    (to_datetime : pyval -> option Timestamp)
    (parse_float : string -> option Num.fl) (records : list record)
    (start_date end_date : option string) :
  let df := normalize_ohlcv to_datetime parse_float records in
  exists df',
    filter_date_range df start_date end_date = Ret df'
    /\ columns df' = columns df
    /\ forall i,
         index_of "date" (columns df) = Some i ->
         rows df'
         = List.filter
             (fun row => in_range start_date end_date (date_key i row))
             (rows df)
         /\ StronglySorted str_lt (dates i (rows df')).
Proof.
  cbv zeta.
  assert (Hcase : records = [] \/ records <> [])
    by (destruct records; [left; reflexivity | right; discriminate]).
  destruct Hcase as [->|Hne].
  { exists empty_frame. split_and!; try reflexivity. intros i [=]. }
  destruct (prepare_has_date parse_float records) as [i Hi].
  rewrite (normalize_ohlcv_rows to_datetime parse_float records i Hne Hi).
  pose proof (prepared_rows_wide parse_float records i Hi) as Hwide.
  revert Hi Hwide. generalize (prepare parse_float records) as prepared.
  intros prepared Hi Hwide.
  set (kept := sort_by_date i
                 (drop_duplicates_last i
                    (parse_dates to_datetime i (rows prepared)))).
  assert (Hd : dated i kept).
  { apply Forall_forall. intros out Hout. apply list_elem_of_In in Hout.
    unfold kept in Hout. rewrite sort_by_date_In in Hout.
    exact (kept_rows_date to_datetime i (rows prepared) out Hwide Hout). }
  assert (Hs : StronglySorted str_lt (dates i kept)).
  { unfold kept. apply sorted_NoDup_strict.
    - apply sort_by_date_sorted.
    - apply sort_by_date_NoDup, drop_duplicates_last_NoDup. }
  eexists. split; [|split].
  - apply (filter_date_range_spec _ start_date end_date i); [exact Hi|exact Hd].
  - reflexivity.
  - cbn [columns rows]. intros i' Hi'. rewrite Hi in Hi'.
    injection Hi' as <-. split; [reflexivity|].
    rewrite dates_filter. now apply StronglySorted_filter.
Qed.

(** *** The price fill *)

Definition price_cols : list string := ["open"; "high"; "low"; "close"].

(** Column [c] is there and holds floats only. *)
Definition float_column (c : string) (df : DataFrame) : bool :=
  match column c df with
  | Ret cells =>
      forallb (fun v => match v with VNum _ => true | _ => false end) cells
  | Raise _ => false
  end.

(** A price that is neither zero nor NaN. *)
Definition valid_price (x : Num.fl) : bool :=
  negb (Num.eqb x Num.zero) && negb (Num.is_nan x).

Lemma float_column_floats (c : string) (df : DataFrame) :
  float_column c df = true -> exists xs, column c df = Ret (of_floats xs).
Proof.
  unfold float_column. destruct (column c df) as [cells|]; [|discriminate].
  intros H. assert (exists xs, cells = of_floats xs) as [xs ->]; [|eauto].
  induction cells as [|v cells IH]; [exists []; reflexivity|].
  simpl in H. apply andb_true_iff in H as [Hv H].
  destruct (IH H) as [xs ->]. destruct v; try discriminate.
  exists (x :: xs). reflexivity.
Qed.

Lemma ffill_cells_length (last : pyval) (cells : list pyval) :
  List.length (ffill_cells last cells) = List.length cells.
Proof.
  revert last. induction cells as [|v cells IH]; intros last; [reflexivity|].
  simpl. now rewrite IH.
Qed.

(** One cell of a filled column of floats. *)
Lemma ffill_cells_lookup (xs : list Num.fl) (last : pyval) (k : nat)
    (x : Num.fl) :
  xs !! k = Some x ->
  ffill_cells last (map zero_to_none (of_floats xs)) !! k
  = Some (if valid_price x then VNum x
          else match k with
               | O => last
               | S k' =>
                   default VNone
                     (ffill_cells last (map zero_to_none (of_floats xs)) !! k')
               end).
Proof.
  revert last k. induction xs as [|y xs IH]; intros last k; [discriminate|].
  assert (Hhead : (if is_null (zero_to_none (VNum y)) then last
                   else zero_to_none (VNum y))
                  = if valid_price y then VNum y else last).
  { unfold valid_price, zero_to_none, is_null.
    destruct (Num.eqb y Num.zero) eqn:Hz; [reflexivity|].
    destruct (Num.is_nan y); reflexivity. }
  destruct k as [|k]; cbn [of_floats map ffill_cells].
  - intros [= ->]. cbn [lookup list_lookup]. now rewrite Hhead.
  - intros Hk. change ((y :: xs) !! S k) with (xs !! k) in Hk.
    cbn [lookup list_lookup].
    change (map zero_to_none (map VNum xs))
      with (map zero_to_none (of_floats xs)).
    rewrite (IH _ k Hk). destruct (valid_price x); [reflexivity|].
    destruct k as [|k']; [|reflexivity].
    cbn [lookup list_lookup default]. destruct xs as [|x' xs']; [discriminate|].
    cbn [of_floats map ffill_cells lookup list_lookup default]. reflexivity.
Qed.

Lemma column_length (c : string) (df : DataFrame) (cells : list pyval) :
  column c df = Ret cells -> List.length cells = List.length (rows df).
Proof.
  unfold column. destruct (index_of c (columns df)); [|discriminate].
  intros [= <-]. apply length_map.
Qed.

Lemma set_column_columns (c : string) (vals : list pyval) (df : DataFrame) :
  has_column c df = true -> columns (set_column c vals df) = columns df.
Proof.
  unfold has_column, set_column.
  destruct (index_of c (columns df)); [reflexivity | discriminate].
Qed.

Lemma column_has (c : string) (df : DataFrame) (cells : list pyval) :
  column c df = Ret cells -> has_column c df = true.
Proof.
  unfold column, has_column.
  destruct (index_of c (columns df)); [reflexivity | discriminate].
Qed.

(** One column filled. *)
Lemma fill_column_spec (df : DataFrame) (c : string) (cells : list pyval) :
  well_formed df -> column c df = Ret cells ->
  exists df1,
    fill_column df c = Ret df1
    /\ well_formed df1 /\ columns df1 = columns df
    /\ column c df1
       = Ret (ffill_cells (hd VNone (map zero_to_none cells))
                (map zero_to_none cells))
    /\ forall c', c <> c' -> column c' df1 = column c' df.
Proof.
  intros Hwf Hc. unfold fill_column. rewrite Hc. cbn [Res.bind]. cbv zeta.
  assert (Hlen : List.length
                   (ffill_cells (hd VNone (map zero_to_none cells))
                      (map zero_to_none cells))
                 = List.length (rows df)).
  { rewrite ffill_cells_length, length_map. now apply column_length in Hc. }
  eexists. split; [reflexivity|]. split_and!.
  - now apply set_column_well_formed.
  - apply set_column_columns. eapply column_has; eassumption.
  - now apply column_set_column.
  - intros c' Hne. now apply column_set_column_other.
Qed.

(** The first cell of a filled column of floats: what the replacement of
    the zeros has made of it. *)
Lemma ffill_cells_first (xs : list Num.fl) (x : Num.fl) :
  xs !! 0%nat = Some x ->
  (if valid_price x then VNum x
   else hd VNone (map zero_to_none (of_floats xs)))
  = if valid_price x then VNum x
    else if Num.is_nan x then VNum x else VNone.
Proof.
  destruct xs as [|y xs]; [discriminate|]. intros [= ->].
  cbn [of_floats map hd]. unfold valid_price, zero_to_none.
  destruct x as [q| | |]; cbn [Num.eqb Num.zero Num.is_nan]; try reflexivity.
  destruct (Qeq_bool q 0); reflexivity.
Qed.

(** X10: on a rectangular frame with rows whose four price columns hold
    floats, [fill_missing] returns normally and touches the price columns
    only; there a price that is neither zero nor NaN stays, and a zero or
    NaN price becomes the cell above it as filled; in the first row a zero
    becomes None and a NaN stays NaN. *)
Theorem fill_missing_forward_fills (df : DataFrame) :
  well_formed df -> empty df = false ->
  forallb (fun c => float_column c df) price_cols = true ->
  exists df',
    fill_missing df = Ret df'
    /\ columns df' = columns df
    /\ (forall c, ~ In c price_cols -> column c df' = column c df)
    /\ forall c xs,
         In c price_cols -> column c df = Ret (of_floats xs) ->
         exists cells,
           column c df' = Ret cells
           /\ List.length cells = List.length xs
           /\ forall k x,
                xs !! k = Some x ->
                cells !! k
                = Some (if valid_price x then VNum x
                        else match k with
                             | O => if Num.is_nan x then VNum x else VNone
                             | S k' => default VNone (cells !! k')
                             end).
Proof.
  intros Hwf Hne Hfl. unfold fill_missing. rewrite Hne.
  unfold price_cols in *. cbn [forallb] in Hfl.
  apply andb_true_iff in Hfl as [Ho Hfl].
  apply andb_true_iff in Hfl as [Hh Hfl].
  apply andb_true_iff in Hfl as [Hl Hfl].
  apply andb_true_iff in Hfl as [Hc _].
  apply float_column_floats in Ho as [xo Ho].
  apply float_column_floats in Hh as [xh Hh].
  apply float_column_floats in Hl as [xl Hl].
  apply float_column_floats in Hc as [xc Hc].
  destruct (fill_column_spec df "open" _ Hwf Ho)
    as (d1 & E1 & W1 & C1 & V1 & O1).
  rewrite <- (O1 "high") in Hh by discriminate.
  destruct (fill_column_spec d1 "high" _ W1 Hh)
    as (d2 & E2 & W2 & C2 & V2 & O2).
  rewrite <- (O1 "low"), <- (O2 "low") in Hl by discriminate.
  destruct (fill_column_spec d2 "low" _ W2 Hl)
    as (d3 & E3 & W3 & C3 & V3 & O3).
  rewrite <- (O1 "close"), <- (O2 "close"), <- (O3 "close") in Hc
    by discriminate.
  destruct (fill_column_spec d3 "close" _ W3 Hc)
    as (d4 & E4 & W4 & C4 & V4 & O4).
  exists d4. cbn [fold_result]. rewrite E1. cbn [Res.bind].
  rewrite E2. cbn [Res.bind]. rewrite E3. cbn [Res.bind].
  rewrite E4. cbn [Res.bind].
  split; [reflexivity|]. split; [congruence|]. split.
  - intros c Hn. cbn [In] in Hn.
    rewrite O4, O3, O2, O1 by (intros <-; tauto). reflexivity.
  - intros c xs Hin Hxs.
    assert (Hcol : column c d4
                   = Ret (ffill_cells
                            (hd VNone (map zero_to_none (of_floats xs)))
                            (map zero_to_none (of_floats xs)))).
    { cbn [In] in Hin. destruct Hin as [<-|[<-|[<-|[<-|[]]]]].
      - rewrite O4, O3, O2 by discriminate. rewrite V1.
        rewrite Ho in Hxs. now injection Hxs as ->.
      - rewrite O4, O3 by discriminate. rewrite V2.
        rewrite <- (O1 "high") in Hxs by discriminate.
        rewrite Hh in Hxs. now injection Hxs as ->.
      - rewrite O4 by discriminate. rewrite V3.
        rewrite <- (O1 "low"), <- (O2 "low") in Hxs by discriminate.
        rewrite Hl in Hxs. now injection Hxs as ->.
      - rewrite V4.
        rewrite <- (O1 "close"), <- (O2 "close"), <- (O3 "close") in Hxs
          by discriminate.
        rewrite Hc in Hxs. now injection Hxs as ->. }
    eexists. split; [exact Hcol|]. split.
    + rewrite ffill_cells_length, length_map. unfold of_floats.
      now rewrite length_map.
    + intros k x Hk. rewrite (ffill_cells_lookup xs _ k x Hk).
      destruct k as [|k']; [|reflexivity].
      now rewrite (ffill_cells_first xs x Hk).
Qed.

(** Three days of prices: the open of the first day is zero, its low is
    NaN, and the close of the second day is zero. *)
Definition gappy : DataFrame :=
  {| columns := ["date"; "open"; "high"; "low"; "close"];
     rows :=
       [ [VStr "2024-01-01"; VNum (Num.of_Z 0); VNum (Num.of_Z 11);
          VNum Num.NaN; VNum (Num.of_Z 10)];
         [VStr "2024-01-02"; VNum (Num.of_Z 10); VNum (Num.of_Z 12);
          VNum (Num.of_Z 10); VNum (Num.of_Z 0)];
         [VStr "2024-01-03"; VNum (Num.of_Z 11); VNum (Num.of_Z 13);
          VNum (Num.of_Z 11); VNum (Num.of_Z 12)] ] |}.

(** X10 on these prices: the first open becomes None, the first low stays
    NaN, the second close becomes the first. *)
Lemma fill_missing_forward_fills_witness :
  fill_missing gappy
  = Ret {| columns := ["date"; "open"; "high"; "low"; "close"];
           rows :=
             [ [VStr "2024-01-01"; VNone; VNum (Num.of_Z 11);
                VNum Num.NaN; VNum (Num.of_Z 10)];
               [VStr "2024-01-02"; VNum (Num.of_Z 10); VNum (Num.of_Z 12);
                VNum (Num.of_Z 10); VNum (Num.of_Z 10)];
               [VStr "2024-01-03"; VNum (Num.of_Z 11); VNum (Num.of_Z 13);
                VNum (Num.of_Z 11); VNum (Num.of_Z 12)] ] |}
  /\ exists df',
       fill_missing gappy = Ret df' /\ columns df' = columns gappy.
Proof.
  split; [vm_compute; reflexivity|].
  destruct (fill_missing_forward_fills gappy) as (df' & E & Hc & _).
  - repeat constructor.
  - reflexivity.
  - reflexivity.
  - exists df'. split; assumption.
Defined.

(** *** From a frame to records and back *)

Lemma index_of_None_notin (c : string) (cols : list string) :
  index_of c cols = None <-> ~ In c cols.
Proof.
  induction cols as [|x cols IH]; simpl; [tauto|].
  destruct (String.eqb_spec c x) as [->|Hne].
  - split; [discriminate | tauto].
  - destruct (index_of c cols) as [j|].
    + split; [discriminate|]. intros H. exfalso. apply H. right.
      apply Decidable.not_not; [|intros Hn; now apply IH in Hn].
      unfold Decidable.decidable. destruct (in_dec string_dec c cols); auto.
    + split; [|reflexivity]. intros _ [->|H]; [congruence|].
      now apply (proj1 IH).
Qed.

Definition add_key (cols : list string) (k : string) : list string :=
  match index_of k cols with
  | Some _ => cols
  | None => cols ++ [k]
  end.

Lemma add_keys_keys (cols : list string) (r : record) :
  add_keys cols r = fold_left add_key (map fst r) cols.
Proof.
  unfold add_keys. revert cols.
  induction r as [|[k v] r IH]; intros cols; [reflexivity|].
  simpl. now rewrite IH.
Qed.

Lemma fold_add_key_known (keys cols : list string) :
  (forall k, In k keys -> In k cols) -> fold_left add_key keys cols = cols.
Proof.
  revert cols. induction keys as [|k keys IH]; intros cols H; [reflexivity|].
  simpl. unfold add_key at 2.
  destruct (index_of k cols) eqn:Hk.
  - apply IH. intros k' Hk'. apply H. now right.
  - apply index_of_None_notin in Hk. exfalso. apply Hk, H. now left.
Qed.

Lemma fold_add_key_new (keys cols : list string) :
  List.NoDup (cols ++ keys) -> fold_left add_key keys cols = cols ++ keys.
Proof.
  revert cols. induction keys as [|k keys IH]; intros cols H;
    [now rewrite app_nil_r|].
  simpl. unfold add_key at 2.
  assert (Hk : index_of k cols = None).
  { apply index_of_None_notin. intros Hin.
    apply NoDup_remove_2 in H. apply H. apply in_or_app. now left. }
  rewrite Hk. rewrite IH; rewrite <- app_assoc; [reflexivity | exact H].
Qed.

Lemma fst_zip (cols : list string) (row : list pyval) :
  List.length row = List.length cols -> map fst (zip cols row) = cols.
Proof.
  revert row. induction cols as [|c cols IH]; intros [|v row] H;
    try discriminate; [reflexivity|].
  simpl. f_equal. apply IH. simpl in H. lia.
Qed.

Lemma field_zip (cols : list string) (row : list pyval) :
  List.NoDup cols -> List.length row = List.length cols ->
  map (fun k => match field k (zip cols row) with
                | Some v => v
                | None => nan
                end) cols = row.
Proof.
  revert row. induction cols as [|c cols IH]; intros [|v row] Hnd Hl;
    try discriminate; [reflexivity|].
  inversion Hnd as [|? ? Hc Hnd']; subst.
  cbn [zip zip_with map field fst]. rewrite String.eqb_refl. f_equal.
  etransitivity; [|apply (IH row Hnd'); simpl in Hl; lia].
  apply map_ext_in. intros k Hk. cbn [field fst snd].
  destruct (String.eqb_spec k c) as [->|_]; [contradiction | reflexivity].
Qed.

Lemma frame_records_roundtrip_lemma (df : DataFrame) :
  well_formed df -> List.NoDup (columns df) -> empty df = false ->
  of_records (to_records df) = df.
Proof.
  intros Hwf Hnd Hne. unfold to_records. rewrite Hne.
  unfold of_records, to_dict_records. destruct df as [cols rws].
  cbn [columns rows] in *. unfold well_formed in Hwf. cbn [rows columns] in Hwf.
  assert (Hcols : fold_left add_keys (map (fun row => zip cols row) rws) []
                  = cols).
  { destruct rws as [|row rws]; [discriminate Hne|].
    apply Forall_cons in Hwf as [Hrow Hrest].
    cbn [map fold_left]. rewrite add_keys_keys, (fst_zip _ _ Hrow).
    rewrite fold_add_key_new by exact Hnd. cbn [app].
    clear Hne Hrow. induction Hrest as [|r rs Hr _ IH]; [reflexivity|].
    cbn [map fold_left]. rewrite add_keys_keys, (fst_zip _ _ Hr).
    rewrite fold_add_key_known by auto. exact IH. }
  rewrite Hcols. f_equal. rewrite map_map. clear Hne Hcols.
  induction Hwf as [|row rs Hrow _ IH]; [reflexivity|].
  cbn [map]. rewrite (field_zip cols row Hnd Hrow). f_equal. exact IH.
Qed.

(** No cell of the frame is None. *)
Definition none_free (df : DataFrame) : Prop :=
  Forall (Forall (fun v => v <> VNone)) (rows df).

(** X11: a rectangular frame with rows and columns, no column name twice
    and no cell that is None, is read back from its records as it was.  (A
    None would come back as NaN in a column of numbers.) *)
Theorem frame_records_roundtrip (df : DataFrame) :
  well_formed df -> List.NoDup (columns df) -> empty df = false ->
  none_free df ->
  of_records (to_records df) = df.
Proof.
  intros Hwf Hnd Hne _. now apply frame_records_roundtrip_lemma.
Qed.

(** X11 on the prices above. *)
Lemma frame_records_roundtrip_witness : of_records (to_records gappy) = gappy.
Proof.
  apply frame_records_roundtrip.
  - repeat constructor.
  - apply NoDup_ListNoDup, (bool_decide_unpack _). vm_compute. exact I.
  - reflexivity.
  - repeat constructor; discriminate.
Defined.

(** *** Normalising twice *)

Lemma ensure_column_id (df : DataFrame) (c : string) :
  has_column c df = true -> ensure_column df c = df.
Proof. unfold ensure_column. now intros ->. Qed.

Lemma fold_ensure_id (cs : list string) (df : DataFrame) :
  Forall (fun c => has_column c df = true) cs ->
  fold_left ensure_column cs df = df.
Proof.
  induction 1 as [|c cs Hc _ IH]; [reflexivity|].
  simpl. now rewrite ensure_column_id.
Qed.

Lemma cell_lookup (row : list pyval) (j : nat) :
  (j < List.length row)%nat -> row !! j = Some (cell row j).
Proof.
  intros Hj. destruct (lookup_lt_is_Some_2 row j Hj) as [y Hy].
  rewrite Hy. f_equal. symmetry. unfold cell. now apply nth_lookup_Some.
Qed.

Lemma coerce_column_id parse_float (df : DataFrame) (c : string) :
  well_formed df ->
  (forall j, index_of c (columns df) = Some j -> numeric_at j (rows df)) ->
  coerce_column parse_float df c = df.
Proof.
  intros Hwf Hn. unfold coerce_column, has_column, map_column.
  destruct (index_of c (columns df)) as [j|] eqn:Hj; [|reflexivity].
  specialize (Hn j eq_refl). apply index_of_lt in Hj.
  destruct df as [cols rws]. cbn [columns rows] in *. f_equal.
  unfold well_formed in Hwf. cbn [columns rows] in Hwf. unfold numeric_at in Hn.
  induction Hwf as [|row rs Hrow _ IH]; [reflexivity|].
  apply Forall_cons in Hn as [(x & Hx & Hnan) Hn].
  cbn [map]. rewrite (IH Hn). f_equal.
  apply list_insert_id. rewrite cell_lookup by lia. f_equal.
  rewrite Hx. cbn [to_numeric]. unfold fillna. now rewrite Hnan.
Qed.

Lemma fold_coerce_id parse_float (cs : list string) (df : DataFrame) :
  well_formed df ->
  (forall c j, In c cs -> index_of c (columns df) = Some j ->
               numeric_at j (rows df)) ->
  fold_left (coerce_column parse_float) cs df = df.
Proof.
  intros Hwf. induction cs as [|c cs IH]; intros Hn; [reflexivity|].
  simpl. rewrite coerce_column_id; [|exact Hwf|].
  - apply IH. intros c' j Hc'. apply Hn. now right.
  - intros j. apply Hn. now left.
Qed.

Lemma drop_duplicates_last_id (i : nat) (rws : list (list pyval)) :
  List.NoDup (dates i rws) -> drop_duplicates_last i rws = rws.
Proof.
  induction rws as [|r rest IH]; [reflexivity|].
  intros Hnd. inversion Hnd as [|? ? Hr Hnd']; subst. simpl.
  destruct (existsb _ rest) eqn:He.
  - apply existsb_date in He. contradiction.
  - now rewrite IH.
Qed.

Lemma strict_sorted_NoDup (l : list string) :
  StronglySorted str_lt l -> List.NoDup l.
Proof.
  induction 1 as [|x l Hs IH Hall]; constructor; [|exact IH].
  intros Hin. rewrite Forall_forall in Hall.
  apply (str_lt_irrefl x). apply Hall. now apply list_elem_of_In.
Qed.

(** Two lists of rows in strictly ascending order of date that hold the
    same rows are one list. *)
Lemma sorted_perm_eq (i : nat) (l1 l2 : list (list pyval)) :
  StronglySorted str_lt (dates i l1) -> StronglySorted str_lt (dates i l2) ->
  Permutation l1 l2 -> l1 = l2.
Proof.
  revert l2. induction l1 as [|a l1 IH]; intros l2 H1 H2 Hp.
  - apply Permutation_nil in Hp. now subst.
  - destruct l2 as [|b l2].
    { apply Permutation_sym, Permutation_nil in Hp. discriminate. }
    cbn [dates map] in H1, H2.
    inversion H1 as [|? ? S1 F1]; subst. inversion H2 as [|? ? S2 F2]; subst.
    rewrite Forall_forall in F1, F2.
    assert (Hab : a = b).
    { assert (Ha : In a (b :: l2))
        by (eapply Permutation_in; [exact Hp | now left]).
      assert (Hb : In b (a :: l1))
        by (eapply Permutation_in;
            [apply Permutation_sym; exact Hp | now left]).
      destruct Ha as [->|Ha]; [reflexivity|].
      destruct Hb as [->|Hb]; [reflexivity|].
      exfalso. apply (str_lt_irrefl (date_key i a)).
      apply (str_lt_trans _ (date_key i b)).
      - apply F1, list_elem_of_In. apply in_map_iff. eauto.
      - apply F2, list_elem_of_In. apply in_map_iff. eauto. }
    subst b. f_equal. apply IH; auto.
    eapply Permutation_cons_inv; exact Hp.
Qed.

Lemma sort_by_date_id (i : nat) (rws : list (list pyval)) :
  StronglySorted str_lt (dates i rws) -> sort_by_date i rws = rws.
Proof.
  intros Hs. apply (sorted_perm_eq i); [|exact Hs|].
  - apply sorted_NoDup_strict; [apply sort_by_date_sorted|].
    apply sort_by_date_NoDup. now apply strict_sorted_NoDup.
  - apply (merge_sort_Permutation (date_le i) rws).
Qed.

(** The date cell of a row parses, to the day it shows. *)
Definition reparses (to_datetime : pyval -> option Timestamp) (i : nat)
    (row : list pyval) : Prop :=
  exists ts, to_datetime (cell row i) = Some ts
             /\ row !! i = Some (VStr (strftime_ymd ts)).

Lemma parse_dates_id to_datetime (i : nat) (rws : list (list pyval)) :
  Forall (reparses to_datetime i) rws -> parse_dates to_datetime i rws = rws.
Proof.
  unfold parse_dates. induction 1 as [|row rs (ts & Hts & Hrow) _ IH];
    [reflexivity|].
  change (omap (stamp_row to_datetime i) (row :: rs))
    with (match stamp_row to_datetime i row with
          | Some y => y :: omap (stamp_row to_datetime i) rs
          | None => omap (stamp_row to_datetime i) rs
          end).
  unfold stamp_row at 1. rewrite Hts, IH. f_equal. now apply list_insert_id.
Qed.

(** A frame as [normalize_ohlcv] leaves it is left as it is by a second
    pass over its records. *)
Lemma renormalize to_datetime parse_float (df : DataFrame) (i : nat) :
  well_formed df -> List.NoDup (columns df) -> rows df <> [] ->
  index_of "date" (columns df) = Some i ->
  Forall (fun c => has_column c df = true) required ->
  (forall c j, In c numeric_cols -> index_of c (columns df) = Some j ->
               numeric_at j (rows df)) ->
  Forall (reparses to_datetime i) (rows df) ->
  StronglySorted str_lt (dates i (rows df)) ->
  normalize_ohlcv to_datetime parse_float (to_records df) = df.
Proof.
  intros Hwf Hnd Hrows Hi Hreq Hnum Hre Hs.
  assert (Hne : empty df = false).
  { unfold empty. destruct (rows df); [contradiction|].
    destruct (columns df); [discriminate Hi | reflexivity]. }
  assert (Hprep : prepare parse_float (to_records df) = df).
  { unfold prepare. cbv zeta.
    rewrite (frame_records_roundtrip_lemma df Hwf Hnd Hne).
    rewrite (fold_ensure_id required df Hreq).
    now apply fold_coerce_id. }
  assert (Hrec : to_records df <> []).
  { unfold to_records. rewrite Hne. unfold to_dict_records.
    destruct (rows df); [contradiction | discriminate]. }
  rewrite (normalize_ohlcv_rows to_datetime parse_float (to_records df) i Hrec)
    by (rewrite Hprep; exact Hi).
  rewrite Hprep.
  rewrite (parse_dates_id _ _ _ Hre).
  rewrite drop_duplicates_last_id by (now apply strict_sorted_NoDup).
  rewrite (sort_by_date_id _ _ Hs). now destruct df.
Qed.

(** The column names of the prepared frame are distinct. *)
Lemma add_key_NoDup (cols : list string) (k : string) :
  List.NoDup cols -> List.NoDup (add_key cols k).
Proof.
  intros H. unfold add_key. destruct (index_of k cols) eqn:Hk; [exact H|].
  apply index_of_None_notin in Hk. apply NoDup_ListNoDup.
  apply NoDup_app. split_and!.
  - now apply NoDup_ListNoDup.
  - intros x Hx Hx'. apply list_elem_of_In in Hx.
    apply list_elem_of_singleton in Hx'. now subst.
  - apply NoDup_singleton.
Qed.

Lemma of_records_NoDup (records : list record) :
  List.NoDup (columns (of_records records)).
Proof.
  unfold of_records. cbn [columns].
  assert (H : forall cols, List.NoDup cols ->
                           List.NoDup (fold_left add_keys records cols)).
  { induction records as [|r rs IH]; intros cols Hc; [exact Hc|].
    simpl. apply IH. rewrite add_keys_keys. clear IH.
    revert cols Hc. induction (map fst r) as [|k ks IHk]; intros cols Hc;
      [exact Hc|]. simpl. apply IHk. now apply add_key_NoDup. }
  apply H. constructor.
Qed.

Lemma ensure_column_NoDup (df : DataFrame) (c : string) :
  List.NoDup (columns df) -> List.NoDup (columns (ensure_column df c)).
Proof.
  intros H. unfold ensure_column, has_column, set_column_scalar, set_column.
  destruct (index_of c (columns df)) eqn:Hc; [exact H|]. cbn [columns].
  pose proof (add_key_NoDup (columns df) c H) as H'.
  unfold add_key in H'. now rewrite Hc in H'.
Qed.

Lemma prepare_NoDup parse_float (records : list record) :
  List.NoDup (columns (prepare parse_float records)).
Proof.
  unfold prepare. cbv zeta. rewrite fold_coerce_columns.
  generalize (of_records_NoDup records).
  generalize (of_records records) as df. generalize required as cs.
  induction cs as [|c cs IH]; intros df H; [exact H|].
  simpl. apply IH. now apply ensure_column_NoDup.
Qed.

(** X12: normalising the records of a normalised frame that has rows gives
    the frame back, provided the date parser reads the dates it has parsed
    back from their printed form. *)
Theorem normalize_idempotent
    (to_datetime : pyval -> option Timestamp)
    (parse_float : string -> option Num.fl) (records : list record) :
  (forall r ts,
     In r records -> to_datetime (raw_date records r) = Some ts ->
     exists ts', to_datetime (VStr (strftime_ymd ts)) = Some ts'
                 /\ strftime_ymd ts' = strftime_ymd ts) ->
  rows (normalize_ohlcv to_datetime parse_float records) <> [] ->
  normalize_ohlcv to_datetime parse_float
    (to_records (normalize_ohlcv to_datetime parse_float records))
  = normalize_ohlcv to_datetime parse_float records.
Proof.
  intros Hback.
  assert (Hcase : records = [] \/ records <> [])
    by (destruct records; [left; reflexivity | right; discriminate]).
  destruct Hcase as [->|Hne]; [intros H; now contradiction H|].
  destruct (prepare_has_date parse_float records) as [i Hi].
  rewrite (normalize_ohlcv_rows to_datetime parse_float records i Hne Hi).
  pose proof (prepare_well_formed parse_float records) as Hwf.
  pose proof (prepare_NoDup parse_float records) as Hnd.
  pose proof (fun c => prepare_has_required parse_float records c) as Hreq.
  pose proof (fun c j => prepare_numeric parse_float records c j) as Hnum.
  pose proof (prepared_rows_wide parse_float records i Hi) as Hwide.
  pose proof (fun k => proj1 (prepared_rows_records parse_float records i k Hi))
    as Hrec.
  revert Hback Hi Hwf Hnd Hreq Hnum Hwide Hrec.
  generalize (prepare parse_float records) as prepared.
  generalize (raw_date records) as date_of.
  intros date_of prepared Hback Hi Hwf Hnd Hreq Hnum Hwide Hrec Hrows.
  destruct (normalized_shape to_datetime prepared i Hwf Hi)
    as (Hwf' & _ & Hnum').
  apply (renormalize to_datetime parse_float _ i); cbn [columns rows] in *.
  - exact Hwf'.
  - exact Hnd.
  - exact Hrows.
  - exact Hi.
  - apply Forall_forall. intros c Hc. apply list_elem_of_In in Hc.
    exact (Hreq c Hc).
  - intros c j Hc Hj.
    exact (Hnum' c j (numeric_col_not_date c Hc) Hj (Hnum c j Hc Hj)).
  - apply Forall_forall. intros out Hout.
    apply list_elem_of_In, kept_row_origin in Hout
      as (row & ts & Hrow & Hts & ->).
    apply list_elem_of_In in Hrow.
    assert (Hlt : (i < List.length row)%nat).
    { rewrite Forall_forall in Hwide. now apply Hwide. }
    apply list_elem_of_lookup_1 in Hrow as [k Hk].
    destruct (Hrec k row Hk) as (r & Hr & Hcell).
    rewrite Hcell in Hts.
    destruct (Hback r ts) as (ts' & Hts' & Heq); [|exact Hts|].
    { apply list_elem_of_In. eapply list_elem_of_lookup_2; eauto. }
    exists ts'. rewrite cell_insert_same by exact Hlt. split; [exact Hts'|].
    rewrite Heq. now apply list_lookup_insert_eq.
  - apply sorted_NoDup_strict.
    + apply sort_by_date_sorted.
    + apply sort_by_date_NoDup, drop_duplicates_last_NoDup.
Qed.

(** X12 on the four quotes and the parser of ISO dates. *)
Lemma normalize_idempotent_witness :
  normalize_ohlcv iso_date (fun _ => None)
    (to_records (normalize_ohlcv iso_date (fun _ => None) four_quotes))
  = normalize_ohlcv iso_date (fun _ => None) four_quotes.
Proof.
  apply normalize_idempotent.
  - intros r ts [<-|[<-|[<-|[<-|[]]]]] H; vm_compute in H;
      try discriminate H; injection H as <-;
      (eexists; split; [vm_compute; reflexivity | reflexivity]).
  - vm_compute. discriminate.
Defined.

End ProcessingMore.

(** ** The analysis layer: missing columns, the range of the RSI, the
       columns [compute_all] adds *)

Module AnalysisMore.
Import Py Frame Analysis FrameFacts AnalysisFacts.
Local Open Scope list_scope.

(** *** Frames without a close *)

Lemma numeric_missing (c : string) (df : DataFrame) :
  has_column c df = false -> numeric c df = Res.KeyError.
Proof.
  unfold has_column, numeric, column.
  destruct (index_of c (columns df)); [discriminate | reflexivity].
Qed.

Lemma periods_or_cons (periods : option (list Z)) (default : list Z) :
  default <> [] -> exists p ps, periods_or periods default = p :: ps.
Proof.
  intros Hd. unfold periods_or. destruct periods as [[|p ps]|]; eauto;
    destruct default; eauto; contradiction.
Qed.

(** X13: on a frame with rows but no "close" column the five transforms
    that read the close raise KeyError, and so does [compute_all]; the two
    that check for their columns, KDJ and ATR, return the frame as it is. *)
Theorem transforms_without_close
    (fsqrt : Q -> Q) (df : DataFrame) (periods : option (list Z))
    (fast slow signal period : Z) (std_dev : Num.fl) :
  empty df = false -> has_column "close" df = false ->
  add_ma df periods = Res.KeyError
  /\ add_ema df periods = Res.KeyError
  /\ add_macd df fast slow signal = Res.KeyError
  /\ add_rsi df periods = Res.KeyError
  /\ add_bollinger fsqrt df period std_dev = Res.KeyError
  /\ compute_all fsqrt df = Res.KeyError
  /\ add_kdj df period signal = Ret df
  /\ add_atr df period = Ret df.
Proof.
  intros Hne Hc. pose proof (numeric_missing "close" df Hc) as Hn.
  assert (Hma : forall ps, add_ma df ps = Res.KeyError).
  { intros ps. unfold add_ma. rewrite Hne.
    destruct (periods_or_cons ps [5; 10; 20; 60]) as (p & rest & ->);
      [discriminate|].
    unfold fold_result. cbn [Processing.fold_result]. now rewrite Hn. }
  assert (Hhlc : has_hlc df = false).
  { unfold has_hlc. cbn [forallb]. rewrite Hc.
    now rewrite andb_false_r, andb_false_r. }
  split_and!.
  - apply Hma.
  - unfold add_ema. rewrite Hne.
    destruct (periods_or_cons periods [12; 26]) as (p & rest & ->);
      [discriminate|].
    unfold fold_result. cbn [Processing.fold_result]. now rewrite Hn.
  - unfold add_macd. now rewrite Hne, Hn.
  - unfold add_rsi. now rewrite Hne, Hn.
  - unfold add_bollinger. now rewrite Hne, Hn.
  - unfold compute_all. now rewrite Hma.
  - unfold add_kdj. now rewrite Hne, Hhlc.
  - unfold add_atr. now rewrite Hne, Hhlc.
Qed.

(** A frame of volumes only. *)
Definition volumes : DataFrame :=
  {| columns := ["date"; "volume"];
     rows := [[VStr "2024-01-02"; VNum (Num.of_Z 100)]] |}.

(** X13 on that frame. *)
Lemma transforms_without_close_witness :
  add_ma volumes None = Res.KeyError
  /\ compute_all (fun q => q) volumes = Res.KeyError
  /\ add_kdj volumes 9 3 = Ret volumes.
Proof.
  pose proof (transforms_without_close (fun q => q) volumes None 12 26 3 9
                (Num.of_Z 2) eq_refl eq_refl) as H.
  split_and!; apply H.
Defined.

(** *** The range of the RSI *)

(** A value that is NaN or a finite number not below zero. *)
Definition nonneg_or_nan (x : Num.fl) : Prop :=
  match x with
  | Num.NaN => True
  | Num.Fin q => (0 <= q)%Q
  | _ => False
  end.

Lemma Qsum_nonneg (l : list Q) :
  Forall (fun q => (0 <= q)%Q) l -> (0 <= Series.Qsum l)%Q.
Proof.
  induction 1 as [|q l Hq _ IH]; [apply Qle_refl|].
  change (0 <= q + Series.Qsum l)%Q. lra.
Qed.

Lemma Qlen_pos {A} (x : A) (l : list A) :
  (0 < inject_Z (Z.of_nat (List.length (x :: l))))%Q.
Proof. change 0%Q with (inject_Z 0). rewrite <- Zlt_Qlt. simpl. lia. Qed.

Lemma mean_of_nonneg (obs : list Q) :
  Forall (fun q => (0 <= q)%Q) obs -> nonneg_or_nan (Series.mean_of obs).
Proof.
  intros H. unfold Series.mean_of. destruct obs as [|x obs]; [exact I|].
  unfold Num.fin, nonneg_or_nan. rewrite Qred_correct.
  apply Qle_shift_div_l; [apply Qlen_pos|].
  rewrite Qmult_0_l. now apply Qsum_nonneg.
Qed.

Lemma In_window (p i : nat) (xs : list Num.fl) (x : Num.fl) :
  In x (Series.window_at p xs i) -> In x xs.
Proof.
  unfold Series.window_at. intros H.
  assert (H1 : In x (firstn (S i) xs)).
  { rewrite <- (firstn_skipn (S i - p) (firstn (S i) xs)).
    apply in_or_app. now right. }
  rewrite <- (firstn_skipn (S i) xs). apply in_or_app. now left.
Qed.

Lemma rolling_mean_nonneg (w : nat) (xs : list Num.fl) (i : nat) (y : Num.fl) :
  (forall q, In (Num.Fin q) xs -> (0 <= q)%Q) ->
  Series.rolling_mean w xs !! i = Some y -> nonneg_or_nan y.
Proof.
  intros Hxs Hy. apply rolling_lookup in Hy. subst y.
  apply mean_of_nonneg. apply Forall_forall. intros q Hq.
  unfold Series.observations in Hq.
  apply list_elem_of_omap in Hq as (x & Hx & Hobs).
  destruct x; try discriminate. injection Hobs as ->.
  apply Hxs. eapply In_window. apply list_elem_of_In. exact Hx.
Qed.

Lemma gains_nonneg (delta : list Num.fl) (q : Q) :
  In (Num.Fin q) (Series.clip_lower Num.zero delta) -> (0 <= q)%Q.
Proof.
  unfold Series.clip_lower. rewrite in_map_iff. intros (x & Hx & _).
  destruct x as [a| | |]; cbn [Num.ltb Num.zero] in Hx; try discriminate.
  - destruct (Num.Qltb a 0) eqn:Ha.
    + injection Hx as <-. apply Qle_refl.
    + injection Hx as <-. apply Qnot_lt_le. intros Hlt.
      apply NumFacts.Qltb_lt in Hlt. congruence.
  - injection Hx as <-. apply Qle_refl.
Qed.

Lemma losses_nonneg (delta : list Num.fl) (q : Q) :
  In (Num.Fin q) (map Num.neg (Series.clip_upper Num.zero delta)) ->
  (0 <= q)%Q.
Proof.
  unfold Series.clip_upper. rewrite map_map, in_map_iff. intros (x & Hx & _).
  destruct x as [a| | |]; cbn [Num.ltb Num.zero] in Hx; try discriminate.
  - destruct (Num.Qltb 0 a) eqn:Ha.
    + injection Hx as <-. vm_compute. discriminate.
    + unfold Num.neg, Num.fin in Hx. injection Hx as <-.
      rewrite Qred_correct.
      assert (a <= 0)%Q.
      { apply Qnot_lt_le. intros Hlt. apply NumFacts.Qltb_lt in Hlt.
        congruence. }
      lra.
  - injection Hx as <-. vm_compute. discriminate.
Qed.

Lemma div_Fin (a b : Q) :
  Qeq_bool b 0 = false -> Num.div (Num.Fin a) (Num.Fin b) = Num.Fin (Qred (a / b)).
Proof. intros H. unfold Num.div. now rewrite H. Qed.

Lemma round_Fin_range (n : nat) (r lo hi : Q) :
  (lo <= r)%Q -> (r <= hi)%Q ->
  exists q, Num.round n (Num.Fin r) = Num.Fin q
            /\ Num.leb (Num.round n (Num.Fin lo)) (Num.Fin q) = true
            /\ Num.leb (Num.Fin q) (Num.round n (Num.Fin hi)) = true.
Proof.
  intros Hlo Hhi.
  pose proof (NumFacts.round_mono n lo r Hlo) as H1.
  pose proof (NumFacts.round_mono n r hi Hhi) as H2.
  unfold Num.round at 1. unfold Num.fin. eexists. split; [reflexivity|].
  split; [exact H1 | exact H2].
Qed.

(** One cell of the RSI column, from the averages of its row. *)
Lemma rsi_cell_range (gain loss : Num.fl) :
  nonneg_or_nan gain -> nonneg_or_nan loss ->
  Num.round 4 (rsi_cell gain loss) = Num.NaN
  \/ exists q, Num.round 4 (rsi_cell gain loss) = Num.Fin q
                /\ (0 <= q)%Q /\ (q <= 100)%Q.
Proof.
  intros Hg Hl. unfold rsi_cell.
  destruct gain as [a| | |]; try contradiction; [|left; now destruct loss].
  destruct loss as [b| | |]; try contradiction; [|left; reflexivity].
  cbn [nonneg_or_nan] in Hg, Hl. cbn [Num.eqb Num.zero].
  destruct (Qeq_bool b 0) eqn:Hb.
  { right. change (Num.div (Num.Fin a) Num.PInf) with Num.zero.
    eexists. split; [vm_compute; reflexivity|].
    split; vm_compute; discriminate. }
  assert (Hbpos : (0 < b)%Q).
  { apply Qle_lteq in Hl as [H|H]; [exact H|].
    symmetry in H. apply Qeq_bool_iff in H. congruence. }
  right. rewrite (div_Fin a b Hb).
  set (rs := Qred (a / b)).
  assert (Hrs : (0 <= rs)%Q).
  { unfold rs. rewrite Qred_correct. apply Qle_shift_div_l; [exact Hbpos|].
    now rewrite Qmult_0_l. }
  change (Num.add (Num.of_Z 1) (Num.Fin rs))
    with (Num.Fin (Qred (inject_Z 1 + rs))).
  set (t := Qred (inject_Z 1 + rs)).
  assert (Ht : (1 <= t)%Q).
  { unfold t. rewrite Qred_correct. change (inject_Z 1) with 1%Q. lra. }
  assert (Ht0 : Qeq_bool t 0 = false).
  { destruct (Qeq_bool t 0) eqn:E; [apply Qeq_bool_eq in E; lra | reflexivity]. }
  change (Num.of_Z 100) with (Num.Fin (inject_Z 100)).
  rewrite (div_Fin _ t Ht0).
  set (d := Qred (inject_Z 100 / t)).
  assert (Hd : (0 <= d)%Q /\ (d <= 100)%Q).
  { unfold d. rewrite Qred_correct. change (inject_Z 100) with 100%Q. split.
    - apply Qle_shift_div_l; [lra|]. lra.
    - apply Qle_shift_div_r; [lra|]. lra. }
  change (Num.sub (Num.Fin (inject_Z 100)) (Num.Fin d))
    with (Num.Fin (Qred (inject_Z 100 + Qred (- d)))).
  set (r := Qred (inject_Z 100 + Qred (- d))).
  assert (Hr : (0 <= r)%Q /\ (r <= 100)%Q).
  { unfold r. rewrite !Qred_correct. change (inject_Z 100) with 100%Q. lra. }
  destruct (round_Fin_range 4 r 0 100 (proj1 Hr) (proj2 Hr))
    as (q & -> & Hlo & Hhi).
  exists q. split; [reflexivity|].
  change (Num.round 4 (Num.Fin 0)) with (Num.Fin 0) in Hlo.
  assert (E100 : Num.round 4 (Num.Fin 100) = Num.Fin 100)
    by (vm_compute; reflexivity).
  rewrite E100 in Hhi.
  apply NumFacts.leb_Fin in Hlo. apply NumFacts.leb_Fin in Hhi. auto.
Qed.

Lemma shift_length (xs : list Num.fl) :
  List.length (Series.shift xs) = List.length xs.
Proof.
  unfold Series.shift. destruct xs as [|x xs]; [reflexivity|].
  cbn [List.length]. rewrite removelast_firstn_len, length_firstn.
  simpl. lia.
Qed.

Lemma named_inj (prefix : string) (p q : Z) :
  named prefix p = named prefix q -> p = q.
Proof.
  unfold named. intros H. apply (inj (String.app prefix)) in H.
  now apply (inj pretty) in H.
Qed.

Lemma check_window_Ret (p : Z) (w : nat) :
  Series.check_window p = Ret w -> w = Z.to_nat p.
Proof.
  unfold Series.check_window. destruct (p <? 0)%Z; [discriminate|].
  destruct (p <? 1)%Z; [discriminate|]. now intros [= <-].
Qed.

Lemma rsi_values_length (w : nat) (delta : list Num.fl) :
  List.length (rsi_values w delta) = List.length delta.
Proof.
  rewrite rsi_values_cells, length_zip_with.
  unfold gain_average, loss_average, Series.rolling_mean.
  rewrite !rolling_length. unfold Series.clip_lower, Series.clip_upper.
  rewrite !length_map. lia.
Qed.

(** The loop of [add_rsi] over its periods. *)
Lemma rsi_fold (delta : list Num.fl) (ps : list Z) (df df' : DataFrame) :
  well_formed df -> List.length delta = List.length (rows df) ->
  Processing.fold_result
    (fun df p =>
       Res.bind (Series.check_window p)
         (fun w => Ret (set_numeric (named "RSI" p)
                          (Series.round 4 (rsi_values w delta)) df)))
    ps df = Ret df' ->
  well_formed df'
  /\ List.length (rows df') = List.length (rows df)
  /\ (forall c xs,
        (forall p, In p ps -> named "RSI" p <> c) ->
        numeric c df = Ret xs -> numeric c df' = Ret xs)
  /\ forall p,
       In p ps ->
       numeric (named "RSI" p) df'
       = Ret (Series.round 4 (rsi_values (Z.to_nat p) delta)).
Proof.
  revert df. induction ps as [|p ps IH]; intros df Hwf Hlen Hfold.
  - injection Hfold as <-. split_and!; auto. intros p [].
  - cbn [Processing.fold_result] in Hfold.
    destruct (Series.check_window p) as [w|] eqn:Hw; [|discriminate].
    cbn [Res.bind] in Hfold. apply check_window_Ret in Hw. subst w.
    set (vals := Series.round 4 (rsi_values (Z.to_nat p) delta)) in *.
    assert (Hvals : List.length vals = List.length (rows df)).
    { unfold vals. now rewrite round_length, rsi_values_length. }
    set (df1 := set_numeric (named "RSI" p) vals df) in *.
    assert (Hwf1 : well_formed df1) by now apply set_numeric_well_formed.
    assert (Hlen1 : List.length (rows df1) = List.length (rows df))
      by now apply set_numeric_rows_length.
    destruct (IH df1 Hwf1 (eq_trans Hlen (eq_sym Hlen1)) Hfold)
      as (Hwf' & Hlen' & Hkeep & Hread).
    split_and!.
    + exact Hwf'.
    + congruence.
    + intros c xs Hc Hxs. apply Hkeep.
      * intros p' Hp'. apply Hc. now right.
      * unfold df1. rewrite numeric_set_numeric_other; auto.
        apply Hc. now left.
    + intros p' Hp'.
      destruct (in_dec Z.eq_dec p' ps) as [Hin|Hnin]; [now apply Hread|].
      destruct Hp' as [<-|Hp']; [|contradiction].
      apply Hkeep.
      * intros q Hq Heq. apply named_inj in Heq. now subst.
      * now apply numeric_set_numeric.
Qed.

(** X14: every cell of an RSI column that [add_rsi] has written is NaN or
    a number from 0 to 100. *)
Theorem rsi_between_0_and_100
    (df df' : DataFrame) (periods : option (list Z)) (p : Z)
    (rsis : list Num.fl) (i : nat) (x : Num.fl) :
  well_formed df -> add_rsi df periods = Ret df' ->
  In p (periods_or periods [6; 14]) ->
  numeric (named "RSI" p) df' = Ret rsis -> rsis !! i = Some x ->
  x = Num.NaN \/ exists q, x = Num.Fin q /\ (0 <= q)%Q /\ (q <= 100)%Q.
Proof.
  intros Hwf Hrun Hp Hcol Hx. unfold add_rsi in Hrun.
  destruct (empty df) eqn:Hempty.
  { (* an empty frame has no cell to read *)
    injection Hrun as <-. exfalso.
    pose proof (numeric_length _ _ _ Hcol) as Hlen.
    apply lookup_lt_Some in Hx. unfold empty in Hempty.
    destruct (rows df) as [|r rs]; [simpl in Hlen; lia|].
    destruct (columns df) eqn:Hcols; [|discriminate].
    unfold numeric, column in Hcol. rewrite Hcols in Hcol. discriminate. }
  destruct (numeric "close" df) as [close|] eqn:Hclose; [|discriminate].
  cbn [Res.bind] in Hrun. unfold fold_result in Hrun.
  assert (Hdelta : List.length (Series.diff close) = List.length (rows df)).
  { rewrite <- (numeric_length _ _ _ Hclose). unfold Series.diff, Series.map2.
    rewrite length_zip_with, shift_length. lia. }
  destruct (rsi_fold _ _ _ _ Hwf Hdelta Hrun) as (_ & _ & _ & Hread).
  rewrite (Hread p Hp) in Hcol. injection Hcol as <-.
  unfold Series.round in Hx. rewrite rsi_values_cells in Hx.
  rewrite list_lookup_fmap in Hx.
  destruct (zip_with rsi_cell _ _ !! i) as [c|] eqn:Hc; [|discriminate].
  injection Hx as <-.
  apply lookup_zip_with_Some in Hc as (g & l & -> & Hg & Hl).
  destruct (rsi_cell_range g l) as [E|(q & E & Hq)].
  - exact (rolling_mean_nonneg _ _ _ _ (gains_nonneg _) Hg).
  - exact (rolling_mean_nonneg _ _ _ _ (losses_nonneg _) Hl).
  - now left.
  - right. eauto.
Qed.

Definition rsi_of_10_12_11 : DataFrame :=
  {| columns := ["close"; "RSI2"];
     rows := [ [VNum (Num.Fin 10); VNum Num.NaN];
               [VNum (Num.Fin 12); VNum (Num.Fin 0)];
               [VNum (Num.Fin 11); VNum (Num.Fin (666667 # 10000))] ] |}.

(** X14 on the closes 10, 12, 11 and a window of 2, at the last row. *)
Lemma rsi_between_0_and_100_witness :
  add_rsi (closes [10; 12; 11]) (Some [2]) = Ret rsi_of_10_12_11
  /\ exists q, Num.Fin (666667 # 10000) = Num.Fin q
               /\ (0 <= q)%Q /\ (q <= 100)%Q.
Proof.
  assert (H1 : well_formed (closes [10; 12; 11])) by (repeat constructor).
  assert (H2 : add_rsi (closes [10; 12; 11]) (Some [2]) = Ret rsi_of_10_12_11)
    by (vm_compute; reflexivity).
  assert (H3 : In 2 (periods_or (Some [2]) [6; 14])) by (now left).
  assert (H4 : numeric (named "RSI" 2) rsi_of_10_12_11
               = Ret [Num.NaN; Num.Fin 0; Num.Fin (666667 # 10000)])
    by (vm_compute; reflexivity).
  split; [exact H2|].
  destruct (rsi_between_0_and_100 _ _ _ _ _ 2%nat _ H1 H2 H3 H4 eq_refl)
    as [E|H]; [discriminate E | exact H].
Defined.

(** *** What a transform writes *)

Import ProcessingMore.

(** [df'] is [df] with the columns [names] written, one after the other:
    a column that is not there is added as the last one; the rows are as
    many; the other columns are untouched. *)
Definition writes (names : list string) (df df' : DataFrame) : Prop :=
  well_formed df'
  /\ List.length (rows df') = List.length (rows df)
  /\ columns df' = fold_left add_key names (columns df)
  /\ forall c, ~ In c names -> column c df' = column c df.

Lemma writes_nil (df : DataFrame) : well_formed df -> writes [] df df.
Proof. intros H. split_and!; auto. Qed.

Lemma writes_set (names : list string) (df dfk : DataFrame) (c : string)
    (xs : list Num.fl) :
  writes names df dfk -> List.length xs = List.length (rows df) ->
  writes (names ++ [c]) df (set_numeric c xs dfk).
Proof.
  intros (Hwf & Hlen & Hcols & Hkeep) Hxs. split_and!.
  - now apply set_numeric_well_formed.
  - rewrite set_numeric_rows_length; congruence.
  - rewrite fold_left_app. cbn [fold_left]. rewrite <- Hcols.
    unfold set_numeric, set_column, add_key.
    destruct (index_of c (columns dfk)); reflexivity.
  - intros c' Hc'. rewrite <- Hkeep by (intros H; apply Hc', in_or_app; auto).
    unfold set_numeric. apply column_set_column_other; auto.
    + intros ->. apply Hc', in_or_app. right. now left.
    + unfold of_floats. rewrite length_map. congruence.
Qed.

Lemma writes_trans (n1 n2 : list string) (df df1 df2 : DataFrame) :
  writes n1 df df1 -> writes n2 df1 df2 -> writes (n1 ++ n2) df df2.
Proof.
  intros (_ & L1 & C1 & K1) (W2 & L2 & C2 & K2). split_and!.
  - exact W2.
  - congruence.
  - rewrite fold_left_app, <- C1. exact C2.
  - intros c Hc. rewrite K2, K1; auto; intros H; apply Hc, in_or_app; auto.
Qed.

Lemma writes_numeric (names : list string) (df df' : DataFrame) (c : string) :
  writes names df df' -> ~ In c names -> numeric c df' = numeric c df.
Proof. intros (_ & _ & _ & K) Hc. unfold numeric. now rewrite K. Qed.

Lemma read_new (names : list string) (df dfk : DataFrame) (c : string)
    (xs : list Num.fl) :
  writes names df dfk -> List.length xs = List.length (rows df) ->
  numeric c (set_numeric c xs dfk) = Ret xs.
Proof.
  intros (Hwf & Hlen & _) Hxs. apply numeric_set_numeric; congruence.
Qed.

Lemma read_old (names : list string) (df dfk : DataFrame) (c c' : string)
    (xs : list Num.fl) :
  writes names df dfk -> List.length xs = List.length (rows df) -> c <> c' ->
  numeric c' (set_numeric c xs dfk) = numeric c' dfk.
Proof.
  intros (Hwf & Hlen & _) Hxs Hne.
  apply numeric_set_numeric_other; congruence.
Qed.

Lemma fold_add_key_app (names cols : list string) :
  exists more, fold_left add_key names cols = cols ++ more.
Proof.
  revert cols. induction names as [|k names IH]; intros cols.
  - exists []. now rewrite app_nil_r.
  - simpl. destruct (IH (add_key cols k)) as [more ->]. unfold add_key.
    destruct (index_of k cols); [eauto|]. rewrite <- app_assoc. eauto.
Qed.

Lemma writes_nonempty (names : list string) (df df' : DataFrame) :
  writes names df df' -> empty df = false -> empty df' = false.
Proof.
  intros (_ & Hlen & Hcols & _). unfold empty.
  destruct (fold_add_key_app names (columns df)) as [more Hmore].
  rewrite Hmore in Hcols.
  destruct (rows df) as [|r rs]; [discriminate|].
  destruct (columns df) as [|c cs]; [discriminate|]. intros _.
  destruct (rows df'); [discriminate Hlen|]. now rewrite Hcols.
Qed.

(** *** Lengths of the Series operations *)

Lemma ewm_scan_length (alpha : Q) (st : Num.fl * Q) (xs : list Num.fl) :
  List.length (Series.ewm_scan alpha st xs) = List.length xs.
Proof.
  revert st. induction xs as [|x xs IH]; intros st; [reflexivity|].
  cbn [Series.ewm_scan List.length]. now rewrite IH.
Qed.

Lemma ewm_mean_length (alpha : Q) (xs : list Num.fl) :
  List.length (Series.ewm_mean alpha xs) = List.length xs.
Proof.
  destruct xs as [|x xs]; [reflexivity|].
  cbn [Series.ewm_mean List.length]. now rewrite ewm_scan_length.
Qed.

Lemma alpha_of_span_Ret (s : Z) :
  (1 <= s)%Z -> Series.alpha_of_span s = Ret (2 / (inject_Z s + 1))%Q.
Proof.
  intros H. unfold Series.alpha_of_span.
  destruct (Z.ltb_spec s 1); [lia | reflexivity].
Qed.

Lemma alpha_of_com_Ret (c : Z) :
  (0 <= c)%Z -> Series.alpha_of_com c = Ret (1 / (1 + inject_Z c))%Q.
Proof.
  intros H. unfold Series.alpha_of_com.
  destruct (Z.ltb_spec c 0); [lia | reflexivity].
Qed.

Lemma check_window_ok (p : Z) :
  (1 <= p)%Z -> Series.check_window p = Ret (Z.to_nat p).
Proof.
  intros H. unfold Series.check_window.
  destruct (Z.ltb_spec p 0); [lia|]. destruct (Z.ltb_spec p 1); [lia|].
  reflexivity.
Qed.

Ltac series_length :=
  repeat first
    [ rewrite round_length | rewrite ewm_mean_length | rewrite rolling_length
    | rewrite shift_length | rewrite rsi_values_length
    | rewrite length_zip_with | rewrite length_map
    | progress unfold Series.map2, scale, Series.replace, Series.row_max3,
        Series.diff, Series.rolling_mean, Series.rolling_std,
        Series.rolling_min, Series.rolling_max ];
  lia.

(** *** The transforms, one by one *)

(** A loop that writes one column per period and reads the close. *)
Lemma fold_writes (close : list Num.fl) (name : Z -> string)
    (f : DataFrame -> Z -> result DataFrame) (ps : list Z)
    (base : DataFrame) :
  (forall p, name p <> "close") ->
  List.length close = List.length (rows base) ->
  (forall dfk p,
     In p ps -> numeric "close" dfk = Ret close ->
     exists xs, f dfk p = Ret (set_numeric (name p) xs dfk)
                /\ List.length xs = List.length close) ->
  forall (df : DataFrame) (names : list string),
    writes names base df -> numeric "close" df = Ret close ->
    exists df',
      Processing.fold_result f ps df = Ret df'
      /\ writes (names ++ map name ps) base df'.
Proof.
  intros Hname Hlen. induction ps as [|p ps IH]; intros Hstep df names W Hc.
  - exists df. split; [reflexivity|]. now rewrite app_nil_r.
  - destruct (Hstep df p (or_introl eq_refl) Hc) as (xs & E & Hxs).
    cbn [Processing.fold_result]. rewrite E. cbn [Res.bind].
    assert (W1 : writes (names ++ [name p]) base (set_numeric (name p) xs df))
      by (apply writes_set; [exact W | congruence]).
    destruct (IH (fun dfk q Hq => Hstep dfk q (or_intror Hq)) _ _ W1)
      as (df' & E' & W').
    { rewrite (read_old names base df (name p) "close" xs W); auto.
      congruence. }
    exists df'. split; [exact E'|].
    now rewrite <- app_assoc in W'.
Qed.

Lemma named_not_close (a : ascii) (prefix : string) (p : Z) :
  a <> "c"%char -> named (String a prefix) p <> "close".
Proof.
  intros H E. apply H. unfold named in E.
  change (String a prefix +:+ pretty p) with (String a (prefix +:+ pretty p)) in E.
  now injection E as -> _.
Qed.

Section Transforms.
Variable base : DataFrame.
Variable close : list Num.fl.
Hypothesis Hclose_len : List.length close = List.length (rows base).

Lemma add_ma_writes (df : DataFrame) (names : list string)
    (periods : option (list Z)) :
  writes names base df -> empty df = false ->
  numeric "close" df = Ret close ->
  Forall (fun p => (1 <= p)%Z) (periods_or periods [5; 10; 20; 60]) ->
  exists df',
    add_ma df periods = Ret df'
    /\ writes (names ++ map (named "MA") (periods_or periods [5; 10; 20; 60]))
         base df'.
Proof.
  intros W Hne Hc Hps. unfold add_ma, fold_result. rewrite Hne.
  apply (fold_writes close (named "MA") _ _ base);
    [ intros p; apply named_not_close; discriminate | exact Hclose_len
    | | exact W | exact Hc ].
  intros dfk p Hp Hk. rewrite Hk. cbn [Res.bind].
  rewrite Forall_forall in Hps.
  rewrite check_window_ok by (apply Hps; now apply list_elem_of_In).
  cbn [Res.bind]. eexists. split; [reflexivity|]. series_length.
Qed.

Lemma add_ema_writes (df : DataFrame) (names : list string)
    (periods : option (list Z)) :
  writes names base df -> empty df = false ->
  numeric "close" df = Ret close ->
  Forall (fun p => (1 <= p)%Z) (periods_or periods [12; 26]) ->
  exists df',
    add_ema df periods = Ret df'
    /\ writes (names ++ map (named "EMA") (periods_or periods [12; 26]))
         base df'.
Proof.
  intros W Hne Hc Hps. unfold add_ema, fold_result. rewrite Hne.
  apply (fold_writes close (named "EMA") _ _ base);
    [ intros p; apply named_not_close; discriminate | exact Hclose_len
    | | exact W | exact Hc ].
  intros dfk p Hp Hk. rewrite Hk. cbn [Res.bind].
  rewrite Forall_forall in Hps. unfold ewm_span.
  rewrite alpha_of_span_Ret by (apply Hps; now apply list_elem_of_In).
  cbn [Res.bind]. eexists. split; [reflexivity|]. series_length.
Qed.

Lemma add_rsi_writes (df : DataFrame) (names : list string)
    (periods : option (list Z)) :
  writes names base df -> empty df = false ->
  numeric "close" df = Ret close ->
  Forall (fun p => (1 <= p)%Z) (periods_or periods [6; 14]) ->
  exists df',
    add_rsi df periods = Ret df'
    /\ writes (names ++ map (named "RSI") (periods_or periods [6; 14]))
         base df'.
Proof.
  intros W Hne Hc Hps. unfold add_rsi, fold_result. rewrite Hne, Hc.
  cbn [Res.bind]. cbv zeta.
  apply (fold_writes close (named "RSI") _ _ base);
    [ intros p; apply named_not_close; discriminate | exact Hclose_len
    | | exact W | exact Hc ].
  intros dfk p Hp Hk. rewrite Forall_forall in Hps.
  rewrite check_window_ok by (apply Hps; now apply list_elem_of_In).
  cbn [Res.bind]. eexists. split; [reflexivity|]. series_length.
Qed.

Lemma add_macd_writes (df : DataFrame) (names : list string)
    (fast slow signal : Z) :
  writes names base df -> empty df = false ->
  numeric "close" df = Ret close ->
  (1 <= fast)%Z -> (1 <= slow)%Z -> (1 <= signal)%Z ->
  exists df',
    add_macd df fast slow signal = Ret df'
    /\ writes (names ++ ["MACD_DIF"; "MACD_DEA"; "MACD_HIST"]) base df'.
Proof.
  intros W Hne Hc Hf Hs Hg. unfold add_macd, ewm_span. rewrite Hne, Hc.
  rewrite (alpha_of_span_Ret fast Hf), (alpha_of_span_Ret slow Hs).
  cbn [Res.bind]. cbv zeta.
  set (dif := Series.round 4 (Series.map2 Num.sub _ _)).
  assert (Ldif : List.length dif = List.length (rows base))
    by (unfold dif; series_length).
  pose proof (writes_set _ _ _ "MACD_DIF" dif W Ldif) as W1.
  rewrite (read_new _ _ _ "MACD_DIF" dif W Ldif).
  rewrite (alpha_of_span_Ret signal Hg). cbn [Res.bind].
  set (dea := Series.round 4 (Series.ewm_mean _ dif)).
  assert (Ldea : List.length dea = List.length (rows base))
    by (unfold dea; series_length).
  pose proof (writes_set _ _ _ "MACD_DEA" dea W1 Ldea) as W2.
  rewrite (read_old _ _ _ "MACD_DEA" "MACD_DIF" dea W1 Ldea) by discriminate.
  rewrite (read_new _ _ _ "MACD_DIF" dif W Ldif). cbn [Res.bind].
  rewrite (read_new _ _ _ "MACD_DEA" dea W1 Ldea). cbn [Res.bind].
  eexists. split; [reflexivity|].
  rewrite <- !app_assoc in W2. cbn [app] in W2.
  change (names ++ ["MACD_DIF"; "MACD_DEA"; "MACD_HIST"])
    with (names ++ ["MACD_DIF"; "MACD_DEA"] ++ ["MACD_HIST"]).
  rewrite app_assoc. apply writes_set; [exact W2|]. series_length.
Qed.

Lemma add_bollinger_writes (fsqrt : Q -> Q) (df : DataFrame)
    (names : list string) (period : Z) (std_dev : Num.fl) :
  writes names base df -> empty df = false ->
  numeric "close" df = Ret close -> (1 <= period)%Z ->
  exists df',
    add_bollinger fsqrt df period std_dev = Ret df'
    /\ writes (names ++ ["BOLL_MID"; "BOLL_UPPER"; "BOLL_LOWER"]) base df'.
Proof.
  intros W Hne Hc Hp. unfold add_bollinger. rewrite Hne, Hc.
  rewrite (check_window_ok period Hp). cbn [Res.bind]. cbv zeta.
  eexists. split; [reflexivity|].
  change (names ++ ["BOLL_MID"; "BOLL_UPPER"; "BOLL_LOWER"])
    with (names ++ ["BOLL_MID"] ++ ["BOLL_UPPER"] ++ ["BOLL_LOWER"]).
  rewrite !app_assoc.
  apply writes_set; [apply writes_set; [apply writes_set; [exact W|]|]|];
    series_length.
Qed.

Variable high low : list Num.fl.
Hypothesis Hhigh_len : List.length high = List.length (rows base).
Hypothesis Hlow_len : List.length low = List.length (rows base).

Lemma has_hlc_numeric (df : DataFrame) :
  numeric "close" df = Ret close -> numeric "high" df = Ret high ->
  numeric "low" df = Ret low -> has_hlc df = true.
Proof.
  intros Hc Hh Hl. unfold has_hlc. cbn [forallb].
  assert (H : forall c xs, numeric c df = Ret xs -> has_column c df = true).
  { intros c xs. unfold numeric, column, has_column.
    destruct (index_of c (columns df)); [reflexivity | discriminate]. }
  now rewrite (H _ _ Hc), (H _ _ Hh), (H _ _ Hl).
Qed.

Lemma add_kdj_writes (df : DataFrame) (names : list string)
    (period signal : Z) :
  writes names base df -> empty df = false ->
  numeric "close" df = Ret close -> numeric "high" df = Ret high ->
  numeric "low" df = Ret low ->
  (1 <= period)%Z -> (1 <= signal)%Z ->
  exists df',
    add_kdj df period signal = Ret df'
    /\ writes (names ++ ["KDJ_K"; "KDJ_D"; "KDJ_J"]) base df'.
Proof.
  intros W Hne Hc Hh Hl Hp Hs. unfold add_kdj, ewm_com.
  rewrite Hne, (has_hlc_numeric df Hc Hh Hl). cbn [negb orb].
  rewrite Hl, Hh, Hc, (check_window_ok period Hp).
  rewrite (alpha_of_com_Ret (signal - 1)) by lia. cbn [Res.bind]. cbv zeta.
  set (k := Series.round 4 (Series.ewm_mean _ _)).
  assert (Lk : List.length k = List.length (rows base))
    by (unfold k; series_length).
  pose proof (writes_set _ _ _ "KDJ_K" k W Lk) as W1.
  rewrite (read_new _ _ _ "KDJ_K" k W Lk). cbn [Res.bind].
  set (d := Series.round 4 (Series.ewm_mean _ k)).
  assert (Ld : List.length d = List.length (rows base))
    by (unfold d; series_length).
  pose proof (writes_set _ _ _ "KDJ_D" d W1 Ld) as W2.
  rewrite (read_old _ _ _ "KDJ_D" "KDJ_K" d W1 Ld) by discriminate.
  rewrite (read_new _ _ _ "KDJ_K" k W Lk). cbn [Res.bind].
  rewrite (read_new _ _ _ "KDJ_D" d W1 Ld). cbn [Res.bind].
  eexists. split; [reflexivity|].
  rewrite <- !app_assoc in W2. cbn [app] in W2.
  change (names ++ ["KDJ_K"; "KDJ_D"; "KDJ_J"])
    with (names ++ ["KDJ_K"; "KDJ_D"] ++ ["KDJ_J"]).
  rewrite app_assoc. apply writes_set; [exact W2|]. series_length.
Qed.

Lemma add_atr_writes (df : DataFrame) (names : list string) (period : Z) :
  writes names base df -> empty df = false ->
  numeric "close" df = Ret close -> numeric "high" df = Ret high ->
  numeric "low" df = Ret low -> (1 <= period)%Z ->
  exists df',
    add_atr df period = Ret df'
    /\ writes (names ++ [named "ATR" period]) base df'.
Proof.
  intros W Hne Hc Hh Hl Hp. unfold add_atr.
  rewrite Hne, (has_hlc_numeric df Hc Hh Hl). cbn [negb orb].
  rewrite Hc, Hh, Hl, (check_window_ok period Hp). cbn [Res.bind]. cbv zeta.
  eexists. split; [reflexivity|]. apply writes_set; [exact W|].
  series_length.
Qed.

End Transforms.

(** *** All the indicators at once *)

Definition indicator_names : list string :=
  ["MA5"; "MA10"; "MA20"; "MA60"; "EMA12"; "EMA26";
   "MACD_DIF"; "MACD_DEA"; "MACD_HIST"; "RSI6"; "RSI14";
   "BOLL_MID"; "BOLL_UPPER"; "BOLL_LOWER"; "KDJ_K"; "KDJ_D"; "KDJ_J"; "ATR14"].

Ltac not_written :=
  let H := fresh in intros H; vm_compute in H; intuition discriminate.

Ltac periods_ok := repeat constructor; lia.

(** X15: on a rectangular frame with rows whose close, high and low are
    columns of floats (NaN and the infinities among them, but no None, bool
    or other object, on which the arithmetic raises), [compute_all] returns
    normally.  The result has the same number of rows; its columns are
    those of the input followed by the eighteen indicator columns, each
    added unless the input already has it; and every column that is not an
    indicator column is as it was. *)
Theorem compute_all_adds_indicators
    (fsqrt : Q -> Q) (df : DataFrame) (close high low : list Num.fl) :
  well_formed df -> empty df = false ->
  numeric "close" df = Ret close -> numeric "high" df = Ret high ->
  numeric "low" df = Ret low ->
  exists df',
    compute_all fsqrt df = Ret df'
    /\ well_formed df'
    /\ List.length (rows df') = List.length (rows df)
    /\ columns df' = fold_left add_key indicator_names (columns df)
    /\ forall c, ~ In c indicator_names -> column c df' = column c df.
Proof.
  intros Hwf Hne Hc Hh Hl.
  pose proof (numeric_length _ _ _ Hc) as Lc.
  pose proof (numeric_length _ _ _ Hh) as Lh.
  pose proof (numeric_length _ _ _ Hl) as Ll.
  pose proof (writes_nil df Hwf) as W0.
  destruct (add_ma_writes df close Lc df [] None W0 Hne Hc)
    as (d1 & E1 & W1); [periods_ok|].
  assert (C1 : numeric "close" d1 = Ret close)
    by (rewrite (writes_numeric _ _ _ "close" W1); [exact Hc | not_written]).
  destruct (add_ema_writes df close Lc d1 _ None W1
              (writes_nonempty _ _ _ W1 Hne) C1)
    as (d2 & E2 & W2); [periods_ok|].
  assert (C2 : numeric "close" d2 = Ret close)
    by (rewrite (writes_numeric _ _ _ "close" W2); [exact Hc | not_written]).
  destruct (add_macd_writes df close Lc d2 _ 12 26 9 W2
              (writes_nonempty _ _ _ W2 Hne) C2)
    as (d3 & E3 & W3); [lia | lia | lia |].
  assert (C3 : numeric "close" d3 = Ret close)
    by (rewrite (writes_numeric _ _ _ "close" W3); [exact Hc | not_written]).
  destruct (add_rsi_writes df close Lc d3 _ None W3
              (writes_nonempty _ _ _ W3 Hne) C3)
    as (d4 & E4 & W4); [periods_ok|].
  assert (C4 : numeric "close" d4 = Ret close)
    by (rewrite (writes_numeric _ _ _ "close" W4); [exact Hc | not_written]).
  destruct (add_bollinger_writes df close Lc fsqrt d4 _ 20 (Num.of_Z 2) W4
              (writes_nonempty _ _ _ W4 Hne) C4)
    as (d5 & E5 & W5); [lia|].
  assert (C5 : numeric "close" d5 = Ret close)
    by (rewrite (writes_numeric _ _ _ "close" W5); [exact Hc | not_written]).
  assert (H5 : numeric "high" d5 = Ret high)
    by (rewrite (writes_numeric _ _ _ "high" W5); [exact Hh | not_written]).
  assert (L5 : numeric "low" d5 = Ret low)
    by (rewrite (writes_numeric _ _ _ "low" W5); [exact Hl | not_written]).
  destruct (add_kdj_writes df close Lc high low Lh Ll d5 _ 9 3 W5
              (writes_nonempty _ _ _ W5 Hne) C5 H5 L5)
    as (d6 & E6 & W6); [lia | lia |].
  assert (C6 : numeric "close" d6 = Ret close)
    by (rewrite (writes_numeric _ _ _ "close" W6); [exact Hc | not_written]).
  assert (H6 : numeric "high" d6 = Ret high)
    by (rewrite (writes_numeric _ _ _ "high" W6); [exact Hh | not_written]).
  assert (L6 : numeric "low" d6 = Ret low)
    by (rewrite (writes_numeric _ _ _ "low" W6); [exact Hl | not_written]).
  destruct (add_atr_writes df close Lc high low Lh Ll d6 _ 14 W6
              (writes_nonempty _ _ _ W6 Hne) C6 H6 L6)
    as (d7 & E7 & W7); [lia|].
  exists d7. split.
  - unfold compute_all. rewrite E1. cbn [Res.bind]. rewrite E2. cbn [Res.bind].
    rewrite E3. cbn [Res.bind]. rewrite E4. cbn [Res.bind].
    rewrite E5. cbn [Res.bind]. rewrite E6. cbn [Res.bind]. exact E7.
  - match type of W7 with
    | writes ?n _ _ =>
        assert (En : n = indicator_names) by (vm_compute; reflexivity);
        rewrite En in W7
    end.
    exact W7.
Qed.

(** Three days of prices. *)
Definition three_days : DataFrame :=
  {| columns := ["date"; "high"; "low"; "close"];
     rows :=
       [ [VStr "2024-01-01"; VNum (Num.of_Z 11); VNum (Num.of_Z 9);
          VNum (Num.of_Z 10)];
         [VStr "2024-01-02"; VNum (Num.of_Z 13); VNum (Num.of_Z 10);
          VNum (Num.of_Z 12)];
         [VStr "2024-01-03"; VNum (Num.of_Z 12); VNum (Num.of_Z 10);
          VNum (Num.of_Z 11)] ] |}.

(** X15 on these prices. *)
Lemma compute_all_adds_indicators_witness :
  exists df',
    compute_all approx_sqrt three_days = Ret df'
    /\ columns df' = ["date"; "high"; "low"; "close"] ++ indicator_names
    /\ column "close" df' = column "close" three_days.
Proof.
  destruct (compute_all_adds_indicators approx_sqrt three_days
              [Num.of_Z 10; Num.of_Z 12; Num.of_Z 11]
              [Num.of_Z 11; Num.of_Z 13; Num.of_Z 12]
              [Num.of_Z 9; Num.of_Z 10; Num.of_Z 10])
    as (df' & E & _ & _ & Hcols & Hkeep).
  - repeat constructor.
  - reflexivity.
  - reflexivity.
  - reflexivity.
  - reflexivity.
  - exists df'. split; [exact E|]. split; [exact Hcols|].
    apply Hkeep. not_written.
Defined.

End AnalysisMore.

(** ** The analysis layer: the summary of the last row, the ranges of ATR
       and KDJ *)

Module AnalysisRanges.
Import Py Frame Analysis FrameFacts AnalysisFacts AnalysisMore.
Local Open Scope list_scope.

(** *** The summary of the last row *)

(** [None if pd.isna(v) else v] *)
Definition null_to_none (v : pyval) : pyval :=
  if Processing.is_null v then VNone else v.

Lemma zip_map_values (cols : list string) (f : pyval -> pyval)
    (row : list pyval) :
  zip cols (map f row) = map (fun kv => (fst kv, f (snd kv))) (zip cols row).
Proof.
  revert row. induction cols as [|c cols IH]; intros [|v row]; simpl;
    try reflexivity.
  now rewrite IH.
Qed.

Lemma zip_keys (cols : list string) (row : list pyval) :
  List.length row = List.length cols -> map fst (zip cols row) = cols.
Proof.
  revert row. induction cols as [|c cols IH]; intros [|v row]; simpl;
    try reflexivity; try discriminate.
  intros [= H]. now rewrite IH.
Qed.

Lemma last_of_map {A B} (f : A -> B) (l : list A) :
  last (map f l) = option_map f (last l).
Proof.
  induction l as [|a [|b l] IH]; try reflexivity.
  exact IH.
Qed.

Lemma null_to_none_not_nan (v : pyval) : null_to_none v <> VNum Num.NaN.
Proof.
  unfold null_to_none. destruct (Processing.is_null v) eqn:E; [discriminate|].
  intros ->. discriminate E.
Qed.

(** X16: the summary of the last row is the last of the records of the
    frame ([to_records]) with every null value (None or NaN) replaced by
    None.  On a rectangular frame with rows and distinct column names its
    keys are the columns of the frame, in their order; a value is never
    NaN; an empty frame gives the empty summary. *)
Theorem summary_is_last_record (df : DataFrame) :
  well_formed df -> List.NoDup (columns df) ->
  to_indicator_summary df
  = match last (Processing.to_records df) with
    | Some r => map (fun kv => (fst kv, null_to_none (snd kv))) r
    | None => []
    end
  /\ (empty df = true -> to_indicator_summary df = [])
  /\ (empty df = false -> map fst (to_indicator_summary df) = columns df)
  /\ List.NoDup (map fst (to_indicator_summary df))
  /\ Forall (fun kv => snd kv <> VNum Num.NaN) (to_indicator_summary df).
Proof.
  intros Hwf Hnd. unfold to_indicator_summary, Processing.to_records.
  destruct (empty df) eqn:He.
  { split_and!; auto; [discriminate | constructor]. }
  unfold to_dict_records. rewrite last_of_map.
  destruct (last (rows df)) as [row|] eqn:Hl.
  - assert (Hlen : List.length row = List.length (columns df)).
    { apply last_Some_elem_of in Hl. unfold well_formed in Hwf.
      rewrite List.Forall_forall in Hwf. apply Hwf.
      now apply list_elem_of_In. }
    cbn [option_map]. fold null_to_none.
    change (fun v => if Processing.is_null v then VNone else v)
      with null_to_none.
    rewrite zip_map_values.
    assert (Hkeys : map fst
                      (map (fun kv : string * pyval =>
                              (fst kv, null_to_none (snd kv)))
                         (zip (columns df) row)) = columns df).
    { rewrite map_map. cbn [fst]. now apply zip_keys. }
    split_and!.
    + reflexivity.
    + discriminate.
    + intros _. exact Hkeys.
    + now rewrite Hkeys.
    + apply List.Forall_forall. intros kv Hin. apply in_map_iff in Hin.
      destruct Hin as (kv' & <- & _). apply null_to_none_not_nan.
  - apply last_None in Hl. unfold empty in He. rewrite Hl in He. discriminate.
Qed.

(** The last of three days, with an indicator that is not defined yet. *)
Definition with_gap : DataFrame :=
  {| columns := ["date"; "close"; "MA5"];
     rows :=
       [ [VStr "2024-01-01"; VNum (Num.of_Z 10); VNum Num.NaN];
         [VStr "2024-01-02"; VNum (Num.of_Z 12); VNum Num.NaN] ] |}.

(** X16 on that frame: the undefined indicator is None in the summary. *)
Lemma summary_is_last_record_witness :
  to_indicator_summary with_gap
  = [("date", VStr "2024-01-02"); ("close", VNum (Num.of_Z 12));
     ("MA5", VNone)]
  /\ map fst (to_indicator_summary with_gap) = columns with_gap.
Proof.
  destruct (summary_is_last_record with_gap) as (H1 & _ & H3 & _).
  - repeat constructor.
  - apply NoDup_ListNoDup, (bool_decide_unpack _). vm_compute. exact I.
  - split; [rewrite H1; reflexivity | apply H3; reflexivity].
Defined.

(** *** The range of the ATR *)

Lemma fmax_cases (x y : Num.fl) :
  Series.fmax x y = x \/ Series.fmax x y = y.
Proof.
  unfold Series.fmax. destruct (Num.is_nan x); [now right|].
  destruct (Num.is_nan y); [now left|]. destruct (Num.ltb x y); auto.
Qed.

Lemma abs_nonneg (x : Num.fl) (q : Q) :
  Num.abs x = Num.Fin q -> (0 <= q)%Q.
Proof.
  destruct x as [a| | |]; try discriminate. unfold Num.abs, Num.fin.
  intros [= <-]. rewrite Qred_correct. apply Qabs_nonneg.
Qed.

Lemma sub_Fin (x y : Num.fl) (q : Q) :
  Num.sub x y = Num.Fin q ->
  exists a b, x = Num.Fin a /\ y = Num.Fin b /\ (q == a - b)%Q.
Proof.
  destruct x as [a| | |], y as [b| | |]; try discriminate.
  unfold Num.sub, Num.neg, Num.add, Num.fin. intros [= <-].
  exists a, b. split_and!; try reflexivity. rewrite !Qred_correct. lra.
Qed.

Lemma round_nonneg (n : nat) (x : Num.fl) :
  nonneg_or_nan x -> nonneg_or_nan (Num.round n x).
Proof.
  destruct x as [r| | |]; try (cbn; tauto). intros Hr.
  cbn [nonneg_or_nan] in Hr.
  destruct (round_Fin_range n r 0 r Hr (Qle_refl r)) as (q & -> & Hlo & _).
  unfold Num.round, Num.fin in Hlo.
  change (Num.rint (0 * inject_Z (10 ^ Z.of_nat n))) with 0%Z in Hlo.
  apply NumFacts.leb_Fin in Hlo. rewrite Qred_correct in Hlo.
  cbn [nonneg_or_nan]. unfold Qdiv in Hlo. rewrite Qmult_0_l in Hlo.
  exact Hlo.
Qed.

(** The finite cells of the true range are not negative when no row has
    its high below its low. *)
Lemma true_range_nonneg (high low prev_close : list Num.fl) (q : Q) :
  (forall j h l,
     high !! j = Some (Num.Fin h) -> low !! j = Some (Num.Fin l) ->
     (l <= h)%Q) ->
  In (Num.Fin q)
    (Series.row_max3
       (Series.map2 Num.sub high low)
       (map Num.abs (Series.map2 Num.sub high prev_close))
       (map Num.abs (Series.map2 Num.sub low prev_close))) ->
  (0 <= q)%Q.
Proof.
  intros Hrows Hin. apply list_elem_of_In, list_elem_of_lookup in Hin as [j Hj].
  unfold Series.row_max3, Series.map2 in Hj.
  apply lookup_zip_with_Some in Hj as (ab & c & E & Hab & Hc).
  apply lookup_zip_with_Some in Hab as (a & b & -> & Ha & Hb).
  assert (Ha' : forall r, a = Num.Fin r -> (0 <= r)%Q).
  { intros r ->. apply lookup_zip_with_Some in Ha as (h & l & E' & Hh & Hl).
    symmetry in E'. apply sub_Fin in E' as (h' & l' & -> & -> & Hq).
    pose proof (Hrows j h' l' Hh Hl). lra. }
  assert (Hb' : forall r, b = Num.Fin r -> (0 <= r)%Q).
  { intros r ->. rewrite list_lookup_fmap in Hb.
    destruct (zip_with Num.sub high prev_close !! j); [|discriminate].
    injection Hb as Hb. now apply abs_nonneg in Hb. }
  assert (Hc' : forall r, c = Num.Fin r -> (0 <= r)%Q).
  { intros r ->. rewrite list_lookup_fmap in Hc.
    destruct (zip_with Num.sub low prev_close !! j); [|discriminate].
    injection Hc as Hc. now apply abs_nonneg in Hc. }
  destruct (fmax_cases (Series.fmax a b) c) as [E1|E1]; rewrite E1 in E;
    [|now apply Hc'].
  destruct (fmax_cases a b) as [E2|E2]; rewrite E2 in E; auto.
Qed.

(** X20: on a frame with high, low and close columns in which no row has
    its high below its low, every cell of the ATR column that [add_atr] has
    written is NaN or a number that is not negative. *)
Theorem atr_not_negative
    (df df' : DataFrame) (period : Z) (high low atrs : list Num.fl)
    (i : nat) (x : Num.fl) :
  well_formed df -> has_hlc df = true ->
  numeric "high" df = Ret high -> numeric "low" df = Ret low ->
  (forall j h l,
     high !! j = Some (Num.Fin h) -> low !! j = Some (Num.Fin l) ->
     (l <= h)%Q) ->
  add_atr df period = Ret df' ->
  numeric (named "ATR" period) df' = Ret atrs -> atrs !! i = Some x ->
  x = Num.NaN \/ exists q, x = Num.Fin q /\ (0 <= q)%Q.
Proof.
  intros Hwf Hhlc Hh Hl Hrows Hrun Hcol Hx. unfold add_atr in Hrun.
  destruct (empty df) eqn:Hempty.
  { (* an empty frame has no cell to read *)
    injection Hrun as <-. exfalso.
    pose proof (numeric_length _ _ _ Hcol) as Hlen.
    apply lookup_lt_Some in Hx. unfold empty in Hempty.
    destruct (rows df) as [|r rs]; [simpl in Hlen; lia|].
    destruct (columns df) eqn:Hcols; [|discriminate].
    unfold numeric, column in Hcol. rewrite Hcols in Hcol. discriminate. }
  rewrite Hhlc in Hrun. cbn [negb orb] in Hrun.
  destruct (numeric "close" df) as [close|] eqn:Hclose; [|discriminate].
  rewrite Hh, Hl in Hrun. cbn [Res.bind] in Hrun.
  destruct (Series.check_window period) as [w|]; [|discriminate].
  cbn [Res.bind] in Hrun. cbv zeta in Hrun. injection Hrun as <-.
  pose proof (numeric_length _ _ _ Hclose) as Lc.
  pose proof (numeric_length _ _ _ Hh) as Lh.
  pose proof (numeric_length _ _ _ Hl) as Ll.
  rewrite numeric_set_numeric in Hcol by (auto; series_length).
  injection Hcol as <-. unfold Series.round in Hx.
  rewrite list_lookup_fmap in Hx.
  destruct (Series.rolling_mean w _ !! i) as [y|] eqn:Hy; [|discriminate].
  injection Hx as <-.
  assert (Hn : nonneg_or_nan (Num.round 4 y)).
  { apply round_nonneg.
    exact (rolling_mean_nonneg _ _ _ _
             (fun q => true_range_nonneg high low (Series.shift close) q Hrows)
             Hy). }
  destruct (Num.round 4 y) as [q| | |]; try contradiction; eauto.
Qed.

(** X20 on three days of prices and a window of 2, at the last row. *)
Lemma atr_not_negative_witness :
  exists df' atrs q,
    add_atr three_days 2 = Ret df'
    /\ numeric "ATR2" df' = Ret atrs
    /\ atrs !! 2%nat = Some (Num.Fin q) /\ (0 <= q)%Q.
Proof.
  destruct (add_atr three_days 2) as [df'|] eqn:Hrun;
    [|vm_compute in Hrun; discriminate Hrun].
  destruct (numeric "ATR2" df') as [atrs|] eqn:Hcol.
  2:{ apply (f_equal (fun r => Res.bind r (numeric "ATR2"))) in Hrun.
      cbn [Res.bind] in Hrun. rewrite Hcol in Hrun. vm_compute in Hrun.
      discriminate Hrun. }
  destruct (atrs !! 2%nat) as [x|] eqn:Hx.
  2:{ apply (f_equal (fun r => Res.bind (Res.bind r (numeric "ATR2"))
                                 (fun xs => Ret (xs !! 2%nat)))) in Hrun.
      cbn [Res.bind] in Hrun. rewrite Hcol in Hrun. cbn [Res.bind] in Hrun.
      rewrite Hx in Hrun. vm_compute in Hrun. discriminate Hrun. }
  assert (Hfin : Num.is_nan x = false).
  { apply (f_equal (fun r => Res.bind (Res.bind r (numeric "ATR2"))
                               (fun xs => Ret (xs !! 2%nat)))) in Hrun.
    cbn [Res.bind] in Hrun. rewrite Hcol in Hrun. cbn [Res.bind] in Hrun.
    rewrite Hx in Hrun. vm_compute in Hrun. injection Hrun as <-.
    reflexivity. }
  destruct (atr_not_negative three_days df' 2
              [Num.of_Z 11; Num.of_Z 13; Num.of_Z 12]
              [Num.of_Z 9; Num.of_Z 10; Num.of_Z 10] atrs 2%nat x)
    as [->|(q & -> & Hq)]; try reflexivity; try assumption.
  - repeat constructor.
  - intros [|[|[|j]]] h l [= <-] [= <-]; vm_compute; discriminate.
  - discriminate Hfin.
  - exists df', atrs, q. auto.
Defined.

(** *** The range of KDJ *)

(** A finite value between two bounds. *)
Definition within (lo hi : Q) (x : Num.fl) : Prop :=
  exists q, x = Num.Fin q /\ (lo <= q)%Q /\ (q <= hi)%Q.

Lemma Qeq_bool_false (a b : Q) : Qeq_bool a b = false -> ~ (a == b)%Q.
Proof. intros H E. apply Qeq_bool_iff in E. congruence. Qed.

(** One step of the weighted mean stays between the bounds of its cells. *)
Lemma ewm_step_within (alpha lo hi wt w : Q) (cur : Num.fl) :
  (0 < alpha)%Q -> (alpha <= 1)%Q -> (0 <= wt)%Q ->
  (lo <= w)%Q -> (w <= hi)%Q -> within lo hi cur ->
  exists w', Series.ewm_step alpha (Num.Fin w, wt) cur = (Num.Fin w', 1%Q)
             /\ (lo <= w')%Q /\ (w' <= hi)%Q.
Proof.
  intros Ha0 Ha1 Hwt Hlo Hhi (c & -> & Hc1 & Hc2).
  unfold Series.ewm_step. cbn [Num.is_nan Num.eqb].
  destruct (Qeq_bool w c); [exists w; auto|].
  set (wt' := (wt * (1 - alpha))%Q).
  assert (Hwt' : (0 <= wt')%Q) by (unfold wt'; nra).
  assert (Hd : Qeq_bool (wt' + alpha) 0 = false).
  { destruct (Qeq_bool (wt' + alpha) 0) eqn:E; [|reflexivity].
    apply Qeq_bool_eq in E. lra. }
  unfold Num.mul, Num.add, Num.fin. rewrite div_Fin by exact Hd.
  eexists. split; [reflexivity|]. rewrite !Qred_correct. split.
  - apply Qle_shift_div_l; [lra|]. nra.
  - apply Qle_shift_div_r; [lra|]. nra.
Qed.

Lemma ewm_scan_within (alpha lo hi : Q) (xs : list Num.fl) (wt w : Q) :
  (0 < alpha)%Q -> (alpha <= 1)%Q -> (0 <= wt)%Q ->
  (lo <= w)%Q -> (w <= hi)%Q -> Forall (within lo hi) xs ->
  Forall (within lo hi) (Series.ewm_scan alpha (Num.Fin w, wt) xs).
Proof.
  intros Ha0 Ha1. revert wt w.
  induction xs as [|x xs IH]; intros wt w Hwt Hlo Hhi Hxs; [constructor|].
  inversion Hxs as [|? ? Hx Hrest]; subst.
  destruct (ewm_step_within alpha lo hi wt w x Ha0 Ha1 Hwt Hlo Hhi Hx)
    as (w' & E & Hlo' & Hhi').
  cbn [Series.ewm_scan]. cbv zeta. rewrite E. cbn [fst]. constructor.
  - exists w'. auto.
  - apply IH; auto. lra.
Qed.

Lemma ewm_mean_within (alpha lo hi : Q) (xs : list Num.fl) :
  (0 < alpha)%Q -> (alpha <= 1)%Q -> Forall (within lo hi) xs ->
  Forall (within lo hi) (Series.ewm_mean alpha xs).
Proof.
  intros Ha0 Ha1 Hxs. destruct xs as [|x xs]; [constructor|].
  inversion Hxs as [|? ? Hx Hrest]; subst. cbn [Series.ewm_mean].
  constructor; [exact Hx|]. destruct Hx as (q & -> & H1 & H2).
  apply ewm_scan_within; auto. lra.
Qed.

Lemma round_within_0_100 (xs : list Num.fl) :
  Forall (within 0 100) xs -> Forall (within 0 100) (Series.round 4 xs).
Proof.
  intros H. unfold Series.round. apply Forall_map.
  eapply Forall_impl; [exact H|]. intros x (r & -> & H0 & H100).
  destruct (round_Fin_range 4 r 0 100 H0 H100) as (q & -> & Hlo & Hhi).
  exists q. split; [reflexivity|].
  change (Num.round 4 (Num.Fin 0)) with (Num.Fin 0) in Hlo.
  assert (E100 : Num.round 4 (Num.Fin 100) = Num.Fin 100)
    by (vm_compute; reflexivity).
  rewrite E100 in Hhi.
  apply NumFacts.leb_Fin in Hlo. apply NumFacts.leb_Fin in Hhi. auto.
Qed.

(** The window of a row holds the row. *)
Lemma window_has_current (p : nat) (xs : list Num.fl) (i : nat) (x : Num.fl) :
  (1 <= p)%nat -> xs !! i = Some x -> In x (Series.window_at p xs i).
Proof.
  intros Hp Hx. unfold Series.window_at. apply list_elem_of_In.
  apply list_elem_of_lookup. exists (i - (S i - p))%nat.
  rewrite lookup_drop, lookup_take_lt by lia.
  now replace (S i - p + (i - (S i - p)))%nat with i by lia.
Qed.

Lemma Qmin_le (a b : Q) : (Series.Qmin a b <= a)%Q /\ (Series.Qmin a b <= b)%Q.
Proof.
  unfold Series.Qmin. destruct (Num.Qltb b a) eqn:E.
  - apply NumFacts.Qltb_lt in E. lra.
  - assert (~ (b < a)%Q) by (intros H; apply NumFacts.Qltb_lt in H; congruence).
    lra.
Qed.

Lemma Qmax_ge (a b : Q) : (a <= Series.Qmax a b)%Q /\ (b <= Series.Qmax a b)%Q.
Proof.
  unfold Series.Qmax. destruct (Num.Qltb a b) eqn:E.
  - apply NumFacts.Qltb_lt in E. lra.
  - assert (~ (a < b)%Q) by (intros H; apply NumFacts.Qltb_lt in H; congruence).
    lra.
Qed.

Lemma fold_Qmin_le (l : list Q) (a : Q) :
  (fold_left Series.Qmin l a <= a)%Q
  /\ forall q, In q l -> (fold_left Series.Qmin l a <= q)%Q.
Proof.
  revert a. induction l as [|b l IH]; intros a; cbn [fold_left].
  - split; [lra | intros q []].
  - destruct (IH (Series.Qmin a b)) as (H1 & H2).
    destruct (Qmin_le a b) as (Ha & Hb). split; [lra|].
    intros q [<-|Hq]; [lra | auto].
Qed.

Lemma fold_Qmax_ge (l : list Q) (a : Q) :
  (a <= fold_left Series.Qmax l a)%Q
  /\ forall q, In q l -> (q <= fold_left Series.Qmax l a)%Q.
Proof.
  revert a. induction l as [|b l IH]; intros a; cbn [fold_left].
  - split; [lra | intros q []].
  - destruct (IH (Series.Qmax a b)) as (H1 & H2).
    destruct (Qmax_ge a b) as (Ha & Hb). split; [lra|].
    intros q [<-|Hq]; [lra | auto].
Qed.

Lemma min_of_le (obs : list Q) (q : Q) :
  In q obs -> exists m, Series.min_of obs = Num.Fin m /\ (m <= q)%Q.
Proof.
  destruct obs as [|a l]; [intros []|]. intros Hq.
  unfold Series.min_of, Num.fin. eexists. split; [reflexivity|].
  rewrite Qred_correct. destruct (fold_Qmin_le l a) as (H1 & H2).
  destruct Hq as [<-|Hq]; auto.
Qed.

Lemma max_of_ge (obs : list Q) (q : Q) :
  In q obs -> exists m, Series.max_of obs = Num.Fin m /\ (q <= m)%Q.
Proof.
  destruct obs as [|a l]; [intros []|]. intros Hq.
  unfold Series.max_of, Num.fin. eexists. split; [reflexivity|].
  rewrite Qred_correct. destruct (fold_Qmax_ge l a) as (H1 & H2).
  destruct Hq as [<-|Hq]; auto.
Qed.

Lemma observed_current (p : nat) (xs : list Num.fl) (i : nat) (q : Q) :
  (1 <= p)%nat -> xs !! i = Some (Num.Fin q) ->
  In q (Series.observations (Series.window_at p xs i)).
Proof.
  intros Hp Hx. unfold Series.observations. apply list_elem_of_In.
  apply list_elem_of_omap. exists (Num.Fin q). split; [|reflexivity].
  apply list_elem_of_In. now apply window_has_current.
Qed.

(** One cell of the raw stochastic value, from a close between the lowest
    low and the highest high of its window. *)
Lemma rsv_cell_within (c m M : Q) :
  (m <= c)%Q -> (c <= M)%Q ->
  within 0 100
    (Num.mul
       (Num.div (Num.sub (Num.Fin c) (Num.Fin m))
          (if Num.eqb (Num.sub (Num.Fin M) (Num.Fin m)) Num.zero
           then Num.of_Z 1 else Num.sub (Num.Fin M) (Num.Fin m)))
       (Num.of_Z 100)).
Proof.
  intros Hm HM.
  change (Num.sub (Num.Fin c) (Num.Fin m))
    with (Num.Fin (Qred (c + Qred (- m)))).
  change (Num.sub (Num.Fin M) (Num.Fin m))
    with (Num.Fin (Qred (M + Qred (- m)))).
  set (z := Qred (c + Qred (- m))). set (t := Qred (M + Qred (- m))).
  assert (Hz : (z == c - m)%Q) by (unfold z; rewrite !Qred_correct; lra).
  assert (Ht : (t == M - m)%Q) by (unfold t; rewrite !Qred_correct; lra).
  cbn [Num.eqb Num.zero]. destruct (Qeq_bool t 0) eqn:E.
  - apply Qeq_bool_eq in E.
    assert (H1 : Qeq_bool (inject_Z 1) 0 = false) by reflexivity.
    unfold Num.of_Z. rewrite (div_Fin z _ H1).
    unfold Num.mul, Num.fin. eexists. split; [reflexivity|].
    rewrite !Qred_correct. change (inject_Z 1) with 1%Q.
    change (inject_Z 100) with 100%Q.
    assert (Hz0 : (z == 0)%Q) by lra. rewrite Hz0.
    split; vm_compute; discriminate.
  - pose proof (Qeq_bool_false _ _ E) as Hne.
    assert (Htpos : (0 < t)%Q) by lra.
    rewrite (div_Fin z t E). unfold Num.of_Z, Num.mul, Num.fin.
    eexists. split; [reflexivity|]. rewrite !Qred_correct.
    change (inject_Z 100) with 100%Q.
    assert (H0 : (0 <= z / t)%Q) by (apply Qle_shift_div_l; lra).
    assert (H1 : (z / t <= 1)%Q) by (apply Qle_shift_div_r; lra).
    lra.
Qed.

(** X21: on a frame whose high, low and close are finite on every row,
    with the close between the low and the high, every cell of the KDJ_K
    and KDJ_D columns that [add_kdj] has written is a number from 0 to
    100. *)
Theorem kdj_between_0_and_100
    (df df' : DataFrame) (period signal : Z) (high low close xs : list Num.fl)
    (col : string) (i : nat) (x : Num.fl) :
  well_formed df ->
  numeric "high" df = Ret high -> numeric "low" df = Ret low ->
  numeric "close" df = Ret close ->
  (forall j, (j < List.length (rows df))%nat ->
     exists h l c,
       high !! j = Some (Num.Fin h) /\ low !! j = Some (Num.Fin l)
       /\ close !! j = Some (Num.Fin c) /\ (l <= c)%Q /\ (c <= h)%Q) ->
  add_kdj df period signal = Ret df' ->
  col = "KDJ_K" \/ col = "KDJ_D" ->
  numeric col df' = Ret xs -> xs !! i = Some x ->
  exists q, x = Num.Fin q /\ (0 <= q)%Q /\ (q <= 100)%Q.
Proof.
  intros Hwf Hh Hl Hc Hrows Hrun Hname Hcol Hx. unfold add_kdj, ewm_com in Hrun.
  destruct (empty df) eqn:Hempty.
  { (* an empty frame has no cell to read *)
    exfalso. pose proof (numeric_length _ _ _ Hc) as Hlen.
    unfold empty in Hempty.
    destruct (rows df) as [|r rs] eqn:Hr.
    - cbn [orb] in Hrun. injection Hrun as <-.
      pose proof (numeric_length _ _ _ Hcol) as Hlen'.
      apply lookup_lt_Some in Hx. rewrite Hr in Hlen'. simpl in Hlen'. lia.
    - destruct (columns df) eqn:Hcols; [|discriminate].
      unfold numeric, column in Hc. rewrite Hcols in Hc. discriminate. }
  rewrite (has_hlc_numeric close high low df Hc Hh Hl) in Hrun.
  cbn [negb orb] in Hrun. rewrite Hl, Hh, Hc in Hrun. cbn [Res.bind] in Hrun.
  destruct (Series.check_window period) as [w|] eqn:Hw; [|discriminate].
  cbn [Res.bind] in Hrun. cbv zeta in Hrun.
  assert (Hw1 : (1 <= w)%nat).
  { unfold Series.check_window in Hw. destruct (period <? 0)%Z; [discriminate|].
    destruct (Z.ltb_spec period 1); [discriminate|]. injection Hw as <-. lia. }
  unfold Series.alpha_of_com in Hrun.
  destruct (Z.ltb_spec (signal - 1) 0) as [|Hs]; [discriminate|].
  cbn [Res.bind] in Hrun.
  set (alpha := (1 / (1 + inject_Z (signal - 1)))%Q) in Hrun.
  assert (Ha : (0 < alpha)%Q /\ (alpha <= 1)%Q).
  { assert (H0 : (0 <= inject_Z (signal - 1))%Q).
    { change 0%Q with (inject_Z 0). now rewrite <- Zle_Qle. }
    unfold alpha. split.
    - apply Qlt_shift_div_l; lra.
    - apply Qle_shift_div_r; lra. }
  pose proof (numeric_length _ _ _ Hc) as Lc.
  pose proof (numeric_length _ _ _ Hh) as Lh.
  pose proof (numeric_length _ _ _ Hl) as Ll.
  set (rsv := map (fun x => Num.mul x (Num.of_Z 100)) _) in Hrun.
  assert (Hrsv : Forall (within 0 100) rsv).
  { apply Forall_lookup. intros j y Hy. unfold rsv in Hy.
    rewrite list_lookup_fmap in Hy.
    destruct (Series.map2 Num.div _ _ !! j) as [r|] eqn:Hr; [|discriminate].
    injection Hy as <-. unfold Series.map2, Series.replace in Hr.
    apply lookup_zip_with_Some in Hr as (n & d & -> & Hn & Hd).
    apply lookup_zip_with_Some in Hn as (cj & mj & -> & Hcj & Hmj).
    rewrite list_lookup_fmap in Hd.
    destruct (zip_with Num.sub _ _ !! j) as [t|] eqn:Ht; [|discriminate].
    injection Hd as <-.
    apply lookup_zip_with_Some in Ht as (Mj & mj' & -> & HMj & Hmj').
    rewrite Hmj in Hmj'. injection Hmj' as <-.
    assert (Hj : (j < List.length (rows df))%nat).
    { apply lookup_lt_Some in Hcj. lia. }
    destruct (Hrows j Hj) as (h & l & c & Ehj & Elj & Ecj & Hlc & Hch).
    rewrite Ecj in Hcj. injection Hcj as <-.
    apply rolling_lookup in Hmj. apply rolling_lookup in HMj.
    destruct (min_of_le _ l (observed_current w low j l Hw1 Elj))
      as (m & Em & Hml).
    destruct (max_of_ge _ h (observed_current w high j h Hw1 Ehj))
      as (M & EM & HhM).
    rewrite Em in Hmj. rewrite EM in HMj. subst mj Mj.
    apply rsv_cell_within; lra. }
  set (k := Series.round 4 (Series.ewm_mean alpha rsv)) in Hrun.
  assert (Hk : Forall (within 0 100) k).
  { apply round_within_0_100, ewm_mean_within; tauto. }
  assert (Lk : List.length k = List.length (rows df)).
  { unfold k, rsv. series_length. }
  pose proof (writes_nil df Hwf) as W0.
  pose proof (writes_set _ _ _ "KDJ_K" k W0 Lk) as W1.
  rewrite (read_new _ _ _ "KDJ_K" k W0 Lk) in Hrun. cbn [Res.bind] in Hrun.
  set (d := Series.round 4 (Series.ewm_mean alpha k)) in Hrun.
  assert (Hd : Forall (within 0 100) d).
  { apply round_within_0_100, ewm_mean_within; tauto. }
  assert (Ld : List.length d = List.length (rows df)).
  { unfold d. series_length. }
  pose proof (writes_set _ _ _ "KDJ_D" d W1 Ld) as W2.
  rewrite (read_old _ _ _ "KDJ_D" "KDJ_K" d W1 Ld) in Hrun by discriminate.
  rewrite (read_new _ _ _ "KDJ_K" k W0 Lk) in Hrun. cbn [Res.bind] in Hrun.
  rewrite (read_new _ _ _ "KDJ_D" d W1 Ld) in Hrun. cbn [Res.bind] in Hrun.
  injection Hrun as <-.
  set (jv := Series.round 4 _) in Hcol.
  assert (Lj : List.length jv = List.length (rows df)).
  { unfold jv. series_length. }
  assert (Hin : Forall (within 0 100) xs).
  { destruct Hname as [-> | ->].
    - rewrite (read_old _ _ _ "KDJ_J" "KDJ_K" jv W2 Lj) in Hcol by discriminate.
      rewrite (read_old _ _ _ "KDJ_D" "KDJ_K" d W1 Ld) in Hcol by discriminate.
      rewrite (read_new _ _ _ "KDJ_K" k W0 Lk) in Hcol.
      now injection Hcol as <-.
    - rewrite (read_old _ _ _ "KDJ_J" "KDJ_D" jv W2 Lj) in Hcol by discriminate.
      rewrite (read_new _ _ _ "KDJ_D" d W1 Ld) in Hcol.
      now injection Hcol as <-. }
  rewrite Forall_lookup in Hin. exact (Hin i x Hx).
Qed.

(** X21 on three days of prices, for the KDJ_D of the last day. *)
Lemma kdj_between_0_and_100_witness :
  exists df' ds q,
    add_kdj three_days 9 3 = Ret df'
    /\ numeric "KDJ_D" df' = Ret ds
    /\ ds !! 2%nat = Some (Num.Fin q) /\ (0 <= q)%Q /\ (q <= 100)%Q.
Proof.
  destruct (add_kdj three_days 9 3) as [df'|] eqn:Hrun;
    [|vm_compute in Hrun; discriminate Hrun].
  destruct (numeric "KDJ_D" df') as [ds|] eqn:Hcol.
  2:{ apply (f_equal (fun r => Res.bind r (numeric "KDJ_D"))) in Hrun.
      cbn [Res.bind] in Hrun. rewrite Hcol in Hrun. vm_compute in Hrun.
      discriminate Hrun. }
  destruct (ds !! 2%nat) as [x|] eqn:Hx.
  2:{ apply (f_equal (fun r => Res.bind (Res.bind r (numeric "KDJ_D"))
                                 (fun xs => Ret (xs !! 2%nat)))) in Hrun.
      cbn [Res.bind] in Hrun. rewrite Hcol in Hrun. cbn [Res.bind] in Hrun.
      rewrite Hx in Hrun. vm_compute in Hrun. discriminate Hrun. }
  destruct (kdj_between_0_and_100 three_days df' 9 3
              [Num.of_Z 11; Num.of_Z 13; Num.of_Z 12]
              [Num.of_Z 9; Num.of_Z 10; Num.of_Z 10]
              [Num.of_Z 10; Num.of_Z 12; Num.of_Z 11] ds "KDJ_D" 2%nat x)
    as (q & -> & Hq); try reflexivity; try assumption.
  - repeat constructor.
  - intros [|[|[|j]]] Hj; [| | |simpl in Hj; lia].
    + exists 11%Q, 9%Q, 10%Q. split_and!; try reflexivity;
        vm_compute; discriminate.
    + exists 13%Q, 10%Q, 12%Q. split_and!; try reflexivity;
        vm_compute; discriminate.
    + exists 12%Q, 10%Q, 11%Q. split_and!; try reflexivity;
        vm_compute; discriminate.
  - now right.
  - exists df', ds, q. tauto.
Defined.

End AnalysisRanges.

(** ** The stock service: cache hits, and what a request leaves in the cache *)

Module StockServiceMore.
Import Py Store Cache Acquisition StockService CacheFacts AcquisitionFacts.
Import CacheMore.
Local Open Scope list_scope.

(** The commands of a cache read: the three reads and the removal of an
    entry found expired. *)
Definition lookup_event (ev : event) : bool :=
  match ev with
  | EvRedisGet _ | EvMongoFind _ | EvMongoDelete _
  | EvFileExists _ | EvFileRead _ | EvFileRemove _ => true
  | _ => false
  end.

(** A computation that sends nothing but such commands, whether it
    returns or raises. *)
Definition looks_up {A} (m : M A) : Prop :=
  forall w, exists (r : result A) (w' : World) (evs : list event),
    m w = (r, w') /\ trace w' = trace w ++ evs
    /\ forallb lookup_event evs = true.

Lemma looks_up_ret {A} (a : A) : looks_up (ret a).
Proof.
  intros w. exists (Ret a), w, []. rewrite app_nil_r. split_and!; reflexivity.
Qed.

Lemma looks_up_bind {A B} (m : M A) (k : A -> M B) :
  looks_up m -> (forall a, looks_up (k a)) -> looks_up (bind m k).
Proof.
  intros Hm Hk w. destruct (Hm w) as ([a|e] & w1 & evs1 & E1 & T1 & Q1).
  - destruct (Hk a w1) as (b & w2 & evs2 & E2 & T2 & Q2).
    exists b, w2, (evs1 ++ evs2). rewrite (bind_ret_eq _ _ _ _ _ E1).
    split_and!; [exact E2 | | ].
    + rewrite T2, T1, app_assoc. reflexivity.
    + rewrite forallb_app, Q1, Q2. reflexivity.
  - exists (Raise e), w1, evs1. rewrite (bind_raise_eq _ _ _ _ _ E1). auto.
Qed.

Ltac lookup_done :=
  do 3 eexists; (split; [reflexivity|]); simpl;
  (split; [first [ reflexivity
                 | rewrite <- !app_assoc; reflexivity
                 | symmetry; apply app_nil_r ]
          | reflexivity ]).

Lemma get_l1_looks_up (key : string) : looks_up (get_l1 key).
Proof.
  intros w. py_unfold. destruct w as [rd mg f ck pv tr]; simpl.
  destruct rd as [[rdata gf sf df]|]; simpl; [|lookup_done].
  destruct gf; simpl; [lookup_done|].
  destruct (rdata !! key) as [[[v| |] ex]|]; simpl;
    try destruct (ex <=? ck); simpl; lookup_done.
Qed.

Lemma get_l2_looks_up (key : string) : looks_up (get_l2 key).
Proof.
  intros w. rewrite get_l2_spec. do 3 eexists. split; [reflexivity|].
  split; [symmetry; apply app_nil_r | reflexivity].
Qed.

Lemma get_l3_looks_up (cfg : Settings) (key : string) :
  looks_up (get_l3 cfg key).
Proof.
  intros w. py_unfold. generalize (_file_path cfg key) as p. intros p.
  destruct w as [rd mg [files dirs mkf rf wf rmf] ck pv tr]; simpl.
  destruct (bool_decide (is_Some (files !! p)) || bool_decide (p ∈ dirs));
    simpl; [|lookup_done].
  destruct rf; simpl; [lookup_done|].
  destruct (files !! p) as [[v [e|]|]|] eqn:Hp; simpl; try lookup_done.
  destruct (negb (e =? 0) && (e <? ck)); simpl; try lookup_done.
  destruct rmf; simpl; rewrite ?Hp; lookup_done.
Qed.

Lemma get_looks_up (cfg : Settings) (ns : string) (parts : list string) :
  looks_up (get cfg ns parts).
Proof.
  unfold get. apply looks_up_bind; [apply get_l1_looks_up|].
  intros [v|]; [apply looks_up_ret|].
  apply looks_up_bind; [apply get_l2_looks_up|].
  intros [v|]; [apply looks_up_ret|].
  apply looks_up_bind; [apply get_l3_looks_up|].
  intros [v|]; apply looks_up_ret.
Qed.

(** A request that finds its answer in the cache is the cache read. *)
Lemma history_hit (cfg : Settings) to_datetime parse_float
    (symbol start_date end_date market : string) (w : World) (v : pyval) :
  fst (get cfg _HISTORY_CACHE_NS [market; symbol; start_date; end_date] w)
  = Ret v ->
  v <> VNone ->
  get_stock_history cfg to_datetime parse_float symbol start_date end_date
    market false w
  = get cfg _HISTORY_CACHE_NS [market; symbol; start_date; end_date] w.
Proof.
  intros Hv Hne. unfold get_stock_history, cached_unless_forced.
  destruct (get cfg _HISTORY_CACHE_NS [market; symbol; start_date; end_date] w)
    as [r w'] eqn:E.
  cbn [fst] in Hv. subst r. unfold bind at 1. unfold bind at 1. rewrite E.
  unfold ret at 1. destruct v; try reflexivity. contradiction.
Qed.

(** X17: when the cache holds an answer for a history request made
    without [force_refresh], the request returns it and does nothing but
    the cache read: no provider is called, no processing function, and
    nothing is written. *)
Theorem history_cache_hit
    (cfg : Settings) (to_datetime : pyval -> option Frame.Timestamp)
    (parse_float : string -> option Num.fl)
    (symbol start_date end_date market : string) (w : World) (v : pyval) :
  fst (get cfg _HISTORY_CACHE_NS [market; symbol; start_date; end_date] w)
  = Ret v ->
  v <> VNone ->
  exists w' evs,
    get_stock_history cfg to_datetime parse_float symbol start_date end_date
      market false w = (Ret v, w')
    /\ get cfg _HISTORY_CACHE_NS [market; symbol; start_date; end_date] w
       = (Ret v, w')
    /\ trace w' = trace w ++ evs
    /\ forallb lookup_event evs = true.
Proof.
  intros Hv Hne.
  rewrite (history_hit cfg to_datetime parse_float _ _ _ _ w v Hv Hne).
  destruct (get_looks_up cfg _HISTORY_CACHE_NS
              [market; symbol; start_date; end_date] w)
    as (a & w' & evs & E & T & Q).
  rewrite E in Hv. cbn [fst] in Hv. subst a.
  exists w', evs. rewrite E. auto.
Qed.

(** Redis holding the answer to a request. *)
Definition answered : World := {|
  redis := Some {| r_data := {[ "history:CN:600000:2024-01-01:2024-01-31"
                                := (RJson (VList []), 1700000060) ]};
                   r_get_fails := false; r_setex_fails := false;
                   r_delete_fails := false |};
  mongo := None; fs := healthy_disk ∅;
  clock := 1700000000; providers := silent_providers; trace := [];
|}.

(** X17 on that world: the one event is the read of Redis. *)
Lemma history_cache_hit_witness :
  exists w' evs,
    get_stock_history default_settings (fun _ => None) (fun _ => None)
      "600000" "2024-01-01" "2024-01-31" "CN" false answered
    = (Ret (VList []), w')
    /\ get default_settings _HISTORY_CACHE_NS
         ["CN"; "600000"; "2024-01-01"; "2024-01-31"] answered
       = (Ret (VList []), w')
    /\ trace w' = trace answered ++ evs
    /\ forallb lookup_event evs = true.
Proof.
  apply history_cache_hit; [vm_compute; reflexivity | discriminate].
Defined.

(** X18: the list of a market other than "CN" that is not in the cache is
    the empty list, and asking for it calls no provider and writes
    nothing: the world is left as the cache lookup left it. *)
Theorem stock_list_other_market
    (cfg : Settings) (market : string) (force_refresh : bool)
    (w w1 : World) :
  market <> "CN" ->
  cached_unless_forced cfg force_refresh _LIST_CACHE_NS [market] w
  = (Ret None, w1) ->
  get_stock_list cfg market force_refresh w = (Ret (VList []), w1).
Proof.
  intros Hm Hhit. unfold get_stock_list.
  rewrite (bind_ret_eq _ _ _ _ _ Hhit).
  destruct (String.eqb_spec market "CN") as [->|_]; [contradiction|].
  reflexivity.
Qed.

(** X18 for the Hong Kong market, with nothing cached. *)
Lemma stock_list_other_market_witness :
  get_stock_list default_settings "HK" false offline_world
  = (Ret (VList []),
     snd (cached_unless_forced default_settings false _LIST_CACHE_NS ["HK"]
            offline_world)).
Proof.
  apply stock_list_other_market; [discriminate | vm_compute; reflexivity].
Defined.

(** *** What a request leaves in the cache *)

(** The storage handles of two worlds fail or work alike, and the disk of
    the second is ready for a key when that of the first is. *)
Definition same_stores (cfg : Settings) (w w' : World) : Prop :=
  healthy w' = healthy w
  /\ (redis w' = None <-> redis w = None)
  /\ (mongo w' = None <-> mongo w = None)
  /\ forall key, disk_ready cfg w key = true -> disk_ready cfg w' key = true.

Lemma same_stores_refl (cfg : Settings) (w : World) : same_stores cfg w w.
Proof. split_and!; tauto. Qed.

Lemma same_stores_trans (cfg : Settings) (w1 w2 w3 : World) :
  same_stores cfg w1 w2 -> same_stores cfg w2 w3 -> same_stores cfg w1 w3.
Proof.
  intros (H1 & R1 & M1 & D1) (H2 & R2 & M2 & D2).
  split_and!; [congruence | tauto | tauto | auto].
Qed.

Lemma same_stores_logged (cfg : Settings) (w : World) (evs : list event) :
  same_stores cfg w (logged w evs).
Proof. split_and!; try tauto; reflexivity. Qed.

Lemma same_stores_get (cfg : Settings) (ns : string) (parts : list string)
    (w w' : World) (v : pyval) :
  get cfg ns parts w = (Ret v, w') -> same_stores cfg w w'.
Proof.
  intros G.
  destruct (get_returned cfg ns parts w w' v G)
    as (_ & (Hr & _ & Hf & _) & Hm & _).
  set (key := _make_key ns parts) in *.
  set (path := _file_path cfg key) in *.
  assert (Hfs : fs w' = fs w \/ fs w' = fs_evicted w path).
  { rewrite Hf. unfold fs_after_get.
    destruct (tier1_lookup w key), (tier2_lookup w key),
      (tier3_lookup w path); auto. }
  assert (Hfflags : f_makedirs_fails (fs w') = f_makedirs_fails (fs w)
                    /\ f_read_fails (fs w') = f_read_fails (fs w)
                    /\ f_write_fails (fs w') = f_write_fails (fs w)
                    /\ f_remove_fails (fs w') = f_remove_fails (fs w)
                    /\ f_dirs (fs w') = f_dirs (fs w)
                    /\ forall p, f_files (fs w) !! p = None ->
                                 f_files (fs w') !! p = None).
  { destruct Hfs as [->| ->]; [split_and!; auto|]. unfold fs_evicted.
    destruct (f_remove_fails (fs w)) eqn:Hrm; [split_and!; auto|].
    cbn. split_and!; auto. intros p Hp. apply lookup_delete_None. auto. }
  destruct Hfflags as (F1 & F2 & F3 & F4 & F5 & F6).
  split_and!.
  - unfold healthy. now rewrite Hr, Hm, F1, F2, F3, F4.
  - now rewrite Hr.
  - now rewrite Hm.
  - intros k. unfold disk_ready. rewrite F5. intros H.
    apply andb_true_iff in H as [H1 H2]. rewrite H2, andb_true_r.
    apply bool_decide_eq_true in H1. apply bool_decide_eq_true. auto.
Qed.

Lemma same_stores_lookup (cfg : Settings) (force_refresh : bool) (ns : string)
    (parts : list string) (w w' : World) (hit : option pyval) :
  cached_unless_forced cfg force_refresh ns parts w = (Ret hit, w') ->
  same_stores cfg w w'.
Proof.
  unfold cached_unless_forced. destruct force_refresh.
  - unfold ret. intros [= _ <-]. apply same_stores_refl.
  - destruct (get cfg ns parts w) as [[v|e] w2] eqn:G; unfold bind;
      rewrite G; [|discriminate].
    unfold ret. intros [= _ <-]. eapply same_stores_get; eassumption.
Qed.

Lemma bind_processing {A B} (func : string) (r : result A) (k : A -> M B)
    (w : World) :
  bind (processing func r) k w
  = match r with
    | Ret a => k a (logged w [EvCall func])
    | Raise e => (Raise e, logged w [EvCall func])
    end.
Proof. destruct r; reflexivity. Qed.

(** The statements of [get_stock_history] after the provider call has
    answered some records, as a function of the normalised frame. *)
Definition after_normalize (cfg : Settings) (start_date end_date : string)
    (parts : list string) (normalized : Frame.DataFrame) : M pyval :=
  (df <- processing "normalize_ohlcv" (Ret normalized) ;;
   df <- processing "filter_date_range"
           (Processing.filter_date_range df (Some start_date) (Some end_date)) ;;
   df <- processing "fill_missing" (Processing.fill_missing df) ;;
   df <- processing "add_basic_metrics" (Processing.add_basic_metrics df) ;;
   records <- processing "to_records" (Ret (Processing.to_records df)) ;;
   Cache.set cfg (records_value records) _HISTORY_CACHE_NS parts
     (Some (STOCK_DATA_CACHE_TTL cfg)) ;;;
   ret (records_value records))%py.

Lemma history_miss (cfg : Settings) to_datetime parse_float
    (symbol start_date end_date market : string) (force_refresh : bool)
    (w w0 wf : World) (raw : list record) :
  cached_unless_forced cfg force_refresh _HISTORY_CACHE_NS
    [market; symbol; start_date; end_date] w = (Ret None, w0) ->
  fetch_raw cfg symbol start_date end_date market w0 = (Ret raw, wf) ->
  raw <> [] ->
  get_stock_history cfg to_datetime parse_float symbol start_date end_date
    market force_refresh w
  = after_normalize cfg start_date end_date
      [market; symbol; start_date; end_date]
      (Processing.normalize_ohlcv to_datetime parse_float raw) wf.
Proof.
  intros Hhit Hraw Hne. unfold get_stock_history.
  rewrite (bind_ret_eq _ _ _ _ _ Hhit).
  rewrite (bind_ret_eq _ _ _ _ _ Hraw).
  assert (Ht : negb (truthy raw) = false)
    by (destruct raw; [contradiction | reflexivity]).
  rewrite Ht. unfold after_normalize. reflexivity.
Qed.

(** When those statements return, the answer has been handed to
    [cache.set] in a world that differs from the first by its trace. *)
Lemma after_normalize_stores (cfg : Settings) (start_date end_date : string)
    (parts : list string) (normalized : Frame.DataFrame) (w w1 : World)
    (v : pyval) :
  after_normalize cfg start_date end_date parts normalized w = (Ret v, w1) ->
  v <> VNone
  /\ exists evs,
       Cache.set cfg v _HISTORY_CACHE_NS parts (Some (STOCK_DATA_CACHE_TTL cfg))
         (logged w evs) = (Ret tt, w1).
Proof.
  unfold after_normalize. intros Hrun.
  rewrite bind_processing in Hrun.
  rewrite bind_processing in Hrun.
  destruct (Processing.filter_date_range _ _ _) as [d1|]; [|discriminate].
  rewrite bind_processing in Hrun.
  destruct (Processing.fill_missing d1) as [d2|]; [|discriminate].
  rewrite bind_processing in Hrun.
  destruct (Processing.add_basic_metrics d2) as [d3|]; [|discriminate].
  rewrite bind_processing in Hrun.
  rewrite !logged_logged in Hrun.
  assert (Hv : records_value (Processing.to_records d3) <> VNone)
    by discriminate.
  revert Hv Hrun. generalize (records_value (Processing.to_records d3)).
  intros value Hv Hrun. unfold bind in Hrun.
  match type of Hrun with
  | context [Cache.set cfg value ?ns parts ?ttl (logged w ?evs)] =>
      destruct (Cache.set cfg value ns parts ttl (logged w evs))
        as [[[]|e] ws] eqn:Es; [|discriminate]; unfold ret in Hrun;
      injection Hrun as <- <-; split; [exact Hv|]; exists evs; exact Es
  end.
Qed.

(** X19: a history request that has fetched records and returned leaves
    its answer in the cache: in a healthy world with a positive time to
    live, the same request made next, without [force_refresh], returns the
    same answer from the cache read alone. *)
Theorem history_served_from_cache
    (cfg : Settings) (to_datetime : pyval -> option Frame.Timestamp)
    (parse_float : string -> option Num.fl)
    (symbol start_date end_date market : string) (force_refresh : bool)
    (w w0 wf w1 : World) (raw : list record) (v : pyval) :
  let parts := [market; symbol; start_date; end_date] in
  healthy w = true -> 0 < STOCK_DATA_CACHE_TTL cfg ->
  (redis w = None -> mongo w = None ->
   disk_ready cfg w (_make_key _HISTORY_CACHE_NS parts) = true) ->
  cached_unless_forced cfg force_refresh _HISTORY_CACHE_NS parts w
  = (Ret None, w0) ->
  fetch_raw cfg symbol start_date end_date market w0 = (Ret raw, wf) ->
  raw <> [] ->
  get_stock_history cfg to_datetime parse_float symbol start_date end_date
    market force_refresh w = (Ret v, w1) ->
  exists w2 evs,
    get_stock_history cfg to_datetime parse_float symbol start_date end_date
      market false w1 = (Ret v, w2)
    /\ trace w2 = trace w1 ++ evs
    /\ forallb lookup_event evs = true.
Proof.
  intros parts Hh Httl Hdisk Hhit Hraw Hne Hrun.
  pose proof (same_stores_lookup _ _ _ _ _ _ _ Hhit) as S0.
  rewrite (history_miss _ _ _ _ _ _ _ _ _ _ _ _ Hhit Hraw Hne) in Hrun.
  apply after_normalize_stores in Hrun as (Hv & evs0 & Es).
  destruct (StockServiceFacts.fetch_raw_spec cfg symbol start_date end_date
              market w0) as (res & names & E).
  rewrite E in Hraw. injection Hraw as _ <-.
  rewrite logged_logged in Es.
  assert (Sp : same_stores cfg w (logged w0 (map EvProvider names ++ evs0))).
  { eapply same_stores_trans; [exact S0|]. apply same_stores_logged. }
  destruct Sp as (Hp & Rp & Mp & Dp).
  destruct (set_returned_then_get cfg v _HISTORY_CACHE_NS parts
              (STOCK_DATA_CACHE_TTL cfg)
              (logged w0 (map EvProvider names ++ evs0)) w1)
    as (wg & Eg).
  { now rewrite Hp. }
  { exact Httl. }
  { intros Hr Hm. apply Dp. apply Hdisk; [now apply Rp | now apply Mp]. }
  { exact Es. }
  destruct (get_looks_up cfg _HISTORY_CACHE_NS parts w1)
    as (a & w2 & evs & G & T & Q).
  rewrite Eg in G. injection G as <- <-.
  exists wg, evs. split; [|split; assumption].
  rewrite (history_hit cfg to_datetime parse_float _ _ _ _ w1 v).
  - exact Eg.
  - fold parts. now rewrite Eg.
  - exact Hv.
Qed.

(** Akshare answering two daily quotes, and Redis connected and empty. *)
Definition two_quotes : list record :=
  [ [("date", VStr "2024-01-02"); ("open", VNum (Num.of_Z 10));
     ("high", VNum (Num.of_Z 12)); ("low", VNum (Num.of_Z 9));
     ("close", VNum (Num.of_Z 11)); ("volume", VNum (Num.of_Z 1000))];
    [("date", VStr "2024-01-03"); ("open", VNum (Num.of_Z 11));
     ("high", VNum (Num.of_Z 13)); ("low", VNum (Num.of_Z 11));
     ("close", VNum (Num.of_Z 12)); ("volume", VNum (Num.of_Z 1500))] ].

Definition quoting_providers : Providers := {|
  akshare_history := fun _ _ _ => Ret two_quotes;
  tushare_history := fun _ _ _ => Ret [];
  baostock_history := fun _ _ _ => Ret [];
  akshare_list := Ret [];
  tushare_list := Ret [];
  baostock_list := Ret [];
  akshare_hk_history := fun _ _ _ => Ret [];
  yfinance_history := fun _ _ _ => Ret [];
|}.

Definition quoting_world : World := {|
  redis := Some empty_redis; mongo := None; fs := healthy_disk ∅;
  clock := 1700000000; providers := quoting_providers; trace := [];
|}.

(** X19 on that world: the first request calls Akshare and returns two
    records, the second returns them from the cache read. *)
Lemma history_served_from_cache_witness :
  exists v w1 w2 evs,
    get_stock_history default_settings ProcessingFacts.iso_date
      (fun _ => None) "600000" "2024-01-01" "2024-01-31" "CN" false
      quoting_world = (Ret v, w1)
    /\ trace w1 <> []
    /\ get_stock_history default_settings ProcessingFacts.iso_date
         (fun _ => None) "600000" "2024-01-01" "2024-01-31" "CN" false w1
       = (Ret v, w2)
    /\ trace w2 = trace w1 ++ evs
    /\ forallb lookup_event evs = true.
Proof.
  destruct (get_stock_history default_settings ProcessingFacts.iso_date
              (fun _ => None) "600000" "2024-01-01" "2024-01-31" "CN" false
              quoting_world) as [r w1] eqn:Hrun.
  pose proof (f_equal fst Hrun) as Hr. pose proof (f_equal snd Hrun) as Hw.
  cbn [fst snd] in Hr, Hw. vm_compute in Hr.
  destruct r as [v|e]; [|discriminate Hr].
  assert (Ht : trace w1 <> []).
  { rewrite <- Hw. vm_compute. discriminate. }
  destruct (history_served_from_cache default_settings ProcessingFacts.iso_date
              (fun _ => None) "600000" "2024-01-01" "2024-01-31" "CN" false
              quoting_world
              (snd (cached_unless_forced default_settings false
                      _HISTORY_CACHE_NS
                      ["CN"; "600000"; "2024-01-01"; "2024-01-31"]
                      quoting_world))
              (snd (fetch_raw default_settings "600000" "2024-01-01"
                      "2024-01-31" "CN"
                      (snd (cached_unless_forced default_settings false
                              _HISTORY_CACHE_NS
                              ["CN"; "600000"; "2024-01-01"; "2024-01-31"]
                              quoting_world))))
              w1 two_quotes v)
    as (w2 & evs & E & T & Q).
  - vm_compute. reflexivity.
  - vm_compute. reflexivity.
  - discriminate.
  - vm_compute. reflexivity.
  - vm_compute. reflexivity.
  - discriminate.
  - exact Hrun.
  - exists v, w1, w2, evs. auto.
Defined.

(** *** The stock list *)

Lemma list_hit (cfg : Settings) (market : string) (w : World) (v : pyval) :
  fst (get cfg _LIST_CACHE_NS [market] w) = Ret v ->
  v <> VNone ->
  get_stock_list cfg market false w = get cfg _LIST_CACHE_NS [market] w.
Proof.
  intros Hv Hne. unfold get_stock_list, cached_unless_forced.
  destruct (get cfg _LIST_CACHE_NS [market] w) as [r w'] eqn:E.
  cbn [fst] in Hv. subst r. unfold bind at 1. unfold bind at 1. rewrite E.
  unfold ret at 1. destruct v; try reflexivity. contradiction.
Qed.

(** X22: a request for the list of the Chinese market that has fetched a
    list with entries and returned leaves it in the cache: in a healthy
    world with a positive time to live, the request made next, without
    [force_refresh], returns the same list from the cache read alone. *)
Theorem stock_list_served_from_cache
    (cfg : Settings) (force_refresh : bool) (w w0 w1 : World) (v : pyval) :
  healthy w = true -> 0 < CACHE_TTL cfg ->
  (redis w = None -> mongo w = None ->
   disk_ready cfg w (_make_key _LIST_CACHE_NS ["CN"]) = true) ->
  cached_unless_forced cfg force_refresh _LIST_CACHE_NS ["CN"] w
  = (Ret None, w0) ->
  get_stock_list cfg "CN" force_refresh w = (Ret v, w1) ->
  v <> VList [] ->
  exists w2 evs,
    get_stock_list cfg "CN" false w1 = (Ret v, w2)
    /\ trace w2 = trace w1 ++ evs
    /\ forallb lookup_event evs = true.
Proof.
  intros Hh Httl Hdisk Hhit Hrun Hne.
  pose proof (same_stores_lookup _ _ _ _ _ _ _ Hhit) as S0.
  unfold get_stock_list in Hrun.
  rewrite (bind_ret_eq _ _ _ _ _ Hhit) in Hrun.
  change (String.eqb "CN" "CN") with true in Hrun.
  destruct (first_result_spec (_fetch_china_list cfg)
              (fun pv name => AcquisitionMore.list_answer cfg pv name)
              (fun name w => AcquisitionMore.fetch_china_list_spec cfg name w)
              (provider_candidates cfg) w0)
    as (res & called & rest & E & _).
  change (first_result (_fetch_china_list cfg) (provider_candidates cfg))
    with (get_china_stock_list cfg) in E.
  rewrite (bind_ret_eq _ _ _ _ _ E) in Hrun.
  destruct res as [|r0 res].
  { cbn in Hrun. injection Hrun as <- _. contradiction. }
  cbn [truthy] in Hrun.
  assert (Sp : same_stores cfg w (logged w0 (map EvProvider called))).
  { eapply same_stores_trans; [exact S0|]. apply same_stores_logged. }
  destruct Sp as (Hp & Rp & Mp & Dp).
  destruct (Cache.set cfg (records_value (r0 :: res)) _LIST_CACHE_NS ["CN"]
              (Some (CACHE_TTL cfg)) (logged w0 (map EvProvider called)))
    as [[[]|e] ws] eqn:Es;
    [rewrite (bind_ret_eq _ _ _ _ _ Es) in Hrun
    |rewrite (bind_raise_eq _ _ _ _ _ Es) in Hrun; discriminate].
  unfold ret in Hrun. injection Hrun as <- <-.
  destruct (set_returned_then_get cfg (records_value (r0 :: res))
              _LIST_CACHE_NS ["CN"] (CACHE_TTL cfg)
              (logged w0 (map EvProvider called)) ws)
    as (wg & Eg).
  { now rewrite Hp. }
  { exact Httl. }
  { intros Hr Hm. apply Dp. apply Hdisk; [now apply Rp | now apply Mp]. }
  { exact Es. }
  destruct (get_looks_up cfg _LIST_CACHE_NS ["CN"] ws)
    as (a & w2 & evs & G & T & Q).
  rewrite Eg in G. injection G as <- <-.
  exists wg, evs. split; [|split; assumption].
  rewrite (list_hit cfg "CN" ws (records_value (r0 :: res))).
  - exact Eg.
  - now rewrite Eg.
  - discriminate.
Qed.

(** Akshare answering a list of two stocks, and nothing but the disk to
    cache it. *)
Definition two_stocks : list record :=
  [ [("symbol", VStr "600000"); ("name", VStr "PF Bank");
     ("market", VStr "CN"); ("source", VStr "akshare")];
    [("symbol", VStr "600519"); ("name", VStr "Moutai");
     ("market", VStr "CN"); ("source", VStr "akshare")] ].

Definition listing_providers : Providers := {|
  akshare_history := fun _ _ _ => Ret [];
  tushare_history := fun _ _ _ => Ret [];
  baostock_history := fun _ _ _ => Ret [];
  akshare_list := Ret two_stocks;
  tushare_list := Ret [];
  baostock_list := Ret [];
  akshare_hk_history := fun _ _ _ => Ret [];
  yfinance_history := fun _ _ _ => Ret [];
|}.

Definition listing_world : World := {|
  redis := None; mongo := None; fs := healthy_disk ∅;
  clock := 1700000000; providers := listing_providers; trace := [];
|}.

(** X22 on that world, with a forced refresh first. *)
Lemma stock_list_served_from_cache_witness :
  exists w1 w2 evs,
    get_stock_list default_settings "CN" true listing_world
    = (Ret (records_value two_stocks), w1)
    /\ get_stock_list default_settings "CN" false w1
       = (Ret (records_value two_stocks), w2)
    /\ trace w2 = trace w1 ++ evs
    /\ forallb lookup_event evs = true.
Proof.
  destruct (get_stock_list default_settings "CN" true listing_world)
    as [r w1] eqn:Hrun.
  pose proof (f_equal fst Hrun) as Hr. cbn [fst] in Hr. vm_compute in Hr.
  subst r.
  destruct (stock_list_served_from_cache default_settings true listing_world
              listing_world w1 (records_value two_stocks))
    as (w2 & evs & E & T & Q).
  - vm_compute. reflexivity.
  - vm_compute. reflexivity.
  - intros _ _. vm_compute. reflexivity.
  - reflexivity.
  - exact Hrun.
  - discriminate.
  - exists w1, w2, evs. auto.
Defined.

End StockServiceMore.

(** ** The processing layer: what [add_basic_metrics] writes *)

Module MetricsFacts.
Import Py Frame Processing FrameFacts AnalysisMore.
Local Open Scope list_scope.

Lemma pct_change_length (xs : list Num.fl) :
  List.length (Series.pct_change xs) = List.length xs.
Proof.
  unfold Series.pct_change, Series.map2.
  rewrite !length_map, length_zip_with, shift_length. lia.
Qed.

Lemma has_column_column (c : string) (df : DataFrame) :
  has_column c df
  = match column c df with Ret _ => true | Raise _ => false end.
Proof.
  unfold has_column, column. now destruct (index_of c (columns df)).
Qed.

(** [df["pct_chg"]] is there and is not all zero. *)
Definition provided_pct_chg (df : DataFrame) : bool :=
  match column "pct_chg" df with
  | Ret cells => negb (all_zero cells)
  | Raise _ => false
  end.

(** The cell [add_basic_metrics] computes from a close and the close of the
    row before. *)
Definition pct_cell (prev cur : Num.fl) : Num.fl :=
  Num.round 4 (Num.mul (Num.sub (Num.div cur prev) (Num.Fin 1)) hundred).

(** The close of the row before: none in the first row. *)
Definition close_before (close : list Num.fl) (k : nat) : option Num.fl :=
  match k with
  | O => None
  | S j => close !! j
  end.

Lemma shift_lookup (xs : list Num.fl) (k : nat) (cur : Num.fl) :
  xs !! k = Some cur ->
  Series.shift xs !! k = Some (default Num.NaN (close_before xs k)).
Proof.
  intros Hk. pose proof (lookup_lt_Some _ _ _ Hk) as Hlt.
  unfold Series.shift. destruct xs as [|x xs]; [discriminate|].
  destruct k as [|j]; [reflexivity|].
  cbn [lookup list_lookup close_before].
  change (removelast (x :: xs) !! j = Some (default Num.NaN ((x :: xs) !! j))).
  rewrite removelast_firstn_len. cbn [List.length] in *.
  rewrite lookup_take_lt by lia.
  destruct ((x :: xs) !! j) eqn:E; [reflexivity|].
  apply lookup_ge_None in E. cbn [List.length] in E. lia.
Qed.

Lemma pct_cells_lookup (close : list Num.fl) (k : nat) (x : Num.fl) :
  Series.round 4 (map (fun x => Num.mul x hundred) (Series.pct_change close))
    !! k = Some x ->
  exists cur,
    close !! k = Some cur
    /\ x = pct_cell (default Num.NaN (close_before close k)) cur.
Proof.
  unfold Series.round, Series.pct_change, Series.map2.
  rewrite !list_lookup_fmap. intros H.
  destruct (zip_with Num.div close (Series.shift close) !! k) as [d|] eqn:Ed;
    [|discriminate].
  apply lookup_zip_with_Some in Ed as (cur & prev & -> & Hc & Hp).
  rewrite (shift_lookup _ _ _ Hc) in Hp. injection Hp as <-.
  cbn in H. injection H as <-. exists cur. split; [exact Hc | reflexivity].
Qed.

Lemma pct_cell_nan (prev cur : Num.fl) :
  Num.is_nan prev || Num.is_nan cur = true -> pct_cell prev cur = Num.NaN.
Proof.
  destruct prev, cur; cbn [Num.is_nan orb]; try discriminate; reflexivity.
Qed.

Lemma pct_cell_sign (p c : Q) :
  (0 < p)%Q ->
  Num.is_nan (pct_cell (Num.Fin p) (Num.Fin c)) = false
  /\ ((p <= c)%Q ->
      Num.leb Num.zero (pct_cell (Num.Fin p) (Num.Fin c)) = true)
  /\ ((c <= p)%Q ->
      Num.leb (pct_cell (Num.Fin p) (Num.Fin c)) Num.zero = true).
Proof.
  intros Hp. unfold pct_cell, Num.div.
  assert (Hz : Qeq_bool p 0 = false).
  { destruct (Qeq_bool p 0) eqn:E; [|reflexivity].
    apply Qeq_bool_iff in E. lra. }
  rewrite Hz. unfold Num.sub, Num.neg, Num.fin, Num.add, hundred, Num.of_Z,
    Num.mul, Num.fin.
  set (q := Qred (Qred (Qred (c / p) + Qred (- (1))) * inject_Z 100)).
  assert (Hq : (q == (c / p - 1) * 100)%Q).
  { unfold q. rewrite !Qred_correct. change (inject_Z 100) with 100%Q.
    reflexivity. }
  assert (E0 : Num.round 4 (Num.Fin 0) = Num.zero)
    by (vm_compute; reflexivity).
  split_and!.
  - reflexivity.
  - intros Hle. rewrite <- E0. apply NumFacts.round_mono. rewrite Hq.
    assert (1 <= c / p)%Q by (apply Qle_shift_div_l; lra). lra.
  - intros Hle. rewrite <- E0. apply NumFacts.round_mono. rewrite Hq.
    assert (c / p <= 1)%Q by (apply Qle_shift_div_r; lra). lra.
Qed.

(** X23: on a rectangular frame with rows and a close column of floats,
    [add_basic_metrics] keeps the pct_chg column of the provider when it
    holds a value other than zero, and writes a pct_chg column computed
    from the close when the column is missing or all zero.  The computed
    column has one float per row; the cell of the first row is NaN, and so
    is every cell whose close, or the close of the row before, is NaN;
    where both are finite and the close of the row before is positive, the
    cell is not NaN, is not negative when the close has not fallen and not
    positive when it has not risen.  The call writes no column but change,
    pct_chg and amplitude, and keeps the number of rows. *)
Theorem basic_metrics_pct_chg (df df' : DataFrame) :
  well_formed df -> empty df = false -> has_column "close" df = true ->
  add_basic_metrics df = Ret df' ->
  (provided_pct_chg df = true -> column "pct_chg" df' = column "pct_chg" df)
  /\ (provided_pct_chg df = false ->
      exists close cells,
        numeric "close" df = Ret close
        /\ numeric "pct_chg" df' = Ret cells
        /\ List.length cells = List.length (rows df)
        /\ forall k x,
             cells !! k = Some x ->
             exists cur,
               close !! k = Some cur
               /\ match close_before close k with
                  | None => x = Num.NaN
                  | Some prev =>
                      (Num.is_nan prev || Num.is_nan cur = true ->
                       x = Num.NaN)
                      /\ forall p c,
                           prev = Num.Fin p -> cur = Num.Fin c -> (0 < p)%Q ->
                           Num.is_nan x = false
                           /\ ((p <= c)%Q -> Num.leb Num.zero x = true)
                           /\ ((c <= p)%Q -> Num.leb x Num.zero = true)
                  end)
  /\ List.length (rows df') = List.length (rows df)
  /\ forall c,
       ~ In c ["change"; "pct_chg"; "amplitude"] ->
       column c df' = column c df.
Proof.
  intros Hwf Hne Hclose Hrun. unfold add_basic_metrics in Hrun.
  rewrite Hne, Hclose in Hrun. cbn [negb orb] in Hrun.
  destruct (numeric "close" df) as [close|] eqn:Hc; [|discriminate].
  cbn [Res.bind] in Hrun. cbv zeta in Hrun.
  pose proof (numeric_length _ _ _ Hc) as Lc.
  set (ch := Series.round 4 (Series.diff close)) in Hrun.
  assert (Lch : List.length ch = List.length (rows df))
    by (unfold ch; series_length).
  pose proof (writes_set _ _ _ "change" ch (writes_nil df Hwf) Lch) as W1.
  cbn [app] in W1. set (df1 := set_numeric "change" ch df) in *.
  assert (Hp1 : column "pct_chg" df1 = column "pct_chg" df).
  { destruct W1 as (_ & _ & _ & K). apply K. intros [H|[]]. discriminate H. }
  rewrite (has_column_column "pct_chg" df1), Hp1 in Hrun.
  set (pc := Series.round 4
               (map (fun x => Num.mul x hundred) (Series.pct_change close)))
    in Hrun.
  assert (Lpc : List.length pc = List.length (rows df)).
  { unfold pc. rewrite round_length, length_map, pct_change_length. exact Lc. }
  (* the frame after the second statement, and what has been written *)
  assert (Hstep : exists df2 names,
             (if negb match column "pct_chg" df with
                      | Ret _ => true | Raise _ => false end
                 || match column "pct_chg" df with
                    | Ret cells => all_zero cells | Raise _ => false end
              then Ret (set_numeric "pct_chg" pc df1) else Ret df1) = Ret df2
             /\ writes names df df2
             /\ incl names ["change"; "pct_chg"]
             /\ (provided_pct_chg df = true -> ~ In "pct_chg" names)
             /\ (provided_pct_chg df = false ->
                 numeric "pct_chg" df2 = Ret pc)).
  { unfold provided_pct_chg.
    destruct (column "pct_chg" df) as [cells|e]; cbn [negb orb].
    - destruct (all_zero cells); cbn [negb].
      + exists (set_numeric "pct_chg" pc df1), (["change"] ++ ["pct_chg"]).
        split_and!; [reflexivity | now apply writes_set | | discriminate |].
        * intros c [<-|[<-|[]]]; simpl; auto.
        * intros _. exact (read_new _ _ _ "pct_chg" pc W1 Lpc).
      + exists df1, ["change"]. split_and!; [reflexivity | exact W1 | | |].
        * intros c [<-|[]]; simpl; auto.
        * intros _ [H|[]]. discriminate H.
        * discriminate.
    - exists (set_numeric "pct_chg" pc df1), (["change"] ++ ["pct_chg"]).
      split_and!; [reflexivity | now apply writes_set | | discriminate |].
      + intros c [<-|[<-|[]]]; simpl; auto.
      + intros _. exact (read_new _ _ _ "pct_chg" pc W1 Lpc). }
  destruct Hstep as (df2 & names & E2 & W2 & Hincl & Hkept & Hnew).
  rewrite E2 in Hrun. cbn [Res.bind] in Hrun.
  (* the last statement *)
  assert (Hlast : exists names',
             writes names' df df'
             /\ incl names' ["change"; "pct_chg"; "amplitude"]
             /\ (provided_pct_chg df = true -> ~ In "pct_chg" names')
             /\ (provided_pct_chg df = false ->
                 numeric "pct_chg" df' = Ret pc)).
  { destruct (has_column "high" df2 && has_column "low" df2).
    - destruct (numeric "high" df2) as [high|] eqn:Hh; [|discriminate].
      destruct (numeric "low" df2) as [low|] eqn:Hl; [|discriminate].
      destruct (numeric "close" df2) as [close2|] eqn:Hc2; [|discriminate].
      cbn [Res.bind] in Hrun. cbv zeta in Hrun. injection Hrun as <-.
      set (amp := Series.round 4 _).
      pose proof (numeric_length _ _ _ Hh) as Lh.
      pose proof (numeric_length _ _ _ Hl) as Ll.
      pose proof (numeric_length _ _ _ Hc2) as Lc2.
      destruct W2 as (Wf2 & Lr2 & Wrest).
      assert (Lamp : List.length amp = List.length (rows df)).
      { unfold amp, Series.where_nonzero. series_length. }
      exists (names ++ ["amplitude"]). split_and!.
      + apply writes_set; [|exact Lamp]. split_and!; tauto.
      + intros c Hin. apply in_app_or in Hin as [Hin|[<-|[]]].
        * apply Hincl in Hin. simpl in *. tauto.
        * simpl. auto.
      + intros Hp Hin. apply in_app_or in Hin as [Hin|[H|[]]].
        * now apply Hkept.
        * discriminate H.
      + intros Hp. rewrite numeric_set_numeric_other;
          [now apply Hnew | discriminate | exact Wf2 | congruence].
    - injection Hrun as <-. exists names. split_and!; auto.
      intros c Hin. apply Hincl in Hin. simpl in *. tauto. }
  destruct Hlast as (names' & (Wf' & Lr' & Wc' & K') & Hincl' & Hkept' & Hnew').
  split_and!.
  - intros Hp. apply K'. now apply Hkept'.
  - intros Hp. exists close, pc.
    split_and!; [reflexivity | now apply Hnew' | exact Lpc |].
    intros k x Hx. apply pct_cells_lookup in Hx as (cur & Hk & ->).
    exists cur. split; [exact Hk|].
    destruct (close_before close k) as [prev|]; cbn [default].
    + split; [apply pct_cell_nan|].
      intros p c -> -> Hpos. now apply pct_cell_sign.
    + apply pct_cell_nan. reflexivity.
  - exact Lr'.
  - intros c Hn. apply K'. intros Hin. apply Hn. now apply Hincl'.
Qed.

(** Three days of closes and no pct_chg of the provider. *)
Definition three_closes : DataFrame :=
  {| columns := ["date"; "close"];
     rows :=
       [ [VStr "2024-01-02"; VNum (Num.of_Z 10)];
         [VStr "2024-01-03"; VNum (Num.of_Z 11)];
         [VStr "2024-01-04"; VNum Num.NaN] ] |}.

(** X23 on that frame: the first and the last cell are NaN, the second is
    not negative. *)
Lemma basic_metrics_pct_chg_witness :
  exists df' x0 x1 x2,
    add_basic_metrics three_closes = Ret df'
    /\ numeric "pct_chg" df' = Ret [x0; x1; x2]
    /\ x0 = Num.NaN /\ Num.leb Num.zero x1 = true /\ x2 = Num.NaN
    /\ column "date" df' = column "date" three_closes.
Proof.
  destruct (add_basic_metrics three_closes) as [df'|] eqn:Hrun;
    [|vm_compute in Hrun; discriminate Hrun].
  destruct (basic_metrics_pct_chg three_closes df') as (_ & H2 & _ & H4).
  - repeat constructor.
  - reflexivity.
  - reflexivity.
  - exact Hrun.
  - destruct (H2 eq_refl) as (close & cells & Hc & Hp & Hl & Hcells).
    vm_compute in Hc. injection Hc as <-.
    destruct cells as [|x0 [|x1 [|x2 [|? ?]]]]; try discriminate Hl.
    exists df', x0, x1, x2. split_and!; [reflexivity | exact Hp | | | |].
    + destruct (Hcells 0%nat x0 eq_refl) as (cur & _ & H). exact H.
    + destruct (Hcells 1%nat x1 eq_refl) as (cur & Hk & _ & H).
      injection Hk as <-.
      destruct (H (inject_Z 10) (inject_Z 11) eq_refl eq_refl) as (_ & G & _);
        [reflexivity|].
      apply G. discriminate.
    + destruct (Hcells 2%nat x2 eq_refl) as (cur & Hk & H & _).
      injection Hk as <-. apply H. reflexivity.
    + apply H4. not_written.
Defined.

End MetricsFacts.

(** ** The cache router: what a clearing request deletes *)

Module CacheRouterFacts.
Import Py Store Cache CacheRouter CacheFacts CacheMore.
Local Open Scope list_scope.

Lemma replace_char_length (a b : ascii) (s : string) :
  String.length (Str.replace_char a b s) = String.length s.
Proof. induction s as [|c s IH]; simpl; congruence. Qed.

Lemma safe_name_not_absolute (s : string) :
  Str.starts_with_char "/" (Str.replace_char "/" "_" s +:+ ".json") = false.
Proof.
  destruct s as [|c s]; [reflexivity|]. cbn [Str.replace_char].
  destruct (Ascii.eqb c "/") eqn:Hc;
    unfold String.append, Str.starts_with_char; [reflexivity|].
  rewrite Ascii.eqb_sym. exact Hc.
Qed.

(** Keys of different lengths have different files. *)
Lemma file_path_length (cfg : Settings) (k k' : string) :
  String.length k <> String.length k' ->
  _file_path cfg k <> _file_path cfg k'.
Proof.
  intros Hlen E. apply Hlen. apply (f_equal String.length) in E.
  unfold _file_path, path_join in E. rewrite !safe_name_not_absolute in E.
  destruct (String.eqb (_CACHE_DIR cfg) "" || Str.ends_with_char "/" (_CACHE_DIR cfg));
    rewrite !CacheKeyFacts.string_length_append, !replace_char_length in E;
    simpl in E; lia.
Qed.

(** The key of a namespace with parts is the namespace, a colon and more. *)
Lemma make_key_prefix (ns part : string) (parts : list string) :
  exists rest, _make_key ns (part :: parts) = ns +:+ ":" +:+ rest.
Proof.
  unfold _make_key. cbv zeta. destruct (200 <? _); [eauto|].
  exists (Str.join ":" (part :: parts)). reflexivity.
Qed.

Lemma make_key_bare (ns : string) :
  Str.len ns <= 200 -> _make_key ns [] = ns.
Proof.
  intros H. unfold _make_key. cbn [Str.join].
  destruct (Z.ltb_spec 200 (Str.len ns)); [lia | reflexivity].
Qed.

(** X24: a clearing request that names a namespace of at most 200
    characters and no key parts answers with success when no MongoDB
    database is connected, and raises NotImplementedError, the truth test
    of the database in [delete], when one is.  Either way it deletes
    nothing that was stored under the namespace with parts: every such
    entry reads after the request as it did before. *)
Theorem clear_namespace_keeps_entries
    (cfg : Settings) (namespace : string) (key_parts : option (list string))
    (w : World) :
  key_parts = None \/ key_parts = Some [] ->
  Str.len namespace <= 200 ->
  exists r w',
    clear_cache cfg namespace key_parts w = (r, w')
    /\ (mongo w = None -> exists resp, r = Ret resp /\ success resp = true)
    /\ (forall m, mongo w = Some m ->
        r = Raise (Exception "NotImplementedError"))
    /\ forall part parts,
         fst (get cfg namespace (part :: parts) w')
         = fst (get cfg namespace (part :: parts) w).
Proof.
  intros Hparts Hlen.
  destruct (delete_spec cfg namespace [] w) as (w' & E & _).
  assert (Hrun : clear_cache cfg namespace key_parts w
                 = (match mongo w with
                    | Some _ => Raise (Exception "NotImplementedError")
                    | None =>
                        Ret (ok VNone
                               ("缓存已清理: " +:+ namespace +:+ ":" +:+ ""))
                    end, w')).
  { unfold clear_cache.
    destruct Hparts as [-> | ->]; destruct (mongo w);
      first [ now rewrite (bind_raise_eq _ _ _ _ _ E)
            | now rewrite (bind_ret_eq _ _ _ _ _ E) ]. }
  eexists _, w'. split; [exact Hrun|]. split_and!.
  - intros ->. eexists. split; reflexivity.
  - intros m ->. reflexivity.
  - intros part parts.
    destruct (make_key_prefix namespace part parts) as [rest Hkey].
    assert (Hl : String.length (_make_key namespace (part :: parts))
                 <> String.length (_make_key namespace [])).
    { rewrite Hkey, (make_key_bare namespace Hlen).
      rewrite !CacheKeyFacts.string_length_append. simpl. lia. }
    apply (delete_other_key cfg namespace [] namespace (part :: parts) w w'
             _ E).
    + intros Heq. apply Hl. now rewrite Heq.
    + now apply file_path_length.
Qed.

(** X24 on a Redis that holds the quotes of one stock under the namespace
    "history", with no MongoDB: clearing the namespace succeeds and leaves
    them in the cache. *)
Lemma clear_namespace_keeps_entries_witness :
  exists resp w',
    clear_cache default_settings "history" None cached_quotes = (Ret resp, w')
    /\ success resp = true
    /\ fst (get default_settings "history" ["CN"; "600000"] w')
       = Ret (VStr "v").
Proof.
  destruct (clear_namespace_keeps_entries default_settings "history" None
              cached_quotes) as (r & w' & E & S & _ & K).
  - now left.
  - vm_compute. discriminate.
  - destruct (S eq_refl) as (resp & -> & Hs).
    exists resp, w'. split; [exact E|]. split; [exact Hs|].
    rewrite K. vm_compute. reflexivity.
Defined.

End CacheRouterFacts.
